(** * raad download engine: a shallow embedding and its verified properties

    The development follows the layout of the C++ sources:

    - [Utils]    : src/utils/download_utils.cpp  (path normalisation, unique paths)
    - [Task]     : src/core/downloadertask.cpp   (the per-download state machine)
    - [Manager]  : src/core/downloadmanager.cpp  (queues, admission, retry, schedule)

    Conventions.  [qint64] and [int] values are integers of [Z], and C++
    division is [Z.quot]; where the code narrows a value to [int] or
    multiplies two [int]s that nothing bounds, the 32-bit reading [wrapInt]
    is written out.  A [QString] is a [string] of 8-bit characters, a
    [QByteArray] buffer a [list byte].  [QString::arg] is followed marker by
    marker ([QStringArg]).  The file system is a finite map from paths to
    file sizes.  Qt signals are recorded, in emission order, in a log;
    single-shot timers are recorded in a second log.  A slot that runs inside
    an emission and calls back into the emitting task is run at the place of
    the emission.  Answers of the outside world that a member function reads
    while it runs (clocks, whether a file can be opened, how many bytes a
    write accepted, what a connected slot does) are passed in an [Env]
    record.  The log lines of a task ([appendLog]) are left out. *)

From Stdlib Require Import ZArith Lia Bool List String Ascii Strings.Byte DecimalString DecimalZ.
From stdpp Require Import base gmap strings list.

Open Scope Z_scope.

(** ** Common data *)

(** The file system as the engine sees it: path ↦ size in bytes. *)
Abbreviation FS := (gmap string Z).

(** [QFile::exists(path)] *)
Definition file_exists (fs : FS) (path : string) : bool :=
  bool_decide (is_Some (fs !! path)).

(** [QFileInfo(path).size()]: 0 for a missing file. *)
Definition file_size (fs : FS) (path : string) : Z :=
  default 0 (fs !! path).

(** [QFile::remove(path)] *)
Definition file_remove (fs : FS) (path : string) : FS := delete path fs.

(** A value stored in an [int]: the 32-bit two's complement reading.  It is
    the identity on what fits; overflow of an [int] product is undefined in
    C++ and wraps on the usual targets. *)
Definition wrapInt (z : Z) : Z := (z + 2 ^ 31) mod 2 ^ 32 - 2 ^ 31.

(** [QString::number(i)] / [.arg(i)] for an [int]. *)
Definition number (i : Z) : string := NilZero.string_of_int (Z.to_int i).

(** Qt services the sources call and that live outside the repository:
    URL parsing and the [QFileInfo]/[QDir] path algebra. *)
Class QtModel := {
  (** [QUrl(s).isValid()] *)
  urlIsValid : string -> bool;
  (** [QUrl u(s); u.isValid() && u.isLocalFile()] gives [Some u.toLocalFile()] *)
  toLocalFile : string -> option string;
  (** [QFileInfo(p).absolutePath()] *)
  absolutePath : string -> string;
  (** [QFileInfo(p).fileName()] *)
  fileName : string -> string;
  (** [QDir(dir).filePath(name)] *)
  filePath : string -> string -> string;
  (** the text of an [int] in the default locale, as [QString::arg] puts it
      in place of a marker written with [L] *)
  localeNumber : Z -> string
}.

(** ** QString::arg

    [QString::arg] is Qt's, not the repository's.  It is modelled after Qt's
    documentation and scanner: a place marker is a percent sign, an optional
    [L] and one or two decimal digits; one call replaces every occurrence of
    the marker with the lowest number found in the text, and leaves a text
    without marker as it is.  The text put in is not scanned again by the
    same call, but it is by the next call of a chain. *)
Module QStringArg.

Inductive Piece :=
| Lit (c : ascii)
| Mark (locale : bool) (n : Z) (raw : string).

Definition digitValue (c : ascii) : option Z :=
  let n := Z.of_N (N_of_ascii c) in
  if (48 <=? n) && (n <=? 57) then Some (n - 48) else None.

(** The scan for place markers.  After a percent sign (and [L]) that no digit
    follows, the scan goes on with the character that was no digit. *)
Fixpoint pieces (s : string) : list Piece :=
  match s with
  | EmptyString => []
  | String c rest =>
      if negb (Ascii.eqb c "%"%char) then Lit c :: pieces rest
      else
        match rest with
        | EmptyString => [Lit c]
        | String l rest1 =>
            if Ascii.eqb l "L"%char then
              match rest1 with
              | EmptyString => [Lit c; Lit l]
              | String d rest2 =>
                  match digitValue d with
                  | None => Lit c :: Lit l :: pieces rest1
                  | Some v =>
                      match rest2 with
                      | EmptyString => [Mark true v (String c (String l (String d "")))]
                      | String d2 rest3 =>
                          match digitValue d2 with
                          | Some v2 =>
                              Mark true (10 * v + v2)
                                (String c (String l (String d (String d2 ""))))
                              :: pieces rest3
                          | None =>
                              Mark true v (String c (String l (String d ""))) :: pieces rest2
                          end
                      end
                  end
              end
            else
              match digitValue l with
              | None => Lit c :: pieces rest
              | Some v =>
                  match rest1 with
                  | EmptyString => [Mark false v (String c (String l ""))]
                  | String d2 rest2 =>
                      match digitValue d2 with
                      | Some v2 =>
                          Mark false (10 * v + v2) (String c (String l (String d2 "")))
                          :: pieces rest2
                      | None => Mark false v (String c (String l "")) :: pieces rest1
                      end
                  end
              end
        end
  end.

(** The lowest marker number of a text ([min_escape]). *)
Fixpoint lowest (ps : list Piece) : option Z :=
  match ps with
  | [] => None
  | Lit _ :: rest => lowest rest
  | Mark _ n _ :: rest =>
      match lowest rest with
      | Some k => Some (Z.min n k)
      | None => Some n
      end
  end.

Definition fill (n : Z) (plain localized : string) (p : Piece) : string :=
  match p with
  | Lit c => String c ""
  | Mark locale k raw => if k =? n then (if locale then localized else plain) else raw
  end.

Fixpoint assemble (n : Z) (plain localized : string) (ps : list Piece) : string :=
  match ps with
  | [] => ""
  | p :: rest => fill n plain localized p +:+ assemble n plain localized rest
  end.

Definition substitute (fmt plain localized : string) : string :=
  match lowest (pieces fmt) with
  | None => fmt
  | Some n => assemble n plain localized (pieces fmt)
  end.

(** [fmt.arg(text)] for a [QString] argument. *)
Definition argText (fmt text : string) : string := substitute fmt text text.

(** [fmt.arg(i)] for an [int] argument. *)
Definition argNumber `{Qt : QtModel} (fmt : string) (i : Z) : string :=
  substitute fmt (number i) (localeNumber i).

(** A text without percent sign: it holds no place marker. *)
Fixpoint plain (s : string) : bool :=
  match s with
  | EmptyString => true
  | String c rest => negb (Ascii.eqb c "%"%char) && plain rest
  end.

End QStringArg.

(** ** src/utils/download_utils.cpp *)

Module Utils.

Section WithQt.
Context `{Qt : QtModel}.

Definition normalizeFilePath (path : string) : string :=
  if String.prefix "file://" path then
    match toLocalFile path with
    | Some localFile => localFile
    | None => path
    end
  else path.

(** Position handling for [completeBaseName] / [completeSuffix]: the text
    before the last ['.'] and the text after the first ['.'] of a file name. *)
Fixpoint hasDot (s : string) : bool :=
  match s with
  | EmptyString => false
  | String c rest => if Ascii.eqb c "."%char then true else hasDot rest
  end.

(** Everything after (not including) the first ['.']; empty without one. *)
Fixpoint afterFirstDot (s : string) : string :=
  match s with
  | EmptyString => EmptyString
  | String c rest => if Ascii.eqb c "."%char then rest else afterFirstDot rest
  end.

(** Everything up to (not including) the last ['.']; the whole name without one. *)
Fixpoint beforeLastDot (s : string) : string :=
  match s with
  | EmptyString => EmptyString
  | String c rest =>
      if Ascii.eqb c "."%char then
        (if hasDot rest then String c (beforeLastDot rest) else EmptyString)
      else String c (beforeLastDot rest)
  end.

(** [QFileInfo(p).completeBaseName()] *)
Definition completeBaseName (p : string) : string := beforeLastDot (fileName p).

(** [QFileInfo(p).completeSuffix()] *)
Definition completeSuffix (p : string) : string := afterFirstDot (fileName p).

(** The lambda [existsCandidate] of [uniqueFilePath]. *)
Definition existsCandidate (fs : FS) (candidate : string) : bool :=
  file_exists fs candidate || file_exists fs (candidate +:+ ".part").

(** The [name] built in the loop body for counter [i]:
    [QString("%1 (%2)").arg(base).arg(i)], or
    [QString("%1 (%2).%3").arg(base).arg(i).arg(suffix)]. *)
Definition candidateName (base suffix : string) (i : Z) : string :=
  if String.eqb suffix ""
  then QStringArg.argNumber (QStringArg.argText "%1 (%2)" base) i
  else QStringArg.argText
         (QStringArg.argNumber (QStringArg.argText "%1 (%2).%3" base) i) suffix.

(** The loop [for (int i = ...; i < 10000; ++i)], run for [iters] more
    iterations from counter [i]; [None] when it falls through. *)
Fixpoint firstFree (fs : FS) (dirPath base suffix : string)
    (iters : nat) (i : Z) : option string :=
  match iters with
  | O => None
  | S iters' =>
      let candidate := filePath dirPath (candidateName base suffix i) in
      if negb (existsCandidate fs candidate) then Some candidate
      else firstFree fs dirPath base suffix iters' (i + 1)
  end.

Definition uniqueFilePath (fs : FS) (path : string) : string :=
  let normalized := normalizeFilePath path in
  if String.eqb normalized "" then normalized
  else
    let dirPath := absolutePath normalized in
    let base := completeBaseName normalized in
    let suffix := completeSuffix normalized in
    if negb (existsCandidate fs normalized) then normalized
    else
      match firstFree fs dirPath base suffix (Z.to_nat 9999) 1 with
      | Some candidate => candidate
      | None => normalized
      end.

End WithQt.

End Utils.

(** ** src/core/downloadertask.cpp *)

Module Task.

(** [DownloaderTask::State].  The enum is declared in the module interface,
    which is not part of the sources at hand; its five values are the ones
    the member functions use. *)
Inductive State := Idle | Downloading | Paused | Finished | Canceled.

#[global] Instance State_eq_dec : EqDecision State.
Proof. solve_decision. Defined.

(** Identity of a [QNetworkReply] object (the pointer value). *)
Definition ReplyId := nat.

(** The signals of [DownloaderTask] that the modelled members emit.
    [stateChanged] carries the value of [m_state] a slot reads when it runs. *)
Inductive Signal :=
| stateChanged (now : State)
| finished (success : bool)
| progress (received total : Z)
| pauseReasonChanged
| pausedAtChanged
| resumeWarningChanged
| mirrorIndexChanged
| mirrorUrlsChanged
| retryPolicyChanged
| speedChanged (bytesPerSecond : Z)
| etaChanged (seconds : Z)
| speedHistoryChanged
| lastSpeedChanged
| lastEtaChanged.

(** The closures handed to [QTimer::singleShot]. *)
Inductive TimerAction :=
| RetrySingleBuffer      (* [this]{ m_singleProcessing = false; processSingleBuffer(); } *)
| ContinueSingleBuffer   (* [this]{ processSingleBuffer(); } *)
| ContinueSegmentBuffer (i : nat)   (* [this, s]{ processSegmentBuffer(s); } *)
| RestartSingleFromZero  (* [this]{ if (Downloading) startSingleStream(false); } *)
| FallBackToSingle.      (* [this]{ if (Downloading) { cleanup(false); startSingleStream(false); } } *)

Record Timer := mkTimer { delayMs : Z; action : TimerAction }.

(** [struct Segment]; a [Segment*] captured by a closure is the index of the
    segment in [m_segmentsInfo]. *)
Record Segment := mkSegment {
  s_start : Z;  (* start *)
  s_end : Z;  (* end (inclusive) *)
  tempFilePath : string;
  downloaded : Z;
  buffer : list byte;
  processing : bool;
  file : bool;  (* QFile* non-null: open handle on tempFilePath *)
  reply : option ReplyId
}.

(** Field updates of [Segment] (C++ assignments to one member). *)
Definition set_s_start (v : Z) (x : Segment) : Segment :=
  mkSegment v (s_end x) (tempFilePath x) (downloaded x) (buffer x) (processing x)
    (file x) (reply x).
Definition set_s_end (v : Z) (x : Segment) : Segment :=
  mkSegment (s_start x) v (tempFilePath x) (downloaded x) (buffer x) (processing x)
    (file x) (reply x).
Definition set_tempFilePath (v : string) (x : Segment) : Segment :=
  mkSegment (s_start x) (s_end x) v (downloaded x) (buffer x) (processing x) (file x)
    (reply x).
Definition set_downloaded (v : Z) (x : Segment) : Segment :=
  mkSegment (s_start x) (s_end x) (tempFilePath x) v (buffer x) (processing x)
    (file x) (reply x).
Definition set_buffer (v : list byte) (x : Segment) : Segment :=
  mkSegment (s_start x) (s_end x) (tempFilePath x) (downloaded x) v (processing x)
    (file x) (reply x).
Definition set_processing (v : bool) (x : Segment) : Segment :=
  mkSegment (s_start x) (s_end x) (tempFilePath x) (downloaded x) (buffer x) v
    (file x) (reply x).
Definition set_file (v : bool) (x : Segment) : Segment :=
  mkSegment (s_start x) (s_end x) (tempFilePath x) (downloaded x) (buffer x)
    (processing x) v (reply x).
Definition set_reply (v : option ReplyId) (x : Segment) : Segment :=
  mkSegment (s_start x) (s_end x) (tempFilePath x) (downloaded x) (buffer x)
    (processing x) (file x) v.

(** A pending HEAD reply together with the values its [finished] closure
    captured in [start()]. *)
Record HeadRequest := mkHeadRequest {
  head_id : ReplyId;
  hasExistingFile : bool;
  hasPartialSegments : bool
}.

(** A pending single-stream GET reply together with the [existingSize] its
    [metaDataChanged] closure captured in [startSingleStream()]. *)
Record SingleRequest := mkSingleRequest {
  single_id : ReplyId;
  existingSize : Z
}.

(** The speed and ETA statistics of [DownloaderTask]: nine of its data
    members, kept together. *)
Record SpeedStats := mkSpeedStats {
  m_speedTimer : option Z;  (* QElapsedTimer: [None] invalid, else the monotonic ms of its start *)
  m_lastBytes : Z;
  m_speed : Z;
  m_eta : Z;
  m_lastSpeed : Z;
  m_lastEta : Z;
  m_lastSpeedSampleMs : Z;
  m_speedHistory : list Z;
  m_speedHistoryLimit : Z
}.

(** Field updates of [SpeedStats] (C++ assignments to one member). *)
Definition set_m_speedTimer (v : option Z) (x : SpeedStats) : SpeedStats :=
  mkSpeedStats v (m_lastBytes x) (m_speed x) (m_eta x) (m_lastSpeed x) (m_lastEta x)
    (m_lastSpeedSampleMs x) (m_speedHistory x) (m_speedHistoryLimit x).
Definition set_m_lastBytes (v : Z) (x : SpeedStats) : SpeedStats :=
  mkSpeedStats (m_speedTimer x) v (m_speed x) (m_eta x) (m_lastSpeed x) (m_lastEta x)
    (m_lastSpeedSampleMs x) (m_speedHistory x) (m_speedHistoryLimit x).
Definition set_m_speed (v : Z) (x : SpeedStats) : SpeedStats :=
  mkSpeedStats (m_speedTimer x) (m_lastBytes x) v (m_eta x) (m_lastSpeed x)
    (m_lastEta x) (m_lastSpeedSampleMs x) (m_speedHistory x) (m_speedHistoryLimit x).
Definition set_m_eta (v : Z) (x : SpeedStats) : SpeedStats :=
  mkSpeedStats (m_speedTimer x) (m_lastBytes x) (m_speed x) v (m_lastSpeed x)
    (m_lastEta x) (m_lastSpeedSampleMs x) (m_speedHistory x) (m_speedHistoryLimit x).
Definition set_m_lastSpeed (v : Z) (x : SpeedStats) : SpeedStats :=
  mkSpeedStats (m_speedTimer x) (m_lastBytes x) (m_speed x) (m_eta x) v (m_lastEta x)
    (m_lastSpeedSampleMs x) (m_speedHistory x) (m_speedHistoryLimit x).
Definition set_m_lastEta (v : Z) (x : SpeedStats) : SpeedStats :=
  mkSpeedStats (m_speedTimer x) (m_lastBytes x) (m_speed x) (m_eta x) (m_lastSpeed x) v
    (m_lastSpeedSampleMs x) (m_speedHistory x) (m_speedHistoryLimit x).
Definition set_m_lastSpeedSampleMs (v : Z) (x : SpeedStats) : SpeedStats :=
  mkSpeedStats (m_speedTimer x) (m_lastBytes x) (m_speed x) (m_eta x) (m_lastSpeed x)
    (m_lastEta x) v (m_speedHistory x) (m_speedHistoryLimit x).
Definition set_m_speedHistory (v : list Z) (x : SpeedStats) : SpeedStats :=
  mkSpeedStats (m_speedTimer x) (m_lastBytes x) (m_speed x) (m_eta x) (m_lastSpeed x)
    (m_lastEta x) (m_lastSpeedSampleMs x) v (m_speedHistoryLimit x).
Definition set_m_speedHistoryLimit (v : Z) (x : SpeedStats) : SpeedStats :=
  mkSpeedStats (m_speedTimer x) (m_lastBytes x) (m_speed x) (m_eta x) (m_lastSpeed x)
    (m_lastEta x) (m_lastSpeedSampleMs x) (m_speedHistory x) v.

(** The data members of [DownloaderTask] that the modelled functions read or
    write. *)
Record Task := mkTask {
  m_state : State;
  m_anyError : bool;
  m_url : string;
  m_filePath : string;
  m_segments : Z;
  m_totalSize : Z;
  m_useRange : bool;
  m_serverSupportsRange : bool;
  m_etag : string;
  m_lastModified : string;
  m_mirrorUrls : list string;
  m_mirrorIndex : Z;
  m_segmentsInfo : list Segment;
  m_headReply : option HeadRequest;
  m_singleReply : option SingleRequest;
  m_singleFile : option string;  (* QFile* non-null: open handle on that path *)
  m_singleBuffer : list byte;
  m_singleProcessing : bool;
  m_resumeSingle : bool;
  m_useSingleTemp : bool;
  m_singleTempPath : string;
  m_singleWritten : Z;
  m_maxSpeed : Z;
  m_throttleBytes : Z;
  m_throttleTimer : Z;  (* monotonic ms at which the window started *)
  m_pauseReason : string;
  m_pausedAt : Z;
  m_resumeWarning : string;
  m_retryMax : Z;
  m_retryDelaySec : Z;
  speedStats : SpeedStats  (* m_speedTimer ... m_speedHistoryLimit *)
}.

(** Field updates of [Task] (C++ assignments to one member). *)
Definition set_m_state (v : State) (x : Task) : Task :=
  mkTask v (m_anyError x) (m_url x) (m_filePath x) (m_segments x) (m_totalSize x)
    (m_useRange x) (m_serverSupportsRange x) (m_etag x) (m_lastModified x)
    (m_mirrorUrls x) (m_mirrorIndex x) (m_segmentsInfo x) (m_headReply x)
    (m_singleReply x) (m_singleFile x) (m_singleBuffer x) (m_singleProcessing x)
    (m_resumeSingle x) (m_useSingleTemp x) (m_singleTempPath x) (m_singleWritten x)
    (m_maxSpeed x) (m_throttleBytes x) (m_throttleTimer x) (m_pauseReason x)
    (m_pausedAt x) (m_resumeWarning x) (m_retryMax x) (m_retryDelaySec x)
    (speedStats x).
Definition set_m_anyError (v : bool) (x : Task) : Task :=
  mkTask (m_state x) v (m_url x) (m_filePath x) (m_segments x) (m_totalSize x)
    (m_useRange x) (m_serverSupportsRange x) (m_etag x) (m_lastModified x)
    (m_mirrorUrls x) (m_mirrorIndex x) (m_segmentsInfo x) (m_headReply x)
    (m_singleReply x) (m_singleFile x) (m_singleBuffer x) (m_singleProcessing x)
    (m_resumeSingle x) (m_useSingleTemp x) (m_singleTempPath x) (m_singleWritten x)
    (m_maxSpeed x) (m_throttleBytes x) (m_throttleTimer x) (m_pauseReason x)
    (m_pausedAt x) (m_resumeWarning x) (m_retryMax x) (m_retryDelaySec x)
    (speedStats x).
Definition set_m_url (v : string) (x : Task) : Task :=
  mkTask (m_state x) (m_anyError x) v (m_filePath x) (m_segments x) (m_totalSize x)
    (m_useRange x) (m_serverSupportsRange x) (m_etag x) (m_lastModified x)
    (m_mirrorUrls x) (m_mirrorIndex x) (m_segmentsInfo x) (m_headReply x)
    (m_singleReply x) (m_singleFile x) (m_singleBuffer x) (m_singleProcessing x)
    (m_resumeSingle x) (m_useSingleTemp x) (m_singleTempPath x) (m_singleWritten x)
    (m_maxSpeed x) (m_throttleBytes x) (m_throttleTimer x) (m_pauseReason x)
    (m_pausedAt x) (m_resumeWarning x) (m_retryMax x) (m_retryDelaySec x)
    (speedStats x).
Definition set_m_filePath (v : string) (x : Task) : Task :=
  mkTask (m_state x) (m_anyError x) (m_url x) v (m_segments x) (m_totalSize x)
    (m_useRange x) (m_serverSupportsRange x) (m_etag x) (m_lastModified x)
    (m_mirrorUrls x) (m_mirrorIndex x) (m_segmentsInfo x) (m_headReply x)
    (m_singleReply x) (m_singleFile x) (m_singleBuffer x) (m_singleProcessing x)
    (m_resumeSingle x) (m_useSingleTemp x) (m_singleTempPath x) (m_singleWritten x)
    (m_maxSpeed x) (m_throttleBytes x) (m_throttleTimer x) (m_pauseReason x)
    (m_pausedAt x) (m_resumeWarning x) (m_retryMax x) (m_retryDelaySec x)
    (speedStats x).
Definition set_m_segments (v : Z) (x : Task) : Task :=
  mkTask (m_state x) (m_anyError x) (m_url x) (m_filePath x) v (m_totalSize x)
    (m_useRange x) (m_serverSupportsRange x) (m_etag x) (m_lastModified x)
    (m_mirrorUrls x) (m_mirrorIndex x) (m_segmentsInfo x) (m_headReply x)
    (m_singleReply x) (m_singleFile x) (m_singleBuffer x) (m_singleProcessing x)
    (m_resumeSingle x) (m_useSingleTemp x) (m_singleTempPath x) (m_singleWritten x)
    (m_maxSpeed x) (m_throttleBytes x) (m_throttleTimer x) (m_pauseReason x)
    (m_pausedAt x) (m_resumeWarning x) (m_retryMax x) (m_retryDelaySec x)
    (speedStats x).
Definition set_m_totalSize (v : Z) (x : Task) : Task :=
  mkTask (m_state x) (m_anyError x) (m_url x) (m_filePath x) (m_segments x) v
    (m_useRange x) (m_serverSupportsRange x) (m_etag x) (m_lastModified x)
    (m_mirrorUrls x) (m_mirrorIndex x) (m_segmentsInfo x) (m_headReply x)
    (m_singleReply x) (m_singleFile x) (m_singleBuffer x) (m_singleProcessing x)
    (m_resumeSingle x) (m_useSingleTemp x) (m_singleTempPath x) (m_singleWritten x)
    (m_maxSpeed x) (m_throttleBytes x) (m_throttleTimer x) (m_pauseReason x)
    (m_pausedAt x) (m_resumeWarning x) (m_retryMax x) (m_retryDelaySec x)
    (speedStats x).
Definition set_m_useRange (v : bool) (x : Task) : Task :=
  mkTask (m_state x) (m_anyError x) (m_url x) (m_filePath x) (m_segments x)
    (m_totalSize x) v (m_serverSupportsRange x) (m_etag x) (m_lastModified x)
    (m_mirrorUrls x) (m_mirrorIndex x) (m_segmentsInfo x) (m_headReply x)
    (m_singleReply x) (m_singleFile x) (m_singleBuffer x) (m_singleProcessing x)
    (m_resumeSingle x) (m_useSingleTemp x) (m_singleTempPath x) (m_singleWritten x)
    (m_maxSpeed x) (m_throttleBytes x) (m_throttleTimer x) (m_pauseReason x)
    (m_pausedAt x) (m_resumeWarning x) (m_retryMax x) (m_retryDelaySec x)
    (speedStats x).
Definition set_m_serverSupportsRange (v : bool) (x : Task) : Task :=
  mkTask (m_state x) (m_anyError x) (m_url x) (m_filePath x) (m_segments x)
    (m_totalSize x) (m_useRange x) v (m_etag x) (m_lastModified x) (m_mirrorUrls x)
    (m_mirrorIndex x) (m_segmentsInfo x) (m_headReply x) (m_singleReply x)
    (m_singleFile x) (m_singleBuffer x) (m_singleProcessing x) (m_resumeSingle x)
    (m_useSingleTemp x) (m_singleTempPath x) (m_singleWritten x) (m_maxSpeed x)
    (m_throttleBytes x) (m_throttleTimer x) (m_pauseReason x) (m_pausedAt x)
    (m_resumeWarning x) (m_retryMax x) (m_retryDelaySec x) (speedStats x).
Definition set_m_etag (v : string) (x : Task) : Task :=
  mkTask (m_state x) (m_anyError x) (m_url x) (m_filePath x) (m_segments x)
    (m_totalSize x) (m_useRange x) (m_serverSupportsRange x) v (m_lastModified x)
    (m_mirrorUrls x) (m_mirrorIndex x) (m_segmentsInfo x) (m_headReply x)
    (m_singleReply x) (m_singleFile x) (m_singleBuffer x) (m_singleProcessing x)
    (m_resumeSingle x) (m_useSingleTemp x) (m_singleTempPath x) (m_singleWritten x)
    (m_maxSpeed x) (m_throttleBytes x) (m_throttleTimer x) (m_pauseReason x)
    (m_pausedAt x) (m_resumeWarning x) (m_retryMax x) (m_retryDelaySec x)
    (speedStats x).
Definition set_m_lastModified (v : string) (x : Task) : Task :=
  mkTask (m_state x) (m_anyError x) (m_url x) (m_filePath x) (m_segments x)
    (m_totalSize x) (m_useRange x) (m_serverSupportsRange x) (m_etag x) v
    (m_mirrorUrls x) (m_mirrorIndex x) (m_segmentsInfo x) (m_headReply x)
    (m_singleReply x) (m_singleFile x) (m_singleBuffer x) (m_singleProcessing x)
    (m_resumeSingle x) (m_useSingleTemp x) (m_singleTempPath x) (m_singleWritten x)
    (m_maxSpeed x) (m_throttleBytes x) (m_throttleTimer x) (m_pauseReason x)
    (m_pausedAt x) (m_resumeWarning x) (m_retryMax x) (m_retryDelaySec x)
    (speedStats x).
Definition set_m_mirrorUrls (v : list string) (x : Task) : Task :=
  mkTask (m_state x) (m_anyError x) (m_url x) (m_filePath x) (m_segments x)
    (m_totalSize x) (m_useRange x) (m_serverSupportsRange x) (m_etag x)
    (m_lastModified x) v (m_mirrorIndex x) (m_segmentsInfo x) (m_headReply x)
    (m_singleReply x) (m_singleFile x) (m_singleBuffer x) (m_singleProcessing x)
    (m_resumeSingle x) (m_useSingleTemp x) (m_singleTempPath x) (m_singleWritten x)
    (m_maxSpeed x) (m_throttleBytes x) (m_throttleTimer x) (m_pauseReason x)
    (m_pausedAt x) (m_resumeWarning x) (m_retryMax x) (m_retryDelaySec x)
    (speedStats x).
Definition set_m_mirrorIndex (v : Z) (x : Task) : Task :=
  mkTask (m_state x) (m_anyError x) (m_url x) (m_filePath x) (m_segments x)
    (m_totalSize x) (m_useRange x) (m_serverSupportsRange x) (m_etag x)
    (m_lastModified x) (m_mirrorUrls x) v (m_segmentsInfo x) (m_headReply x)
    (m_singleReply x) (m_singleFile x) (m_singleBuffer x) (m_singleProcessing x)
    (m_resumeSingle x) (m_useSingleTemp x) (m_singleTempPath x) (m_singleWritten x)
    (m_maxSpeed x) (m_throttleBytes x) (m_throttleTimer x) (m_pauseReason x)
    (m_pausedAt x) (m_resumeWarning x) (m_retryMax x) (m_retryDelaySec x)
    (speedStats x).
Definition set_m_segmentsInfo (v : list Segment) (x : Task) : Task :=
  mkTask (m_state x) (m_anyError x) (m_url x) (m_filePath x) (m_segments x)
    (m_totalSize x) (m_useRange x) (m_serverSupportsRange x) (m_etag x)
    (m_lastModified x) (m_mirrorUrls x) (m_mirrorIndex x) v (m_headReply x)
    (m_singleReply x) (m_singleFile x) (m_singleBuffer x) (m_singleProcessing x)
    (m_resumeSingle x) (m_useSingleTemp x) (m_singleTempPath x) (m_singleWritten x)
    (m_maxSpeed x) (m_throttleBytes x) (m_throttleTimer x) (m_pauseReason x)
    (m_pausedAt x) (m_resumeWarning x) (m_retryMax x) (m_retryDelaySec x)
    (speedStats x).
Definition set_m_headReply (v : option HeadRequest) (x : Task) : Task :=
  mkTask (m_state x) (m_anyError x) (m_url x) (m_filePath x) (m_segments x)
    (m_totalSize x) (m_useRange x) (m_serverSupportsRange x) (m_etag x)
    (m_lastModified x) (m_mirrorUrls x) (m_mirrorIndex x) (m_segmentsInfo x) v
    (m_singleReply x) (m_singleFile x) (m_singleBuffer x) (m_singleProcessing x)
    (m_resumeSingle x) (m_useSingleTemp x) (m_singleTempPath x) (m_singleWritten x)
    (m_maxSpeed x) (m_throttleBytes x) (m_throttleTimer x) (m_pauseReason x)
    (m_pausedAt x) (m_resumeWarning x) (m_retryMax x) (m_retryDelaySec x)
    (speedStats x).
Definition set_m_singleReply (v : option SingleRequest) (x : Task) : Task :=
  mkTask (m_state x) (m_anyError x) (m_url x) (m_filePath x) (m_segments x)
    (m_totalSize x) (m_useRange x) (m_serverSupportsRange x) (m_etag x)
    (m_lastModified x) (m_mirrorUrls x) (m_mirrorIndex x) (m_segmentsInfo x)
    (m_headReply x) v (m_singleFile x) (m_singleBuffer x) (m_singleProcessing x)
    (m_resumeSingle x) (m_useSingleTemp x) (m_singleTempPath x) (m_singleWritten x)
    (m_maxSpeed x) (m_throttleBytes x) (m_throttleTimer x) (m_pauseReason x)
    (m_pausedAt x) (m_resumeWarning x) (m_retryMax x) (m_retryDelaySec x)
    (speedStats x).
Definition set_m_singleFile (v : option string) (x : Task) : Task :=
  mkTask (m_state x) (m_anyError x) (m_url x) (m_filePath x) (m_segments x)
    (m_totalSize x) (m_useRange x) (m_serverSupportsRange x) (m_etag x)
    (m_lastModified x) (m_mirrorUrls x) (m_mirrorIndex x) (m_segmentsInfo x)
    (m_headReply x) (m_singleReply x) v (m_singleBuffer x) (m_singleProcessing x)
    (m_resumeSingle x) (m_useSingleTemp x) (m_singleTempPath x) (m_singleWritten x)
    (m_maxSpeed x) (m_throttleBytes x) (m_throttleTimer x) (m_pauseReason x)
    (m_pausedAt x) (m_resumeWarning x) (m_retryMax x) (m_retryDelaySec x)
    (speedStats x).
Definition set_m_singleBuffer (v : list byte) (x : Task) : Task :=
  mkTask (m_state x) (m_anyError x) (m_url x) (m_filePath x) (m_segments x)
    (m_totalSize x) (m_useRange x) (m_serverSupportsRange x) (m_etag x)
    (m_lastModified x) (m_mirrorUrls x) (m_mirrorIndex x) (m_segmentsInfo x)
    (m_headReply x) (m_singleReply x) (m_singleFile x) v (m_singleProcessing x)
    (m_resumeSingle x) (m_useSingleTemp x) (m_singleTempPath x) (m_singleWritten x)
    (m_maxSpeed x) (m_throttleBytes x) (m_throttleTimer x) (m_pauseReason x)
    (m_pausedAt x) (m_resumeWarning x) (m_retryMax x) (m_retryDelaySec x)
    (speedStats x).
Definition set_m_singleProcessing (v : bool) (x : Task) : Task :=
  mkTask (m_state x) (m_anyError x) (m_url x) (m_filePath x) (m_segments x)
    (m_totalSize x) (m_useRange x) (m_serverSupportsRange x) (m_etag x)
    (m_lastModified x) (m_mirrorUrls x) (m_mirrorIndex x) (m_segmentsInfo x)
    (m_headReply x) (m_singleReply x) (m_singleFile x) (m_singleBuffer x) v
    (m_resumeSingle x) (m_useSingleTemp x) (m_singleTempPath x) (m_singleWritten x)
    (m_maxSpeed x) (m_throttleBytes x) (m_throttleTimer x) (m_pauseReason x)
    (m_pausedAt x) (m_resumeWarning x) (m_retryMax x) (m_retryDelaySec x)
    (speedStats x).
Definition set_m_resumeSingle (v : bool) (x : Task) : Task :=
  mkTask (m_state x) (m_anyError x) (m_url x) (m_filePath x) (m_segments x)
    (m_totalSize x) (m_useRange x) (m_serverSupportsRange x) (m_etag x)
    (m_lastModified x) (m_mirrorUrls x) (m_mirrorIndex x) (m_segmentsInfo x)
    (m_headReply x) (m_singleReply x) (m_singleFile x) (m_singleBuffer x)
    (m_singleProcessing x) v (m_useSingleTemp x) (m_singleTempPath x)
    (m_singleWritten x) (m_maxSpeed x) (m_throttleBytes x) (m_throttleTimer x)
    (m_pauseReason x) (m_pausedAt x) (m_resumeWarning x) (m_retryMax x)
    (m_retryDelaySec x) (speedStats x).
Definition set_m_useSingleTemp (v : bool) (x : Task) : Task :=
  mkTask (m_state x) (m_anyError x) (m_url x) (m_filePath x) (m_segments x)
    (m_totalSize x) (m_useRange x) (m_serverSupportsRange x) (m_etag x)
    (m_lastModified x) (m_mirrorUrls x) (m_mirrorIndex x) (m_segmentsInfo x)
    (m_headReply x) (m_singleReply x) (m_singleFile x) (m_singleBuffer x)
    (m_singleProcessing x) (m_resumeSingle x) v (m_singleTempPath x) (m_singleWritten x)
    (m_maxSpeed x) (m_throttleBytes x) (m_throttleTimer x) (m_pauseReason x)
    (m_pausedAt x) (m_resumeWarning x) (m_retryMax x) (m_retryDelaySec x)
    (speedStats x).
Definition set_m_singleTempPath (v : string) (x : Task) : Task :=
  mkTask (m_state x) (m_anyError x) (m_url x) (m_filePath x) (m_segments x)
    (m_totalSize x) (m_useRange x) (m_serverSupportsRange x) (m_etag x)
    (m_lastModified x) (m_mirrorUrls x) (m_mirrorIndex x) (m_segmentsInfo x)
    (m_headReply x) (m_singleReply x) (m_singleFile x) (m_singleBuffer x)
    (m_singleProcessing x) (m_resumeSingle x) (m_useSingleTemp x) v (m_singleWritten x)
    (m_maxSpeed x) (m_throttleBytes x) (m_throttleTimer x) (m_pauseReason x)
    (m_pausedAt x) (m_resumeWarning x) (m_retryMax x) (m_retryDelaySec x)
    (speedStats x).
Definition set_m_singleWritten (v : Z) (x : Task) : Task :=
  mkTask (m_state x) (m_anyError x) (m_url x) (m_filePath x) (m_segments x)
    (m_totalSize x) (m_useRange x) (m_serverSupportsRange x) (m_etag x)
    (m_lastModified x) (m_mirrorUrls x) (m_mirrorIndex x) (m_segmentsInfo x)
    (m_headReply x) (m_singleReply x) (m_singleFile x) (m_singleBuffer x)
    (m_singleProcessing x) (m_resumeSingle x) (m_useSingleTemp x) (m_singleTempPath x) v
    (m_maxSpeed x) (m_throttleBytes x) (m_throttleTimer x) (m_pauseReason x)
    (m_pausedAt x) (m_resumeWarning x) (m_retryMax x) (m_retryDelaySec x)
    (speedStats x).
Definition set_m_maxSpeed (v : Z) (x : Task) : Task :=
  mkTask (m_state x) (m_anyError x) (m_url x) (m_filePath x) (m_segments x)
    (m_totalSize x) (m_useRange x) (m_serverSupportsRange x) (m_etag x)
    (m_lastModified x) (m_mirrorUrls x) (m_mirrorIndex x) (m_segmentsInfo x)
    (m_headReply x) (m_singleReply x) (m_singleFile x) (m_singleBuffer x)
    (m_singleProcessing x) (m_resumeSingle x) (m_useSingleTemp x) (m_singleTempPath x)
    (m_singleWritten x) v (m_throttleBytes x) (m_throttleTimer x) (m_pauseReason x)
    (m_pausedAt x) (m_resumeWarning x) (m_retryMax x) (m_retryDelaySec x)
    (speedStats x).
Definition set_m_throttleBytes (v : Z) (x : Task) : Task :=
  mkTask (m_state x) (m_anyError x) (m_url x) (m_filePath x) (m_segments x)
    (m_totalSize x) (m_useRange x) (m_serverSupportsRange x) (m_etag x)
    (m_lastModified x) (m_mirrorUrls x) (m_mirrorIndex x) (m_segmentsInfo x)
    (m_headReply x) (m_singleReply x) (m_singleFile x) (m_singleBuffer x)
    (m_singleProcessing x) (m_resumeSingle x) (m_useSingleTemp x) (m_singleTempPath x)
    (m_singleWritten x) (m_maxSpeed x) v (m_throttleTimer x) (m_pauseReason x)
    (m_pausedAt x) (m_resumeWarning x) (m_retryMax x) (m_retryDelaySec x)
    (speedStats x).
Definition set_m_throttleTimer (v : Z) (x : Task) : Task :=
  mkTask (m_state x) (m_anyError x) (m_url x) (m_filePath x) (m_segments x)
    (m_totalSize x) (m_useRange x) (m_serverSupportsRange x) (m_etag x)
    (m_lastModified x) (m_mirrorUrls x) (m_mirrorIndex x) (m_segmentsInfo x)
    (m_headReply x) (m_singleReply x) (m_singleFile x) (m_singleBuffer x)
    (m_singleProcessing x) (m_resumeSingle x) (m_useSingleTemp x) (m_singleTempPath x)
    (m_singleWritten x) (m_maxSpeed x) (m_throttleBytes x) v (m_pauseReason x)
    (m_pausedAt x) (m_resumeWarning x) (m_retryMax x) (m_retryDelaySec x)
    (speedStats x).
Definition set_m_pauseReason (v : string) (x : Task) : Task :=
  mkTask (m_state x) (m_anyError x) (m_url x) (m_filePath x) (m_segments x)
    (m_totalSize x) (m_useRange x) (m_serverSupportsRange x) (m_etag x)
    (m_lastModified x) (m_mirrorUrls x) (m_mirrorIndex x) (m_segmentsInfo x)
    (m_headReply x) (m_singleReply x) (m_singleFile x) (m_singleBuffer x)
    (m_singleProcessing x) (m_resumeSingle x) (m_useSingleTemp x) (m_singleTempPath x)
    (m_singleWritten x) (m_maxSpeed x) (m_throttleBytes x) (m_throttleTimer x) v
    (m_pausedAt x) (m_resumeWarning x) (m_retryMax x) (m_retryDelaySec x)
    (speedStats x).
Definition set_m_pausedAt (v : Z) (x : Task) : Task :=
  mkTask (m_state x) (m_anyError x) (m_url x) (m_filePath x) (m_segments x)
    (m_totalSize x) (m_useRange x) (m_serverSupportsRange x) (m_etag x)
    (m_lastModified x) (m_mirrorUrls x) (m_mirrorIndex x) (m_segmentsInfo x)
    (m_headReply x) (m_singleReply x) (m_singleFile x) (m_singleBuffer x)
    (m_singleProcessing x) (m_resumeSingle x) (m_useSingleTemp x) (m_singleTempPath x)
    (m_singleWritten x) (m_maxSpeed x) (m_throttleBytes x) (m_throttleTimer x)
    (m_pauseReason x) v (m_resumeWarning x) (m_retryMax x) (m_retryDelaySec x)
    (speedStats x).
Definition set_m_resumeWarning (v : string) (x : Task) : Task :=
  mkTask (m_state x) (m_anyError x) (m_url x) (m_filePath x) (m_segments x)
    (m_totalSize x) (m_useRange x) (m_serverSupportsRange x) (m_etag x)
    (m_lastModified x) (m_mirrorUrls x) (m_mirrorIndex x) (m_segmentsInfo x)
    (m_headReply x) (m_singleReply x) (m_singleFile x) (m_singleBuffer x)
    (m_singleProcessing x) (m_resumeSingle x) (m_useSingleTemp x) (m_singleTempPath x)
    (m_singleWritten x) (m_maxSpeed x) (m_throttleBytes x) (m_throttleTimer x)
    (m_pauseReason x) (m_pausedAt x) v (m_retryMax x) (m_retryDelaySec x)
    (speedStats x).
Definition set_m_retryMax (v : Z) (x : Task) : Task :=
  mkTask (m_state x) (m_anyError x) (m_url x) (m_filePath x) (m_segments x)
    (m_totalSize x) (m_useRange x) (m_serverSupportsRange x) (m_etag x)
    (m_lastModified x) (m_mirrorUrls x) (m_mirrorIndex x) (m_segmentsInfo x)
    (m_headReply x) (m_singleReply x) (m_singleFile x) (m_singleBuffer x)
    (m_singleProcessing x) (m_resumeSingle x) (m_useSingleTemp x) (m_singleTempPath x)
    (m_singleWritten x) (m_maxSpeed x) (m_throttleBytes x) (m_throttleTimer x)
    (m_pauseReason x) (m_pausedAt x) (m_resumeWarning x) v (m_retryDelaySec x)
    (speedStats x).
Definition set_m_retryDelaySec (v : Z) (x : Task) : Task :=
  mkTask (m_state x) (m_anyError x) (m_url x) (m_filePath x) (m_segments x)
    (m_totalSize x) (m_useRange x) (m_serverSupportsRange x) (m_etag x)
    (m_lastModified x) (m_mirrorUrls x) (m_mirrorIndex x) (m_segmentsInfo x)
    (m_headReply x) (m_singleReply x) (m_singleFile x) (m_singleBuffer x)
    (m_singleProcessing x) (m_resumeSingle x) (m_useSingleTemp x) (m_singleTempPath x)
    (m_singleWritten x) (m_maxSpeed x) (m_throttleBytes x) (m_throttleTimer x)
    (m_pauseReason x) (m_pausedAt x) (m_resumeWarning x) (m_retryMax x) v
    (speedStats x).
Definition set_speedStats (v : SpeedStats) (x : Task) : Task :=
  mkTask (m_state x) (m_anyError x) (m_url x) (m_filePath x) (m_segments x)
    (m_totalSize x) (m_useRange x) (m_serverSupportsRange x) (m_etag x)
    (m_lastModified x) (m_mirrorUrls x) (m_mirrorIndex x) (m_segmentsInfo x)
    (m_headReply x) (m_singleReply x) (m_singleFile x) (m_singleBuffer x)
    (m_singleProcessing x) (m_resumeSingle x) (m_useSingleTemp x) (m_singleTempPath x)
    (m_singleWritten x) (m_maxSpeed x) (m_throttleBytes x) (m_throttleTimer x)
    (m_pauseReason x) (m_pausedAt x) (m_resumeWarning x) (m_retryMax x)
    (m_retryDelaySec x) v.

(** A task in its surroundings: the object, the disk, and what it has emitted
    and scheduled. *)
Record World := mkWorld {
  task : Task;
  fs : FS;
  signals : list Signal;  (* emitted so far, oldest first *)
  timers : list Timer;  (* QTimer::singleShot calls so far, oldest first *)
  nextReply : ReplyId  (* next fresh QNetworkReply identity *)
}.

(** Field updates of [World] (C++ assignments to one member). *)
Definition set_task (v : Task) (x : World) : World :=
  mkWorld v (fs x) (signals x) (timers x) (nextReply x).
Definition set_fs (v : FS) (x : World) : World :=
  mkWorld (task x) v (signals x) (timers x) (nextReply x).
Definition set_signals (v : list Signal) (x : World) : World :=
  mkWorld (task x) (fs x) v (timers x) (nextReply x).
Definition set_timers (v : list Timer) (x : World) : World :=
  mkWorld (task x) (fs x) (signals x) v (nextReply x).
Definition set_nextReply (v : ReplyId) (x : World) : World :=
  mkWorld (task x) (fs x) (signals x) (timers x) v.

(** What a slot connected to [progress] does to the emitting task while the
    emission runs.  In the application the slot is
    [DownloadManager::onTaskProgress], which runs [enforceQueuePolicies] once
    the quota of the task's queue is used up; that pauses a running task by
    [pauseWithReason] ("Battery", "Schedule", "Quota") or by [pause]. *)
Inductive SlotAction :=
| SlotIdle
| SlotPause
| SlotPauseWithReason (reason : string).

(** How the copy loop of [mergeSegments] fares on one part. *)
Inductive CopyOutcome :=
| CopyAll                   (* every read and every write got through *)
| ReadStops (copied : Z)    (* a read came back <= 0 after [copied] bytes: [break] *)
| WriteStops (copied : Z).  (* a write came back short after [copied] bytes: [return false] *)

(** What the surroundings answer while one member function runs. *)
Record Env := mkEnv {
  clock : Z;                 (* monotonic ms read by the first [QElapsedTimer::elapsed()] *)
  clockAfterWrite : Z;       (* monotonic ms read by the second one, after the write *)
  clockAtSpeedUpdate : Z;    (* monotonic ms read by [updateSpeedAndETA] *)
  wallClock : Z;             (* [QDateTime::currentMSecsSinceEpoch()] *)
  wallClockAtSample : Z;     (* the same, read by [appendSpeedSample] *)
  canOpen : string -> bool;  (* [QFile::open] on that path succeeds *)
  canRename : string -> bool; (* [QFile::rename] from that path succeeds *)
  writeResult : Z -> Z;      (* return value of [QFile::write] asked for that many bytes *)
  copyOutcome : string -> CopyOutcome;  (* the copy loop of [mergeSegments] on that part *)
  progressSlot : Z -> Z -> SlotAction   (* the slot connected to [progress(received, total)] *)
}.

(** The answer to a HEAD request as the [finished] closure reads it. *)
Record HeadReply := mkHeadReply {
  head_error : bool;             (* [error() != NoError] *)
  head_etag : string;            (* raw header, empty when absent *)
  head_lastModified : string;
  contentLength : option Z;      (* [None]: the QVariant is invalid *)
  acceptRanges : string
}.

(** *** Small steps shared by the member functions *)

Definition emit (s : Signal) (w : World) : World :=
  set_signals (signals w ++ [s]) w.

Definition singleShot (ms : Z) (a : TimerAction) (w : World) : World :=
  set_timers (timers w ++ [mkTimer ms a]) w.

Definition upd (f : Task -> Task) (w : World) : World :=
  set_task (f (task w)) w.

Definition updStats (f : SpeedStats -> SpeedStats) (w : World) : World :=
  upd (fun t => set_speedStats (f (speedStats t)) t) w.

Definition removeFile (path : string) (w : World) : World :=
  set_fs (file_remove (fs w) path) w.

(** [m_manager->get(req)] / [head(req)]: a reply object nobody has seen yet. *)
Definition freshReply (w : World) : ReplyId * World :=
  (nextReply w, set_nextReply (S (nextReply w)) w).

(** [QFile::open(WriteOnly | Truncate)] that succeeded. *)
Definition openTruncate (path : string) (f : FS) : FS := <[path := 0]> f.

(** [QFile::open(WriteOnly | Append)] that succeeded. *)
Definition openAppend (path : string) (f : FS) : FS :=
  if file_exists f path then f else <[path := 0]> f.

(** [n] more bytes at the end of the file. *)
Definition grow (path : string) (n : Z) (f : FS) : FS :=
  <[path := file_size f path + n]> f.

(** [QByteArray::toLower()] *)
Definition lowerAscii (c : ascii) : ascii :=
  let n := N_of_ascii c in
  if ((65 <=? n) && (n <=? 90))%N then ascii_of_N (n + 32) else c.

Fixpoint toLower (s : string) : string :=
  match s with
  | EmptyString => EmptyString
  | String c rest => String (lowerAscii c) (toLower rest)
  end.

(** [QString("%1.part%2").arg(m_filePath).arg(i)] *)
Definition partPath `{Qt : QtModel} (path : string) (i : Z) : string :=
  QStringArg.argNumber (QStringArg.argText "%1.part%2" path) i.

Definition segLen (s : Segment) : Z := s_end s - s_start s + 1.

(** Modelled from the spec: [isRunning()] is an inline accessor of the module
    interface, which is not among the sources; by the spec's lifecycle and
    admission rule a running task is one in state [Downloading]. *)
Definition isRunning (t : Task) : bool := bool_decide (m_state t = Downloading).

(** Modelled from the spec: [isIdle()] is an inline accessor of the module
    interface, which is not among the sources; the spec's admission rule
    accepts a task that "is Idle". *)
Definition isIdle (t : Task) : bool := bool_decide (m_state t = Idle).

Definition totalDownloaded (t : Task) : Z :=
  fold_left (fun total s => total + downloaded s) (m_segmentsInfo t) 0
  + m_singleWritten t.

Definition stateString (t : Task) : string :=
  if m_anyError t && bool_decide (m_state t = Finished) then "Error"
  else match m_state t with
       | Idle => "Queued"
       | Downloading => "Active"
       | Paused => "Paused"
       | Finished => "Done"
       | Canceled => "Canceled"
       end.

Definition currentUrl (t : Task) : string :=
  if negb (bool_decide (m_mirrorUrls t = []))
     && (0 <=? m_mirrorIndex t)
     && (m_mirrorIndex t <? Z.of_nat (length (m_mirrorUrls t)))
  then nth (Z.to_nat (m_mirrorIndex t)) (m_mirrorUrls t) ""%string
  else m_url t.

Definition setResumeWarning (warning : string) (w : World) : World :=
  if String.eqb (m_resumeWarning (task w)) warning then w
  else emit resumeWarningChanged (upd (set_m_resumeWarning warning) w).

(** The statement pair [if (!m_pauseReason.isEmpty()) { m_pauseReason.clear(); emit ...; }] *)
Definition clearPauseReason (w : World) : World :=
  if negb (String.eqb (m_pauseReason (task w)) "") then
    emit pauseReasonChanged (upd (set_m_pauseReason "") w)
  else w.

(** [if (m_pausedAt != 0) { m_pausedAt = 0; emit pausedAtChanged(); }] *)
Definition clearPausedAt (w : World) : World :=
  if negb (m_pausedAt (task w) =? 0) then
    emit pausedAtChanged (upd (set_m_pausedAt 0) w)
  else w.

(** The per-segment part of [pause()]: drop the reply, close the file, clear
    the buffer. *)
Definition quiesceSegment (s : Segment) : Segment :=
  set_processing false (set_buffer [] (set_file false (set_reply None s))).

(** The tail shared by [pause()] and [cleanup()] for the HEAD and the
    single-stream objects. *)
Definition dropSingleAndHead (t : Task) : Task :=
  set_m_singleProcessing false
    (set_m_singleBuffer []
       (set_m_singleFile None (set_m_singleReply None (set_m_headReply None t)))).

(** [m_speed = 0; m_eta = -1; emit speedChanged(0); emit etaChanged(-1);] *)
Definition stopSpeed (w : World) : World :=
  let w := updStats (fun st => set_m_eta (-1) (set_m_speed 0 st)) w in
  emit (etaChanged (-1)) (emit (speedChanged 0) w).

Section WithQt.
Context `{Qt : QtModel}.

Definition advanceMirror (w : World) : bool * World :=
  let t := task w in
  if bool_decide (m_mirrorUrls t = []) then (false, w)
  else if Z.of_nat (length (m_mirrorUrls t)) <=? m_mirrorIndex t + 1 then (false, w)
  else
    let w := upd (set_m_mirrorIndex (m_mirrorIndex t + 1)) w in
    let nextUrl := nth (Z.to_nat (m_mirrorIndex (task w))) (m_mirrorUrls (task w)) ""%string in
    let w :=
      if urlIsValid nextUrl then
        upd (fun t => set_m_lastModified "" (set_m_etag "" (set_m_url nextUrl t))) w
      else w in
    (true, emit mirrorIndexChanged w).

Definition cleanup (emitFinished : bool) (w : World) : World :=
  (* for (Segment& s : m_segmentsInfo) { ...; s.downloaded = 0; QFile::remove(s.tempFilePath); } *)
  let w := fold_left (fun w s => removeFile (tempFilePath s) w) (m_segmentsInfo (task w)) w in
  let w := upd (fun t => set_m_segmentsInfo
                   (map (fun s => set_downloaded 0 (quiesceSegment s)) (m_segmentsInfo t)) t) w in
  let w := upd dropSingleAndHead w in
  let w := upd (set_m_singleWritten 0) w in
  let w :=
    if m_useSingleTemp (task w) && negb (String.eqb (m_singleTempPath (task w)) "")
    then removeFile (m_singleTempPath (task w)) w
    else removeFile (m_filePath (task w)) w in
  if emitFinished then emit (finished false) w else w.

Definition cancel (w : World) : World :=
  if bool_decide (m_state (task w) = Finished) || bool_decide (m_state (task w) = Canceled)
  then w
  else
    let w := upd (set_m_state Canceled) w in
    let w := emit (stateChanged Canceled) w in
    let w := clearPauseReason w in
    let w := clearPausedAt w in
    cleanup true w.

Definition pause (env : Env) (w : World) : World :=
  if negb (bool_decide (m_state (task w) = Downloading)) then w
  else
    let w :=
      if String.eqb (m_pauseReason (task w)) "" then
        emit pauseReasonChanged (upd (set_m_pauseReason "User") w)
      else w in
    let w := upd (set_m_state Paused) w in
    let w := emit (stateChanged Paused) w in
    let w :=
      if negb (m_pausedAt (task w) =? wallClock env) then
        emit pausedAtChanged (upd (set_m_pausedAt (wallClock env)) w)
      else w in
    let w := stopSpeed w in
    let w := upd (fun t => set_m_segmentsInfo (map quiesceSegment (m_segmentsInfo t)) t) w in
    upd dropSingleAndHead w.

Definition pauseWithReason (env : Env) (reason : string) (w : World) : World :=
  if negb (bool_decide (m_state (task w) = Downloading)) then w
  else
    let w :=
      if negb (String.eqb (m_pauseReason (task w)) reason) then
        emit pauseReasonChanged (upd (set_m_pauseReason reason) w)
      else w in
    pause env w.

Definition markPaused (env : Env) (w : World) : World :=
  match m_state (task w) with
  | Paused => w
  | Downloading => pause env w
  | Finished | Canceled => w
  | Idle =>
      let w := upd (set_m_state Paused) w in
      let w := emit (stateChanged Paused) w in
      let w :=
        if String.eqb (m_pauseReason (task w)) "" then
          emit pauseReasonChanged (upd (set_m_pauseReason "User") w)
        else w in
      let w :=
        if m_pausedAt (task w) =? 0 then
          emit pausedAtChanged (upd (set_m_pausedAt (wallClock env)) w)
        else w in
      stopSpeed w
  end.

Definition markError (w : World) : World :=
  if bool_decide (m_state (task w) = Finished) && m_anyError (task w) then w
  else if bool_decide (m_state (task w) = Canceled) then w
  else
    let w := upd (fun t => set_m_state Finished (set_m_anyError true t)) w in
    let w := emit (stateChanged Finished) w in
    let w := stopSpeed w in
    clearPauseReason w.

Definition markDone (w : World) : World :=
  if bool_decide (m_state (task w) = Finished) && negb (m_anyError (task w)) then w
  else if bool_decide (m_state (task w) = Canceled) then w
  else
    let w := upd (fun t => set_m_state Finished (set_m_anyError false t)) w in
    let w := emit (stateChanged Finished) w in
    let w := stopSpeed w in
    clearPauseReason w.

Definition markCanceled (w : World) : World :=
  if bool_decide (m_state (task w) = Canceled) then w
  else
    let w := upd (set_m_state Canceled) w in
    let w := emit (stateChanged Canceled) w in
    let w := stopSpeed w in
    clearPauseReason w.

(** *** The throttled write pipeline *)

(** [allowed] as both processors compute it from the elapsed time read at
    entry and the length of the buffer at hand. *)
Definition allowedBytes (t : Task) (elapsed : Z) (bufferLen : Z) : Z :=
  let elapsedMs := if elapsed =? 0 then 1 else elapsed in
  if 0 <? m_maxSpeed t then
    Z.quot (m_maxSpeed t * elapsedMs) 1000 - m_throttleBytes t
  else bufferLen.

(** [if (m_throttleTimer.elapsed() >= 1000) { m_throttleTimer.restart(); m_throttleBytes = 0; }] *)
Definition rollWindow (env : Env) (t : Task) : Task :=
  if 1000 <=? clockAfterWrite env - m_throttleTimer t then
    set_m_throttleBytes 0 (set_m_throttleTimer (clockAfterWrite env) t)
  else t.

Definition appendSpeedSample (env : Env) (bytesPerSecond : Z) (w : World) : World :=
  let st := speedStats (task w) in
  let nowMs := wallClockAtSample env in
  if (0 <? m_lastSpeedSampleMs st) && (nowMs - m_lastSpeedSampleMs st <? 900) then w
  else
    let history := m_speedHistory st ++ [bytesPerSecond] in
    (* while (m_speedHistory.size() > m_speedHistoryLimit) m_speedHistory.removeFirst(); *)
    let history :=
      drop (Z.to_nat (Z.of_nat (length history) - m_speedHistoryLimit st)) history in
    emit speedHistoryChanged
      (updStats (fun st => set_m_speedHistory history (set_m_lastSpeedSampleMs nowMs st)) w).

Definition updateSpeedAndETA (env : Env) (w : World) : World :=
  match m_speedTimer (speedStats (task w)) with
  | None =>
      let w := updStats (fun st => set_m_lastBytes 0
                                     (set_m_speedTimer (Some (clockAtSpeedUpdate env)) st)) w in
      stopSpeed w
  | Some started =>
      let elapsed := clockAtSpeedUpdate env - started in
      if elapsed <? 500 then w
      else
        let w := updStats (set_m_speedTimer (Some (clockAtSpeedUpdate env))) w in
        let totalDownloadedBytes := totalDownloaded (task w) in
        let bytesDelta := totalDownloadedBytes - m_lastBytes (speedStats (task w)) in
        let w := updStats (set_m_lastBytes totalDownloadedBytes) w in
        let speed := Z.quot (bytesDelta * 1000) (if elapsed =? 0 then 1 else elapsed) in
        let w := updStats (set_m_speed speed) w in
        let w := emit (speedChanged speed) w in
        let w := appendSpeedSample env speed w in
        let w :=
          if (0 <? speed) && negb (m_lastSpeed (speedStats (task w)) =? speed) then
            emit lastSpeedChanged (updStats (set_m_lastSpeed speed) w)
          else w in
        if (0 <? m_totalSize (task w)) && (0 <? speed) then
          let etaSec := wrapInt (Z.quot (m_totalSize (task w) - totalDownloadedBytes) speed) in
          let w := updStats (set_m_eta etaSec) w in
          let w := emit (etaChanged etaSec) w in
          if negb (m_lastEta (speedStats (task w)) =? etaSec) then
            emit lastEtaChanged (updStats (set_m_lastEta etaSec) w)
          else w
        else
          emit (etaChanged (-1)) (updStats (set_m_eta (-1)) w)
  end.

(** [emit progress(received, total)]: the signal, and in its course what the
    connected slot does to this task. *)
Definition emitProgress (env : Env) (received total : Z) (w : World) : World :=
  let w := emit (progress received total) w in
  match progressSlot env received total with
  | SlotIdle => w
  | SlotPause => pause env w
  | SlotPauseWithReason reason => pauseWithReason env reason w
  end.

Definition processSingleBuffer (env : Env) (w : World) : World :=
  let t := task w in
  match m_singleFile t with
  | None => w
  | Some path =>
    if m_singleProcessing t then w
    else if bool_decide (m_singleBuffer t = []) then w
    else if negb (bool_decide (m_state t = Downloading)) then w
    else
      let w := upd (set_m_singleProcessing true) w in
      let bufferLen := Z.of_nat (length (m_singleBuffer t)) in
      let allowed := allowedBytes t (clock env - m_throttleTimer t) bufferLen in
      if allowed <=? 0 then singleShot 50 RetrySingleBuffer w
      else
        let toWrite := Z.min allowed bufferLen in
        let written := writeResult env toWrite in
        let w :=
          if 0 <? written then
            let w := set_fs (grow path written (fs w)) w in
            upd (fun t =>
                   set_m_singleWritten (m_singleWritten t + written)
                     (set_m_throttleBytes (m_throttleBytes t + written)
                        (set_m_singleBuffer (drop (Z.to_nat written) (m_singleBuffer t)) t))) w
          else w in
        let w := upd (rollWindow env) w in
        let w := emitProgress env (totalDownloaded (task w)) (m_totalSize (task w)) w in
        let w := updateSpeedAndETA env w in
        let w := upd (set_m_singleProcessing false) w in
        if negb (bool_decide (m_singleBuffer (task w) = [])) then
          singleShot 10 ContinueSingleBuffer w
        else w
  end.

(** Assignment through the captured [Segment*]. *)
Definition updSegment (i : nat) (f : Segment -> Segment) (w : World) : World :=
  upd (fun t => set_m_segmentsInfo (alter f i (m_segmentsInfo t)) t) w.

Definition processSegmentBuffer (env : Env) (i : nat) (w : World) : World :=
  let t := task w in
  match m_segmentsInfo t !! i with
  | None => w
  | Some s =>
    if negb (file s) then w
    else if processing s then w
    else if bool_decide (buffer s = []) then w
    else if negb (bool_decide (m_state t = Downloading)) then w
    else
      let w := updSegment i (set_processing true) w in
      let bufferLen := Z.of_nat (length (buffer s)) in
      let allowed := allowedBytes t (clock env - m_throttleTimer t) bufferLen in
      if allowed <=? 0 then
        singleShot 50 (ContinueSegmentBuffer i) (updSegment i (set_processing false) w)
      else
        let toWrite := Z.min allowed bufferLen in
        let written := writeResult env toWrite in
        let w :=
          if 0 <? written then
            let w := set_fs (grow (tempFilePath s) written (fs w)) w in
            let w := updSegment i (fun s =>
                       set_downloaded (downloaded s + written)
                         (set_buffer (drop (Z.to_nat written) (buffer s)) s)) w in
            upd (fun t => set_m_throttleBytes (m_throttleBytes t + written) t) w
          else w in
        let w := upd (rollWindow env) w in
        let w := emitProgress env (totalDownloaded (task w)) (m_totalSize (task w)) w in
        let w := updateSpeedAndETA env w in
        let w := updSegment i (set_processing false) w in
        match m_segmentsInfo (task w) !! i with
        | Some s' =>
            if negb (bool_decide (buffer s' = [])) then
              singleShot 10 (ContinueSegmentBuffer i) w
            else w
        | None => w
        end
  end.

(** *** Single-stream transfer *)

Definition startSingleStream (env : Env) (resume : bool) (w : World) : World :=
  let w := upd (fun t => set_m_singleReply None t) w in
  let w := upd (fun t => set_m_singleFile None t) w in
  let w := upd (fun t => set_m_singleProcessing false (set_m_singleBuffer [] t)) w in
  let w := upd (fun t => set_m_resumeSingle (resume && m_useRange t) t) w in
  let tempPath := m_filePath (task w) +:+ ".part" in
  let hasTemp := file_exists (fs w) tempPath in
  let hasMain := file_exists (fs w) (m_filePath (task w)) in
  let w := upd (set_m_useSingleTemp (hasTemp || negb hasMain)) w in
  let w := upd (fun t => set_m_singleTempPath
                           (if m_useSingleTemp t then tempPath else m_filePath t) t) w in
  let target := m_singleTempPath (task w) in
  let probe := m_resumeSingle (task w) && file_exists (fs w) target in
  let existing := if probe then file_size (fs w) target else 0 in
  let w :=
    if probe && negb (0 <? existing) then upd (set_m_resumeSingle false) w else w in
  if negb (canOpen env target) then
    let w := upd (fun t => set_m_state Finished (set_m_anyError true (set_m_singleFile None t))) w in
    emit (finished false) (emit (stateChanged Finished) w)
  else
    let w := set_fs (if m_resumeSingle (task w) then openAppend target (fs w)
                     else openTruncate target (fs w)) w in
    let w := upd (set_m_singleFile (Some target)) w in
    let w := upd (fun t => set_m_singleWritten (if m_resumeSingle t then existing else 0) t) w in
    let '(rid, w) := freshReply w in
    upd (set_m_singleReply (Some (mkSingleRequest rid existing))) w.

(** The headers every reply closure copies into the resume validators. *)
Definition noteValidators (etag lastMod : string) (t : Task) : Task :=
  let t := if negb (String.eqb etag "") then set_m_etag etag t else t in
  if negb (String.eqb lastMod "") then set_m_lastModified lastMod t else t.

(** The [metaDataChanged] closure of [startSingleStream]. *)
Definition onSingleMetaData (env : Env) (rid : ReplyId) (status : Z)
    (etag lastMod : string) (w : World) : World :=
  match m_singleReply (task w) with
  | None => w
  | Some req =>
    if negb (bool_decide (single_id req = rid)) then w
    else
      let w := upd (noteValidators etag lastMod) w in
      let w :=
        if status =? 206 then upd (set_m_serverSupportsRange true) w
        else if status =? 200 then upd (set_m_serverSupportsRange false) w
        else w in
      if negb (m_resumeSingle (task w)) then w
      else if 400 <=? status then
        let w := upd (fun t => set_m_singleFile None (set_m_singleReply None t)) w in
        let w := upd (fun t => set_m_singleWritten 0 (set_m_resumeSingle false t)) w in
        let w := setResumeWarning "Resume rejected; restarting" w in
        singleShot 0 RestartSingleFromZero w
      else if negb (status =? 206) then
        let w :=
          match m_singleFile (task w) with
          | Some path =>
              if canOpen env path then set_fs (openTruncate path (fs w)) w else w
          | None => w
          end in
        let w := upd (fun t => set_m_singleWritten 0 (set_m_resumeSingle false t)) w in
        if 0 <? existingSize req then setResumeWarning "Resume not supported; restarted" w
        else w
      else w
  end.

(** The [readyRead] closure of [startSingleStream]. *)
Definition onSingleReadyRead (env : Env) (rid : ReplyId) (data : list byte)
    (w : World) : World :=
  match m_singleReply (task w) with
  | None => w
  | Some req =>
    if negb (bool_decide (single_id req = rid)) then w
    else
      let w := upd (fun t => set_m_singleBuffer (m_singleBuffer t ++ data) t) w in
      if negb (m_singleProcessing (task w)) then processSingleBuffer env w else w
  end.

(** The [finished] closure of [startSingleStream]; [failed] is
    [error() != NoError]. *)
Definition onSingleFinished (env : Env) (rid : ReplyId) (failed : bool)
    (w : World) : World :=
  match m_singleReply (task w) with
  | None => w
  | Some req =>
    if negb (bool_decide (single_id req = rid)) then w
    else
      let w :=
        if bool_decide (m_state (task w) = Downloading) && failed
        then upd (set_m_anyError true) w else w in
      let w :=
        if negb (m_singleProcessing (task w))
           && negb (bool_decide (m_singleBuffer (task w) = []))
        then processSingleBuffer env w else w in
      let w := upd (fun t => set_m_singleReply None (set_m_singleFile None t)) w in
      if bool_decide (m_state (task w) = Paused)
         || bool_decide (m_state (task w) = Canceled) then w
      else
        let t := task w in
        let w :=
          if m_useSingleTemp t
             && negb (String.eqb (m_singleTempPath t) "")
             && negb (String.eqb (m_singleTempPath t) (m_filePath t))
          then
            let w := if file_exists (fs w) (m_filePath t)
                     then removeFile (m_filePath t) w else w in
            match fs w !! m_singleTempPath t with
            | Some size =>
                if canRename env (m_singleTempPath t) then
                  set_fs (<[m_filePath t := size]> (delete (m_singleTempPath t) (fs w))) w
                else upd (set_m_anyError true) w
            | None => upd (set_m_anyError true) w
            end
          else w in
        let w := upd (set_m_state Finished) w in
        let w := emit (stateChanged Finished) w in
        emit (finished (negb (m_anyError (task w)))) w
  end.

(** *** Segmented transfer *)

(** The bytes of a part of [size] bytes that reach the output of
    [mergeSegments] before the copy loop is left. *)
Definition copiedBytes (outcome : CopyOutcome) (size : Z) : Z :=
  match outcome with
  | CopyAll => size
  | ReadStops copied | WriteStops copied => Z.max 0 (Z.min copied size)
  end.

(** One part in the loop of [mergeSegments]: whether the loop goes on, and
    the disk.  A part that cannot be opened and a short write end the merge
    ([return false]) and leave the part; a failing read only leaves the copy
    loop, after which the part is removed like one copied in full.  The copy
    loop is not entered for an empty part. *)
Definition mergePart (env : Env) (out : string) (f : FS) (s : Segment) : bool * FS :=
  let part := tempFilePath s in
  match f !! part with
  | None => (false, f)
  | Some size =>
      if negb (canOpen env part) then (false, f)
      else
        let copied := if 0 <? size then copiedBytes (copyOutcome env part) size else 0 in
        match copyOutcome env part with
        | WriteStops _ =>
            if 0 <? size then (false, grow out copied f)
            else (true, delete part (grow out copied f))
        | _ => (true, delete part (grow out copied f))
        end
  end.

(** The loop of [mergeSegments]: whether it got through, and the disk. *)
Fixpoint mergeParts (env : Env) (out : string) (f : FS) (segs : list Segment)
    : bool * FS :=
  match segs with
  | [] => (true, f)
  | s :: rest =>
      let '(goesOn, f') := mergePart env out f s in
      if goesOn then mergeParts env out f' rest else (false, f')
  end.

Definition mergeSegments (env : Env) (w : World) : bool * World :=
  let out := m_filePath (task w) in
  if negb (canOpen env out) then (false, w)
  else
    let '(ok, f) := mergeParts env out (openTruncate out (fs w)) (m_segmentsInfo (task w)) in
    (ok, set_fs f w).

Definition onSegmentFinished (env : Env) (w : World) : World :=
  if negb (bool_decide (m_state (task w) = Downloading)) then w
  else if existsb (fun s => downloaded s <? segLen s) (m_segmentsInfo (task w)) then w
  else if m_anyError (task w) then
    emit (finished false) (emit (stateChanged Finished) (upd (set_m_state Finished) w))
  else
    let '(ok, w) := mergeSegments env w in
    if negb ok then
      let w := upd (fun t => set_m_state Finished (set_m_anyError true t)) w in
      emit (finished false) (emit (stateChanged Finished) w)
    else
      emit (finished true) (emit (stateChanged Finished) (upd (set_m_state Finished) w)).

Definition startSegment (env : Env) (i : nat) (w : World) : World :=
  if negb (bool_decide (m_state (task w) = Downloading)) then w
  else
    match m_segmentsInfo (task w) !! i with
    | None => w
    | Some s =>
        if negb (file s) && negb (canOpen env (tempFilePath s)) then
          let w := upd (fun t => set_m_state Finished (set_m_anyError true t)) w in
          let w := emit (stateChanged Finished) w in
          let w := cleanup false w in
          emit (finished false) w
        else
          let w :=
            if negb (file s) then
              updSegment i (set_file true)
                (set_fs (openAppend (tempFilePath s) (fs w)) w)
            else w in
          let '(rid, w) := freshReply w in
          updSegment i (set_reply (Some rid)) w
    end.

(** The [metaDataChanged] closure of [startSegment]. *)
Definition onSegmentMetaData (i : nat) (rid : ReplyId) (status : Z)
    (etag lastMod : string) (w : World) : World :=
  match m_segmentsInfo (task w) !! i with
  | None => w
  | Some s =>
    if negb (bool_decide (reply s = Some rid)) then w
    else
      let w := upd (noteValidators etag lastMod) w in
      let t := task w in
      if status =? 0 then w
      else if status =? 206 then w
      else
        let isWholeFileRange :=
          (s_start s =? 0) && (0 <? m_totalSize t) && (s_end s =? m_totalSize t - 1) in
        if (status =? 200)
           && ((Z.of_nat (length (m_segmentsInfo t)) <=? 1) || isWholeFileRange) then w
        else if status =? 200 then
          let w := upd (fun t => set_m_serverSupportsRange false (set_m_useRange false t)) w in
          let w := setResumeWarning "Range ignored; switched to single stream" w in
          singleShot 0 FallBackToSingle w
        else w
  end.

(** The [readyRead] closure of [startSegment]. *)
Definition onSegmentReadyRead (env : Env) (i : nat) (rid : ReplyId)
    (data : list byte) (w : World) : World :=
  match m_segmentsInfo (task w) !! i with
  | None => w
  | Some s =>
    if negb (bool_decide (reply s = Some rid)) then w
    else
      let w := updSegment i (fun s => set_buffer (buffer s ++ data) s) w in
      if negb (processing s) then processSegmentBuffer env i w else w
  end.

(** The [finished] closure of [startSegment]. *)
Definition onSegmentReplyFinished (env : Env) (i : nat) (rid : ReplyId)
    (failed : bool) (w : World) : World :=
  match m_segmentsInfo (task w) !! i with
  | None => w
  | Some s =>
    if negb (bool_decide (reply s = Some rid)) then w
    else
      let w :=
        if bool_decide (m_state (task w) = Downloading) && failed
        then upd (set_m_anyError true) w else w in
      let w :=
        if negb (processing s) && negb (bool_decide (buffer s = []))
        then processSegmentBuffer env i w else w in
      let w := updSegment i (fun s => set_reply None (set_file false s)) w in
      if bool_decide (m_state (task w) = Paused)
         || bool_decide (m_state (task w) = Canceled) then w
      else onSegmentFinished env w
  end.

(** *** start() and the HEAD reply *)

(** The scan of [start()] for part files of an earlier run. *)
Definition scanPartialSegments (f : FS) (path : string) (segments : Z) : bool :=
  (1 <? segments)
  && existsb (fun i => file_exists f (partPath path i)) (seqZ 0 segments).

Definition start (env : Env) (w : World) : World :=
  if negb (bool_decide (m_state (task w) = Idle)) then w
  else
    let w := clearPauseReason w in
    let w := clearPausedAt w in
    let t := task w in
    let existingFile :=
      file_exists (fs w) (m_filePath t) && (0 <? file_size (fs w) (m_filePath t)) in
    let partialSegments := scanPartialSegments (fs w) (m_filePath t) (m_segments t) in
    let w := updStats (fun st => set_m_lastBytes 0 (set_m_speedTimer (Some (clock env)) st)) w in
    let w := upd (fun t => set_m_throttleBytes 0 (set_m_throttleTimer (clock env) t)) w in
    if negb (urlIsValid (currentUrl t)) then
      let w := upd (fun t => set_m_state Finished (set_m_anyError true t)) w in
      emit (finished false) (emit (stateChanged Finished) w)
    else
      let w := upd (fun t => set_m_state Downloading (set_m_anyError false t)) w in
      let w := emit (stateChanged Downloading) w in
      let '(rid, w) := freshReply w in
      upd (set_m_headReply (Some (mkHeadRequest rid existingFile partialSegments))) w.

(** The effective number of segments for a known total size. *)
Definition effectiveSegments (totalSize segments : Z) : Z :=
  if 0 <? totalSize then
    if totalSize <? 4 * 1024 * 1024 then 1
    else if totalSize <? 32 * 1024 * 1024 then Z.min 2 segments
    else if totalSize <? 128 * 1024 * 1024 then Z.min 4 segments
    else segments
  else segments.

(** One round of the loop "Prepare segments": segment [i] of [segCount], and
    the disk after the round. *)
Definition prepareSegment (path : string) (totalSize segCount : Z)
    (partialSegments : bool) (f : FS) (i : Z) : Segment * FS :=
  let segSize := Z.quot totalSize segCount in
  let s_start := i * segSize in
  let s_end := if i =? segCount - 1 then totalSize - 1 else (i + 1) * segSize - 1 in
  let temp := partPath path i in
  if partialSegments && file_exists f temp then
    (mkSegment s_start s_end temp (Z.min (file_size f temp) (s_end - s_start + 1))
       [] false false None, f)
  else
    (mkSegment s_start s_end temp 0 [] false false None, file_remove f temp).

Definition prepareSegments (path : string) (totalSize segCount : Z)
    (partialSegments : bool) (f : FS) : list Segment * FS :=
  fold_left (fun acc i =>
               let '(s, f') := prepareSegment path totalSize segCount partialSegments (snd acc) i in
               (fst acc ++ [s], f'))
            (seqZ 0 segCount) ([], f).

(** The loop [for (int i = segCount; i < m_segments; ++i)] that removes the
    part files beyond the effective count. *)
Definition removeSurplusParts (path : string) (segCount segments : Z) (f : FS) : FS :=
  fold_left (fun f i => file_remove f (partPath path i))
    (seqZ segCount (segments - segCount)) f.

(** The loop that starts every segment still short of its length; the flag
    is [anyStarted]. *)
Definition startPending (env : Env) (w : World) : bool * World :=
  fold_left (fun acc i =>
               match m_segmentsInfo (task (snd acc)) !! i with
               | Some s =>
                   if segLen s <=? downloaded s then acc
                   else (true, startSegment env i (snd acc))
               | None => acc
               end)
            (seq 0 (length (m_segmentsInfo (task w)))) (false, w).

(** What the HEAD closure decides once the reply carries a usable
    Content-Length. *)
Definition startSegmented (env : Env) (partialSegments : bool) (w : World) : World :=
  let t := task w in
  let segCount := effectiveSegments (m_totalSize t) (m_segments t) in
  let '(segs, f) :=
    prepareSegments (m_filePath t) (m_totalSize t) segCount partialSegments (fs w) in
  let w := set_fs f (upd (set_m_segmentsInfo segs) w) in
  let w := set_fs (removeSurplusParts (m_filePath t) segCount (m_segments t) (fs w)) w in
  let '(anyStarted, w) := startPending env w in
  if negb anyStarted then onSegmentFinished env w else w.

(** The [finished] closure of the HEAD request. *)
Definition onHeadFinished (env : Env) (r : HeadReply) (w : World) : World :=
  match m_headReply (task w) with
  | None => w
  | Some req =>
    let w := upd (set_m_headReply None) w in
    if negb (bool_decide (m_state (task w) = Downloading)) then w
    else if head_error r then
      let w := upd (fun t => set_m_useRange true (set_m_totalSize 0 t)) w in
      startSingleStream env (hasExistingFile req) w
    else
      let w := upd (noteValidators (head_etag r) (head_lastModified r)) w in
      match contentLength r with
      | None =>
          let w := upd (fun t => set_m_useRange false (set_m_totalSize 0 t)) w in
          startSingleStream env false w
      | Some cl =>
          if cl <=? 0 then
            let w := upd (fun t => set_m_useRange false (set_m_totalSize 0 t)) w in
            startSingleStream env false w
          else
            let w := upd (set_m_totalSize cl) w in
            let w :=
              if negb (String.eqb (toLower (acceptRanges r)) "bytes") then
                upd (fun t => set_m_serverSupportsRange false (set_m_useRange false t)) w
              else upd (set_m_serverSupportsRange true) w in
            if negb (m_useRange (task w)) || (m_segments (task w) =? 1) then
              startSingleStream env (hasExistingFile req) w
            else startSegmented env (hasPartialSegments req) w
      end
  end.

Definition resume (env : Env) (w : World) : World :=
  if negb (bool_decide (m_state (task w) = Paused)) then w
  else
    let w := clearPauseReason w in
    let w := upd (set_m_state Idle) w in
    start env w.

Definition restart (env : Env) (w : World) : World :=
  let w := cleanup false w in
  let w := upd (set_m_state Idle) w in
  let w := emit (stateChanged Idle) w in
  start env w.

(** *** Everything that can happen to a task *)

Inductive Event :=
| CallStart | CallPause | CallPauseWithReason (reason : string)
| CallMarkPaused | CallMarkError | CallMarkDone | CallMarkCanceled
| CallResume | CallCancel | CallRestart
| HeadFinished (rid : ReplyId) (r : HeadReply)
| SingleMetaData (rid : ReplyId) (status : Z) (etag lastMod : string)
| SingleReadyRead (rid : ReplyId) (data : list byte)
| SingleFinished (rid : ReplyId) (failed : bool)
| SegmentMetaData (i : nat) (rid : ReplyId) (status : Z) (etag lastMod : string)
| SegmentReadyRead (i : nat) (rid : ReplyId) (data : list byte)
| SegmentFinished (i : nat) (rid : ReplyId) (failed : bool)
| TimerFired (a : TimerAction).

Definition fire (env : Env) (a : TimerAction) (w : World) : World :=
  match a with
  | RetrySingleBuffer =>
      processSingleBuffer env (upd (set_m_singleProcessing false) w)
  | ContinueSingleBuffer => processSingleBuffer env w
  | ContinueSegmentBuffer i => processSegmentBuffer env i w
  | RestartSingleFromZero =>
      if bool_decide (m_state (task w) = Downloading)
      then startSingleStream env false w else w
  | FallBackToSingle =>
      if negb (bool_decide (m_state (task w) = Downloading)) then w
      else startSingleStream env false (cleanup false w)
  end.

(** One turn of the event loop for this task.  A HEAD closure only runs for
    the reply it is connected to ([pause] and [cleanup] disconnect it). *)
Definition handle (env : Env) (e : Event) (w : World) : World :=
  match e with
  | CallStart => start env w
  | CallPause => pause env w
  | CallPauseWithReason reason => pauseWithReason env reason w
  | CallMarkPaused => markPaused env w
  | CallMarkError => markError w
  | CallMarkDone => markDone w
  | CallMarkCanceled => markCanceled w
  | CallResume => resume env w
  | CallCancel => cancel w
  | CallRestart => restart env w
  | HeadFinished rid r =>
      match m_headReply (task w) with
      | Some req => if bool_decide (head_id req = rid) then onHeadFinished env r w else w
      | None => w
      end
  | SingleMetaData rid status etag lastMod => onSingleMetaData env rid status etag lastMod w
  | SingleReadyRead rid data => onSingleReadyRead env rid data w
  | SingleFinished rid failed => onSingleFinished env rid failed w
  | SegmentMetaData i rid status etag lastMod => onSegmentMetaData i rid status etag lastMod w
  | SegmentReadyRead i rid data => onSegmentReadyRead env i rid data w
  | SegmentFinished i rid failed => onSegmentReplyFinished env i rid failed w
  | TimerFired a => fire env a w
  end.

End WithQt.

End Task.

(** ** src/core/downloadmanager.cpp *)

Module Manager.

(** A [DownloaderTask*]. *)
Definition Handle := nat.

(** [QTime] as [isWithinSchedule] reads it. *)
Record QTime := mkQTime { hour : Z; minute : Z }.

(** The user notices the manager raises. *)
Inductive Toast :=
| ToastFinished | ToastFailed | ToastCanceled
| ToastSwitchingMirror (url : string)
| ToastRetrying (delaySec : Z).

(** [DownloadManager::QueueInfo].  The struct is declared in the module
    interface, which is not among the sources; these are the members the
    member functions read and write. *)
Record QueueInfo := mkQueueInfo {
  name : string;
  maxConcurrent : Z;
  maxSpeed : Z;
  scheduleEnabled : bool;
  startMinutes : Z;
  endMinutes : Z;
  quotaEnabled : bool;
  quotaBytes : Z;
  downloadedToday : Z;
  lastResetDate : Z  (* the day, as a day number *)
}.

(** Field updates of [QueueInfo] (C++ assignments to one member). *)
Definition set_name (v : string) (x : QueueInfo) : QueueInfo :=
  mkQueueInfo v (maxConcurrent x) (maxSpeed x) (scheduleEnabled x) (startMinutes x)
    (endMinutes x) (quotaEnabled x) (quotaBytes x) (downloadedToday x)
    (lastResetDate x).
Definition set_maxConcurrent (v : Z) (x : QueueInfo) : QueueInfo :=
  mkQueueInfo (name x) v (maxSpeed x) (scheduleEnabled x) (startMinutes x)
    (endMinutes x) (quotaEnabled x) (quotaBytes x) (downloadedToday x)
    (lastResetDate x).
Definition set_maxSpeed (v : Z) (x : QueueInfo) : QueueInfo :=
  mkQueueInfo (name x) (maxConcurrent x) v (scheduleEnabled x) (startMinutes x)
    (endMinutes x) (quotaEnabled x) (quotaBytes x) (downloadedToday x)
    (lastResetDate x).
Definition set_scheduleEnabled (v : bool) (x : QueueInfo) : QueueInfo :=
  mkQueueInfo (name x) (maxConcurrent x) (maxSpeed x) v (startMinutes x)
    (endMinutes x) (quotaEnabled x) (quotaBytes x) (downloadedToday x)
    (lastResetDate x).
Definition set_startMinutes (v : Z) (x : QueueInfo) : QueueInfo :=
  mkQueueInfo (name x) (maxConcurrent x) (maxSpeed x) (scheduleEnabled x) v
    (endMinutes x) (quotaEnabled x) (quotaBytes x) (downloadedToday x)
    (lastResetDate x).
Definition set_endMinutes (v : Z) (x : QueueInfo) : QueueInfo :=
  mkQueueInfo (name x) (maxConcurrent x) (maxSpeed x) (scheduleEnabled x)
    (startMinutes x) v (quotaEnabled x) (quotaBytes x) (downloadedToday x)
    (lastResetDate x).
Definition set_quotaEnabled (v : bool) (x : QueueInfo) : QueueInfo :=
  mkQueueInfo (name x) (maxConcurrent x) (maxSpeed x) (scheduleEnabled x)
    (startMinutes x) (endMinutes x) v (quotaBytes x) (downloadedToday x)
    (lastResetDate x).
Definition set_quotaBytes (v : Z) (x : QueueInfo) : QueueInfo :=
  mkQueueInfo (name x) (maxConcurrent x) (maxSpeed x) (scheduleEnabled x)
    (startMinutes x) (endMinutes x) (quotaEnabled x) v (downloadedToday x)
    (lastResetDate x).
Definition set_downloadedToday (v : Z) (x : QueueInfo) : QueueInfo :=
  mkQueueInfo (name x) (maxConcurrent x) (maxSpeed x) (scheduleEnabled x)
    (startMinutes x) (endMinutes x) (quotaEnabled x) (quotaBytes x) v
    (lastResetDate x).
Definition set_lastResetDate (v : Z) (x : QueueInfo) : QueueInfo :=
  mkQueueInfo (name x) (maxConcurrent x) (maxSpeed x) (scheduleEnabled x)
    (startMinutes x) (endMinutes x) (quotaEnabled x) (quotaBytes x)
    (downloadedToday x) v.

(** The data members of [DownloadManager] that the modelled functions read or
    write, the task objects it owns and the disk they share.  Totals, the
    debounced save and the post-actions are left out: nothing below depends on
    them. *)
Record Manager := mkManager {
  tasks : gmap Handle Task.Task;  (* the DownloaderTask objects, by pointer *)
  m_queue : list Handle;
  m_model : list Handle;  (* rows of the DownloadModel: taskAt(index) *)
  m_taskQueue : gmap Handle string;
  m_taskRetryCount : gmap Handle Z;
  m_taskSpeed : gmap Handle Z;
  m_taskCompletedAt : gmap Handle Z;
  m_taskMaxSpeed : gmap Handle Z;
  m_queues : gmap string QueueInfo;
  m_queueOrder : list string;
  m_maxConcurrent : Z;
  m_globalMaxSpeed : Z;
  m_pauseOnBattery : bool;
  m_onBattery : bool;
  m_bulkCancelInProgress : bool;
  m_autoRetryMax : Z;
  m_autoRetryDelaySec : Z;
  disk : FS;  (* the file system all tasks share *)
  replyCounter : Task.ReplyId;  (* next fresh QNetworkReply identity *)
  toasts : list Toast;  (* toastRequested emissions, oldest first *)
  retryTimers : list (Z * Handle);  (* retry closures handed to QTimer::singleShot: (ms, task) *)
  taskTimers : list (Handle * Task.Timer)  (* single-shot timers the tasks asked for *)
}.

(** Field updates of [Manager] (C++ assignments to one member). *)
Definition set_tasks (v : gmap Handle Task.Task) (x : Manager) : Manager :=
  mkManager v (m_queue x) (m_model x) (m_taskQueue x) (m_taskRetryCount x)
    (m_taskSpeed x) (m_taskCompletedAt x) (m_taskMaxSpeed x) (m_queues x)
    (m_queueOrder x) (m_maxConcurrent x) (m_globalMaxSpeed x) (m_pauseOnBattery x)
    (m_onBattery x) (m_bulkCancelInProgress x) (m_autoRetryMax x)
    (m_autoRetryDelaySec x) (disk x) (replyCounter x) (toasts x) (retryTimers x)
    (taskTimers x).
Definition set_m_queue (v : list Handle) (x : Manager) : Manager :=
  mkManager (tasks x) v (m_model x) (m_taskQueue x) (m_taskRetryCount x)
    (m_taskSpeed x) (m_taskCompletedAt x) (m_taskMaxSpeed x) (m_queues x)
    (m_queueOrder x) (m_maxConcurrent x) (m_globalMaxSpeed x) (m_pauseOnBattery x)
    (m_onBattery x) (m_bulkCancelInProgress x) (m_autoRetryMax x)
    (m_autoRetryDelaySec x) (disk x) (replyCounter x) (toasts x) (retryTimers x)
    (taskTimers x).
Definition set_m_model (v : list Handle) (x : Manager) : Manager :=
  mkManager (tasks x) (m_queue x) v (m_taskQueue x) (m_taskRetryCount x)
    (m_taskSpeed x) (m_taskCompletedAt x) (m_taskMaxSpeed x) (m_queues x)
    (m_queueOrder x) (m_maxConcurrent x) (m_globalMaxSpeed x) (m_pauseOnBattery x)
    (m_onBattery x) (m_bulkCancelInProgress x) (m_autoRetryMax x)
    (m_autoRetryDelaySec x) (disk x) (replyCounter x) (toasts x) (retryTimers x)
    (taskTimers x).
Definition set_m_taskQueue (v : gmap Handle string) (x : Manager) : Manager :=
  mkManager (tasks x) (m_queue x) (m_model x) v (m_taskRetryCount x) (m_taskSpeed x)
    (m_taskCompletedAt x) (m_taskMaxSpeed x) (m_queues x) (m_queueOrder x)
    (m_maxConcurrent x) (m_globalMaxSpeed x) (m_pauseOnBattery x) (m_onBattery x)
    (m_bulkCancelInProgress x) (m_autoRetryMax x) (m_autoRetryDelaySec x) (disk x)
    (replyCounter x) (toasts x) (retryTimers x) (taskTimers x).
Definition set_m_taskRetryCount (v : gmap Handle Z) (x : Manager) : Manager :=
  mkManager (tasks x) (m_queue x) (m_model x) (m_taskQueue x) v (m_taskSpeed x)
    (m_taskCompletedAt x) (m_taskMaxSpeed x) (m_queues x) (m_queueOrder x)
    (m_maxConcurrent x) (m_globalMaxSpeed x) (m_pauseOnBattery x) (m_onBattery x)
    (m_bulkCancelInProgress x) (m_autoRetryMax x) (m_autoRetryDelaySec x) (disk x)
    (replyCounter x) (toasts x) (retryTimers x) (taskTimers x).
Definition set_m_taskSpeed (v : gmap Handle Z) (x : Manager) : Manager :=
  mkManager (tasks x) (m_queue x) (m_model x) (m_taskQueue x) (m_taskRetryCount x) v
    (m_taskCompletedAt x) (m_taskMaxSpeed x) (m_queues x) (m_queueOrder x)
    (m_maxConcurrent x) (m_globalMaxSpeed x) (m_pauseOnBattery x) (m_onBattery x)
    (m_bulkCancelInProgress x) (m_autoRetryMax x) (m_autoRetryDelaySec x) (disk x)
    (replyCounter x) (toasts x) (retryTimers x) (taskTimers x).
Definition set_m_taskCompletedAt (v : gmap Handle Z) (x : Manager) : Manager :=
  mkManager (tasks x) (m_queue x) (m_model x) (m_taskQueue x) (m_taskRetryCount x)
    (m_taskSpeed x) v (m_taskMaxSpeed x) (m_queues x) (m_queueOrder x)
    (m_maxConcurrent x) (m_globalMaxSpeed x) (m_pauseOnBattery x) (m_onBattery x)
    (m_bulkCancelInProgress x) (m_autoRetryMax x) (m_autoRetryDelaySec x) (disk x)
    (replyCounter x) (toasts x) (retryTimers x) (taskTimers x).
Definition set_m_taskMaxSpeed (v : gmap Handle Z) (x : Manager) : Manager :=
  mkManager (tasks x) (m_queue x) (m_model x) (m_taskQueue x) (m_taskRetryCount x)
    (m_taskSpeed x) (m_taskCompletedAt x) v (m_queues x) (m_queueOrder x)
    (m_maxConcurrent x) (m_globalMaxSpeed x) (m_pauseOnBattery x) (m_onBattery x)
    (m_bulkCancelInProgress x) (m_autoRetryMax x) (m_autoRetryDelaySec x) (disk x)
    (replyCounter x) (toasts x) (retryTimers x) (taskTimers x).
Definition set_m_queues (v : gmap string QueueInfo) (x : Manager) : Manager :=
  mkManager (tasks x) (m_queue x) (m_model x) (m_taskQueue x) (m_taskRetryCount x)
    (m_taskSpeed x) (m_taskCompletedAt x) (m_taskMaxSpeed x) v (m_queueOrder x)
    (m_maxConcurrent x) (m_globalMaxSpeed x) (m_pauseOnBattery x) (m_onBattery x)
    (m_bulkCancelInProgress x) (m_autoRetryMax x) (m_autoRetryDelaySec x) (disk x)
    (replyCounter x) (toasts x) (retryTimers x) (taskTimers x).
Definition set_m_queueOrder (v : list string) (x : Manager) : Manager :=
  mkManager (tasks x) (m_queue x) (m_model x) (m_taskQueue x) (m_taskRetryCount x)
    (m_taskSpeed x) (m_taskCompletedAt x) (m_taskMaxSpeed x) (m_queues x) v
    (m_maxConcurrent x) (m_globalMaxSpeed x) (m_pauseOnBattery x) (m_onBattery x)
    (m_bulkCancelInProgress x) (m_autoRetryMax x) (m_autoRetryDelaySec x) (disk x)
    (replyCounter x) (toasts x) (retryTimers x) (taskTimers x).
Definition set_m_maxConcurrent (v : Z) (x : Manager) : Manager :=
  mkManager (tasks x) (m_queue x) (m_model x) (m_taskQueue x) (m_taskRetryCount x)
    (m_taskSpeed x) (m_taskCompletedAt x) (m_taskMaxSpeed x) (m_queues x)
    (m_queueOrder x) v (m_globalMaxSpeed x) (m_pauseOnBattery x) (m_onBattery x)
    (m_bulkCancelInProgress x) (m_autoRetryMax x) (m_autoRetryDelaySec x) (disk x)
    (replyCounter x) (toasts x) (retryTimers x) (taskTimers x).
Definition set_m_globalMaxSpeed (v : Z) (x : Manager) : Manager :=
  mkManager (tasks x) (m_queue x) (m_model x) (m_taskQueue x) (m_taskRetryCount x)
    (m_taskSpeed x) (m_taskCompletedAt x) (m_taskMaxSpeed x) (m_queues x)
    (m_queueOrder x) (m_maxConcurrent x) v (m_pauseOnBattery x) (m_onBattery x)
    (m_bulkCancelInProgress x) (m_autoRetryMax x) (m_autoRetryDelaySec x) (disk x)
    (replyCounter x) (toasts x) (retryTimers x) (taskTimers x).
Definition set_m_pauseOnBattery (v : bool) (x : Manager) : Manager :=
  mkManager (tasks x) (m_queue x) (m_model x) (m_taskQueue x) (m_taskRetryCount x)
    (m_taskSpeed x) (m_taskCompletedAt x) (m_taskMaxSpeed x) (m_queues x)
    (m_queueOrder x) (m_maxConcurrent x) (m_globalMaxSpeed x) v (m_onBattery x)
    (m_bulkCancelInProgress x) (m_autoRetryMax x) (m_autoRetryDelaySec x) (disk x)
    (replyCounter x) (toasts x) (retryTimers x) (taskTimers x).
Definition set_m_onBattery (v : bool) (x : Manager) : Manager :=
  mkManager (tasks x) (m_queue x) (m_model x) (m_taskQueue x) (m_taskRetryCount x)
    (m_taskSpeed x) (m_taskCompletedAt x) (m_taskMaxSpeed x) (m_queues x)
    (m_queueOrder x) (m_maxConcurrent x) (m_globalMaxSpeed x) (m_pauseOnBattery x) v
    (m_bulkCancelInProgress x) (m_autoRetryMax x) (m_autoRetryDelaySec x) (disk x)
    (replyCounter x) (toasts x) (retryTimers x) (taskTimers x).
Definition set_m_bulkCancelInProgress (v : bool) (x : Manager) : Manager :=
  mkManager (tasks x) (m_queue x) (m_model x) (m_taskQueue x) (m_taskRetryCount x)
    (m_taskSpeed x) (m_taskCompletedAt x) (m_taskMaxSpeed x) (m_queues x)
    (m_queueOrder x) (m_maxConcurrent x) (m_globalMaxSpeed x) (m_pauseOnBattery x)
    (m_onBattery x) v (m_autoRetryMax x) (m_autoRetryDelaySec x) (disk x)
    (replyCounter x) (toasts x) (retryTimers x) (taskTimers x).
Definition set_m_autoRetryMax (v : Z) (x : Manager) : Manager :=
  mkManager (tasks x) (m_queue x) (m_model x) (m_taskQueue x) (m_taskRetryCount x)
    (m_taskSpeed x) (m_taskCompletedAt x) (m_taskMaxSpeed x) (m_queues x)
    (m_queueOrder x) (m_maxConcurrent x) (m_globalMaxSpeed x) (m_pauseOnBattery x)
    (m_onBattery x) (m_bulkCancelInProgress x) v (m_autoRetryDelaySec x) (disk x)
    (replyCounter x) (toasts x) (retryTimers x) (taskTimers x).
Definition set_m_autoRetryDelaySec (v : Z) (x : Manager) : Manager :=
  mkManager (tasks x) (m_queue x) (m_model x) (m_taskQueue x) (m_taskRetryCount x)
    (m_taskSpeed x) (m_taskCompletedAt x) (m_taskMaxSpeed x) (m_queues x)
    (m_queueOrder x) (m_maxConcurrent x) (m_globalMaxSpeed x) (m_pauseOnBattery x)
    (m_onBattery x) (m_bulkCancelInProgress x) (m_autoRetryMax x) v (disk x)
    (replyCounter x) (toasts x) (retryTimers x) (taskTimers x).
Definition set_disk (v : FS) (x : Manager) : Manager :=
  mkManager (tasks x) (m_queue x) (m_model x) (m_taskQueue x) (m_taskRetryCount x)
    (m_taskSpeed x) (m_taskCompletedAt x) (m_taskMaxSpeed x) (m_queues x)
    (m_queueOrder x) (m_maxConcurrent x) (m_globalMaxSpeed x) (m_pauseOnBattery x)
    (m_onBattery x) (m_bulkCancelInProgress x) (m_autoRetryMax x)
    (m_autoRetryDelaySec x) v (replyCounter x) (toasts x) (retryTimers x)
    (taskTimers x).
Definition set_replyCounter (v : Task.ReplyId) (x : Manager) : Manager :=
  mkManager (tasks x) (m_queue x) (m_model x) (m_taskQueue x) (m_taskRetryCount x)
    (m_taskSpeed x) (m_taskCompletedAt x) (m_taskMaxSpeed x) (m_queues x)
    (m_queueOrder x) (m_maxConcurrent x) (m_globalMaxSpeed x) (m_pauseOnBattery x)
    (m_onBattery x) (m_bulkCancelInProgress x) (m_autoRetryMax x)
    (m_autoRetryDelaySec x) (disk x) v (toasts x) (retryTimers x) (taskTimers x).
Definition set_toasts (v : list Toast) (x : Manager) : Manager :=
  mkManager (tasks x) (m_queue x) (m_model x) (m_taskQueue x) (m_taskRetryCount x)
    (m_taskSpeed x) (m_taskCompletedAt x) (m_taskMaxSpeed x) (m_queues x)
    (m_queueOrder x) (m_maxConcurrent x) (m_globalMaxSpeed x) (m_pauseOnBattery x)
    (m_onBattery x) (m_bulkCancelInProgress x) (m_autoRetryMax x)
    (m_autoRetryDelaySec x) (disk x) (replyCounter x) v (retryTimers x) (taskTimers x).
Definition set_retryTimers (v : list (Z * Handle)) (x : Manager) : Manager :=
  mkManager (tasks x) (m_queue x) (m_model x) (m_taskQueue x) (m_taskRetryCount x)
    (m_taskSpeed x) (m_taskCompletedAt x) (m_taskMaxSpeed x) (m_queues x)
    (m_queueOrder x) (m_maxConcurrent x) (m_globalMaxSpeed x) (m_pauseOnBattery x)
    (m_onBattery x) (m_bulkCancelInProgress x) (m_autoRetryMax x)
    (m_autoRetryDelaySec x) (disk x) (replyCounter x) (toasts x) v (taskTimers x).
Definition set_taskTimers (v : list (Handle * Task.Timer)) (x : Manager) : Manager :=
  mkManager (tasks x) (m_queue x) (m_model x) (m_taskQueue x) (m_taskRetryCount x)
    (m_taskSpeed x) (m_taskCompletedAt x) (m_taskMaxSpeed x) (m_queues x)
    (m_queueOrder x) (m_maxConcurrent x) (m_globalMaxSpeed x) (m_pauseOnBattery x)
    (m_onBattery x) (m_bulkCancelInProgress x) (m_autoRetryMax x)
    (m_autoRetryDelaySec x) (disk x) (replyCounter x) (toasts x) (retryTimers x) v.

(** What the surroundings answer while one manager function runs: the task
    level answers, the time of day and the date. *)
Record Clock := mkClock {
  taskEnv : Task.Env;
  currentTime : QTime;    (* [QTime::currentTime()] *)
  currentDate : Z         (* [QDate::currentDate()] *)
}.

(** [QString::trimmed()] on the white space of ASCII. *)
Definition isSpace (c : ascii) : bool :=
  let n := N_of_ascii c in ((n =? 32) || ((9 <=? n) && (n <=? 13)))%N.

Fixpoint trimLeft (s : string) : string :=
  match s with
  | EmptyString => EmptyString
  | String c rest => if isSpace c then trimLeft rest else s
  end.

Fixpoint trimRight (s : string) : string :=
  match s with
  | EmptyString => EmptyString
  | String c rest =>
      let rest' := trimRight rest in
      if isSpace c && String.eqb rest' "" then EmptyString else String c rest'
  end.

Definition trimmed (s : string) : string := trimRight (trimLeft s).

Definition defaultQueueName (m : Manager) : string :=
  match m_queueOrder m with
  | [] => "General"
  | first :: _ => first
  end.

(** [m_taskQueue.value(t, defaultQueueName())] *)
Definition queueOf (m : Manager) (t : Handle) : string :=
  default (defaultQueueName m) (m_taskQueue m !! t).

Definition isWithinSchedule (info : QueueInfo) (now : QTime) : bool :=
  if negb (scheduleEnabled info) then true
  else
    let start := startMinutes info in
    let end_ := endMinutes info in
    let current := hour now * 60 + minute now in
    if start =? end_ then true
    else if start <? end_ then (start <=? current) && (current <? end_)
    else (start <=? current) || (current <? end_).

Definition isQueueAllowed (info : QueueInfo) (now : QTime) : bool :=
  if scheduleEnabled info && negb (isWithinSchedule info now) then false
  else if quotaEnabled info && (0 <? quotaBytes info)
          && (quotaBytes info <=? downloadedToday info) then false
  else true.

Section WithQt.
Context `{Qt : QtModel}.

(** The members a default-constructed [QueueInfo] starts with; their
    initialisers are in the module interface. *)
Variable blankQueue : QueueInfo.

Definition createQueue (clk : Clock) (name : string) (m : Manager) : Manager :=
  let trimmedName := trimmed name in
  if String.eqb trimmedName "" then m
  else if bool_decide (is_Some (m_queues m !! trimmedName)) then m
  else
    let info :=
      set_lastResetDate (currentDate clk)
        (set_maxSpeed 0 (set_maxConcurrent (m_maxConcurrent m) (set_name trimmedName blankQueue))) in
    set_m_queueOrder (m_queueOrder m ++ [trimmedName])
      (set_m_queues (<[trimmedName := info]> (m_queues m)) m).

(** Modelled from the spec: [DownloaderTask::setMaxSpeed] is an inline member
    of the module interface, which is not among the sources; it stores the
    task's effective max speed (bytes/sec, 0 = unlimited). *)
Definition setMaxSpeed (v : Z) (t : Task.Task) : Task.Task := Task.set_m_maxSpeed v t.

Definition effectiveSpeed (m : Manager) (t : Handle) : Z :=
  let effective := m_globalMaxSpeed m in
  let effective :=
    match m_queues m !! queueOf m t with
    | Some info =>
        if (0 <? maxSpeed info) && ((effective =? 0) || (maxSpeed info <? effective))
        then maxSpeed info else effective
    | None => effective
    end in
  let taskLimit := default 0 (m_taskMaxSpeed m !! t) in
  if (0 <? taskLimit) && ((effective =? 0) || (taskLimit <? effective))
  then taskLimit else effective.

Definition applyTaskSpeed (t : Handle) (m : Manager) : Manager :=
  set_tasks (alter (setMaxSpeed (effectiveSpeed m t)) t (tasks m)) m.

(** A call of a member function of task [t]: the task runs against the shared
    disk; what it emitted is handed back to the caller. *)
Definition call (t : Handle) (op : Task.World -> Task.World) (m : Manager)
    : Manager * list Task.Signal :=
  match tasks m !! t with
  | None => (m, [])
  | Some obj =>
      let w := op (Task.mkWorld obj (disk m) [] [] (replyCounter m)) in
      (set_taskTimers (taskTimers m ++ map (pair t) (Task.timers w))
         (set_replyCounter (Task.nextReply w)
            (set_disk (Task.fs w)
               (set_tasks (<[t := Task.task w]> (tasks m)) m))),
       Task.signals w)
  end.

(** The slot connected to [finished] runs once per emission. *)
Definition deliver (slot : Handle -> Manager -> Manager) (t : Handle)
    (emitted : list Task.Signal) (m : Manager) : Manager :=
  fold_left (fun m s => match s with
                        | Task.finished _ => slot t m
                        | _ => m
                        end) emitted m.

(** A member call followed by the slots its signals reach.  ([start],
    [restart] and [cancel] emit [finished] as their last statement, so the
    slot sees the task as the call leaves it.) *)
Definition callAndDeliver (slot : Handle -> Manager -> Manager) (t : Handle)
    (op : Task.World -> Task.World) (m : Manager) : Manager :=
  let '(m, emitted) := call t op m in deliver slot t emitted m.

(** The first loop of [startQueued]: [running] and [runningPerQueue]. *)
Definition countRunning (m : Manager) : Z * gmap string Z :=
  fold_left (fun acc t =>
               match tasks m !! t with
               | Some obj =>
                   if Task.isRunning obj then
                     (fst acc + 1,
                      <[queueOf m t := default 0 (snd acc !! queueOf m t) + 1]> (snd acc))
                   else acc
               | None => acc
               end)
            (m_queue m) (0, ∅).

(** The second loop of [startQueued] over the candidates still to visit. *)
Fixpoint admitQueued (clk : Clock) (slot : Handle -> Manager -> Manager)
    (candidates : list Handle) (running : Z) (runningPerQueue : gmap string Z)
    (m : Manager) : Manager :=
  match candidates with
  | [] => m
  | candidate :: rest =>
      if m_maxConcurrent m <=? running then m
      else
        match tasks m !! candidate with
        | None => admitQueued clk slot rest running runningPerQueue m
        | Some obj =>
            if negb (Task.isIdle obj) then admitQueued clk slot rest running runningPerQueue m
            else if m_pauseOnBattery m && m_onBattery m
            then admitQueued clk slot rest running runningPerQueue m
            else
              let qname := queueOf m candidate in
              let m := if bool_decide (is_Some (m_queues m !! qname)) then m
                       else createQueue clk qname m in
              match m_queues m !! qname with
              | None => admitQueued clk slot rest running runningPerQueue m
              | Some info =>
                  if negb (isQueueAllowed info (currentTime clk))
                  then admitQueued clk slot rest running runningPerQueue m
                  else
                    let queueLimit :=
                      if 0 <? maxConcurrent info then maxConcurrent info
                      else m_maxConcurrent m in
                    if queueLimit <=? default 0 (runningPerQueue !! qname)
                    then admitQueued clk slot rest running runningPerQueue m
                    else
                      let m := applyTaskSpeed candidate m in
                      let m := callAndDeliver slot candidate (Task.start (taskEnv clk)) m in
                      admitQueued clk slot rest (running + 1)
                        (<[qname := default 0 (runningPerQueue !! qname) + 1]> runningPerQueue)
                        m
              end
        end
  end.

(** [startQueued] with the slot that [finished] reaches left open. *)
Definition startQueuedWith (clk : Clock) (slot : Handle -> Manager -> Manager)
    (m : Manager) : Manager :=
  let '(running, runningPerQueue) := countRunning m in
  admitQueued clk slot (m_queue m) running runningPerQueue m.

Definition toast (x : Toast) (m : Manager) : Manager :=
  set_toasts (toasts m ++ [x]) m.

(** [onTaskFinishedWrapper] for sender [t], with the nested slot invocation
    and [startQueued] left open. *)
Definition onTaskFinishedWrapperWith (clk : Clock)
    (slot : Handle -> Manager -> Manager) (startQueued : Manager -> Manager)
    (t : Handle) (m : Manager) : Manager :=
  match tasks m !! t with
  | None => m
  | Some obj =>
    if m_bulkCancelInProgress m then m
    else
      let m := set_m_taskSpeed (<[t := 0]> (m_taskSpeed m)) m in
      let m := set_m_taskCompletedAt
                 (<[t := Task.wallClock (taskEnv clk)]> (m_taskCompletedAt m)) m in
      let state := Task.stateString obj in
      let m :=
        if String.eqb state "Done" then toast ToastFinished m
        else if String.eqb state "Error" then toast ToastFailed m
        else if String.eqb state "Canceled" then toast ToastCanceled m
        else m in
      let m :=
        if String.eqb state "Error" then
          let w := Task.mkWorld obj (disk m) [] [] (replyCounter m) in
          let '(advanced, w) := Task.advanceMirror w in
          let m := set_tasks (<[t := Task.task w]> (tasks m)) m in
          if advanced then
            let m := toast (ToastSwitchingMirror (Task.m_url (Task.task w))) m in
            let m := callAndDeliver slot t (Task.restart (taskEnv clk)) m in
            startQueued m
          else
            let maxRetries :=
              if 0 <=? Task.m_retryMax obj then Task.m_retryMax obj else m_autoRetryMax m in
            let delaySec :=
              if 0 <=? Task.m_retryDelaySec obj then Task.m_retryDelaySec obj
              else m_autoRetryDelaySec m in
            let attempts := default 0 (m_taskRetryCount m !! t) in
            if attempts <? maxRetries then
              let m := set_m_taskRetryCount (<[t := attempts + 1]> (m_taskRetryCount m)) m in
              let m := toast (ToastRetrying delaySec) m in
              (* QTimer::singleShot(delaySec * 1000, ...): a product of two ints *)
              set_retryTimers (retryTimers m ++ [(wrapInt (delaySec * 1000), t)]) m
            else m
        else m in
      startQueued m
  end.

(** Signals are delivered by direct calls, so a slot can run inside a slot;
    [depth] bounds that nesting. *)
Fixpoint onTaskFinishedWrapper (depth : nat) (clk : Clock) (t : Handle)
    (m : Manager) : Manager :=
  match depth with
  | O => m
  | S depth' =>
      onTaskFinishedWrapperWith clk
        (onTaskFinishedWrapper depth' clk)
        (startQueuedWith clk (onTaskFinishedWrapper depth' clk))
        t m
  end.

Definition startQueued (depth : nat) (clk : Clock) (m : Manager) : Manager :=
  startQueuedWith clk (onTaskFinishedWrapper depth clk) m.

(** The closure [onTaskFinishedWrapper] hands to [QTimer::singleShot]. *)
Definition retryTimerFired (depth : nat) (clk : Clock) (t : Handle)
    (m : Manager) : Manager :=
  match tasks m !! t with
  | None => m
  | Some obj =>
      if String.eqb (Task.stateString obj) "Error" then
        startQueued depth clk
          (callAndDeliver (onTaskFinishedWrapper depth clk) t
             (Task.restart (taskEnv clk)) m)
      else m
  end.

Definition pauseTask (clk : Clock) (index : nat) (m : Manager) : Manager :=
  match m_model m !! index with
  | None => m
  | Some t => fst (call t (Task.pause (taskEnv clk)) m)
  end.

Definition resumeTask (depth : nat) (clk : Clock) (index : nat) (m : Manager) : Manager :=
  match m_model m !! index with
  | None => m
  | Some t =>
      startQueued depth clk
        (callAndDeliver (onTaskFinishedWrapper depth clk) t (Task.resume (taskEnv clk)) m)
  end.

Definition togglePause (depth : nat) (clk : Clock) (index : nat) (m : Manager) : Manager :=
  match m_model m !! index with
  | None => m
  | Some t =>
      match tasks m !! t with
      | None => m
      | Some obj =>
          let state := Task.stateString obj in
          if String.eqb state "Active" then fst (call t (Task.pause (taskEnv clk)) m)
          else if String.eqb state "Paused" then
            startQueued depth clk
              (callAndDeliver (onTaskFinishedWrapper depth clk) t
                 (Task.resume (taskEnv clk)) m)
          else m
      end
  end.

Definition resumeAll (depth : nat) (clk : Clock) (m : Manager) : Manager :=
  let m :=
    fold_left (fun m t =>
                 match tasks m !! t with
                 | Some obj =>
                     if String.eqb (Task.stateString obj) "Paused" then
                       callAndDeliver (onTaskFinishedWrapper depth clk) t
                         (Task.resume (taskEnv clk)) m
                     else m
                 | None => m
                 end)
              (m_queue m) m in
  startQueued depth clk m.

Definition cancelAll (depth : nat) (clk : Clock) (m : Manager) : Manager :=
  let all := m_queue m in
  let m := set_m_bulkCancelInProgress true m in
  let m := fold_left (fun m t =>
                        callAndDeliver (onTaskFinishedWrapper depth clk) t Task.cancel m)
             all m in
  let m := set_m_bulkCancelInProgress false m in
  set_m_taskQueue ∅
    (set_m_taskRetryCount ∅
       (set_m_taskCompletedAt ∅
          (set_m_taskMaxSpeed ∅
             (set_m_taskSpeed ∅ (set_m_queue [] m))))).

(** Whether handle [t] is a running task, and one assigned to queue [q]. *)
Definition runs (m : Manager) (t : Handle) : bool :=
  match tasks m !! t with
  | Some obj => Task.isRunning obj
  | None => false
  end.

Definition runsIn (m : Manager) (q : string) (t : Handle) : bool :=
  runs m t && String.eqb (queueOf m t) q.

(** The number of tasks of [m_queue] that are running, and of those assigned
    to queue [q]. *)
Definition runningCount (m : Manager) : Z :=
  Z.of_nat (length (List.filter (runs m) (m_queue m))).

Definition runningInQueue (m : Manager) (q : string) : Z :=
  Z.of_nat (length (List.filter (runsIn m q) (m_queue m))).

(** [queueMaxConcurrent(name)], with the fallback [startQueued] applies. *)
Definition queueLimitOf (m : Manager) (q : string) : Z :=
  match m_queues m !! q with
  | Some info => if 0 <? maxConcurrent info then maxConcurrent info else m_maxConcurrent m
  | None => m_maxConcurrent m
  end.

(** The limits of the specification's admission rule. *)
Definition withinLimits (m : Manager) : Prop :=
  runningCount m <= m_maxConcurrent m
  /\ forall q, runningInQueue m q <= queueLimitOf m q.

(** No queued task would fail in [start()] for want of a valid URL (such a
    task finishes on the spot and re-enters the manager from inside
    [startQueued]). *)
Definition startsCleanly (m : Manager) : Prop :=
  forall t obj,
    tasks m !! t = Some obj -> Task.isIdle obj = true ->
    urlIsValid (Task.currentUrl obj) = true.

(** The queue assignment and the limits of [m] are those of [m0]. *)
Definition sameSetup (m0 m : Manager) : Prop :=
  m_queue m = m_queue m0
  /\ m_taskQueue m = m_taskQueue m0
  /\ m_maxConcurrent m = m_maxConcurrent m0
  /\ m_pauseOnBattery m = m_pauseOnBattery m0
  /\ m_onBattery m = m_onBattery m0
  /\ defaultQueueName m = defaultQueueName m0
  /\ m_queueOrder m <> []
  /\ forall q, queueLimitOf m q = queueLimitOf m0 q.

End WithQt.

End Manager.

(** ** Vocabulary of the specification *)


(** A reading of the Qt services on plain POSIX paths, for running the model
    on concrete inputs: a URL is valid unless empty, [file:///x] is the
    local file [/x], relative paths live in the root directory, numbers are
    written as in the C locale. *)
Module PosixQt.

Fixpoint hasSlash (s : string) : bool :=
  match s with
  | EmptyString => false
  | String c rest => if Ascii.eqb c "/"%char then true else hasSlash rest
  end.

Fixpoint afterLastSlash (s : string) : string :=
  match s with
  | EmptyString => EmptyString
  | String c rest =>
      if hasSlash rest then afterLastSlash rest
      else if Ascii.eqb c "/"%char then rest else s
  end.

Fixpoint beforeLastSlash (s : string) : string :=
  match s with
  | EmptyString => EmptyString
  | String c rest => if hasSlash rest then String c (beforeLastSlash rest) else EmptyString
  end.

Definition rooted (p : string) : string :=
  if String.prefix "/" p then p else String "/"%char p.

Definition posixAbsolutePath (p : string) : string :=
  match beforeLastSlash (rooted p) with
  | EmptyString => "/"%string
  | dir => dir
  end.

Definition posixFilePath (dir name : string) : string :=
  if String.prefix "/" name then name
  else if String.eqb dir "/" then String "/"%char name
  else dir +:+ String "/"%char name.

Definition posixToLocalFile (url : string) : option string :=
  if String.prefix "file:///" url
  then Some (String "/"%char (substring 8 (String.length url) url))
  else None.

Definition qt : QtModel := {|
  urlIsValid := fun s => negb (String.eqb s "");
  toLocalFile := posixToLocalFile;
  absolutePath := posixAbsolutePath;
  fileName := afterLastSlash;
  filePath := posixFilePath;
  localeNumber := number
|}.

End PosixQt.

Module Spec.

(** The constructor [DownloaderTask(url, filePath, segments)].  The initial
    values of [m_useRange], of [m_useSingleTemp] and of the statistics are
    set in the module interface, which is not among the sources; they are
    arguments here. *)
Definition construct `{Qt : QtModel} (useRangeInit useSingleTempInit : bool)
    (statsInit : Task.SpeedStats) (url path : string) (segments : Z) : Task.Task :=
  let normalized := Utils.normalizeFilePath path in
  Task.mkTask Task.Idle false url normalized (Z.max 1 segments)
    0 useRangeInit false "" "" [] 0 [] None None None [] false false
    useSingleTempInit (normalized +:+ ".part") 0 0 0 0 "" 0 "" (-1) (-1)
    statsInit.

(** A task that has emitted and scheduled nothing yet, on disk [f]. *)
Definition fresh (t : Task.Task) (f : FS) : Task.World := Task.mkWorld t f [] [] 0%nat.

(** A sequence of turns of the event loop, each with its own surroundings. *)
Definition run `{Qt : QtModel} (turns : list (Task.Env * Task.Event))
    (w : Task.World) : Task.World :=
  fold_left (fun w turn => Task.handle (fst turn) (snd turn) w) turns w.

(** The decision table of the specification for the number of segments:
    1 below 4 MiB, at most 2 below 32 MiB, at most 4 below 128 MiB, the
    configured count otherwise. *)
Definition MiB : Z := 1024 * 1024.

Definition tableSegments (size configured : Z) : Z :=
  if size <? 4 * MiB then 1
  else if size <? 32 * MiB then Z.min configured 2
  else if size <? 128 * MiB then Z.min configured 4
  else configured.

(** "Accept-Ranges: bytes" is present. *)
Definition rangesAccepted (r : Task.HeadReply) : bool :=
  String.eqb (Task.toLower (Task.acceptRanges r)) "bytes".

(** A usable Content-Length. *)
Definition validLength (r : Task.HeadReply) : option Z :=
  match Task.contentLength r with
  | Some cl => if 0 <? cl then Some cl else None
  | None => None
  end.

(** A [finished] signal comes after the task announced [Canceled]. *)
Definition finishedAfterCanceled (log : list Task.Signal) : Prop :=
  exists before between after success,
    log = before ++ Task.stateChanged Task.Canceled :: between
                 ++ Task.finished success :: after.

Definition isFinished (s : Task.Signal) : bool :=
  match s with Task.finished _ => true | _ => false end.

(** The events that begin a transfer anew, after which [totalDownloaded()]
    restarts from zero or from what is on disk. *)
Definition beginsAnew (e : Task.Event) : bool :=
  match e with
  | Task.CallCancel | Task.CallRestart => true
  | Task.HeadFinished _ _ => true
  | Task.SingleMetaData _ _ _ _ => true
  | Task.TimerFired Task.RestartSingleFromZero => true
  | Task.TimerFired Task.FallBackToSingle => true
  | _ => false
  end.

(** The world [cancel] hands to [cleanup] for a task that is not done. *)
Definition canceling (w : Task.World) : Task.World :=
  Task.clearPausedAt
    (Task.clearPauseReason
       (Task.emit (Task.stateChanged Task.Canceled)
          (Task.upd (Task.set_m_state Task.Canceled) w))).

(** A step that leaves the state alone and emits no [finished]. *)
Definition quiet (w w' : Task.World) : Prop :=
  Task.m_state (Task.task w') = Task.m_state (Task.task w)
  /\ exists emitted,
       Task.signals w' = Task.signals w ++ emitted
       /\ Forall (fun s => isFinished s = false) emitted.

(** [allowed] as the specification words it, from the age of the window. *)
Definition allowedBySpec (maxSpeed elapsedInWindow bytesInWindow bufferLen : Z) : Z :=
  if maxSpeed =? 0 then bufferLen
  else Z.quot (maxSpeed * elapsedInWindow) 1000 - bytesInWindow.

(** What is left of the paths of segment part files. *)
Definition partPaths (t : Task.Task) : list string :=
  map Task.tempFilePath (Task.m_segmentsInfo t).

(** The file [cleanup] removes besides the segment parts. *)
Definition singleTarget (t : Task.Task) : string :=
  if Task.m_useSingleTemp t && negb (String.eqb (Task.m_singleTempPath t) "")
  then Task.m_singleTempPath t else Task.m_filePath t.



(** What the layout loop of the HEAD closure makes of index [i] out of
    [segCount] segments of a file of [total] bytes, whatever part file it
    finds. *)
Definition laidOut (total segCount : Z) (i : Z) (s : Task.Segment) : Prop :=
  Task.s_start s = i * Z.quot total segCount
  /\ Task.s_end s = (if i =? segCount - 1 then total - 1
                     else (i + 1) * Z.quot total segCount - 1)
  /\ Task.downloaded s <= Z.max 0 (Task.segLen s).

End Spec.

(** ** Concrete surroundings and inputs *)

Module Examples.

(** Surroundings in which every file operation succeeds, writes take all
    they are given, no slot touches the task and no time passes. *)
Definition calm : Task.Env :=
  Task.mkEnv 0 0 0 0 0 (fun _ => true) (fun _ => true) (fun n => n)
    (fun _ => Task.CopyAll) (fun _ _ => Task.SlotIdle).

(** The same [ms] milliseconds into the throttle window. *)
Definition calmAt (ms : Z) : Task.Env :=
  Task.mkEnv ms ms ms 0 0 (fun _ => true) (fun _ => true) (fun n => n)
    (fun _ => Task.CopyAll) (fun _ _ => Task.SlotIdle).

Definition noon : Manager.Clock :=
  Manager.mkClock calm (Manager.mkQTime 12 0) 0.

Definition blank : Manager.QueueInfo :=
  Manager.mkQueueInfo "" 0 0 false 0 0 false 0 0 0.

(** HEAD replies: without a Content-Length, and with one plus
    [Accept-Ranges: bytes]. *)
Definition noLength : Task.HeadReply := Task.mkHeadReply false "" "" None "".

Definition ranged (size : Z) : Task.HeadReply :=
  Task.mkHeadReply false "v1" "" (Some size) "bytes".

(** Statistics of a task that has not run: an invalid speed timer, no speed,
    no ETA, no sample, a history of at most 120 samples. *)
Definition idleStats : Task.SpeedStats :=
  Task.mkSpeedStats None 0 0 (-1) 0 (-1) 0 [] 120.

(** The download of http://h/f.bin to /d/f.bin. *)
Definition download (segments : Z) : Task.Task :=
  Spec.construct (Qt := PosixQt.qt) true true idleStats "http://h/f.bin" "/d/f.bin" segments.

(** That download after [start()], waiting for its HEAD reply. *)
Definition started (segments : Z) (disk : FS) : Task.World :=
  Task.start (Qt := PosixQt.qt) calm (Spec.fresh (download segments) disk).

(** A first HEAD reply without Content-Length, a pause, a resume, and then
    a HEAD reply that offers ranges for 200 MiB. *)
Definition secondHead : Task.World :=
  Spec.run (Qt := PosixQt.qt)
    [(calm, Task.CallStart);
     (calm, Task.HeadFinished 0%nat noLength);
     (calm, Task.CallPause);
     (calm, Task.CallResume);
     (calm, Task.HeadFinished 2%nat (ranged (200 * Spec.MiB)))]
    (Spec.fresh (download 8) ∅).


(** A one-segment download resuming a part file of 1000 bytes (next to a
    stale file at the final path). *)
Definition resuming : Task.World :=
  Spec.run (Qt := PosixQt.qt)
    [(calm, Task.CallStart); (calm, Task.HeadFinished 0%nat (ranged 5000))]
    (Spec.fresh (download 1)
       {["/d/f.bin"%string := 7; "/d/f.bin.part"%string := 1000]}).

(** [resuming] with five bytes buffered and a cap of 1000 bytes/s. *)
Definition buffered : Task.World :=
  Task.upd (fun t => Task.set_m_maxSpeed 1000
                       (Task.set_m_singleBuffer [x00; x01; x02; x03; x04]%byte t))
    resuming.

(** A manager with one queue, one slot and two tasks in the given states. *)
Definition twoTasks (first second : Task.State) : Manager.Manager :=
  Manager.mkManager
    {[0%nat := Task.set_m_state first (download 8);
      1%nat := Task.set_m_state second (download 8)]}
    [0%nat; 1%nat] [0%nat; 1%nat]
    {[0%nat := "General"%string; 1%nat := "General"%string]}
    ∅ ∅ ∅ ∅
    {["General"%string := Manager.set_maxConcurrent 1 (Manager.set_name "General" blank)]}
    ["General"%string]
    1 0 false false false 3 5 ∅ 0%nat [] [] [].

(** A manager whose only task failed, with the given mirrors and a resume
    validator from the first one. *)
Definition failed (mirrors : list string) : Manager.Manager :=
  Manager.mkManager
    {[0%nat := Task.set_m_etag "E1"
                 (Task.set_m_mirrorUrls mirrors
                    (Task.set_m_anyError true
                       (Task.set_m_state Task.Finished (download 8))))]}
    [0%nat] [0%nat] {[0%nat := "General"%string]}
    ∅ ∅ ∅ ∅
    {["General"%string := Manager.set_maxConcurrent 1 (Manager.set_name "General" blank)]}
    ["General"%string]
    1 0 false false false 3 5 ∅ 0%nat [] [] [].

(** A manager with two slots, one queue without a limit of its own and four
    queued tasks, the first of them without a URL. *)
Definition fourTasks : Manager.Manager :=
  Manager.mkManager
    {[0%nat := Spec.construct (Qt := PosixQt.qt) true true idleStats "" "/d/e.bin" 8;
      1%nat := download 8; 2%nat := download 8; 3%nat := download 8]}
    [0%nat; 1%nat; 2%nat; 3%nat] [0%nat; 1%nat; 2%nat; 3%nat]
    {[0%nat := "General"%string; 1%nat := "General"%string;
      2%nat := "General"%string; 3%nat := "General"%string]}
    ∅ ∅ ∅ ∅
    {["General"%string := Manager.set_name "General" blank]}
    ["General"%string]
    2 0 false false false 3 5 ∅ 0%nat [] [] [].

End Examples.

(** ** src/core/downloadertask.cpp: the mirror list *)

Module Mirrors.
Import Task.

Section WithQt.
Context `{Qt : QtModel}.

Definition setMirrorUrls (urls : list string) (w : World) : World :=
  if bool_decide (m_mirrorUrls (task w) = urls) then w
  else
    let w := upd (set_m_mirrorUrls urls) w in
    let w :=
      match m_mirrorUrls (task w) with
      | [] => w
      | first :: _ =>
          let w := upd (set_m_mirrorIndex 0) w in
          let w := if urlIsValid first then upd (set_m_url first) w else w in
          emit mirrorIndexChanged w
      end in
    emit mirrorUrlsChanged w.

Definition setMirrorIndex (index : Z) (w : World) : World :=
  let index := if index <? 0 then 0 else index in
  if m_mirrorIndex (task w) =? index then w
  else
    let w := upd (set_m_mirrorIndex index) w in
    let t := task w in
    let w :=
      if negb (bool_decide (m_mirrorUrls t = []))
         && (m_mirrorIndex t <? Z.of_nat (length (m_mirrorUrls t)))
      then
        let nextUrl := nth (Z.to_nat (m_mirrorIndex t)) (m_mirrorUrls t) ""%string in
        if urlIsValid nextUrl then upd (set_m_url nextUrl) w else w
      else w in
    emit mirrorIndexChanged w.

(** The mirror index is not negative, and a current URL that is valid is
    the URL the task holds. *)
Definition mirrorInStep (t : Task) : Prop :=
  0 <= m_mirrorIndex t
  /\ (urlIsValid (currentUrl t) = true -> m_url t = currentUrl t).

End WithQt.

End Mirrors.

(** ** src/core/downloadmanager.cpp: bulk operations, speed and queues *)

Module Queues.
Import Manager.

Section WithQt.
Context `{Qt : QtModel}.
Variable blankQueue : QueueInfo.

Definition pauseAll (clk : Clock) (m : Manager) : Manager :=
  fold_left (fun m t =>
               match tasks m !! t with
               | Some obj =>
                   if Task.isRunning obj then fst (call t (Task.pause (taskEnv clk)) m)
                   else m
               | None => m
               end)
            (m_queue m) m.

Definition setGlobalMaxSpeed (v : Z) (m : Manager) : Manager :=
  let v := if v <? 0 then 0 else v in
  if m_globalMaxSpeed m =? v then m
  else
    let m := set_m_globalMaxSpeed v m in
    fold_left (fun m t => applyTaskSpeed t m) (m_queue m) m.

Definition ensureDefaultQueue (clk : Clock) (m : Manager) : Manager :=
  match m_queueOrder m with
  | [] =>
      let info :=
        set_lastResetDate (currentDate clk)
          (set_maxConcurrent (m_maxConcurrent m) (set_name "General" blankQueue)) in
      set_m_queueOrder (m_queueOrder m ++ [name info])
        (set_m_queues (<[name info := info]> (m_queues m)) m)
  | _ :: _ => m
  end.

(** [m_queueOrder[i] = trimmed] wherever [m_queueOrder[i] == oldName]. *)
Definition replaceName (oldName newName : string) (order : list string) : list string :=
  map (fun q => if String.eqb q oldName then newName else q) order.

(** The rows of the model are not among the data members kept here, so the
    calls of [m_model.updateMetadata] are left out. *)
Definition renameQueue (oldName newName : string) (m : Manager) : Manager :=
  let trimmedName := trimmed newName in
  if String.eqb trimmedName "" then m
  else
    match m_queues m !! oldName with
    | None => m
    | Some info =>
        if bool_decide (is_Some (m_queues m !! trimmedName)) then m
        else
          let m := set_m_queues
                     (<[trimmedName := set_name trimmedName info]>
                        (delete oldName (m_queues m))) m in
          let m := set_m_queueOrder (replaceName oldName trimmedName (m_queueOrder m)) m in
          set_m_taskQueue
            ((fun q => if String.eqb q oldName then trimmedName else q) <$> m_taskQueue m) m
    end.

(** [removeQueue] up to its closing [startQueued()]: the tasks of the queue
    move to the default queue and take its speed. *)
Definition dropQueue (name : string) (m : Manager) : Manager :=
  let fallback := defaultQueueName m in
  let moved := List.filter (fun t => bool_decide (m_taskQueue m !! t = Some name))
                 (map fst (map_to_list (m_taskQueue m))) in
  let m := fold_left (fun m t =>
                        applyTaskSpeed t
                          (set_m_taskQueue (<[t := fallback]> (m_taskQueue m)) m))
             moved m in
  set_m_queueOrder (List.filter (fun q => negb (String.eqb q name)) (m_queueOrder m))
    (set_m_queues (delete name (m_queues m)) m).

Definition removeQueue (depth : nat) (clk : Clock) (name : string) (m : Manager) : Manager :=
  if negb (bool_decide (is_Some (m_queues m !! name))) then m
  else if String.eqb name (defaultQueueName m) then m
  else startQueued blankQueue depth clk (dropQueue name m).

End WithQt.

(** The queue table and the queue order list name the same queues, each
    once, and every entry carries its own name. *)
Definition queuesInStep (m : Manager) : Prop :=
  NoDup (m_queueOrder m)
  /\ (forall q, q ∈ m_queueOrder m <-> is_Some (m_queues m !! q))
  /\ (forall q info, m_queues m !! q = Some info -> name info = q).

(** What admission and the finished handler leave alone: the queue list,
    the rows, the assignment of tasks to queues, every limit and switch; and
    what they only add to: the queues and the notices. *)
Definition keepsSetup (m m' : Manager) : Prop :=
  m_queue m' = m_queue m
  /\ m_model m' = m_model m
  /\ m_taskQueue m' = m_taskQueue m
  /\ m_taskMaxSpeed m' = m_taskMaxSpeed m
  /\ m_maxConcurrent m' = m_maxConcurrent m
  /\ m_globalMaxSpeed m' = m_globalMaxSpeed m
  /\ m_pauseOnBattery m' = m_pauseOnBattery m
  /\ m_onBattery m' = m_onBattery m
  /\ m_bulkCancelInProgress m' = m_bulkCancelInProgress m
  /\ m_autoRetryMax m' = m_autoRetryMax m
  /\ m_autoRetryDelaySec m' = m_autoRetryDelaySec m
  /\ (forall q info, m_queues m !! q = Some info -> m_queues m' !! q = Some info)
  /\ m_queueOrder m `prefix_of` m_queueOrder m'
  /\ toasts m `prefix_of` toasts m'.

End Queues.

(** ** src/utils/download_utils.cpp: what is on disk, checksums *)

Module DiskUtils.

Section WithQt.
Context `{Qt : QtModel}.

(** The loop over the part files of [bytesReceivedOnDisk]: [anyParts] and
    [partsTotal].  The disk of the model holds regular files only, so
    [info.exists() && info.isFile()] is [file_exists].  The name of a part
    is built by the same chained [QString::arg] as in the task, which is
    [Task.partPath]. *)
Definition partsOnDisk (fs : FS) (localPath : string) (maxParts : Z) : bool * Z :=
  fold_left (fun acc i =>
               let partPath := Task.partPath localPath i in
               if negb (file_exists fs partPath) then acc
               else (true, snd acc + file_size fs partPath))
            (seqZ 0 maxParts) (false, 0).

Definition bytesReceivedOnDisk (fs : FS) (filePath : string) (segments : Z) : Z :=
  let localPath := Utils.normalizeFilePath filePath in
  if String.eqb localPath "" then 0
  else
    let '(anyParts, partsTotal) := partsOnDisk fs localPath (Z.max 1 segments) in
    if anyParts then partsTotal
    else if file_exists fs (localPath +:+ ".part") then file_size fs (localPath +:+ ".part")
    else if file_exists fs localPath then file_size fs localPath
    else 0.

Definition fileExistsPath (fs : FS) (path : string) : bool :=
  let normalized := Utils.normalizeFilePath path in
  if String.eqb normalized "" then false else file_exists fs normalized.

End WithQt.

(** [QString::remove(' ')] *)
Fixpoint removeSpaces (s : string) : string :=
  match s with
  | EmptyString => EmptyString
  | String c rest =>
      if Ascii.eqb c " "%char then removeSpaces rest else String c (removeSpaces rest)
  end.

Definition normalizeChecksum (value : string) : string :=
  removeSpaces (Task.toLower (Manager.trimmed value)).

Definition detectChecksumAlgo (expected : string) : string :=
  let norm := normalizeChecksum expected in
  let len := Z.of_nat (String.length norm) in
  if len =? 32 then "MD5"
  else if len =? 40 then "SHA1"
  else if len =? 64 then "SHA256"
  else if len =? 128 then "SHA512"
  else "".

End DiskUtils.

(** ** src/utils/category_utils.cpp *)

Module Category.

(** [lower.mid(lower.lastIndexOf('.') + 1)], empty without a dot. *)
Fixpoint afterLastDot (s : string) : string :=
  match s with
  | EmptyString => EmptyString
  | String c rest =>
      if Utils.hasDot rest then afterLastDot rest
      else if Ascii.eqb c "."%char then rest else EmptyString
  end.

(** [QStringList::contains] *)
Definition contains (l : list string) (s : string) : bool := existsb (String.eqb s) l.

Definition detectCategory (filePath : string) : string :=
  let lower := Task.toLower filePath in
  let ext := afterLastDot lower in
  let video := ["mp4"; "mkv"; "mov"; "avi"; "webm"]%string in
  let audio := ["mp3"; "wav"; "aac"; "flac"; "m4a"; "ogg"]%string in
  let images := ["jpg"; "jpeg"; "png"; "gif"; "bmp"; "webp"]%string in
  let archives := ["zip"; "rar"; "7z"; "tar"; "gz"; "bz2"]%string in
  let documents :=
    ["pdf"; "doc"; "docx"; "xls"; "xlsx"; "ppt"; "pptx"; "txt"; "md"]%string in
  let programs := ["dmg"; "exe"; "msi"; "pkg"; "app"]%string in
  if contains video ext then "Video"
  else if contains audio ext then "Audio"
  else if contains images ext then "Images"
  else if contains archives ext then "Archives"
  else if contains documents ext then "Documents"
  else if contains programs ext then "Programs"
  else "Other".

Definition categoryNames : list string :=
  ["Auto"; "Video"; "Audio"; "Images"; "Archives"; "Documents"; "Programs"; "Other"]%string.

End Category.

(** ** src/utils/version_utils.cpp *)

(** [QVersionNumber] and the case-insensitive [QString::compare] live outside
    the repository. *)
Class QtVersion := {
  VersionNumber : Type;
  (** [QVersionNumber::fromString] *)
  versionFromString : string -> VersionNumber;
  (** [QVersionNumber::compare] *)
  versionCompare : VersionNumber -> VersionNumber -> Z;
  (** [QString::compare(a, b, Qt::CaseInsensitive)] *)
  compareCaseInsensitive : string -> string -> Z
}.

Module Version.

Section WithQt.
Context `{QV : QtVersion}.

Record ParsedVersion := mkParsedVersion {
  base : VersionNumber;
  suffix : string;
  prerelease : bool
}.

(** [v.left(v.indexOf('-'))], and [v.mid(v.indexOf('-') + 1)] when there is a
    dash. *)
Fixpoint beforeDash (v : string) : string :=
  match v with
  | EmptyString => EmptyString
  | String c rest => if Ascii.eqb c "-"%char then EmptyString else String c (beforeDash rest)
  end.

Fixpoint afterDash (v : string) : option string :=
  match v with
  | EmptyString => None
  | String c rest => if Ascii.eqb c "-"%char then Some rest else afterDash rest
  end.

Definition parseVersion (input : string) : ParsedVersion :=
  let v := Manager.trimmed input in
  let v :=
    match v with
    | String c rest =>
        if Ascii.eqb c "v"%char || Ascii.eqb c "V"%char then rest else v
    | EmptyString => v
    end in
  match afterDash v with
  | Some tail =>
      let suffix := Manager.trimmed tail in
      mkParsedVersion (versionFromString (beforeDash v)) suffix
        (negb (String.eqb suffix ""))
  | None => mkParsedVersion (versionFromString v) "" false
  end.

Definition compareVersions (a b : string) : Z :=
  let va := parseVersion a in
  let vb := parseVersion b in
  let baseCmp := versionCompare (base va) (base vb) in
  if negb (baseCmp =? 0) then (if baseCmp <? 0 then -1 else 1)
  else if Bool.eqb (prerelease va) (prerelease vb) then
    let sufCmp := compareCaseInsensitive (suffix va) (suffix vb) in
    if sufCmp =? 0 then 0 else if sufCmp <? 0 then -1 else 1
  else if prerelease va then -1 else 1.

End WithQt.

End Version.

(** What a comparison function of Qt guarantees: swapping the arguments
    swaps the sign. *)
Class QtVersionLaws `{QV : QtVersion} : Prop := {
  versionCompare_swap :
    forall x y, Z.sgn (versionCompare y x) = - Z.sgn (versionCompare x y);
  compareCaseInsensitive_swap :
    forall a b, Z.sgn (compareCaseInsensitive b a) = - Z.sgn (compareCaseInsensitive a b)
}.

(** ** src/core/downloadmodel.cpp *)

Module Model.

(** A [DownloaderTask*]; [None] is [nullptr]. *)
Definition TaskPtr := option Manager.Handle.

(** [DownloadItem].  The struct is declared in the module interface, which
    is not among the sources; these are the members the member functions read
    and write. *)
Record DownloadItem := mkDownloadItem {
  fileName : string;
  received : Z;
  total : Z;
  finished : bool;
  task : TaskPtr;
  queueName : string;
  category : string
}.

Definition set_fileName (v : string) (x : DownloadItem) : DownloadItem :=
  mkDownloadItem v (received x) (total x) (finished x) (task x) (queueName x) (category x).
Definition set_progress (r t : Z) (x : DownloadItem) : DownloadItem :=
  mkDownloadItem (fileName x) r t (finished x) (task x) (queueName x) (category x).
Definition set_finished (v : bool) (x : DownloadItem) : DownloadItem :=
  mkDownloadItem (fileName x) (received x) (total x) v (task x) (queueName x) (category x).
Definition set_metadata (q c : string) (x : DownloadItem) : DownloadItem :=
  mkDownloadItem (fileName x) (received x) (total x) (finished x) (task x) q c.

Inductive Role :=
| FileNameRole | ProgressRole | FinishedRole | TaskRole | StatusRole
| BytesReceivedRole | BytesTotalRole | QueueRole | CategoryRole.

(** The model: its rows, the [dataChanged(row, row, roles)] signals emitted
    so far (oldest first) and the tasks handed to [deleteLater()]. *)
Record DownloadModel := mkDownloadModel {
  m_downloads : list DownloadItem;
  dataChanged : list (nat * list Role);
  deleted : list Manager.Handle
}.

Definition rowCount (m : DownloadModel) : Z := Z.of_nat (length (m_downloads m)).

(** The loop [for (i...) if (m_downloads[i].task == task) { ...; break; }]:
    the first row of [task], if any. *)
Fixpoint firstRowOf (t : TaskPtr) (rows : list DownloadItem) : option nat :=
  match rows with
  | [] => None
  | row :: rest =>
      if bool_decide (task row = t) then Some O
      else S <$> firstRowOf t rest
  end.

(** The body of such a loop that assigns [f row] to the row and emits
    [dataChanged] for [roles], unless [unchanged row] makes it [break]
    before. *)
Definition updateFirst (t : TaskPtr) (unchanged : DownloadItem -> bool)
    (f : DownloadItem -> DownloadItem) (roles : list Role) (m : DownloadModel)
    : DownloadModel :=
  match firstRowOf t (m_downloads m) with
  | None => m
  | Some i =>
      match m_downloads m !! i with
      | None => m
      | Some row =>
          if unchanged row then m
          else mkDownloadModel (<[i := f row]> (m_downloads m))
                 (dataChanged m ++ [(i, roles)]) (deleted m)
      end
  end.

Definition updateMetadata (t : TaskPtr) (queueName category : string)
    (m : DownloadModel) : DownloadModel :=
  match t with
  | None => m
  | Some _ =>
      updateFirst t (fun _ => false) (set_metadata queueName category)
        [QueueRole; CategoryRole] m
  end.

Definition seedProgress (t : TaskPtr) (bytesReceived bytesTotal : Z)
    (m : DownloadModel) : DownloadModel :=
  match t with
  | None => m
  | Some _ =>
      updateFirst t (fun _ => false) (set_progress bytesReceived bytesTotal)
        [ProgressRole; BytesReceivedRole; BytesTotalRole] m
  end.

Definition seedFinished (t : TaskPtr) (value : bool) (m : DownloadModel)
    : DownloadModel :=
  match t with
  | None => m
  | Some _ =>
      updateFirst t (fun row => Bool.eqb (finished row) value) (set_finished value)
        [FinishedRole] m
  end.

Definition updateFileName (t : TaskPtr) (name : string) (m : DownloadModel)
    : DownloadModel :=
  match t with
  | None => m
  | Some _ =>
      updateFirst t (fun row => String.eqb (fileName row) name) (set_fileName name)
        [FileNameRole] m
  end.

(** The slots; [senderTask] is [qobject_cast<DownloaderTask*>(sender())]. *)
Definition onTaskProgress (senderTask : TaskPtr) (bytesReceived bytesTotal : Z)
    (m : DownloadModel) : DownloadModel :=
  updateFirst senderTask (fun _ => false) (set_progress bytesReceived bytesTotal)
    [ProgressRole; BytesReceivedRole; BytesTotalRole] m.

Definition onTaskFinished (senderTask : TaskPtr) (m : DownloadModel) : DownloadModel :=
  updateFirst senderTask (fun _ => false) (set_finished true) [FinishedRole] m.

Definition taskAt (m : DownloadModel) (index : Z) : TaskPtr :=
  if (index <? 0) || (rowCount m <=? index) then None
  else
    match m_downloads m !! Z.to_nat index with
    | Some row => task row
    | None => None
    end.

Definition isFinishedAt (m : DownloadModel) (index : Z) : bool :=
  if (index <? 0) || (rowCount m <=? index) then false
  else
    match m_downloads m !! Z.to_nat index with
    | Some row => finished row
    | None => false
    end.

Definition removeAt (index : Z) (m : DownloadModel) : DownloadModel :=
  if (index <? 0) || (rowCount m <=? index) then m
  else
    match m_downloads m !! Z.to_nat index with
    | None => m
    | Some item =>
        mkDownloadModel (delete (Z.to_nat index) (m_downloads m)) (dataChanged m)
          (match task item with
           | Some t => deleted m ++ [t]
           | None => deleted m
           end)
    end.

(** [sortBy]: the role a name selects. *)
Definition roleOf (roleName : string) : Role :=
  if String.eqb roleName "fileName" then FileNameRole
  else if String.eqb roleName "bytesTotal" then BytesTotalRole
  else if String.eqb roleName "bytesReceived" then BytesReceivedRole
  else if String.eqb roleName "queueName" then QueueRole
  else if String.eqb roleName "category" then CategoryRole
  else if String.eqb roleName "status" then StatusRole
  else FileNameRole.

(** The comparator handed to [std::stable_sort]; [status] is
    [task->stateString()] of a row's task. *)
Definition lessText (ascending : bool) (lhs rhs : string) : bool :=
  if ascending then String.ltb lhs rhs else String.ltb rhs lhs.

Definition lessNumber (ascending : bool) (lhs rhs : Z) : bool :=
  if ascending then lhs <? rhs else rhs <? lhs.

Definition statusOf (status : Manager.Handle -> string) (x : DownloadItem) : string :=
  match task x with
  | Some t => status t
  | None => ""
  end.

Definition lessBy (status : Manager.Handle -> string) (role : Role) (ascending : bool)
    (a b : DownloadItem) : bool :=
  match role with
  | FileNameRole => lessText ascending (Task.toLower (fileName a)) (Task.toLower (fileName b))
  | BytesTotalRole => lessNumber ascending (total a) (total b)
  | BytesReceivedRole => lessNumber ascending (received a) (received b)
  | QueueRole => lessText ascending (Task.toLower (queueName a)) (Task.toLower (queueName b))
  | CategoryRole => lessText ascending (Task.toLower (category a)) (Task.toLower (category b))
  | StatusRole =>
      lessText ascending (Task.toLower (statusOf status a)) (Task.toLower (statusOf status b))
  | _ => lessText ascending (Task.toLower (fileName a)) (Task.toLower (fileName b))
  end.

(** [std::stable_sort]: with a comparator that is a strict weak ordering the
    outcome is determined; it is computed here by insertion from the right,
    each row going behind the rows that are less than it. *)
Fixpoint insertStable {A : Type} (less : A -> A -> bool) (x : A) (l : list A) : list A :=
  match l with
  | [] => [x]
  | y :: rest => if less y x then y :: insertStable less x rest else x :: l
  end.

Definition stableSort {A : Type} (less : A -> A -> bool) (l : list A) : list A :=
  fold_right (insertStable less) [] l.

Definition sortBy (status : Manager.Handle -> string) (roleName : string)
    (ascending : bool) (m : DownloadModel) : DownloadModel :=
  mkDownloadModel (stableSort (lessBy status (roleOf roleName) ascending) (m_downloads m))
    (dataChanged m) (deleted m).

End Model.

(** ** Concrete readings and inputs for the functions above *)

(** A reading of the version services of Qt on dotted numbers: [1.10.2] is
    the list 1, 10, 2, read up to the first character that fits no number;
    lists compare item by item, a longer list being above its prefix; texts
    compare by their characters in small letters. *)
Module DottedVersion.

Definition digitOf (c : ascii) : option Z :=
  let n := Z.of_N (N_of_ascii c) in
  if (48 <=? n) && (n <=? 57) then Some (n - 48) else None.

Fixpoint segmentsFrom (current : option Z) (s : string) : list Z :=
  match s with
  | EmptyString => option_list current
  | String c rest =>
      match digitOf c with
      | Some d => segmentsFrom (Some (10 * default 0 current + d)) rest
      | None =>
          match current with
          | Some n => if Ascii.eqb c "."%char then n :: segmentsFrom None rest else [n]
          | None => []
          end
      end
  end.

Fixpoint lexCompare (x y : list Z) : Z :=
  match x, y with
  | [], [] => 0
  | [], _ :: _ => -1
  | _ :: _, [] => 1
  | a :: x', b :: y' =>
      if a <? b then -1 else if b <? a then 1 else lexCompare x' y'
  end.

Definition codes (s : string) : list Z :=
  map (fun c => Z.of_N (N_of_ascii c)) (list_ascii_of_string s).

Definition qv : QtVersion := {|
  VersionNumber := list Z;
  versionFromString := segmentsFrom None;
  versionCompare := lexCompare;
  compareCaseInsensitive :=
    fun a b => lexCompare (codes (Task.toLower a)) (codes (Task.toLower b))
|}.

End DottedVersion.

Module Cases.
Import Examples.

(** A download of 200 MiB in segments, of which the first has received three
    bytes and the second two. *)
Definition segmented : Task.World :=
  Spec.run (Qt := PosixQt.qt)
    [(calm, Task.CallStart);
     (calm, Task.HeadFinished 0%nat (ranged (200 * Spec.MiB)));
     (calm, Task.SegmentReadyRead 0%nat 1%nat [x00; x01; x02]%byte);
     (calm, Task.SegmentReadyRead 1%nat 2%nat [x00; x01]%byte)]
    (Spec.fresh (download 8) ∅).

(** [segmented] with two bytes waiting in the buffer of the first segment. *)
Definition held : Task.World :=
  Task.upd (fun t => Task.set_m_segmentsInfo
                       (alter (Task.set_buffer [x03; x04]%byte) 0%nat (Task.m_segmentsInfo t))
                       t)
    segmented.

(** [Examples.buffered] with the allowance of the running window used up. *)
Definition throttledOut : Task.World :=
  Task.upd (Task.set_m_throttleBytes 5) buffered.

(** A task without a URL, before [start()]. *)
Definition noUrl : Task.World :=
  Spec.fresh (Spec.construct (Qt := PosixQt.qt) true true idleStats "" "/d/f.bin" 8) ∅.

(** Three rows: two of task 0, the second of them finished, and one of
    task 1. *)
Definition rows : Model.DownloadModel :=
  Model.mkDownloadModel
    [Model.mkDownloadItem "a.iso" 10 100 false (Some 0%nat) "General" "Other";
     Model.mkDownloadItem "b.zip" 40 40 true (Some 0%nat) "General" "Compressed";
     Model.mkDownloadItem "c.mp3" 0 0 false (Some 1%nat) "General" "Audio"]
    [] [].

End Cases.

(** * Proofs *)

(** ** QString::arg on texts without place markers *)

Module ArgProofs.
Import QStringArg.











Section WithQt.
Context `{Qt : QtModel}.



End WithQt.

End ArgProofs.

Module UtilsProofs.
Import Utils.
Import ArgProofs.

Section WithQt.
Context `{Laws : QtPathLaws}.






Lemma append_nil (s : string) : ""%string +:+ s = s.
Proof. reflexivity. Qed.

Lemma append_cons (c : ascii) (s1 s2 : string) :
  String c s1 +:+ s2 = String c (s1 +:+ s2).
Proof. reflexivity. Qed.

Lemma hasDot_append (s1 s2 : string) :
  hasDot (s1 +:+ s2) = hasDot s1 || hasDot s2.
Proof.
  induction s1 as [|c s1 IH]; [reflexivity|].
  rewrite append_cons. cbn. now destruct (Ascii.eqb c ".").
Qed.









End WithQt.






(** A name with two dots keeps its middle part twice: the base name runs to
    the last dot, the suffix starts after the first. *)
Example uniqueFilePath_two_dots :
  uniqueFilePath (Qt := PosixQt.qt) {["/d/archive.tar.gz"%string := 7]} "/d/archive.tar.gz"
  = "/d/archive.tar (1).tar.gz"%string.
Proof. vm_compute. reflexivity. Qed.

(** A base name that holds place markers of its own is rewritten by the
    chained [arg] calls: in C%2B%2B.pdf both %2 take the counter. *)
Example uniqueFilePath_place_markers :
  uniqueFilePath (Qt := PosixQt.qt) {["/d/C%2B%2B.pdf"%string := 7]} "/d/C%2B%2B.pdf"
  = "/d/C1B1B (1).pdf"%string.
Proof. vm_compute. reflexivity. Qed.

End UtilsProofs.

Module TaskProofs.
Import Task.

Section WithQt.
Context `{Qt : QtModel}.

(** *** What [cleanup] does to the disk *)

Lemma removeParts_task (segs : list Segment) (w : World) :
  task (fold_left (fun w s => removeFile (tempFilePath s) w) segs w) = task w.
Proof.
  revert w. induction segs as [|s segs IH]; intros w; [reflexivity|].
  cbn [fold_left]. now rewrite IH.
Qed.

Lemma removeParts_signals (segs : list Segment) (w : World) :
  signals (fold_left (fun w s => removeFile (tempFilePath s) w) segs w) = signals w.
Proof.
  revert w. induction segs as [|s segs IH]; intros w; [reflexivity|].
  cbn [fold_left]. now rewrite IH.
Qed.


Lemma cleanup_state (b : bool) (w : World) :
  m_state (task (cleanup b w)) = m_state (task w).
Proof.
  unfold cleanup. cbn.
  repeat (match goal with |- context [if ?c then _ else _] => destruct c end; cbn);
    now rewrite removeParts_task.
Qed.


Lemma cleanup_signals (b : bool) (w : World) :
  signals (cleanup b w) = signals w ++ (if b then [finished false] else []).
Proof.
  unfold cleanup. cbn.
  destruct b; cbn;
    repeat (match goal with |- context [if ?c then _ else _] => destruct c end; cbn);
    rewrite ?removeParts_signals, ?app_nil_r; reflexivity.
Qed.

(** *** cancel() *)

Lemma clearPauseReason_frame (w : World) :
  fs (clearPauseReason w) = fs w
  /\ m_state (task (clearPauseReason w)) = m_state (task w)
  /\ m_segmentsInfo (task (clearPauseReason w)) = m_segmentsInfo (task w)
  /\ m_useSingleTemp (task (clearPauseReason w)) = m_useSingleTemp (task w)
  /\ m_singleTempPath (task (clearPauseReason w)) = m_singleTempPath (task w)
  /\ m_filePath (task (clearPauseReason w)) = m_filePath (task w).
Proof. unfold clearPauseReason. now destruct (negb _). Qed.

Lemma clearPausedAt_frame (w : World) :
  fs (clearPausedAt w) = fs w
  /\ m_state (task (clearPausedAt w)) = m_state (task w)
  /\ m_segmentsInfo (task (clearPausedAt w)) = m_segmentsInfo (task w)
  /\ m_useSingleTemp (task (clearPausedAt w)) = m_useSingleTemp (task w)
  /\ m_singleTempPath (task (clearPausedAt w)) = m_singleTempPath (task w)
  /\ m_filePath (task (clearPausedAt w)) = m_filePath (task w).
Proof. unfold clearPausedAt. now destruct (negb _). Qed.

Lemma cancel_unfold (w : World) :
  m_state (task w) <> Finished -> m_state (task w) <> Canceled ->
  cancel w = cleanup true (Spec.canceling w).
Proof.
  intros Hf Hc. unfold cancel, Spec.canceling.
  rewrite !bool_decide_eq_false_2 by assumption. reflexivity.
Qed.

Lemma canceling_frame (w : World) :
  fs (Spec.canceling w) = fs w
  /\ m_state (task (Spec.canceling w)) = Canceled
  /\ Spec.partPaths (task (Spec.canceling w)) = Spec.partPaths (task w)
  /\ Spec.singleTarget (task (Spec.canceling w)) = Spec.singleTarget (task w).
Proof.
  unfold Spec.canceling, Spec.partPaths, Spec.singleTarget.
  set (w1 := emit _ _).
  destruct (clearPauseReason_frame w1) as (F1 & S1 & G1 & U1 & T1 & P1).
  destruct (clearPausedAt_frame (clearPauseReason w1)) as (F2 & S2 & G2 & U2 & T2 & P2).
  rewrite F2, S2, G2, U2, T2, P2, F1, S1, G1, U1, T1, P1. subst w1. cbn. tauto.
Qed.


(** *** A canceled task stays canceled and silent *)

Lemma processSingleBuffer_not_running (env : Env) (w : World) :
  m_state (task w) <> Downloading -> processSingleBuffer env w = w.
Proof.
  intros H. unfold processSingleBuffer.
  rewrite (bool_decide_eq_false_2 _ H). cbn. now repeat case_match.
Qed.

Lemma processSegmentBuffer_not_running (env : Env) (i : nat) (w : World) :
  m_state (task w) <> Downloading -> processSegmentBuffer env i w = w.
Proof.
  intros H. unfold processSegmentBuffer.
  rewrite (bool_decide_eq_false_2 _ H). cbn. now repeat case_match.
Qed.

Lemma onSegmentFinished_not_running (env : Env) (w : World) :
  m_state (task w) <> Downloading -> onSegmentFinished env w = w.
Proof.
  intros H. unfold onSegmentFinished. now rewrite (bool_decide_eq_false_2 _ H).
Qed.

Ltac decide_state st :=
  rewrite ?(bool_decide_eq_true_2 (st = st) eq_refl);
  rewrite ?(bool_decide_eq_false_2 (st = Idle)) by discriminate;
  rewrite ?(bool_decide_eq_false_2 (st = Downloading)) by discriminate;
  rewrite ?(bool_decide_eq_false_2 (st = Paused)) by discriminate;
  rewrite ?(bool_decide_eq_false_2 (st = Finished)) by discriminate;
  rewrite ?(bool_decide_eq_false_2 (st = Canceled)) by discriminate.

Lemma noteValidators_state (etag lastMod : string) (t : Task) :
  m_state (noteValidators etag lastMod t) = m_state t.
Proof. unfold noteValidators. now repeat case_match. Qed.

Ltac quiet_leaf :=
  split; [first [assumption|reflexivity]|];
  first [ exists []; split; [rewrite app_nil_r; reflexivity|constructor]
        | eexists; split; [rewrite <- ?app_assoc; reflexivity|repeat constructor] ].

Ltac quiet_step Hst :=
  rewrite ?Hst; decide_state Canceled;
  cbn; rewrite ?noteValidators_state, ?Hst; decide_state Canceled; cbn.

Ltac quiet_cases Hst :=
  unfold Spec.quiet; quiet_step Hst;
  repeat (case_match; quiet_step Hst);
  try quiet_leaf.

Lemma quiet_refl (w : World) : Spec.quiet w w.
Proof. unfold Spec.quiet. quiet_leaf. Qed.

Lemma canceled_quiet_call (env : Env) (e : Event) (w : World) :
  m_state (task w) = Canceled ->
  match e with
  | CallStart | CallPause | CallPauseWithReason _ | CallMarkPaused | CallMarkError
  | CallMarkDone | CallMarkCanceled | CallResume | CallCancel => handle env e w = w
  | _ => True
  end.
Proof.
  intros Hst. destruct e; try exact I; unfold handle.
  - unfold start. now rewrite Hst.
  - unfold pause. now rewrite Hst.
  - unfold pauseWithReason. now rewrite Hst.
  - unfold markPaused. now rewrite Hst.
  - unfold markError. rewrite Hst. decide_state Canceled. reflexivity.
  - unfold markDone. rewrite Hst. decide_state Canceled. reflexivity.
  - unfold markCanceled. rewrite Hst. decide_state Canceled. reflexivity.
  - unfold resume. now rewrite Hst.
  - unfold cancel. rewrite Hst. decide_state Canceled. reflexivity.
Qed.

Lemma canceled_quiet_head (env : Env) (r : HeadReply) (w : World) :
  m_state (task w) = Canceled -> Spec.quiet w (onHeadFinished env r w).
Proof.
  intros Hst. unfold onHeadFinished.
  destruct (m_headReply (task w)); [|apply quiet_refl].
  change (m_state (task (upd (set_m_headReply None) w))) with (m_state (task w)).
  rewrite Hst. decide_state Canceled. cbn [negb]. unfold Spec.quiet. cbn. quiet_leaf.
Qed.

Lemma canceled_quiet_single_meta (env : Env) (rid : ReplyId) (status : Z)
    (etag lastMod : string) (w : World) :
  m_state (task w) = Canceled ->
  Spec.quiet w (onSingleMetaData env rid status etag lastMod w).
Proof.
  intros Hst. unfold onSingleMetaData, setResumeWarning. quiet_cases Hst.
Qed.

Lemma canceled_quiet_segment_meta (i : nat) (rid : ReplyId) (status : Z)
    (etag lastMod : string) (w : World) :
  m_state (task w) = Canceled ->
  Spec.quiet w (onSegmentMetaData i rid status etag lastMod w).
Proof.
  intros Hst. unfold onSegmentMetaData, setResumeWarning. quiet_cases Hst.
Qed.

Lemma canceled_quiet_single_data (env : Env) (rid : ReplyId) (data : list byte)
    (w : World) :
  m_state (task w) = Canceled -> Spec.quiet w (onSingleReadyRead env rid data w).
Proof.
  intros Hst.
  assert (Hnr : m_state (task w) <> Downloading) by (rewrite Hst; discriminate).
  unfold onSingleReadyRead.
  destruct (m_singleReply (task w)); [|apply quiet_refl].
  destruct (negb _); [apply quiet_refl|].
  destruct (negb _); [|quiet_cases Hst].
  rewrite processSingleBuffer_not_running by (cbn; exact Hnr). quiet_cases Hst.
Qed.

Lemma canceled_quiet_single_finished (env : Env) (rid : ReplyId) (failed : bool)
    (w : World) :
  m_state (task w) = Canceled -> Spec.quiet w (onSingleFinished env rid failed w).
Proof.
  intros Hst.
  assert (Hnr : m_state (task w) <> Downloading) by (rewrite Hst; discriminate).
  unfold onSingleFinished.
  destruct (m_singleReply (task w)); [|apply quiet_refl].
  destruct (negb _); [apply quiet_refl|].
  rewrite (bool_decide_eq_false_2 _ Hnr). cbn [andb].
  destruct (negb (m_singleProcessing (task w)) && _).
  - rewrite processSingleBuffer_not_running by exact Hnr.
    change (m_state (task (upd (fun t => set_m_singleReply None (set_m_singleFile None t)) w)))
      with (m_state (task w)).
    rewrite Hst. decide_state Canceled. rewrite orb_true_r. unfold Spec.quiet. cbn. quiet_leaf.
  - change (m_state (task (upd (fun t => set_m_singleReply None (set_m_singleFile None t)) w)))
      with (m_state (task w)).
    rewrite Hst. decide_state Canceled. rewrite orb_true_r. unfold Spec.quiet. cbn. quiet_leaf.
Qed.

Lemma canceled_quiet_segment_data (env : Env) (i : nat) (rid : ReplyId)
    (data : list byte) (w : World) :
  m_state (task w) = Canceled -> Spec.quiet w (onSegmentReadyRead env i rid data w).
Proof.
  intros Hst.
  assert (Hnr : m_state (task w) <> Downloading) by (rewrite Hst; discriminate).
  unfold onSegmentReadyRead.
  destruct (m_segmentsInfo (task w) !! i); [|apply quiet_refl].
  destruct (negb _); [apply quiet_refl|].
  destruct (negb _); [|quiet_cases Hst].
  rewrite processSegmentBuffer_not_running by (cbn; exact Hnr). quiet_cases Hst.
Qed.

Lemma canceled_quiet_segment_finished (env : Env) (i : nat) (rid : ReplyId)
    (failed : bool) (w : World) :
  m_state (task w) = Canceled ->
  Spec.quiet w (onSegmentReplyFinished env i rid failed w).
Proof.
  intros Hst.
  assert (Hnr : m_state (task w) <> Downloading) by (rewrite Hst; discriminate).
  unfold onSegmentReplyFinished.
  destruct (m_segmentsInfo (task w) !! i) as [s|]; [|apply quiet_refl].
  destruct (negb _); [apply quiet_refl|].
  rewrite (bool_decide_eq_false_2 _ Hnr). cbn [andb].
  destruct (negb (processing s) && _).
  - rewrite processSegmentBuffer_not_running by exact Hnr.
    change (m_state (task (updSegment i (fun s => set_reply None (set_file false s)) w)))
      with (m_state (task w)).
    rewrite Hst. decide_state Canceled. rewrite orb_true_r. unfold Spec.quiet. cbn. quiet_leaf.
  - change (m_state (task (updSegment i (fun s => set_reply None (set_file false s)) w)))
      with (m_state (task w)).
    rewrite Hst. decide_state Canceled. rewrite orb_true_r. unfold Spec.quiet. cbn. quiet_leaf.
Qed.

Lemma canceled_quiet_timer (env : Env) (a : TimerAction) (w : World) :
  m_state (task w) = Canceled -> Spec.quiet w (fire env a w).
Proof.
  intros Hst.
  assert (Hnr : m_state (task w) <> Downloading) by (rewrite Hst; discriminate).
  unfold fire. destruct a.
  - rewrite processSingleBuffer_not_running by (cbn; exact Hnr). quiet_cases Hst.
  - rewrite processSingleBuffer_not_running by exact Hnr. apply quiet_refl.
  - rewrite processSegmentBuffer_not_running by exact Hnr. apply quiet_refl.
  - rewrite (bool_decide_eq_false_2 _ Hnr). apply quiet_refl.
  - rewrite (bool_decide_eq_false_2 _ Hnr). apply quiet_refl.
Qed.

Lemma canceled_quiet (env : Env) (e : Event) (w : World) :
  m_state (task w) = Canceled -> e <> CallRestart ->
  Spec.quiet w (handle env e w).
Proof.
  intros Hst Hne.
  pose proof (canceled_quiet_call env e w Hst) as Hcall.
  destruct e; try congruence; try (rewrite Hcall; apply quiet_refl); unfold handle.
  - destruct (m_headReply (task w)) eqn:Hreq; [|apply quiet_refl].
    destruct (bool_decide _); [|apply quiet_refl]. now apply canceled_quiet_head.
  - now apply canceled_quiet_single_meta.
  - now apply canceled_quiet_single_data.
  - now apply canceled_quiet_single_finished.
  - now apply canceled_quiet_segment_meta.
  - now apply canceled_quiet_segment_data.
  - now apply canceled_quiet_segment_finished.
  - now apply canceled_quiet_timer.
Qed.

Lemma cancel_signals (w : World) :
  m_state (task w) <> Finished -> m_state (task w) <> Canceled ->
  exists between,
    signals (cancel w)
    = signals w ++ stateChanged Canceled :: between ++ [finished false]
    /\ Forall (fun s => Spec.isFinished s = false) between.
Proof.
  intros Hf Hc. rewrite (cancel_unfold w Hf Hc), cleanup_signals.
  unfold Spec.canceling, clearPausedAt, clearPauseReason.
  cbn. destruct (negb (String.eqb (m_pauseReason (task w)) "")); cbn;
    destruct (negb (m_pausedAt (task w) =? 0)); cbn.
  - exists [pauseReasonChanged; pausedAtChanged]. split; [|repeat constructor].
    now rewrite <- !app_assoc.
  - exists [pauseReasonChanged]. split; [|repeat constructor].
    now rewrite <- !app_assoc.
  - exists [pausedAtChanged]. split; [|repeat constructor].
    now rewrite <- !app_assoc.
  - exists []. split; [|constructor]. now rewrite <- !app_assoc.
Qed.

(** *** The statistics and the slot of [progress] *)

(** [updateSpeedAndETA] writes to the statistics and to nothing else. *)
Lemma appendSpeedSample_task (env : Env) (v : Z) (w : World) :
  exists st, task (appendSpeedSample env v w) = set_speedStats st (task w).
Proof.
  unfold appendSpeedSample. destruct (_ && _).
  - exists (speedStats (task w)). now destruct (task w).
  - eexists. reflexivity.
Qed.

Lemma appendSpeedSample_world (env : Env) (v : Z) (w : World) :
  fs (appendSpeedSample env v w) = fs w
  /\ timers (appendSpeedSample env v w) = timers w
  /\ nextReply (appendSpeedSample env v w) = nextReply w
  /\ exists emitted,
       signals (appendSpeedSample env v w) = signals w ++ emitted
       /\ Forall (fun s => Spec.isFinished s = false) emitted.
Proof.
  unfold appendSpeedSample. destruct (_ && _); cbn.
  - repeat split. exists []. split; [now rewrite app_nil_r|constructor].
  - repeat split. eexists. split; [reflexivity|repeat constructor].
Qed.

Lemma set_speedStats_twice (st st' : SpeedStats) (t : Task) :
  set_speedStats st' (set_speedStats st t) = set_speedStats st' t.
Proof. reflexivity. Qed.

Lemma updateSpeedAndETA_task (env : Env) (w : World) :
  exists st, task (updateSpeedAndETA env w) = set_speedStats st (task w).
Proof.
  unfold updateSpeedAndETA.
  destruct (m_speedTimer (speedStats (task w))) as [started|]; [|eexists; reflexivity].
  destruct (_ <? 500); [exists (speedStats (task w)); now destruct (task w)|].
  set (w1 := emit _ _).
  assert (H1 : exists st, task w1 = set_speedStats st (task w)) by (eexists; reflexivity).
  destruct (appendSpeedSample_task env
              (Z.quot ((totalDownloaded (task (updStats (set_m_speedTimer
                          (Some (clockAtSpeedUpdate env))) w))
                        - m_lastBytes (speedStats (task (updStats (set_m_speedTimer
                            (Some (clockAtSpeedUpdate env))) w)))) * 1000)
                 (if clockAtSpeedUpdate env - started =? 0 then 1
                  else clockAtSpeedUpdate env - started)) w1) as [st2 H2].
  destruct H1 as [st1 H1]. rewrite H1, set_speedStats_twice in H2.
  clearbody w1.
  match goal with
  | |- context [appendSpeedSample env ?v w1] => set (w2 := appendSpeedSample env v w1) in *
  end.
  clearbody w2.
  repeat case_match; eexists; cbn; rewrite H2; reflexivity.
Qed.

Lemma updateSpeedAndETA_world (env : Env) (w : World) :
  fs (updateSpeedAndETA env w) = fs w
  /\ timers (updateSpeedAndETA env w) = timers w
  /\ nextReply (updateSpeedAndETA env w) = nextReply w
  /\ exists emitted,
       signals (updateSpeedAndETA env w) = signals w ++ emitted
       /\ Forall (fun s => Spec.isFinished s = false) emitted.
Proof.
  unfold updateSpeedAndETA.
  destruct (m_speedTimer (speedStats (task w))) as [started|].
  2:{ cbn. repeat split. eexists.
      split; [rewrite <- ?app_assoc; reflexivity|repeat constructor]. }
  destruct (_ <? 500).
  { repeat split. exists []. split; [now rewrite app_nil_r|constructor]. }
  match goal with
  | |- context [appendSpeedSample env ?v ?x] =>
      destruct (appendSpeedSample_world env v x) as (Hfs & Htimers & Hnext & sample & Hsig & Hquiet);
      set (w2 := appendSpeedSample env v x) in *
  end.
  cbn in Hfs, Htimers, Hnext, Hsig. clearbody w2.
  repeat case_match; cbn; rewrite ?Hfs, ?Htimers, ?Hnext, ?Hsig; repeat split;
    (eexists; split; [rewrite <- ?app_assoc; reflexivity|]);
    repeat (apply Forall_cons_2; [reflexivity|]);
    rewrite ?Forall_app; repeat split; try assumption; repeat constructor.
Qed.

Lemma updateSpeedAndETA_total (env : Env) (w : World) :
  totalDownloaded (task (updateSpeedAndETA env w)) = totalDownloaded (task w).
Proof. destruct (updateSpeedAndETA_task env w) as [st ->]. reflexivity. Qed.

(** *** totalDownloaded() *)

Lemma sumDownloaded_acc (segs : list Segment) (a : Z) :
  fold_left (fun total s => total + downloaded s) segs a
  = a + fold_left (fun total s => total + downloaded s) segs 0.
Proof.
  revert a. induction segs as [|s segs IH]; intros a; cbn [fold_left]; [lia|].
  rewrite (IH (a + downloaded s)), (IH (0 + downloaded s)). lia.
Qed.

Lemma sumDownloaded_cons (s : Segment) (segs : list Segment) :
  fold_left (fun total s => total + downloaded s) (s :: segs) 0
  = downloaded s + fold_left (fun total s => total + downloaded s) segs 0.
Proof. cbn [fold_left]. rewrite sumDownloaded_acc. lia. Qed.

Lemma sumDownloaded_alter (f : Segment -> Segment) (i : nat) (segs : list Segment) :
  (forall s, downloaded s <= downloaded (f s)) ->
  fold_left (fun total s => total + downloaded s) segs 0
  <= fold_left (fun total s => total + downloaded s) (alter f i segs) 0.
Proof.
  intros Hf. revert i. induction segs as [|s segs IH]; intros i; [reflexivity|].
  destruct i as [|i]; cbn [alter list_alter]; rewrite !sumDownloaded_cons.
  - specialize (Hf s). lia.
  - specialize (IH i). cbn [alter] in IH. lia.
Qed.

Lemma sumDownloaded_map (f : Segment -> Segment) (segs : list Segment) :
  (forall s, downloaded (f s) = downloaded s) ->
  fold_left (fun total s => total + downloaded s) (map f segs) 0
  = fold_left (fun total s => total + downloaded s) segs 0.
Proof.
  intros Hf. induction segs as [|s segs IH]; [reflexivity|].
  cbn [map]. rewrite !sumDownloaded_cons, IH, Hf. reflexivity.
Qed.

Lemma updSegment_grows (i : nat) (f : Segment -> Segment) (w : World) :
  (forall s, downloaded s <= downloaded (f s)) ->
  totalDownloaded (task w) <= totalDownloaded (task (updSegment i f w)).
Proof.
  intros Hf. unfold totalDownloaded, updSegment. cbn.
  pose proof (sumDownloaded_alter f i (m_segmentsInfo (task w)) Hf). lia.
Qed.

Lemma rollWindow_counts (env : Env) (t : Task) :
  m_segmentsInfo (rollWindow env t) = m_segmentsInfo t
  /\ m_singleWritten (rollWindow env t) = m_singleWritten t.
Proof. unfold rollWindow. now destruct (_ <=? _). Qed.

Ltac total_leaf :=
  unfold totalDownloaded; cbn;
  rewrite ?(fun env t => proj1 (rollWindow_counts env t)),
          ?(fun env t => proj2 (rollWindow_counts env t));
  cbn; try lia.

Lemma pause_total (env : Env) (w : World) :
  totalDownloaded (task (pause env w)) = totalDownloaded (task w).
Proof.
  unfold pause.
  repeat case_match; total_leaf; try reflexivity;
    rewrite sumDownloaded_map by reflexivity; reflexivity.
Qed.

Lemma pauseWithReason_total (env : Env) (reason : string) (w : World) :
  totalDownloaded (task (pauseWithReason env reason w)) = totalDownloaded (task w).
Proof.
  unfold pauseWithReason. destruct (negb _); [reflexivity|].
  rewrite pause_total. now destruct (negb _).
Qed.

Lemma emitProgress_total (env : Env) (received total : Z) (w : World) :
  totalDownloaded (task (emitProgress env received total w)) = totalDownloaded (task w).
Proof.
  unfold emitProgress. destruct (progressSlot env received total);
    rewrite ?pause_total, ?pauseWithReason_total; reflexivity.
Qed.

Lemma processSingleBuffer_grows (env : Env) (w : World) :
  totalDownloaded (task w) <= totalDownloaded (task (processSingleBuffer env w)).
Proof.
  unfold processSingleBuffer.
  destruct (m_singleFile (task w)); [|reflexivity].
  destruct (m_singleProcessing (task w)); [reflexivity|].
  destruct (bool_decide _); [reflexivity|].
  destruct (negb _); [reflexivity|].
  destruct (_ <=? 0); [reflexivity|].
  set (written := writeResult env _).
  set (w1 := if 0 <? written then _ else _).
  assert (H1 : totalDownloaded (task w) <= totalDownloaded (task w1)).
  { subst w1. destruct (0 <? written) eqn:Hpos; [|reflexivity].
    apply Z.ltb_lt in Hpos. total_leaf. }
  set (w2 := upd (rollWindow env) w1).
  assert (H2 : totalDownloaded (task w2) = totalDownloaded (task w1))
    by (subst w2; total_leaf).
  clearbody w1. clearbody w2.
  set (w3 := upd (set_m_singleProcessing false) _).
  assert (H3 : totalDownloaded (task w3) = totalDownloaded (task w2)).
  { subst w3. unfold upd at 1. cbn [task set_task].
    change (totalDownloaded (set_m_singleProcessing false ?t)) with (totalDownloaded t).
    now rewrite updateSpeedAndETA_total, emitProgress_total. }
  clearbody w3. destruct (negb _); cbn [task singleShot set_timers]; lia.
Qed.

Lemma processSegmentBuffer_grows (env : Env) (i : nat) (w : World) :
  totalDownloaded (task w) <= totalDownloaded (task (processSegmentBuffer env i w)).
Proof.
  unfold processSegmentBuffer.
  destruct (m_segmentsInfo (task w) !! i) as [s|]; [|reflexivity].
  destruct (negb (file s)); [reflexivity|].
  destruct (processing s); [reflexivity|].
  destruct (bool_decide _); [reflexivity|].
  destruct (negb _); [reflexivity|].
  destruct (_ <=? 0).
  { etransitivity; [apply (updSegment_grows i (set_processing true)); reflexivity|].
    etransitivity; [apply (updSegment_grows i (set_processing false)); reflexivity|].
    reflexivity. }
  set (written := writeResult env _).
  set (w1 := updSegment i (set_processing true) w).
  assert (H1 : totalDownloaded (task w) <= totalDownloaded (task w1))
    by (apply updSegment_grows; reflexivity).
  set (w2 := if 0 <? written then _ else w1).
  assert (H2 : totalDownloaded (task w1) <= totalDownloaded (task w2)).
  { subst w2. destruct (0 <? written) eqn:Hpos; [|reflexivity].
    apply Z.ltb_lt in Hpos.
    etransitivity;
      [apply (updSegment_grows i (fun s =>
                set_downloaded (downloaded s + written)
                  (set_buffer (drop (Z.to_nat written) (buffer s)) s))
                (set_fs (grow (tempFilePath s) written (fs w1)) w1));
       intros s0; cbn; lia|].
    reflexivity. }
  set (w3 := upd (rollWindow env) w2).
  assert (H3 : totalDownloaded (task w3) = totalDownloaded (task w2)).
  { subst w3. total_leaf. }
  clearbody w1. clearbody w2. clearbody w3.
  set (w4 := updateSpeedAndETA env _).
  assert (H4 : totalDownloaded (task w4) = totalDownloaded (task w3))
    by (subst w4; now rewrite updateSpeedAndETA_total, emitProgress_total).
  clearbody w4.
  set (w5 := updSegment i (set_processing false) w4).
  assert (H5 : totalDownloaded (task w4) <= totalDownloaded (task w5))
    by (apply updSegment_grows; reflexivity).
  clearbody w5.
  repeat case_match; cbn [task singleShot set_timers]; lia.
Qed.

Lemma noteValidators_counts (etag lastMod : string) (t : Task) :
  m_segmentsInfo (noteValidators etag lastMod t) = m_segmentsInfo t
  /\ m_singleWritten (noteValidators etag lastMod t) = m_singleWritten t.
Proof. unfold noteValidators. now repeat case_match. Qed.

Lemma start_total (env : Env) (w : World) :
  totalDownloaded (task (start env w)) = totalDownloaded (task w).
Proof.
  unfold start, clearPausedAt, clearPauseReason, freshReply.
  repeat case_match; total_leaf; reflexivity.
Qed.

Lemma onSegmentFinished_total (env : Env) (w : World) :
  totalDownloaded (task (onSegmentFinished env w)) = totalDownloaded (task w).
Proof.
  unfold onSegmentFinished, mergeSegments.
  repeat case_match; simplify_eq; total_leaf; reflexivity.
Qed.

Lemma step_grows (env : Env) (e : Event) (w : World) :
  Spec.beginsAnew e = false ->
  totalDownloaded (task w) <= totalDownloaded (task (handle env e w)).
Proof.
  intros Hkeep. destruct e; try discriminate; unfold handle.
  - now rewrite start_total.
  - now rewrite pause_total.
  - unfold pauseWithReason. destruct (negb _); [reflexivity|].
    rewrite pause_total. destruct (negb _); reflexivity.
  - unfold markPaused. destruct (m_state (task w)); rewrite ?pause_total; try reflexivity.
    repeat case_match; total_leaf; reflexivity.
  - unfold markError, clearPauseReason. repeat case_match; total_leaf; reflexivity.
  - unfold markDone, clearPauseReason. repeat case_match; total_leaf; reflexivity.
  - unfold markCanceled, clearPauseReason. repeat case_match; total_leaf; reflexivity.
  - unfold resume. destruct (negb _); [reflexivity|]. rewrite start_total.
    unfold clearPauseReason. destruct (negb _); reflexivity.
  - unfold onSingleReadyRead.
    destruct (m_singleReply (task w)); [|reflexivity].
    destruct (negb _); [reflexivity|].
    destruct (negb _); [|reflexivity].
    etransitivity; [|apply processSingleBuffer_grows]. reflexivity.
  - unfold onSingleFinished.
    destruct (m_singleReply (task w)); [|reflexivity].
    destruct (negb _); [reflexivity|].
    set (w1 := if _ && failed then _ else w).
    assert (H1 : totalDownloaded (task w1) = totalDownloaded (task w))
      by (subst w1; now destruct (_ && failed)).
    set (w2 := if _ && _ then processSingleBuffer env w1 else w1).
    assert (H2 : totalDownloaded (task w1) <= totalDownloaded (task w2)).
    { subst w2. destruct (negb (m_singleProcessing (task w1)) && _);
        [apply processSingleBuffer_grows|reflexivity]. }
    rewrite <- H1. etransitivity; [exact H2|].
    generalize w2. intros x.
    repeat case_match; total_leaf; reflexivity.
  - unfold onSegmentMetaData, setResumeWarning.
    repeat case_match; total_leaf;
      rewrite ?(fun e l t => proj1 (noteValidators_counts e l t)),
              ?(fun e l t => proj2 (noteValidators_counts e l t)); reflexivity.
  - unfold onSegmentReadyRead.
    destruct (m_segmentsInfo (task w) !! i); [|reflexivity].
    destruct (negb _); [reflexivity|].
    set (w1 := updSegment i _ w).
    assert (H1 : totalDownloaded (task w) <= totalDownloaded (task w1))
      by (apply updSegment_grows; reflexivity).
    destruct (negb _); [|exact H1].
    etransitivity; [exact H1|apply processSegmentBuffer_grows].
  - unfold onSegmentReplyFinished.
    destruct (m_segmentsInfo (task w) !! i) as [s|]; [|reflexivity].
    destruct (negb _); [reflexivity|].
    set (w1 := if _ && failed then _ else w).
    assert (H1 : totalDownloaded (task w1) = totalDownloaded (task w))
      by (subst w1; now destruct (_ && failed)).
    set (w2 := if _ && _ then processSegmentBuffer env i w1 else w1).
    assert (H2 : totalDownloaded (task w1) <= totalDownloaded (task w2)).
    { subst w2. destruct (negb (processing s) && _);
        [apply processSegmentBuffer_grows|reflexivity]. }
    set (w3 := updSegment i _ w2).
    assert (H3 : totalDownloaded (task w2) <= totalDownloaded (task w3))
      by (apply updSegment_grows; reflexivity).
    destruct (_ || _); rewrite ?onSegmentFinished_total; lia.
  - unfold fire. destruct a; try discriminate.
    + etransitivity; [|apply processSingleBuffer_grows]. reflexivity.
    + apply processSingleBuffer_grows.
    + apply processSegmentBuffer_grows.
Qed.

Lemma run_grows (turns : list (Env * Event)) (w : World) :
  Forall (fun turn => Spec.beginsAnew (snd turn) = false) turns ->
  totalDownloaded (task w) <= totalDownloaded (task (Spec.run turns w)).
Proof.
  intros Hturns. revert w.
  induction Hturns as [|[env e] turns Hkeep _ IH]; intros w; [reflexivity|].
  cbn [Spec.run fold_left fst snd]. etransitivity; [apply (step_grows env e w Hkeep)|].
  apply IH.
Qed.

(** *** Segment layout *)










Lemma effectiveSegments_table (total segments : Z) :
  0 < total -> effectiveSegments total segments = Spec.tableSegments total segments.
Proof.
  intros H. unfold effectiveSegments, Spec.tableSegments, Spec.MiB.
  apply Z.ltb_lt in H. rewrite H. repeat case_match; lia.
Qed.


(** *** The decision on a HEAD reply *)

Lemma startSingleStream_no_range (env : Env) (resume : bool) (w : World) :
  m_useRange (task w) = false ->
  m_resumeSingle (task (startSingleStream env resume w)) = false.
Proof.
  intros Hflag. unfold startSingleStream, freshReply, upd. cbn.
  rewrite !Hflag, !andb_false_r. cbn.
  repeat case_match; reflexivity.
Qed.

Lemma cleanup_length (b : bool) (w : World) :
  length (m_segmentsInfo (task (cleanup b w))) = length (m_segmentsInfo (task w)).
Proof.
  unfold cleanup. cbn.
  repeat (match goal with |- context [if ?c then _ else _] => destruct c end; cbn);
    now rewrite removeParts_task, length_map.
Qed.

Lemma emit_task (s : Signal) (w : World) : task (emit s w) = task w.
Proof. reflexivity. Qed.

Lemma startSegment_length (env : Env) (i : nat) (w : World) :
  length (m_segmentsInfo (task (startSegment env i w))) = length (m_segmentsInfo (task w)).
Proof.
  unfold startSegment, freshReply.
  destruct (negb (bool_decide _)); [reflexivity|].
  destruct (m_segmentsInfo (task w) !! i) as [s|]; [|reflexivity].
  destruct (negb (file s) && _).
  - now rewrite emit_task, cleanup_length.
  - destruct (negb (file s)); cbn; now rewrite ?length_alter.
Qed.

Lemma onSegmentFinished_segments (env : Env) (w : World) :
  m_segmentsInfo (task (onSegmentFinished env w)) = m_segmentsInfo (task w).
Proof.
  unfold onSegmentFinished, mergeSegments.
  repeat case_match; simplify_eq; reflexivity.
Qed.

Lemma startPending_length (env : Env) (w : World) :
  length (m_segmentsInfo (task (snd (startPending env w))))
  = length (m_segmentsInfo (task w)).
Proof.
  unfold startPending.
  generalize (seq 0 (length (m_segmentsInfo (task w)))) as indices.
  generalize false as started.
  intros started indices. revert started w.
  induction indices as [|i indices IH]; intros started w; [reflexivity|].
  cbn [fold_left snd].
  destruct (m_segmentsInfo (task w) !! i) as [s|]; [|apply IH].
  destruct (segLen s <=? downloaded s); [apply IH|].
  rewrite IH. cbn [snd]. apply startSegment_length.
Qed.

Lemma prepareSegments_length (path : string) (total segCount : Z) (partialSegments : bool)
    (f : FS) :
  length (fst (prepareSegments path total segCount partialSegments f)) = Z.to_nat segCount.
Proof.
  unfold prepareSegments.
  assert (Hloop : forall indices (acc : list Segment * FS),
            length (fst (fold_left
                           (fun acc i =>
                              let '(s, f') :=
                                prepareSegment path total segCount partialSegments (snd acc) i in
                              (fst acc ++ [s], f'))
                           indices acc))
            = (length (fst acc) + length indices)%nat).
  { induction indices as [|i indices IH]; intros acc; cbn [fold_left length]; [lia|].
    rewrite IH. destruct (prepareSegment _ _ _ _ _ _) as [s f']. cbn [fst].
    rewrite length_app. cbn [length]. lia. }
  rewrite Hloop. cbn [fst length]. now rewrite length_seqZ.
Qed.

Lemma startSegmented_length (env : Env) (partialSegments : bool) (w : World) :
  length (m_segmentsInfo (task (startSegmented env partialSegments w)))
  = Z.to_nat (effectiveSegments (m_totalSize (task w)) (m_segments (task w))).
Proof.
  unfold startSegmented.
  pose proof (prepareSegments_length (m_filePath (task w)) (m_totalSize (task w))
                (effectiveSegments (m_totalSize (task w)) (m_segments (task w)))
                partialSegments (fs w)) as Hlen.
  destruct (prepareSegments _ _ _ _ _) as [segs f]. cbn [fst] in Hlen.
  set (w1 := set_fs _ _).
  assert (H1 : m_segmentsInfo (task w1) = segs) by reflexivity.
  pose proof (startPending_length env w1) as Hpending.
  destruct (startPending env w1) as [started w2]. cbn [snd] in Hpending.
  destruct (negb started); rewrite ?onSegmentFinished_segments, Hpending, H1; exact Hlen.
Qed.

(** The decision of the HEAD handler of [start] (downloadertask.cpp 339-455).
    On a HEAD reply without error, for a task that is Downloading: no valid
    Content-Length gives a single stream without Range and without resume; a
    valid length without Accept-Ranges: bytes gives a single stream without
    Range; with ranges accepted the rows for one configured segment and for
    the size table (below 4, 32, 128 MiB: 1, min(configured, 2),
    min(configured, 4), else the configured count) hold as long as the task's
    [m_useRange] flag is still set; once an earlier reply cleared the flag,
    the task runs single stream without Range whatever this reply says. *)
Theorem head_decision (env : Env) (r : HeadReply) (w : World) (req : HeadRequest) :
  m_headReply (task w) = Some req ->
  m_state (task w) = Downloading ->
  head_error r = false ->
  let w' := onHeadFinished env r w in
  match Spec.validLength r with
  | None =>
      exists w0, w' = startSingleStream env false w0
                 /\ m_useRange (task w0) = false
                 /\ m_resumeSingle (task w') = false
  | Some cl =>
      if negb (Spec.rangesAccepted r) then
        exists w0, w' = startSingleStream env (hasExistingFile req) w0
                   /\ m_useRange (task w0) = false
                   /\ m_totalSize (task w0) = cl
                   /\ m_resumeSingle (task w') = false
      else if m_useRange (task w) then
        if m_segments (task w) =? 1 then
          exists w0, w' = startSingleStream env (hasExistingFile req) w0
                     /\ m_useRange (task w0) = true
                     /\ m_totalSize (task w0) = cl
        else
          exists w0, w' = startSegmented env (hasPartialSegments req) w0
                     /\ m_totalSize (task w0) = cl
                     /\ length (m_segmentsInfo (task w'))
                        = Z.to_nat (Spec.tableSegments cl (m_segments (task w)))
      else
        exists w0, w' = startSingleStream env (hasExistingFile req) w0
                   /\ m_useRange (task w0) = false
                   /\ m_totalSize (task w0) = cl
                   /\ m_resumeSingle (task w') = false
  end.
Proof.
  intros Hreq Hstate Herr w'. subst w'.
  unfold onHeadFinished, Spec.validLength, Spec.rangesAccepted.
  rewrite Hreq, Herr.
  change (m_state (task (upd (set_m_headReply None) w))) with (m_state (task w)).
  rewrite Hstate, bool_decide_eq_true_2 by reflexivity. cbn [negb].
  destruct (contentLength r) as [cl|].
  2:{ eexists. split; [reflexivity|]. split; [reflexivity|].
      now apply startSingleStream_no_range. }
  destruct (0 <? cl) eqn:Hcl.
  2:{ apply Z.ltb_ge in Hcl. rewrite (proj2 (Z.leb_le _ _) Hcl).
      eexists. split; [reflexivity|]. split; [reflexivity|].
      now apply startSingleStream_no_range. }
  apply Z.ltb_lt in Hcl. rewrite (proj2 (Z.leb_gt _ _) Hcl).
  destruct (String.eqb (toLower (acceptRanges r)) "bytes"); cbn [negb].
  - destruct (m_useRange (task w)) eqn:Hflag.
    + set (w0 := upd (set_m_serverSupportsRange true) _).
      change (m_useRange (task w0)) with (m_useRange (noteValidators (head_etag r)
                (head_lastModified r) (set_m_headReply None (task w)))).
      assert (Hkeep : m_useRange (noteValidators (head_etag r) (head_lastModified r)
                        (set_m_headReply None (task w))) = true).
      { unfold noteValidators. repeat case_match; exact Hflag. }
      assert (Hsegs : m_segments (task w0) = m_segments (task w)).
      { subst w0. cbn. unfold noteValidators. repeat case_match; reflexivity. }
      rewrite Hkeep, Hsegs. cbn [negb orb].
      destruct (m_segments (task w) =? 1).
      * exists w0. split; [reflexivity|]. split; [exact Hkeep|reflexivity].
      * exists w0. split; [reflexivity|]. split; [reflexivity|].
        rewrite startSegmented_length, Hsegs.
        change (m_totalSize (task w0)) with cl.
        now rewrite effectiveSegments_table.
    + set (w0 := upd (set_m_serverSupportsRange true) _).
      assert (Hkeep : m_useRange (task w0) = false).
      { subst w0. cbn. unfold noteValidators. repeat case_match; exact Hflag. }
      rewrite Hkeep. cbn [negb orb].
      exists w0. split; [reflexivity|]. split; [exact Hkeep|]. split; [reflexivity|].
      now apply startSingleStream_no_range.
  - set (w0 := upd (fun t => set_m_serverSupportsRange false (set_m_useRange false t)) _).
    assert (Hgoal : exists w1, startSingleStream env (hasExistingFile req) w0
                      = startSingleStream env (hasExistingFile req) w1
                    /\ m_useRange (task w1) = false /\ m_totalSize (task w1) = cl
                    /\ m_resumeSingle (task (startSingleStream env (hasExistingFile req) w0)) = false).
    { exists w0. split; [reflexivity|]. split; [reflexivity|]. split; [reflexivity|].
      now apply startSingleStream_no_range. }
    change (negb (m_useRange (task w0))) with true. cbn [orb].
    now destruct (m_useRange (task w)).
Qed.

(** *** The throttled write processors *)

Lemma allowedBytes_spec (t : Task) (elapsed bufferLen : Z) :
  0 <= m_maxSpeed t ->
  allowedBytes t elapsed bufferLen
  = Spec.allowedBySpec (m_maxSpeed t) (if elapsed =? 0 then 1 else elapsed)
      (m_throttleBytes t) bufferLen.
Proof.
  intros Hspeed. unfold allowedBytes, Spec.allowedBySpec.
  destruct (0 <? m_maxSpeed t) eqn:Hpos.
  - apply Z.ltb_lt in Hpos. now rewrite (proj2 (Z.eqb_neq (m_maxSpeed t) 0)) by lia.
  - apply Z.ltb_ge in Hpos. now rewrite (proj2 (Z.eqb_eq (m_maxSpeed t) 0)) by lia.
Qed.

Lemma drop_leaves_nothing (data : list byte) (n : Z) :
  0 < n ->
  bool_decide (drop (Z.to_nat n) data = []) = negb (n <? Z.of_nat (length data)).
Proof.
  intros Hn. destruct (n <? Z.of_nat (length data)) eqn:Hcmp; cbn [negb].
  - apply Z.ltb_lt in Hcmp. apply bool_decide_eq_false_2. intros Hnil.
    apply (f_equal length) in Hnil. rewrite length_drop in Hnil. cbn in Hnil. lia.
  - apply Z.ltb_ge in Hcmp. apply bool_decide_eq_true_2, drop_ge. lia.
Qed.

(** What [pause] leaves of a running task. *)
Lemma pause_running (env : Env) (w : World) :
  m_state (task w) = Downloading ->
  let w' := pause env w in
  m_state (task w') = Paused
  /\ fs w' = fs w /\ timers w' = timers w /\ nextReply w' = nextReply w
  /\ m_singleBuffer (task w') = []
  /\ m_singleFile (task w') = None
  /\ m_singleReply (task w') = None
  /\ m_headReply (task w') = None
  /\ m_singleProcessing (task w') = false
  /\ m_singleWritten (task w') = m_singleWritten (task w)
  /\ m_throttleBytes (task w') = m_throttleBytes (task w)
  /\ m_throttleTimer (task w') = m_throttleTimer (task w)
  /\ m_totalSize (task w') = m_totalSize (task w)
  /\ m_segmentsInfo (task w') = map quiesceSegment (m_segmentsInfo (task w)).
Proof.
  intros Hstate w'. subst w'. unfold pause.
  rewrite Hstate, bool_decide_eq_true_2 by reflexivity. cbn [negb].
  destruct (String.eqb _ _); cbn; destruct (negb _); cbn; auto 20.
Qed.

Lemma pauseWithReason_running (env : Env) (reason : string) (w : World) :
  m_state (task w) = Downloading ->
  let w' := pauseWithReason env reason w in
  m_state (task w') = Paused
  /\ fs w' = fs w /\ timers w' = timers w /\ nextReply w' = nextReply w
  /\ m_singleBuffer (task w') = []
  /\ m_singleFile (task w') = None
  /\ m_singleReply (task w') = None
  /\ m_headReply (task w') = None
  /\ m_singleProcessing (task w') = false
  /\ m_singleWritten (task w') = m_singleWritten (task w)
  /\ m_throttleBytes (task w') = m_throttleBytes (task w)
  /\ m_throttleTimer (task w') = m_throttleTimer (task w)
  /\ m_totalSize (task w') = m_totalSize (task w)
  /\ m_segmentsInfo (task w') = map quiesceSegment (m_segmentsInfo (task w)).
Proof.
  intros Hstate w'. subst w'. unfold pauseWithReason.
  rewrite Hstate, bool_decide_eq_true_2 by reflexivity. cbn [negb].
  destruct (negb (String.eqb _ _)).
  - apply (pause_running env (emit pauseReasonChanged (upd (set_m_pauseReason reason) w))).
    exact Hstate.
  - now apply pause_running.
Qed.

(** [emit progress] on a running task: either the slot leaves the task
    alone, or it pauses it. *)
Lemma emitProgress_running (env : Env) (received total : Z) (w : World) :
  m_state (task w) = Downloading ->
  let w' := emitProgress env received total w in
  fs w' = fs w /\ timers w' = timers w /\ nextReply w' = nextReply w
  /\ m_singleWritten (task w') = m_singleWritten (task w)
  /\ m_throttleBytes (task w') = m_throttleBytes (task w)
  /\ m_throttleTimer (task w') = m_throttleTimer (task w)
  /\ m_totalSize (task w') = m_totalSize (task w)
  /\ match progressSlot env received total with
     | SlotIdle => task w' = task w
     | _ =>
         m_state (task w') = Paused
         /\ m_singleBuffer (task w') = []
         /\ m_singleFile (task w') = None
         /\ m_singleReply (task w') = None
         /\ m_segmentsInfo (task w') = map quiesceSegment (m_segmentsInfo (task w))
     end.
Proof.
  intros Hstate w'. subst w'. unfold emitProgress.
  destruct (progressSlot env received total) as [| |reason].
  - cbn. auto 10.
  - destruct (pause_running env (emit (progress received total) w) Hstate)
      as (H1 & H2 & H3 & H4 & H5 & H6 & H7 & H8 & H9 & H10 & H11 & H12 & H13 & H14).
    cbv zeta in *. rewrite H1, H2, H3, H4, H5, H6, H7, H10, H11, H12, H13, H14. auto 20.
  - destruct (pauseWithReason_running env reason (emit (progress received total) w) Hstate)
      as (H1 & H2 & H3 & H4 & H5 & H6 & H7 & H8 & H9 & H10 & H11 & H12 & H13 & H14).
    cbv zeta in *. rewrite H1, H2, H3, H4, H5, H6, H7, H10, H11, H12, H13, H14. auto 20.
Qed.

Lemma processSingleBuffer_throttled (env : Env) (w : World) (path : string) :
  m_singleFile (task w) = Some path ->
  m_singleProcessing (task w) = false ->
  m_singleBuffer (task w) <> [] ->
  m_state (task w) = Downloading ->
  let t := task w in
  let bufferLen := Z.of_nat (length (m_singleBuffer t)) in
  let allowed := allowedBytes t (clock env - m_throttleTimer t) bufferLen in
  let toWrite := Z.min allowed bufferLen in
  let w' := processSingleBuffer env w in
  (allowed <= 0 ->
     fs w' = fs w
     /\ m_singleBuffer (task w') = m_singleBuffer t
     /\ m_singleWritten (task w') = m_singleWritten t
     /\ m_throttleBytes (task w') = m_throttleBytes t
     /\ m_throttleTimer (task w') = m_throttleTimer t
     /\ timers w' = timers w ++ [mkTimer 50 RetrySingleBuffer])
  /\ (0 < allowed -> writeResult env toWrite = toWrite ->
      let stale := 1000 <=? clockAfterWrite env - m_throttleTimer t in
      fs w' = grow path toWrite (fs w)
      /\ m_singleWritten (task w') = m_singleWritten t + toWrite
      /\ m_throttleBytes (task w') = (if stale then 0 else m_throttleBytes t + toWrite)
      /\ m_throttleTimer (task w') = (if stale then clockAfterWrite env else m_throttleTimer t)
      /\ match progressSlot env (totalDownloaded t + toWrite) (m_totalSize t) with
         | SlotIdle =>
             m_state (task w') = Downloading
             /\ m_singleBuffer (task w') = drop (Z.to_nat toWrite) (m_singleBuffer t)
             /\ timers w'
                = timers w ++ (if toWrite <? bufferLen then [mkTimer 10 ContinueSingleBuffer]
                               else [])
         | _ =>
             m_state (task w') = Paused
             /\ m_singleBuffer (task w') = []
             /\ timers w' = timers w
         end).
Proof.
  intros Hfile Hproc Hbuf Hstate t bufferLen allowed toWrite w'. subst t.
  assert (Hlen : 0 < bufferLen).
  { unfold bufferLen. destruct (m_singleBuffer (task w)); [contradiction|cbn; lia]. }
  subst w'. unfold processSingleBuffer.
  rewrite Hfile, Hproc, Hstate.
  rewrite (bool_decide_eq_false_2 _ Hbuf), bool_decide_eq_true_2 by reflexivity.
  cbn [negb]. fold bufferLen. fold allowed. fold toWrite.
  split.
  - intros Hle. rewrite (proj2 (Z.leb_le _ _) Hle). cbn. auto 10.
  - intros Hpos Hwrite. set (stale := 1000 <=? clockAfterWrite env - m_throttleTimer (task w)).
    rewrite (proj2 (Z.leb_gt _ _) Hpos), Hwrite.
    assert (Hto : 0 < toWrite) by (subst toWrite; lia).
    rewrite (proj2 (Z.ltb_lt _ _) Hto).
    pose proof (drop_leaves_nothing (m_singleBuffer (task w)) toWrite Hto) as Hleft.
    fold bufferLen in Hleft.
    set (w2 := upd (rollWindow env) _).
    assert (H2 : fs w2 = grow path toWrite (fs w)
                 /\ timers w2 = timers w
                 /\ m_state (task w2) = Downloading
                 /\ m_singleBuffer (task w2) = drop (Z.to_nat toWrite) (m_singleBuffer (task w))
                 /\ m_singleWritten (task w2) = m_singleWritten (task w) + toWrite
                 /\ m_throttleBytes (task w2)
                    = (if stale then 0 else m_throttleBytes (task w) + toWrite)
                 /\ m_throttleTimer (task w2)
                    = (if stale then clockAfterWrite env else m_throttleTimer (task w))
                 /\ m_totalSize (task w2) = m_totalSize (task w)
                 /\ totalDownloaded (task w2) = totalDownloaded (task w) + toWrite).
    { subst w2 stale. unfold rollWindow, upd, totalDownloaded. cbn.
      destruct (1000 <=? _); cbn; repeat split; try reflexivity; try assumption; lia. }
    clearbody w2.
    destruct H2 as (Hfs & Htimers & Hst & Hb & Hw & Htb & Htt & Hsize & Htotal).
    rewrite Htotal, Hsize.
    pose proof (emitProgress_running env (totalDownloaded (task w) + toWrite)
                  (m_totalSize (task w)) w2 Hst) as Hslot.
    cbv zeta in Hslot.
    set (w3 := emitProgress env _ _ w2) in *.
    destruct Hslot as (Hfs3 & Htimers3 & _ & Hw3 & Htb3 & Htt3 & _ & Hcase).
    destruct (updateSpeedAndETA_task env w3) as [st Hst4].
    destruct (updateSpeedAndETA_world env w3) as (Hfs4 & Htimers4 & _).
    set (w4 := updateSpeedAndETA env w3) in *.
    clearbody w3. clearbody w4.
    assert (Hbuf5 : m_singleBuffer (task (upd (set_m_singleProcessing false) w4))
                    = m_singleBuffer (task w3))
      by (cbn; now rewrite Hst4).
    rewrite Hbuf5.
    assert (Hfields : forall x : World,
              task x = task (upd (set_m_singleProcessing false) w4) ->
              fs x = fs w4 -> timers x = timers w4 ++ [] \/ True ->
              fs x = grow path toWrite (fs w)
              /\ m_singleWritten (task x) = m_singleWritten (task w) + toWrite
              /\ m_throttleBytes (task x)
                 = (if stale then 0 else m_throttleBytes (task w) + toWrite)
              /\ m_throttleTimer (task x)
                 = (if stale then clockAfterWrite env else m_throttleTimer (task w))
              /\ m_state (task x) = m_state (task w3)).
    { intros x Hx Hxfs _. rewrite Hx, Hxfs. cbn. rewrite Hst4. cbn.
      rewrite Hfs4, Hfs3, Hfs, Hw3, Hw, Htb3, Htb, Htt3, Htt. auto. }
    destruct (progressSlot env _ _) as [| |reason].
    + rewrite Hcase in *. rewrite Hb, Hleft.
      destruct (toWrite <? bufferLen); cbn [negb].
      * destruct (Hfields (singleShot 10 ContinueSingleBuffer
                             (upd (set_m_singleProcessing false) w4)) eq_refl eq_refl
                    (or_intror I)) as (F1 & F2 & F3 & F4 & F5).
        rewrite F1, F2, F3, F4, F5, Hst. repeat split; try reflexivity.
        -- cbn. rewrite Hst4. cbn. exact Hb.
        -- cbn. now rewrite Htimers4, Htimers3, Htimers.
      * destruct (Hfields (upd (set_m_singleProcessing false) w4) eq_refl eq_refl
                    (or_intror I)) as (F1 & F2 & F3 & F4 & F5).
        rewrite F1, F2, F3, F4, F5, Hst. repeat split; try reflexivity.
        -- cbn. rewrite Hst4. cbn. exact Hb.
        -- cbn. now rewrite Htimers4, Htimers3, Htimers, app_nil_r.
    + destruct Hcase as (Hp & Hbe & _). rewrite Hbe.
      rewrite bool_decide_eq_true_2 by reflexivity. cbn [negb].
      destruct (Hfields (upd (set_m_singleProcessing false) w4) eq_refl eq_refl
                  (or_intror I)) as (F1 & F2 & F3 & F4 & F5).
      rewrite F1, F2, F3, F4, F5, Hp. repeat split; try reflexivity.
      -- cbn. now rewrite Hst4.
      -- cbn. now rewrite Htimers4, Htimers3, Htimers.
    + destruct Hcase as (Hp & Hbe & _). rewrite Hbe.
      rewrite bool_decide_eq_true_2 by reflexivity. cbn [negb].
      destruct (Hfields (upd (set_m_singleProcessing false) w4) eq_refl eq_refl
                  (or_intror I)) as (F1 & F2 & F3 & F4 & F5).
      rewrite F1, F2, F3, F4, F5, Hp. repeat split; try reflexivity.
      -- cbn. now rewrite Hst4.
      -- cbn. now rewrite Htimers4, Htimers3, Htimers.
Qed.

Lemma sumDownloaded_alter_exact (f : Segment -> Segment) (i : nat) (segs : list Segment)
    (s : Segment) :
  segs !! i = Some s ->
  fold_left (fun total s => total + downloaded s) (alter f i segs) 0
  = fold_left (fun total s => total + downloaded s) segs 0
    + (downloaded (f s) - downloaded s).
Proof.
  revert i. induction segs as [|x segs IH]; intros i Hi; [discriminate|].
  destruct i as [|i]; cbn [alter list_alter]; rewrite !sumDownloaded_cons.
  - injection Hi as ->. lia.
  - specialize (IH i Hi). cbn [alter] in IH. lia.
Qed.

Lemma processSegmentBuffer_throttled (env : Env) (i : nat) (w : World) (s : Segment) :
  m_segmentsInfo (task w) !! i = Some s ->
  file s = true ->
  processing s = false ->
  buffer s <> [] ->
  m_state (task w) = Downloading ->
  let t := task w in
  let bufferLen := Z.of_nat (length (buffer s)) in
  let allowed := allowedBytes t (clock env - m_throttleTimer t) bufferLen in
  let toWrite := Z.min allowed bufferLen in
  let w' := processSegmentBuffer env i w in
  (allowed <= 0 ->
     fs w' = fs w
     /\ m_segmentsInfo (task w') !! i = Some s
     /\ m_throttleBytes (task w') = m_throttleBytes t
     /\ m_throttleTimer (task w') = m_throttleTimer t
     /\ timers w' = timers w ++ [mkTimer 50 (ContinueSegmentBuffer i)])
  /\ (0 < allowed -> writeResult env toWrite = toWrite ->
      let stale := 1000 <=? clockAfterWrite env - m_throttleTimer t in
      let s' := set_downloaded (downloaded s + toWrite)
                  (set_buffer (drop (Z.to_nat toWrite) (buffer s)) s) in
      fs w' = grow (tempFilePath s) toWrite (fs w)
      /\ m_throttleBytes (task w') = (if stale then 0 else m_throttleBytes t + toWrite)
      /\ m_throttleTimer (task w') = (if stale then clockAfterWrite env else m_throttleTimer t)
      /\ match progressSlot env (totalDownloaded t + toWrite) (m_totalSize t) with
         | SlotIdle =>
             m_state (task w') = Downloading
             /\ m_segmentsInfo (task w') !! i = Some s'
             /\ timers w'
                = timers w ++ (if toWrite <? bufferLen
                               then [mkTimer 10 (ContinueSegmentBuffer i)] else [])
         | _ =>
             m_state (task w') = Paused
             /\ m_segmentsInfo (task w') !! i = Some (quiesceSegment s')
             /\ timers w' = timers w
         end).
Proof.
  intros Hseg Hfile Hproc Hbuf Hstate t bufferLen allowed toWrite w'. subst t.
  assert (Hlen : 0 < bufferLen).
  { unfold bufferLen. destruct (buffer s); [contradiction|cbn; lia]. }
  subst w'. unfold processSegmentBuffer.
  rewrite Hseg, Hfile, Hproc, Hstate.
  rewrite (bool_decide_eq_false_2 _ Hbuf), bool_decide_eq_true_2 by reflexivity.
  cbn [negb]. fold bufferLen. fold allowed. fold toWrite.
  split.
  - intros Hle. rewrite (proj2 (Z.leb_le _ _) Hle). unfold updSegment, upd. cbn -[alter].
    repeat split; try reflexivity.
    rewrite !list_lookup_alter_eq, Hseg. cbn.
    destruct s; cbn in *; subst; reflexivity.
  - intros Hpos Hwrite.
    set (stale := 1000 <=? clockAfterWrite env - m_throttleTimer (task w)).
    rewrite (proj2 (Z.leb_gt _ _) Hpos), Hwrite.
    assert (Hto : 0 < toWrite) by (subst toWrite; lia).
    rewrite (proj2 (Z.ltb_lt _ _) Hto).
    pose proof (drop_leaves_nothing (buffer s) toWrite Hto) as Hleft.
    fold bufferLen in Hleft.
    set (step := fun s => set_downloaded (downloaded s + toWrite)
                            (set_buffer (drop (Z.to_nat toWrite) (buffer s)) s)).
    set (s' := step s).
    set (w2 := upd (rollWindow env) _).
    assert (H2 : fs w2 = grow (tempFilePath s) toWrite (fs w)
                 /\ timers w2 = timers w
                 /\ m_state (task w2) = Downloading
                 /\ m_segmentsInfo (task w2)
                    = alter step i (alter (set_processing true) i (m_segmentsInfo (task w)))
                 /\ m_throttleBytes (task w2)
                    = (if stale then 0 else m_throttleBytes (task w) + toWrite)
                 /\ m_throttleTimer (task w2)
                    = (if stale then clockAfterWrite env else m_throttleTimer (task w))
                 /\ m_totalSize (task w2) = m_totalSize (task w)
                 /\ m_singleWritten (task w2) = m_singleWritten (task w)).
    { subst w2 stale. unfold rollWindow, updSegment, upd. cbn -[alter].
      destruct (1000 <=? _); cbn -[alter]; repeat split; try reflexivity; assumption. }
    clearbody w2.
    destruct H2 as (Hfs & Htimers & Hst & Hsegs & Htb & Htt & Hsize & Hsw).
    assert (Htotal : totalDownloaded (task w2) = totalDownloaded (task w) + toWrite).
    { unfold totalDownloaded. rewrite Hsegs, Hsw.
      rewrite (sumDownloaded_alter_exact step i _ (set_processing true s))
        by (now rewrite list_lookup_alter_eq, Hseg).
      rewrite (sumDownloaded_alter_exact (set_processing true) i _ s Hseg).
      subst step. cbn. lia. }
    rewrite Htotal, Hsize.
    pose proof (emitProgress_running env (totalDownloaded (task w) + toWrite)
                  (m_totalSize (task w)) w2 Hst) as Hslot.
    cbv zeta in Hslot.
    set (w3 := emitProgress env _ _ w2) in *.
    destruct Hslot as (Hfs3 & Htimers3 & _ & _ & Htb3 & Htt3 & _ & Hcase).
    destruct (updateSpeedAndETA_task env w3) as [st Hst4].
    destruct (updateSpeedAndETA_world env w3) as (Hfs4 & Htimers4 & _).
    set (w4 := updateSpeedAndETA env w3) in *.
    clearbody w3. clearbody w4.
    set (w5 := updSegment i (set_processing false) w4).
    assert (H5 : fs w5 = grow (tempFilePath s) toWrite (fs w)
                 /\ timers w5 = timers w
                 /\ m_state (task w5) = m_state (task w3)
                 /\ m_segmentsInfo (task w5)
                    = alter (set_processing false) i (m_segmentsInfo (task w3))
                 /\ m_throttleBytes (task w5)
                    = (if stale then 0 else m_throttleBytes (task w) + toWrite)
                 /\ m_throttleTimer (task w5)
                    = (if stale then clockAfterWrite env else m_throttleTimer (task w))).
    { subst w5. unfold updSegment, upd. cbn -[alter]. rewrite Hst4. cbn -[alter].
      rewrite Hfs4, Hfs3, Hfs, Htimers4, Htimers3, Htimers, Htb3, Htb, Htt3, Htt. auto 10. }
    clearbody w5. destruct H5 as (Hfs5 & Htimers5 & Hst5 & Hsegs5 & Htb5 & Htt5).
    assert (Hfinal : forall x : World,
              fs x = fs w5 -> task x = task w5 ->
              fs x = grow (tempFilePath s) toWrite (fs w)
              /\ m_throttleBytes (task x)
                 = (if stale then 0 else m_throttleBytes (task w) + toWrite)
              /\ m_throttleTimer (task x)
                 = (if stale then clockAfterWrite env else m_throttleTimer (task w))).
    { intros x -> ->. auto. }
    destruct (progressSlot env _ _) as [| |reason].
    + assert (Hlook : m_segmentsInfo (task w5) !! i = Some s').
      { rewrite Hsegs5, Hcase, Hsegs, !list_lookup_alter_eq, Hseg. cbn. subst s' step.
        destruct s; cbn in *; subst; reflexivity. }
      rewrite Hlook.
      assert (Hbs : buffer s' = drop (Z.to_nat toWrite) (buffer s)) by reflexivity.
      rewrite Hbs, Hleft.
      destruct (toWrite <? bufferLen); cbn [negb].
      * destruct (Hfinal (singleShot 10 (ContinueSegmentBuffer i) w5) eq_refl eq_refl)
          as (F1 & F2 & F3).
        rewrite F1, F2, F3. repeat split; try reflexivity.
        -- cbn. now rewrite Hst5, Hcase.
        -- exact Hlook.
        -- cbn. now rewrite Htimers5.
      * destruct (Hfinal w5 eq_refl eq_refl) as (F1 & F2 & F3).
        rewrite F1, F2, F3. repeat split; try reflexivity.
        -- now rewrite Hst5, Hcase.
        -- exact Hlook.
        -- now rewrite Htimers5, app_nil_r.
    + destruct Hcase as (Hp & _ & _ & _ & Hq).
      assert (Hlook : m_segmentsInfo (task w5) !! i = Some (quiesceSegment s')).
      { rewrite Hsegs5, Hq, Hsegs, list_lookup_alter_eq, list_lookup_fmap,
          !list_lookup_alter_eq, Hseg. cbn. subst s' step.
        destruct s; cbn in *; subst; reflexivity. }
      rewrite Hlook. cbn [quiesceSegment buffer set_processing set_buffer].
      rewrite bool_decide_eq_true_2 by reflexivity. cbn [negb].
      destruct (Hfinal w5 eq_refl eq_refl) as (F1 & F2 & F3).
      rewrite F1, F2, F3. repeat split; try reflexivity.
      -- now rewrite Hst5.
      -- exact Hlook.
      -- exact Htimers5.
    + destruct Hcase as (Hp & _ & _ & _ & Hq).
      assert (Hlook : m_segmentsInfo (task w5) !! i = Some (quiesceSegment s')).
      { rewrite Hsegs5, Hq, Hsegs, list_lookup_alter_eq, list_lookup_fmap,
          !list_lookup_alter_eq, Hseg. cbn. subst s' step.
        destruct s; cbn in *; subst; reflexivity. }
      rewrite Hlook. cbn [quiesceSegment buffer set_processing set_buffer].
      rewrite bool_decide_eq_true_2 by reflexivity. cbn [negb].
      destruct (Hfinal w5 eq_refl eq_refl) as (F1 & F2 & F3).
      rewrite F1, F2, F3. repeat split; try reflexivity.
      -- now rewrite Hst5.
      -- exact Hlook.
      -- exact Htimers5.
Qed.

End WithQt.
End TaskProofs.

Module RestartProofs.
Import Task. Import TaskProofs.
Section WithQt.
Context `{Qt : QtModel}.
(** *** start() and restart() on a task whose current URL is valid *)

Lemma cleared_keeps (w : World) :
  let w' := clearPausedAt (clearPauseReason w) in
  m_state (task w') = m_state (task w)
  /\ currentUrl (task w') = currentUrl (task w)
  /\ m_etag (task w') = m_etag (task w)
  /\ m_lastModified (task w') = m_lastModified (task w)
  /\ m_url (task w') = m_url (task w)
  /\ m_mirrorIndex (task w') = m_mirrorIndex (task w)
  /\ m_mirrorUrls (task w') = m_mirrorUrls (task w)
  /\ exists emitted, signals w' = signals w ++ emitted
                     /\ Forall (fun s => Spec.isFinished s = false) emitted.
Proof.
  unfold clearPausedAt, clearPauseReason.
  destruct (negb (String.eqb (m_pauseReason (task w)) ""));
    match goal with |- context [negb (?a =? 0)] => destruct (negb (a =? 0)) end;
    (repeat (split; [reflexivity|]));
    cbn [signals emit upd set_signals set_task].
  - exists [pauseReasonChanged; pausedAtChanged].
    split; [now rewrite <- app_assoc|repeat constructor].
  - exists [pauseReasonChanged]. split; [reflexivity|repeat constructor].
  - exists [pausedAtChanged]. split; [reflexivity|repeat constructor].
  - exists []. split; [now rewrite app_nil_r|constructor].
Qed.

Lemma start_valid (env : Env) (w : World) :
  m_state (task w) = Idle ->
  urlIsValid (currentUrl (task w)) = true ->
  let w' := start env w in
  m_state (task w') = Downloading
  /\ is_Some (m_headReply (task w'))
  /\ m_etag (task w') = m_etag (task w)
  /\ m_lastModified (task w') = m_lastModified (task w)
  /\ m_url (task w') = m_url (task w)
  /\ m_mirrorIndex (task w') = m_mirrorIndex (task w)
  /\ m_mirrorUrls (task w') = m_mirrorUrls (task w)
  /\ exists emitted, signals w' = signals w ++ emitted
                     /\ Forall (fun s => Spec.isFinished s = false) emitted.
Proof.
  intros Hidle Hvalid w'. subst w'.
  destruct (cleared_keeps w) as (Hs & Hurl & He & Hl & Hu & Hi & Hm & pre & Hsig & Hpre).
  unfold start. rewrite Hidle, bool_decide_eq_true_2 by reflexivity. cbn [negb]. cbv zeta.
  set (w2 := clearPausedAt (clearPauseReason w)) in *.
  rewrite Hurl, Hvalid. cbn [negb]. unfold freshReply.
  split; [reflexivity|]. split; [eexists; reflexivity|].
  split; [exact He|]. split; [exact Hl|]. split; [exact Hu|]. split; [exact Hi|].
  split; [exact Hm|].
  exists (pre ++ [stateChanged Downloading]). split.
  - cbn [signals emit upd updStats set_signals set_task set_nextReply]. rewrite Hsig.
    now rewrite <- app_assoc.
  - apply Forall_app. split; [exact Hpre|repeat constructor].
Qed.

(** [start] on an idle task whose current URL is not valid: the task ends in
    error, and [finished(false)] is the last and only [finished]. *)
Lemma start_invalid (env : Env) (w : World) :
  m_state (task w) = Idle ->
  urlIsValid (currentUrl (task w)) = false ->
  let w' := start env w in
  m_state (task w') = Finished
  /\ m_anyError (task w') = true
  /\ m_etag (task w') = m_etag (task w)
  /\ m_lastModified (task w') = m_lastModified (task w)
  /\ m_url (task w') = m_url (task w)
  /\ m_mirrorIndex (task w') = m_mirrorIndex (task w)
  /\ m_mirrorUrls (task w') = m_mirrorUrls (task w)
  /\ fs w' = fs w /\ timers w' = timers w /\ nextReply w' = nextReply w
  /\ exists emitted, signals w' = signals w ++ emitted ++ [finished false]
                     /\ Forall (fun s => Spec.isFinished s = false) emitted.
Proof.
  intros Hidle Hvalid w'. subst w'.
  destruct (cleared_keeps w) as (Hs & Hurl & He & Hl & Hu & Hi & Hm & pre & Hsig & Hpre).
  assert (Hworld : fs (clearPausedAt (clearPauseReason w)) = fs w
                   /\ timers (clearPausedAt (clearPauseReason w)) = timers w
                   /\ nextReply (clearPausedAt (clearPauseReason w)) = nextReply w).
  { unfold clearPausedAt, clearPauseReason. repeat case_match; auto. }
  destruct Hworld as (Hfs & Htimers & Hnext).
  unfold start. rewrite Hidle, bool_decide_eq_true_2 by reflexivity. cbn [negb]. cbv zeta.
  set (w2 := clearPausedAt (clearPauseReason w)) in *.
  rewrite Hurl, Hvalid. cbn [negb].
  split; [reflexivity|]. split; [reflexivity|].
  split; [exact He|]. split; [exact Hl|]. split; [exact Hu|]. split; [exact Hi|].
  split; [exact Hm|]. split; [exact Hfs|]. split; [exact Htimers|]. split; [exact Hnext|].
  exists (pre ++ [stateChanged Finished]). split.
  - cbn [signals emit upd updStats set_signals set_task]. rewrite Hsig.
    now rewrite <- !app_assoc.
  - apply Forall_app. split; [exact Hpre|repeat constructor].
Qed.

Lemma cleanup_keeps (w : World) :
  m_etag (task (cleanup false w)) = m_etag (task w)
  /\ m_lastModified (task (cleanup false w)) = m_lastModified (task w)
  /\ m_url (task (cleanup false w)) = m_url (task w)
  /\ m_mirrorIndex (task (cleanup false w)) = m_mirrorIndex (task w)
  /\ m_mirrorUrls (task (cleanup false w)) = m_mirrorUrls (task w).
Proof.
  unfold cleanup. cbn.
  repeat (match goal with |- context [if ?c then _ else _] => destruct c end; cbn);
    rewrite removeParts_task; auto.
Qed.

Lemma restart_valid (env : Env) (w : World) :
  urlIsValid (currentUrl (task w)) = true ->
  let w' := restart env w in
  m_state (task w') = Downloading
  /\ is_Some (m_headReply (task w'))
  /\ m_etag (task w') = m_etag (task w)
  /\ m_lastModified (task w') = m_lastModified (task w)
  /\ m_url (task w') = m_url (task w)
  /\ m_mirrorIndex (task w') = m_mirrorIndex (task w)
  /\ m_mirrorUrls (task w') = m_mirrorUrls (task w)
  /\ exists emitted, signals w' = signals w ++ emitted
                     /\ Forall (fun s => Spec.isFinished s = false) emitted.
Proof.
  intros Hvalid w'. subst w'. unfold restart.
  destruct (cleanup_keeps w) as (He & Hl & Hu & Hi & Hm).
  pose proof (cleanup_signals false w) as Hcs. rewrite app_nil_r in Hcs.
  generalize dependent (cleanup false w). intros c He Hl Hu Hi Hm Hcs.
  set (w1 := emit (stateChanged Idle) (upd (set_m_state Idle) c)).
  assert (Hidle : m_state (task w1) = Idle) by reflexivity.
  assert (Hurl : currentUrl (task w1) = currentUrl (task w)).
  { unfold currentUrl.
    change (m_mirrorUrls (task w1)) with (m_mirrorUrls (task c)).
    change (m_mirrorIndex (task w1)) with (m_mirrorIndex (task c)).
    change (m_url (task w1)) with (m_url (task c)).
    now rewrite Hu, Hi, Hm. }
  assert (Hvalid1 : urlIsValid (currentUrl (task w1)) = true) by now rewrite Hurl.
  destruct (start_valid env w1 Hidle Hvalid1)
    as (Hs & Hh & He' & Hl' & Hu' & Hi' & Hm' & emitted & Hsig & Hquiet).
  split; [exact Hs|]. split; [exact Hh|].
  split; [rewrite He'; exact He|]. split; [rewrite Hl'; exact Hl|].
  split; [rewrite Hu'; exact Hu|]. split; [rewrite Hi'; exact Hi|].
  split; [rewrite Hm'; exact Hm|].
  exists (stateChanged Idle :: emitted). split; [|now constructor].
  rewrite Hsig. change (signals w1) with (signals c ++ [stateChanged Idle]).
  rewrite Hcs, <- app_assoc. reflexivity.
Qed.

Lemma restart_invalid (env : Env) (w : World) :
  urlIsValid (currentUrl (task w)) = false ->
  let w' := restart env w in
  m_state (task w') = Finished
  /\ m_anyError (task w') = true
  /\ m_etag (task w') = m_etag (task w)
  /\ m_lastModified (task w') = m_lastModified (task w)
  /\ m_url (task w') = m_url (task w)
  /\ m_mirrorIndex (task w') = m_mirrorIndex (task w)
  /\ m_mirrorUrls (task w') = m_mirrorUrls (task w)
  /\ exists emitted, signals w' = signals w ++ emitted ++ [finished false]
                     /\ Forall (fun s => Spec.isFinished s = false) emitted.
Proof.
  intros Hvalid w'. subst w'. unfold restart.
  destruct (cleanup_keeps w) as (He & Hl & Hu & Hi & Hm).
  pose proof (cleanup_signals false w) as Hcs. rewrite app_nil_r in Hcs.
  generalize dependent (cleanup false w). intros c He Hl Hu Hi Hm Hcs.
  set (w1 := emit (stateChanged Idle) (upd (set_m_state Idle) c)).
  assert (Hidle : m_state (task w1) = Idle) by reflexivity.
  assert (Hurl : currentUrl (task w1) = currentUrl (task w)).
  { unfold currentUrl.
    change (m_mirrorUrls (task w1)) with (m_mirrorUrls (task c)).
    change (m_mirrorIndex (task w1)) with (m_mirrorIndex (task c)).
    change (m_url (task w1)) with (m_url (task c)).
    now rewrite Hu, Hi, Hm. }
  assert (Hvalid1 : urlIsValid (currentUrl (task w1)) = false) by now rewrite Hurl.
  destruct (start_invalid env w1 Hidle Hvalid1)
    as (Hs & Herr & He' & Hl' & Hu' & Hi' & Hm' & _ & _ & _ & emitted & Hsig & Hquiet).
  split; [exact Hs|]. split; [exact Herr|].
  split; [rewrite He'; exact He|]. split; [rewrite Hl'; exact Hl|].
  split; [rewrite Hu'; exact Hu|]. split; [rewrite Hi'; exact Hi|].
  split; [rewrite Hm'; exact Hm|].
  exists (stateChanged Idle :: emitted). split; [|now constructor].
  rewrite Hsig. change (signals w1) with (signals c ++ [stateChanged Idle]).
  rewrite Hcs, <- app_assoc. reflexivity.
Qed.

Lemma advanceMirror_next (w : World) :
  m_mirrorUrls (task w) <> [] ->
  0 <= m_mirrorIndex (task w) ->
  m_mirrorIndex (task w) + 1 < Z.of_nat (length (m_mirrorUrls (task w))) ->
  let next := nth (Z.to_nat (m_mirrorIndex (task w) + 1)) (m_mirrorUrls (task w)) ""%string in
  let w' := snd (advanceMirror w) in
  fst (advanceMirror w) = true
  /\ m_mirrorIndex (task w') = m_mirrorIndex (task w) + 1
  /\ m_mirrorUrls (task w') = m_mirrorUrls (task w)
  /\ currentUrl (task w') = next
  /\ m_state (task w') = m_state (task w)
  /\ fs w' = fs w
  /\ (if urlIsValid next
      then m_etag (task w') = ""%string /\ m_lastModified (task w') = ""%string
           /\ m_url (task w') = next
      else m_etag (task w') = m_etag (task w)
           /\ m_lastModified (task w') = m_lastModified (task w)
           /\ m_url (task w') = m_url (task w)).
Proof.
  intros Hne Hidx Hnext next w'. subst w' next. unfold advanceMirror.
  rewrite (bool_decide_eq_false_2 _ Hne), (proj2 (Z.leb_gt _ _) Hnext).
  unfold currentUrl. cbn.
  destruct (urlIsValid _) eqn:Hvalid; cbn; rewrite (bool_decide_eq_false_2 _ Hne);
    rewrite (proj2 (Z.leb_le 0 _)) by lia;
    rewrite (proj2 (Z.ltb_lt _ _) Hnext); cbn; auto 10.
Qed.

Lemma advanceMirror_exhausted (w : World) :
  m_mirrorUrls (task w) = []
  \/ Z.of_nat (length (m_mirrorUrls (task w))) <= m_mirrorIndex (task w) + 1 ->
  advanceMirror w = (false, w).
Proof.
  intros [Hnil|Hlast]; unfold advanceMirror.
  - now rewrite Hnil.
  - destruct (bool_decide _); [reflexivity|]. now rewrite (proj2 (Z.leb_le _ _) Hlast).
Qed.

End WithQt.
End RestartProofs.

Module TaskRuns.
Import Task. Import TaskProofs RestartProofs.

Section WithQt.
Context `{Qt : QtModel}.

(** Claim C5 ([processSingleBuffer] and [processSegmentBuffer],
    downloadertask.cpp 638-682 and 820-864).  For a Downloading task with a
    non-negative speed limit and a file that takes every byte offered: the
    allowance is the whole buffer when the limit is 0, else
    maxSpeed * max(1, elapsed) / 1000 - bytesInWindow; with a non-positive
    allowance nothing is written and the run is rescheduled in 50 ms; else
    min(allowance, buffer length) bytes are written and added to the window
    counter, and the window restarts when at least 1000 ms old.  Then
    [progress] is emitted: when its slot leaves the task alone the rest of
    the buffer stays and, if not empty, is rescheduled in 10 ms; when the
    slot pauses the task the rest of the buffer is dropped and nothing is
    rescheduled. *)
Theorem throttled_write (env : Env) (w : World) :
  0 <= m_maxSpeed (task w) ->
  m_state (task w) = Downloading ->
  let t := task w in
  let elapsed := clock env - m_throttleTimer t in
  let window := if elapsed =? 0 then 1 else elapsed in
  let stale := 1000 <=? clockAfterWrite env - m_throttleTimer t in
  (forall path,
     m_singleFile t = Some path -> m_singleProcessing t = false ->
     m_singleBuffer t <> [] ->
     let bufferLen := Z.of_nat (length (m_singleBuffer t)) in
     let allowed := Spec.allowedBySpec (m_maxSpeed t) window (m_throttleBytes t) bufferLen in
     let toWrite := Z.min allowed bufferLen in
     let w' := processSingleBuffer env w in
     (allowed <= 0 ->
        fs w' = fs w
        /\ m_singleBuffer (task w') = m_singleBuffer t
        /\ m_singleWritten (task w') = m_singleWritten t
        /\ m_throttleBytes (task w') = m_throttleBytes t
        /\ m_throttleTimer (task w') = m_throttleTimer t
        /\ timers w' = timers w ++ [mkTimer 50 RetrySingleBuffer])
     /\ (0 < allowed -> writeResult env toWrite = toWrite ->
         fs w' = grow path toWrite (fs w)
         /\ m_singleWritten (task w') = m_singleWritten t + toWrite
         /\ m_throttleBytes (task w') = (if stale then 0 else m_throttleBytes t + toWrite)
         /\ m_throttleTimer (task w')
            = (if stale then clockAfterWrite env else m_throttleTimer t)
         /\ match progressSlot env (totalDownloaded t + toWrite) (m_totalSize t) with
            | SlotIdle =>
                m_state (task w') = Downloading
                /\ m_singleBuffer (task w') = drop (Z.to_nat toWrite) (m_singleBuffer t)
                /\ timers w'
                   = timers w ++ (if toWrite <? bufferLen
                                  then [mkTimer 10 ContinueSingleBuffer] else [])
            | _ =>
                m_state (task w') = Paused
                /\ m_singleBuffer (task w') = []
                /\ timers w' = timers w
            end))
  /\ (forall i s,
        m_segmentsInfo t !! i = Some s -> file s = true -> processing s = false ->
        buffer s <> [] ->
        let bufferLen := Z.of_nat (length (buffer s)) in
        let allowed := Spec.allowedBySpec (m_maxSpeed t) window (m_throttleBytes t) bufferLen in
        let toWrite := Z.min allowed bufferLen in
        let written := set_downloaded (downloaded s + toWrite)
                         (set_buffer (drop (Z.to_nat toWrite) (buffer s)) s) in
        let w' := processSegmentBuffer env i w in
        (allowed <= 0 ->
           fs w' = fs w
           /\ m_segmentsInfo (task w') !! i = Some s
           /\ m_throttleBytes (task w') = m_throttleBytes t
           /\ m_throttleTimer (task w') = m_throttleTimer t
           /\ timers w' = timers w ++ [mkTimer 50 (ContinueSegmentBuffer i)])
        /\ (0 < allowed -> writeResult env toWrite = toWrite ->
            fs w' = grow (tempFilePath s) toWrite (fs w)
            /\ m_throttleBytes (task w') = (if stale then 0 else m_throttleBytes t + toWrite)
            /\ m_throttleTimer (task w')
               = (if stale then clockAfterWrite env else m_throttleTimer t)
            /\ match progressSlot env (totalDownloaded t + toWrite) (m_totalSize t) with
               | SlotIdle =>
                   m_state (task w') = Downloading
                   /\ m_segmentsInfo (task w') !! i = Some written
                   /\ timers w'
                      = timers w ++ (if toWrite <? bufferLen
                                     then [mkTimer 10 (ContinueSegmentBuffer i)] else [])
               | _ =>
                   m_state (task w') = Paused
                   /\ m_segmentsInfo (task w') !! i = Some (quiesceSegment written)
                   /\ timers w' = timers w
               end)).
Proof.
  intros Hspeed Hstate t elapsed window stale. split.
  - intros path Hfile Hproc Hbuf bufferLen allowed toWrite w'.
    pose proof (processSingleBuffer_throttled env w path Hfile Hproc Hbuf Hstate) as H.
    cbv zeta in H. rewrite (allowedBytes_spec (task w) _ _ Hspeed) in H. exact H.
  - intros i s Hseg Hfile Hproc Hbuf bufferLen allowed toWrite written w'.
    pose proof (processSegmentBuffer_throttled env i w s Hseg Hfile Hproc Hbuf Hstate) as H.
    cbv zeta in H. rewrite (allowedBytes_spec (task w) _ _ Hspeed) in H. exact H.
Qed.

(** Claim C8 ([totalDownloaded], downloadertask.cpp 1219-1225).  Along any run
    of task events, [totalDownloaded] never decreases as long as no event
    begins the download anew; the events that do are cancel, restart, a HEAD
    reply, the arrival of a single-stream reply's headers (where a resume is
    downgraded or rejected), and the two timers that restart from zero. *)
Theorem totalDownloaded_grows (turns : list (Env * Event)) (w : World) :
  Forall (fun turn => Spec.beginsAnew (snd turn) = false) turns ->
  totalDownloaded (task w) <= totalDownloaded (task (Spec.run turns w)).
Proof.
  intros Hturns. revert w.
  induction Hturns as [|[env e] turns Hkeep _ IH]; intros w; [reflexivity|].
  cbn [Spec.run fold_left fst snd]. etransitivity; [apply (step_grows env e w Hkeep)|].
  apply IH.
Qed.

End WithQt.

Import Examples.

#[local] Existing Instance PosixQt.qt.

Lemma head_decision_witness :
  exists w0,
    onHeadFinished calm (ranged (200 * Spec.MiB)) (started 8 ∅)
    = startSegmented calm false w0
    /\ m_totalSize (task w0) = 200 * Spec.MiB
    /\ length (m_segmentsInfo
                 (task (onHeadFinished calm (ranged (200 * Spec.MiB))
                          (started 8 ∅))))
       = Z.to_nat (Spec.tableSegments (200 * Spec.MiB) 8).
Proof.
  exact (head_decision calm (ranged (200 * Spec.MiB)) (started 8 ∅)
           (mkHeadRequest 0%nat false false) eq_refl eq_refl eq_refl).
Defined.

(** Claim C1 (the HEAD handler of [start] after [resume], downloadertask.cpp
    387-414 and 1087-1102).  The segmentation table of the specification is
    not what the code does after a resume.  On a cold start a HEAD reply that
    offers ranges for 200 MiB with eight configured segments lays out eight
    segments, as the table says.  The same reply after a first HEAD reply
    without Content-Length, a pause and a resume finds [m_useRange] still
    cleared -- [start()] does not set it again, although [resume()] is meant
    to behave like a cold start -- and the task runs one stream without
    Range and without resume, with no segment at all. *)
Lemma head_decision_after_lengthless_reply :
  let reply := ranged (200 * Spec.MiB) in
  let cold := onHeadFinished calm reply (started 8 ∅) in
  Spec.rangesAccepted reply = true
  /\ Spec.validLength reply = Some (200 * Spec.MiB)
  /\ m_segments (task secondHead) = 8
  /\ Spec.tableSegments (200 * Spec.MiB) (m_segments (task secondHead)) = 8
  /\ length (m_segmentsInfo (task cold)) = 8%nat
  /\ m_singleReply (task cold) = None
  /\ m_state (task secondHead) = Downloading
  /\ m_useRange (task secondHead) = false
  /\ m_segmentsInfo (task secondHead) = []
  /\ is_Some (m_singleReply (task secondHead))
  /\ m_resumeSingle (task secondHead) = false.
Proof.
  cbv zeta. repeat apply conj; try (vm_compute; reflexivity). vm_compute. eauto.
Qed.



(** [cancel()] reports through [finished(false)], emitted after the state
    change to Canceled. *)
Lemma cancel_emits_finished :
  signals (cancel (started 8 ∅))
  = [stateChanged Downloading; stateChanged Canceled; finished false]
  /\ Spec.finishedAfterCanceled (signals (cancel (started 8 ∅))).
Proof.
  split; [vm_compute; reflexivity|].
  exists [stateChanged Downloading], [], [], false. vm_compute. reflexivity.
Qed.

Lemma throttled_write_witness :
  let w := upd (set_m_throttleTimer (-500)) buffered in
  let w' := processSingleBuffer calm w in
  fs w' = grow "/d/f.bin.part" 5 (fs w)
  /\ m_singleWritten (task w') = 1005
  /\ m_throttleBytes (task w') = 5
  /\ m_throttleTimer (task w') = -500
  /\ m_state (task w') = Downloading
  /\ m_singleBuffer (task w') = []
  /\ timers w' = [].
Proof.
  intros w w'.
  pose proof (proj2 (proj1 (throttled_write calm w
                              ltac:(vm_compute; discriminate)
                              ltac:(vm_compute; reflexivity))
                       "/d/f.bin.part"%string
                       ltac:(vm_compute; reflexivity) ltac:(vm_compute; reflexivity)
                       ltac:(vm_compute; discriminate))
                ltac:(vm_compute; reflexivity) ltac:(vm_compute; reflexivity)) as H.
  vm_compute in H |- *. exact H.
Defined.

(** Right when the window starts the code counts one millisecond: with a
    cap of 1000 bytes/s one byte is written at once and the rest follows in
    10 ms, where the formula of the specification allows nothing. *)
Lemma throttle_counts_a_first_millisecond :
  let w := processSingleBuffer calm buffered in
  clock calm - m_throttleTimer (task buffered) = 0
  /\ Spec.allowedBySpec (m_maxSpeed (task buffered)) 0 (m_throttleBytes (task buffered)) 5 = 0
  /\ m_singleWritten (task w) = m_singleWritten (task buffered) + 1
  /\ timers w = [mkTimer 10 ContinueSingleBuffer].
Proof. repeat split; vm_compute; reflexivity. Qed.


(** Canceled between [start()] and the HEAD reply the task has laid out no
    segment, and a part file left by an earlier run stays on disk. *)
Lemma cancel_before_layout_keeps_part :
  let w := started 8 {["/d/f.bin.part0"%string := 10]} in
  m_state (task w) = Downloading
  /\ Spec.partPaths (task w) = []
  /\ m_state (task (cancel w)) = Canceled
  /\ fs (cancel w) !! "/d/f.bin.part0"%string = Some 10.
Proof. cbv zeta. repeat apply conj; vm_compute; reflexivity. Qed.

Lemma totalDownloaded_grows_witness :
  totalDownloaded (task resuming)
  <= totalDownloaded
       (task (Spec.run
                [(calm, SingleReadyRead 1%nat [x00; x01; x02]%byte)] resuming)).
Proof.
  apply (totalDownloaded_grows). repeat constructor.
Defined.

(** A 200 answer to a resuming request throws the 1000 resumed bytes away. *)
Lemma resume_downgrade_resets_total :
  totalDownloaded (task resuming) = 1000
  /\ totalDownloaded
       (task (handle calm (SingleMetaData 1%nat 200 "" "") resuming)) = 0.
Proof. split; vm_compute; reflexivity. Qed.

End TaskRuns.

Module ManagerProofs.
Import Manager.
Import TaskProofs RestartProofs.

(** Claim C10 ([isWithinSchedule] and [isQueueAllowed], downloadmanager.cpp
    1841-1859).  With the schedule disabled the window test passes.  With it
    enabled: equal start and end minutes always pass; start before end passes
    exactly when start <= current < end; start after end wraps past midnight
    and passes exactly when current >= start or current < end.  A queue is
    allowed only inside its window, and with the quota disabled being allowed
    is the window test. *)
Theorem schedule_window (info : QueueInfo) (now : QTime) :
  let current := hour now * 60 + minute now in
  (scheduleEnabled info = false -> isWithinSchedule info now = true)
  /\ (scheduleEnabled info = true ->
      (startMinutes info = endMinutes info -> isWithinSchedule info now = true)
      /\ (startMinutes info < endMinutes info ->
          (isWithinSchedule info now = true
           <-> startMinutes info <= current < endMinutes info))
      /\ (startMinutes info > endMinutes info ->
          (isWithinSchedule info now = true
           <-> (current >= startMinutes info \/ current < endMinutes info))))
  /\ (isQueueAllowed info now = true -> isWithinSchedule info now = true)
  /\ (quotaEnabled info = false ->
      isQueueAllowed info now = isWithinSchedule info now).
Proof.
  intros current. unfold isQueueAllowed, isWithinSchedule. fold current.
  destruct (scheduleEnabled info); cbn [negb andb].
  - split; [discriminate|]. split.
    + intros _. split; [|split].
      * intros ->. now rewrite Z.eqb_refl.
      * intros Hlt. rewrite (proj2 (Z.eqb_neq _ _)) by lia.
        rewrite (proj2 (Z.ltb_lt _ _) Hlt). rewrite andb_true_iff. lia.
      * intros Hgt. rewrite (proj2 (Z.eqb_neq _ _)) by lia.
        rewrite (proj2 (Z.ltb_ge _ _)) by lia. rewrite orb_true_iff. lia.
    + split.
      * destruct (startMinutes info =? endMinutes info); [reflexivity|].
        destruct (startMinutes info <? endMinutes info);
          match goal with |- context [negb ?c] => destruct c end; cbn; congruence.
      * intros ->. cbn [andb].
        destruct (startMinutes info =? endMinutes info); [reflexivity|].
        destruct (startMinutes info <? endMinutes info);
          match goal with |- context [negb ?c] => destruct c end; reflexivity.
  - split; [reflexivity|]. split; [discriminate|]. split; [reflexivity|].
    intros ->. reflexivity.
Qed.

Section WithQt.
Context `{Qt : QtModel}.
Variable blankQueue : QueueInfo.

(** *** The bulk-cancel guard *)

Lemma handler_guarded (depth : nat) (clk : Clock) (t : Handle) (m : Manager) :
  m_bulkCancelInProgress m = true ->
  onTaskFinishedWrapper blankQueue depth clk t m = m.
Proof.
  intros Hflag. destruct depth as [|depth]; [reflexivity|].
  cbn [onTaskFinishedWrapper]. unfold onTaskFinishedWrapperWith.
  rewrite Hflag. now destruct (tasks m !! t).
Qed.

Lemma deliver_guarded (depth : nat) (clk : Clock) (t : Handle)
    (emitted : list Task.Signal) (m : Manager) :
  m_bulkCancelInProgress m = true ->
  deliver (onTaskFinishedWrapper blankQueue depth clk) t emitted m = m.
Proof.
  intros Hflag. unfold deliver.
  induction emitted as [|s emitted IH]; [reflexivity|].
  cbn [fold_left]. destruct s; try exact IH. now rewrite handler_guarded.
Qed.

Lemma deliver_silent (slot : Handle -> Manager -> Manager) (t : Handle)
    (emitted : list Task.Signal) (m : Manager) :
  Forall (fun s => Spec.isFinished s = false) emitted ->
  deliver slot t emitted m = m.
Proof.
  intros Hquiet. unfold deliver. induction Hquiet as [|s emitted Hs _ IH]; [reflexivity|].
  cbn [fold_left]. destruct s; try discriminate; exact IH.
Qed.

Lemma call_frame (t : Handle) (op : Task.World -> Task.World) (m : Manager) :
  let m' := fst (call t op m) in
  m_bulkCancelInProgress m' = m_bulkCancelInProgress m
  /\ toasts m' = toasts m
  /\ retryTimers m' = retryTimers m
  /\ m_queue m' = m_queue m
  /\ m_taskRetryCount m' = m_taskRetryCount m.
Proof. unfold call. destruct (tasks m !! t); cbn; auto. Qed.

Lemma callAndDeliver_guarded (depth : nat) (clk : Clock) (t : Handle)
    (op : Task.World -> Task.World) (m : Manager) :
  m_bulkCancelInProgress m = true ->
  let m' := callAndDeliver (onTaskFinishedWrapper blankQueue depth clk) t op m in
  m_bulkCancelInProgress m' = true
  /\ toasts m' = toasts m
  /\ retryTimers m' = retryTimers m.
Proof.
  intros Hflag. unfold callAndDeliver.
  destruct (call_frame t op m) as (Hf & Ht & Hr & _).
  destruct (call t op m) as [m1 emitted]. cbn [fst] in *.
  rewrite deliver_guarded by (now rewrite Hf). rewrite Hf, Ht, Hr. auto.
Qed.

Lemma cancelAll_loop_guarded (depth : nat) (clk : Clock) (all : list Handle) (m : Manager) :
  m_bulkCancelInProgress m = true ->
  let m' := fold_left (fun m t =>
                         callAndDeliver (onTaskFinishedWrapper blankQueue depth clk) t
                           Task.cancel m) all m in
  m_bulkCancelInProgress m' = true
  /\ toasts m' = toasts m
  /\ retryTimers m' = retryTimers m.
Proof.
  revert m. induction all as [|t all IH]; intros m Hflag; [cbn; auto|].
  cbn [fold_left].
  destruct (callAndDeliver_guarded depth clk t Task.cancel m Hflag) as (Hf & Ht & Hr).
  destruct (IH _ Hf) as (Hf' & Ht' & Hr').
  split; [exact Hf'|]. split; [now rewrite Ht'|now rewrite Hr'].
Qed.

Lemma cancelAll_bypasses_handler (depth : nat) (clk : Clock) (m : Manager) :
  let m' := cancelAll blankQueue depth clk m in
  toasts m' = toasts m /\ retryTimers m' = retryTimers m
  /\ m_bulkCancelInProgress m' = false /\ m_queue m' = [].
Proof.
  unfold cancelAll.
  destruct (cancelAll_loop_guarded depth clk (m_queue m) (set_m_bulkCancelInProgress true m)
              eq_refl) as (_ & Ht & Hr).
  cbn zeta in *. cbn. rewrite Ht, Hr. auto.
Qed.

(** *** Mirror failover and retry *)

Lemma call_lookup (t : Handle) (op : Task.World -> Task.World) (m : Manager)
    (obj : Task.Task) :
  tasks m !! t = Some obj ->
  let w := op (Task.mkWorld obj (disk m) [] [] (replyCounter m)) in
  call t op m
  = (set_taskTimers (taskTimers m ++ map (pair t) (Task.timers w))
       (set_replyCounter (Task.nextReply w)
          (set_disk (Task.fs w) (set_tasks (<[t := Task.task w]> (tasks m)) m))),
     Task.signals w).
Proof. intros Hobj. unfold call. now rewrite Hobj. Qed.

Lemma deliver_then_finished (slot : Handle -> Manager -> Manager) (t : Handle)
    (emitted : list Task.Signal) (ok : bool) (m : Manager) :
  Forall (fun s => Spec.isFinished s = false) emitted ->
  deliver slot t (emitted ++ [Task.finished ok]) m = slot t m.
Proof.
  intros Hquiet. unfold deliver. rewrite fold_left_app. cbn [fold_left].
  f_equal. exact (deliver_silent slot t emitted m Hquiet).
Qed.

Lemma wrapInt_in_range (z : Z) : - 2 ^ 31 <= z < 2 ^ 31 -> wrapInt z = z.
Proof.
  intros Hz. unfold wrapInt. rewrite Z.mod_small by lia. lia.
Qed.

(** Claim C6 (the Error branch of [onTaskFinishedWrapper], downloadmanager.cpp
    239-279, with [advanceMirror] and [restart]).  For a task that finished in
    Error outside a bulk cancel.  When a next mirror exists the mirror index
    moves to it, the switch is announced and the task is restarted at once:
    with a valid next URL the task runs on that mirror with empty validators;
    with an invalid next URL the validators and the URL stay as they were, the
    restart fails at once (state Finished with the error flag) and emits
    [finished], so the handler runs again for the task before the queue is
    looked at; neither case touches the attempt counter or the retry timers.
    When no mirror is left and the recorded attempts are below the effective
    maximum (task override when >= 0, else the manager default) the attempt
    counter goes up by one and a restart is scheduled after the effective
    delay, an [int] product [delaySec * 1000] that is the plain product for
    delays up to 2147483 seconds; otherwise nothing is scheduled and the
    counters stay. *)
Theorem failover_then_retry (clk : Clock) (slot : Handle -> Manager -> Manager)
    (startQueued : Manager -> Manager) (t : Handle) (m : Manager) (obj : Task.Task) :
  tasks m !! t = Some obj ->
  m_bulkCancelInProgress m = false ->
  Task.stateString obj = "Error"%string ->
  0 <= Task.m_mirrorIndex obj ->
  let mirrors := Task.m_mirrorUrls obj in
  let nextIndex := Task.m_mirrorIndex obj + 1 in
  let next := nth (Z.to_nat nextIndex) mirrors ""%string in
  let maxRetries :=
    if 0 <=? Task.m_retryMax obj then Task.m_retryMax obj else m_autoRetryMax m in
  let delaySec :=
    if 0 <=? Task.m_retryDelaySec obj then Task.m_retryDelaySec obj
    else m_autoRetryDelaySec m in
  let attempts := default 0 (m_taskRetryCount m !! t) in
  let m' := onTaskFinishedWrapperWith clk slot startQueued t m in
  if negb (bool_decide (mirrors = [])) && (nextIndex <? Z.of_nat (length mirrors)) then
    if urlIsValid next then
      exists m1 obj',
        m' = startQueued (startQueued m1)
        /\ tasks m1 !! t = Some obj'
        /\ Task.m_state obj' = Task.Downloading
        /\ is_Some (Task.m_headReply obj')
        /\ Task.m_etag obj' = ""%string
        /\ Task.m_lastModified obj' = ""%string
        /\ Task.m_mirrorIndex obj' = nextIndex
        /\ Task.m_url obj' = next
        /\ m_taskRetryCount m1 = m_taskRetryCount m
        /\ retryTimers m1 = retryTimers m
        /\ toasts m1 = toasts m ++ [ToastFailed; ToastSwitchingMirror next]
    else
      exists m1 obj',
        m' = startQueued (startQueued (slot t m1))
        /\ tasks m1 !! t = Some obj'
        /\ Task.stateString obj' = "Error"%string
        /\ Task.m_etag obj' = Task.m_etag obj
        /\ Task.m_lastModified obj' = Task.m_lastModified obj
        /\ Task.m_mirrorIndex obj' = nextIndex
        /\ Task.m_url obj' = Task.m_url obj
        /\ m_taskRetryCount m1 = m_taskRetryCount m
        /\ retryTimers m1 = retryTimers m
        /\ toasts m1 = toasts m ++ [ToastFailed; ToastSwitchingMirror (Task.m_url obj)]
  else if attempts <? maxRetries then
    exists m1,
      m' = startQueued m1
      /\ tasks m1 = tasks m
      /\ m_taskRetryCount m1 = <[t := attempts + 1]> (m_taskRetryCount m)
      /\ retryTimers m1 = retryTimers m ++ [(wrapInt (delaySec * 1000), t)]
      /\ (- 2147483 <= delaySec <= 2147483 ->
          retryTimers m1 = retryTimers m ++ [(delaySec * 1000, t)])
      /\ toasts m1 = toasts m ++ [ToastFailed; ToastRetrying delaySec]
  else
    exists m1,
      m' = startQueued m1
      /\ tasks m1 = tasks m
      /\ m_taskRetryCount m1 = m_taskRetryCount m
      /\ retryTimers m1 = retryTimers m
      /\ toasts m1 = toasts m ++ [ToastFailed].
Proof.
  intros Hobj Hflag Hstate Hidx mirrors nextIndex next maxRetries delaySec attempts m'.
  subst m'. unfold onTaskFinishedWrapperWith. rewrite Hobj, Hflag, Hstate.
  change (String.eqb "Error" "Done") with false.
  change (String.eqb "Error" "Error") with true. cbv iota zeta.
  set (m0 := toast ToastFailed _).
  set (w0 := Task.mkWorld obj (disk m0) [] [] (replyCounter m0)).
  destruct (negb (bool_decide (mirrors = [])) && (nextIndex <? Z.of_nat (length mirrors)))
    eqn:Hadvance.
  - apply andb_true_iff in Hadvance as [Hne Hnext].
    apply negb_true_iff, bool_decide_eq_false in Hne. apply Z.ltb_lt in Hnext.
    destruct (advanceMirror_next w0 Hne Hidx Hnext)
      as (Hadv & Hi & Hm & Hcur & _ & _ & Hclear).
    cbn zeta in Hcur, Hclear. change (Task.task w0) with obj in Hcur, Hclear, Hi, Hm.
    fold mirrors nextIndex next in Hcur, Hclear, Hi, Hm.
    destruct (Task.advanceMirror w0) as [advanced w1]. cbn [fst snd] in *. subst advanced.
    set (m2 := toast _ (set_tasks _ m0)).
    assert (Hobj2 : tasks m2 !! t = Some (Task.task w1)) by apply lookup_insert_eq.
    unfold callAndDeliver. rewrite (call_lookup t _ m2 _ Hobj2). cbn zeta.
    set (w2 := Task.mkWorld (Task.task w1) (disk m2) [] [] (replyCounter m2)).
    destruct (urlIsValid next) eqn:Hvalid.
    + destruct Hclear as (He & Hl & Hu).
      assert (Hvalid2 : urlIsValid (Task.currentUrl (Task.task w2)) = true)
        by (change (Task.task w2) with (Task.task w1); now rewrite Hcur).
      destruct (restart_valid (taskEnv clk) w2 Hvalid2)
        as (Hs & Hh & He' & Hl' & Hu' & Hi' & _ & emitted & Hsig & Hquiet).
      cbn zeta in *. change (Task.task w2) with (Task.task w1) in *.
      change (Task.signals w2) with (@nil Task.Signal) in Hsig. cbn [app] in Hsig.
      generalize dependent (Task.restart (taskEnv clk) w2).
      intros w3 Hs Hh He' Hl' Hu' Hi' Hsig.
      rewrite Hsig, deliver_silent by exact Hquiet.
      eexists _, (Task.task w3). split; [reflexivity|].
      split; [apply lookup_insert_eq|].
      split; [exact Hs|]. split; [exact Hh|].
      split; [now rewrite He'|]. split; [now rewrite Hl'|].
      split; [now rewrite Hi'|]. split; [now rewrite Hu'|].
      split; [reflexivity|]. split; [reflexivity|].
      subst m2 m0. cbn. rewrite Hu, <- app_assoc. reflexivity.
    + destruct Hclear as (He & Hl & Hu).
      assert (Hvalid2 : urlIsValid (Task.currentUrl (Task.task w2)) = false)
        by (change (Task.task w2) with (Task.task w1); now rewrite Hcur).
      destruct (restart_invalid (taskEnv clk) w2 Hvalid2)
        as (Hs & Herr & He' & Hl' & Hu' & Hi' & _ & emitted & Hsig & Hquiet).
      cbn zeta in *. change (Task.task w2) with (Task.task w1) in *.
      change (Task.signals w2) with (@nil Task.Signal) in Hsig. cbn [app] in Hsig.
      generalize dependent (Task.restart (taskEnv clk) w2).
      intros w3 Hs Herr He' Hl' Hu' Hi' Hsig.
      rewrite Hsig, deliver_then_finished by exact Hquiet.
      eexists _, (Task.task w3). split; [reflexivity|].
      split; [apply lookup_insert_eq|].
      split; [unfold Task.stateString; rewrite Herr, Hs; reflexivity|].
      split; [now rewrite He'|]. split; [now rewrite Hl'|].
      split; [now rewrite Hi'|]. split; [now rewrite Hu'|].
      split; [reflexivity|]. split; [reflexivity|].
      subst m2 m0. cbn. rewrite Hu, <- app_assoc. reflexivity.
  - assert (Hstay : Task.advanceMirror w0 = (false, w0)).
    { apply advanceMirror_exhausted. change (Task.task w0) with obj. fold mirrors nextIndex.
      apply andb_false_iff in Hadvance as [Hnil|Hlast].
      - left. apply negb_false_iff, bool_decide_eq_true in Hnil. exact Hnil.
      - right. apply Z.ltb_ge in Hlast. exact Hlast. }
    rewrite Hstay.
    change (m_taskRetryCount (set_tasks (<[t := Task.task w0]> (tasks m0)) m0))
      with (m_taskRetryCount m).
    change (m_autoRetryMax (set_tasks (<[t := Task.task w0]> (tasks m0)) m0))
      with (m_autoRetryMax m).
    change (m_autoRetryDelaySec (set_tasks (<[t := Task.task w0]> (tasks m0)) m0))
      with (m_autoRetryDelaySec m).
    fold maxRetries delaySec attempts.
    assert (Hsame : <[t := Task.task w0]> (tasks m0) = tasks m).
    { change (Task.task w0) with obj. change (tasks m0) with (tasks m).
      now apply insert_id. }
    destruct (attempts <? maxRetries); eexists; (split; [reflexivity|]); subst m0; cbn;
      rewrite <- ?app_assoc; auto.
    split; [exact Hsame|]. split; [reflexivity|]. split; [reflexivity|].
    split; [|reflexivity].
    intros Hrange. rewrite wrapInt_in_range by lia. reflexivity.
Qed.

End WithQt.
End ManagerProofs.

Module AdmissionProofs.
Import Manager.
Import TaskProofs RestartProofs ManagerProofs.

Section WithQt.
Context `{Qt : QtModel}.
Variable blankQueue : QueueInfo.

(** *** Counting running tasks *)

Lemma count_one_more {A : Type} (f f' : A -> bool) (c : A) (l : list A) :
  NoDup l -> c ∈ l -> f c = false -> f' c = true ->
  (forall x, x <> c -> f' x = f x) ->
  length (List.filter f' l) = S (length (List.filter f l)).
Proof.
  intros Hnodup Hin Hc Hc' Hrest.
  induction Hnodup as [|x l Hfresh Hnodup IH]; [by apply elem_of_nil in Hin|].
  cbn [List.filter]. apply elem_of_cons in Hin as [<-|Hin].
  - rewrite Hc, Hc'. cbn [length]. f_equal.
    f_equal. apply filter_ext_in. intros y Hy. apply Hrest. intros ->.
    apply Hfresh, list_elem_of_In, Hy.
  - assert (Hne : x <> c) by (intros ->; contradiction).
    rewrite (Hrest x Hne). destruct (f x); cbn [length]; now rewrite IH.
Qed.

Lemma count_same {A : Type} (f f' : A -> bool) (l : list A) :
  (forall x, x ∈ l -> f' x = f x) ->
  length (List.filter f' l) = length (List.filter f l).
Proof.
  intros Hsame. f_equal. apply filter_ext_in. intros x Hx.
  apply Hsame, list_elem_of_In, Hx.
Qed.

Lemma countRunning_from (m : Manager) (l : list Handle) (n : Z) (r : gmap string Z) :
  let result :=
    fold_left (fun acc t =>
                 match tasks m !! t with
                 | Some obj =>
                     if Task.isRunning obj then
                       (fst acc + 1,
                        <[queueOf m t := default 0 (snd acc !! queueOf m t) + 1]> (snd acc))
                     else acc
                 | None => acc
                 end) l (n, r) in
  fst result = n + Z.of_nat (length (List.filter (runs m) l))
  /\ forall q, default 0 (snd result !! q)
               = default 0 (r !! q) + Z.of_nat (length (List.filter (runsIn m q) l)).
Proof.
  revert n r. induction l as [|t l IH]; intros n r result.
  - subst result. cbn. split; [lia|intros q; lia].
  - subst result. cbn [fold_left List.filter].
    assert (Hin : forall q, runsIn m q t = runs m t && String.eqb (queueOf m t) q)
      by reflexivity.
    assert (Hruns : runs m t = match tasks m !! t with
                               | Some obj => Task.isRunning obj
                               | None => false
                               end) by reflexivity.
    destruct (tasks m !! t) as [obj|]; [destruct (Task.isRunning obj)|].
    + destruct (IH (n + 1) (<[queueOf m t := default 0 (r !! queueOf m t) + 1]> r))
        as (Hn & Hq).
      cbn [fst snd]. rewrite Hruns. split; [rewrite Hn; cbn [length]; lia|].
      intros q. rewrite Hq, Hin, Hruns. cbn [andb].
      destruct (String.eqb_spec (queueOf m t) q) as [<-|Hne].
      * rewrite lookup_insert_eq. cbn. lia.
      * rewrite lookup_insert_ne by assumption. lia.
    + rewrite Hruns. destruct (IH n r) as (Hn & Hq). split; [exact Hn|].
      intros q. rewrite Hin, Hruns. apply Hq.
    + rewrite Hruns. destruct (IH n r) as (Hn & Hq). split; [exact Hn|].
      intros q. rewrite Hin, Hruns. apply Hq.
Qed.

Lemma countRunning_spec (m : Manager) :
  fst (countRunning m) = runningCount m
  /\ forall q, default 0 (snd (countRunning m) !! q) = runningInQueue m q.
Proof.
  destruct (countRunning_from m (m_queue m) 0 ∅) as (Hn & Hq).
  split; [exact Hn|]. intros q. unfold countRunning, runningInQueue.
  etransitivity; [apply (Hq q)|]. now rewrite lookup_empty.
Qed.

(** *** What one round of admission changes *)

Lemma sameSetup_refl (m : Manager) : m_queueOrder m <> [] -> sameSetup m m.
Proof. unfold sameSetup. auto 10. Qed.

Lemma sameSetup_trans (m0 m1 m2 : Manager) :
  sameSetup m0 m1 -> sameSetup m1 m2 -> sameSetup m0 m2.
Proof.
  unfold sameSetup.
  intros (A1 & B1 & C1 & D1 & E1 & F1 & G1 & H1) (A2 & B2 & C2 & D2 & E2 & F2 & G2 & H2).
  repeat split; try congruence.
Qed.

Lemma queueOf_same (m0 m : Manager) (t : Handle) :
  sameSetup m0 m -> queueOf m t = queueOf m0 t.
Proof.
  unfold sameSetup, queueOf. intros (_ & Hq & _ & _ & _ & Hd & _). now rewrite Hq, Hd.
Qed.

Lemma counts_same (m0 m : Manager) :
  sameSetup m0 m -> (forall t, t ∈ m_queue m0 -> runs m t = runs m0 t) ->
  runningCount m = runningCount m0
  /\ forall q, runningInQueue m q = runningInQueue m0 q.
Proof.
  intros Hsetup Hruns. pose proof Hsetup as (Hqueue & _).
  unfold runningCount, runningInQueue. rewrite Hqueue. split.
  - f_equal. now apply count_same.
  - intros q. f_equal. apply count_same. intros t Ht. unfold runsIn.
    now rewrite (Hruns t Ht), (queueOf_same m0 m t Hsetup).
Qed.

Lemma createQueue_frame (clk : Clock) (name : string) (m : Manager) :
  m_queueOrder m <> [] ->
  let m' := createQueue blankQueue clk name m in
  tasks m' = tasks m /\ sameSetup m m'.
Proof.
  intros Horder m'. subst m'. unfold createQueue.
  destruct (String.eqb (trimmed name) ""); [split; [reflexivity|now apply sameSetup_refl]|].
  destruct (bool_decide (is_Some (m_queues m !! trimmed name))) eqn:Hknown;
    [split; [reflexivity|now apply sameSetup_refl]|].
  apply bool_decide_eq_false in Hknown.
  assert (Hnone : m_queues m !! trimmed name = None).
  { destruct (m_queues m !! trimmed name); [exfalso; eauto|reflexivity]. }
  split; [reflexivity|]. unfold sameSetup. cbn.
  repeat split.
  - unfold defaultQueueName. cbn. destruct (m_queueOrder m); [contradiction|reflexivity].
  - destruct (m_queueOrder m); [contradiction|discriminate].
  - intros q. unfold queueLimitOf. cbn.
    destruct (decide (q = trimmed name)) as [->|Hne].
    + rewrite lookup_insert_eq, Hnone. cbn. now destruct (0 <? m_maxConcurrent m).
    + now rewrite lookup_insert_ne by congruence.
Qed.

Lemma applyTaskSpeed_lookup (m : Manager) (c t : Handle) :
  tasks (applyTaskSpeed c m) !! t
  = if decide (c = t) then setMaxSpeed (effectiveSpeed m c) <$> tasks m !! t
    else tasks m !! t.
Proof.
  unfold applyTaskSpeed. cbn. destruct (decide (c = t)) as [->|Hne].
  - apply lookup_alter_eq.
  - now apply lookup_alter_ne.
Qed.

Lemma start_step (clk : Clock) (slot : Handle -> Manager -> Manager) (c : Handle)
    (m : Manager) (obj : Task.Task) :
  tasks m !! c = Some obj ->
  Task.isIdle obj = true ->
  urlIsValid (Task.currentUrl obj) = true ->
  m_queueOrder m <> [] ->
  let m' := callAndDeliver slot c (Task.start (taskEnv clk)) (applyTaskSpeed c m) in
  sameSetup m m'
  /\ m_queues m' = m_queues m
  /\ (exists obj', tasks m' !! c = Some obj' /\ Task.m_state obj' = Task.Downloading)
  /\ (forall t, t <> c -> tasks m' !! t = tasks m !! t).
Proof.
  intros Hobj Hidle Hvalid Horder m'. subst m'.
  set (m1 := applyTaskSpeed c m).
  set (obj1 := setMaxSpeed (effectiveSpeed m c) obj).
  assert (Hobj1 : tasks m1 !! c = Some obj1).
  { subst m1. rewrite applyTaskSpeed_lookup, decide_True, Hobj by reflexivity. reflexivity. }
  unfold callAndDeliver. rewrite (call_lookup c _ m1 _ Hobj1). cbn zeta.
  set (w := Task.mkWorld obj1 (disk m1) [] [] (replyCounter m1)).
  assert (Hidle1 : Task.m_state (Task.task w) = Task.Idle).
  { apply bool_decide_eq_true in Hidle. exact Hidle. }
  destruct (start_valid (taskEnv clk) w Hidle1 Hvalid)
    as (Hs & _ & _ & _ & _ & _ & _ & emitted & Hsig & Hquiet).
  cbn zeta in Hs, Hsig. change (Task.signals w) with (@nil Task.Signal) in Hsig.
  cbn [app] in Hsig.
  generalize dependent (Task.start (taskEnv clk) w). intros w' Hs Hsig.
  rewrite Hsig, deliver_silent by exact Hquiet.
  split; [|split; [reflexivity|split]].
  - unfold sameSetup. cbn. repeat split; auto.
  - exists (Task.task w'). split; [apply lookup_insert_eq|exact Hs].
  - intros t Hne. subst m1. unfold applyTaskSpeed. cbn.
    rewrite lookup_insert_ne by congruence. now apply lookup_alter_ne.
Qed.

Lemma runs_lookup (m : Manager) (t : Handle) (obj : Task.Task) :
  tasks m !! t = Some obj -> runs m t = Task.isRunning obj.
Proof. intros H. unfold runs. now rewrite H. Qed.

Lemma runs_same_lookup (m m' : Manager) (t : Handle) :
  tasks m' !! t = tasks m !! t -> runs m' t = runs m t.
Proof. intros H. unfold runs. now rewrite H. Qed.

Lemma idle_not_running (obj : Task.Task) :
  Task.isIdle obj = true -> Task.isRunning obj = false.
Proof.
  unfold Task.isIdle, Task.isRunning. intros H%bool_decide_eq_true.
  apply bool_decide_eq_false. rewrite H. discriminate.
Qed.

(** The state [admitQueued] keeps between rounds. *)
Lemma admitQueued_within_limits (clk : Clock) (slot : Handle -> Manager -> Manager)
    (candidates : list Handle) :
  forall (m : Manager) (running : Z) (runningPerQueue : gmap string Z),
    NoDup (m_queue m) ->
    m_queueOrder m <> [] ->
    startsCleanly m ->
    (forall c, c ∈ candidates -> c ∈ m_queue m) ->
    running = runningCount m ->
    (forall q, default 0 (runningPerQueue !! q) = runningInQueue m q) ->
    withinLimits m ->
    withinLimits (admitQueued blankQueue clk slot candidates running runningPerQueue m).
Proof.
  induction candidates as [|c rest IH];
    intros m running rpq Hnodup Horder Hclean Hsub Hrun Hper Hlim; [exact Hlim|].
  assert (Hrest : forall x, x ∈ rest -> x ∈ m_queue m)
    by (intros x Hx; apply Hsub; now right).
  cbn [admitQueued].
  destruct (m_maxConcurrent m <=? running) eqn:Hfull; [exact Hlim|].
  apply Z.leb_gt in Hfull.
  destruct (tasks m !! c) as [obj|] eqn:Hobj; [|now apply IH].
  destruct (Task.isIdle obj) eqn:Hidle; cbn [negb]; [|now apply IH].
  destruct (m_pauseOnBattery m && m_onBattery m); [now apply IH|].
  set (qname := queueOf m c).
  set (m1 := if bool_decide (is_Some (m_queues m !! qname)) then m
             else createQueue blankQueue clk qname m).
  assert (Hm1 : tasks m1 = tasks m /\ sameSetup m m1).
  { subst m1. destruct (bool_decide _).
    - split; [reflexivity|now apply sameSetup_refl].
    - now apply createQueue_frame. }
  destruct Hm1 as (Htasks1 & Hsetup1).
  pose proof Hsetup1 as (Hq1 & Htq1 & Hmax1 & _ & _ & _ & Horder1 & Hlimit1).
  destruct (counts_same m m1 Hsetup1 ltac:(intros t _; apply runs_same_lookup; now rewrite Htasks1))
    as (Hcount1 & Hcountq1).
  assert (Hnodup1 : NoDup (m_queue m1)) by now rewrite Hq1.
  assert (Hclean1 : startsCleanly m1) by (unfold startsCleanly; now rewrite Htasks1).
  assert (Hrest1 : forall x, x ∈ rest -> x ∈ m_queue m1) by now rewrite Hq1.
  assert (Hlim1 : withinLimits m1).
  { destruct Hlim as (Hl & Hlq). split; [now rewrite Hcount1, Hmax1|].
    intros q. now rewrite Hcountq1, Hlimit1. }
  assert (Hstay : withinLimits (admitQueued blankQueue clk slot rest running rpq m1)).
  { apply IH; try assumption; [now rewrite Hcount1|intros q; now rewrite Hcountq1]. }
  destruct (m_queues m1 !! qname) as [info|] eqn:Hinfo; [|exact Hstay].
  destruct (isQueueAllowed info (currentTime clk)); cbn [negb]; [|exact Hstay].
  set (queueLimit := if 0 <? maxConcurrent info then maxConcurrent info
                     else m_maxConcurrent m1).
  assert (Hql : queueLimit = queueLimitOf m1 qname).
  { unfold queueLimitOf. now rewrite Hinfo. }
  destruct (queueLimit <=? default 0 (rpq !! qname)) eqn:Hqfull; [exact Hstay|].
  apply Z.leb_gt in Hqfull.
  assert (Hobj1 : tasks m1 !! c = Some obj) by now rewrite Htasks1.
  destruct (start_step clk slot c m1 obj Hobj1 Hidle (Hclean c obj Hobj Hidle) Horder1)
    as (Hsetup2 & _ & (obj' & Hobj' & Hstate') & Hothers).
  set (m2 := callAndDeliver slot c (Task.start (taskEnv clk)) (applyTaskSpeed c m1)) in *.
  pose proof Hsetup2 as (Hq2 & _ & Hmax2 & _ & _ & _ & Horder2 & Hlimit2).
  assert (Hc1 : runs m1 c = false).
  { rewrite (runs_lookup m1 c obj Hobj1). now apply idle_not_running. }
  assert (Hc2 : runs m2 c = true).
  { rewrite (runs_lookup m2 c obj' Hobj'). unfold Task.isRunning.
    now apply bool_decide_eq_true_2. }
  assert (Hrest2 : forall t, t <> c -> runs m2 t = runs m1 t).
  { intros t Hne. apply runs_same_lookup. now apply Hothers. }
  assert (Hin : c ∈ m_queue m1) by (rewrite Hq1; apply Hsub; now left).
  assert (Hcount2 : runningCount m2 = runningCount m1 + 1).
  { unfold runningCount. rewrite Hq2.
    rewrite (count_one_more (runs m1) (runs m2) c (m_queue m1)) by assumption. lia. }
  assert (Hqof : forall t, queueOf m2 t = queueOf m1 t)
    by (intros t; now apply queueOf_same).
  assert (Hqname : queueOf m1 c = qname) by (subst qname; now apply queueOf_same).
  assert (Hcountq2 : forall q, runningInQueue m2 q
                     = runningInQueue m1 q + (if String.eqb qname q then 1 else 0)).
  { intros q. unfold runningInQueue. rewrite Hq2.
    destruct (String.eqb_spec qname q) as [<-|Hneq].
    - rewrite (count_one_more (runsIn m1 qname) (runsIn m2 qname) c (m_queue m1));
        try assumption; [lia| | |].
      + unfold runsIn. now rewrite Hc1.
      + unfold runsIn. rewrite Hc2, Hqof, Hqname. cbn. apply String.eqb_refl.
      + intros t Hne. unfold runsIn. now rewrite Hrest2, Hqof.
    - rewrite (count_same (runsIn m1 q) (runsIn m2 q) (m_queue m1)); [lia|].
      intros t _. unfold runsIn. rewrite Hqof.
      destruct (decide (t = c)) as [->|Hne].
      + rewrite Hc1, Hc2, Hqname. cbn. now apply String.eqb_neq.
      + now rewrite Hrest2. }
  apply IH.
  - now rewrite Hq2.
  - exact Horder2.
  - intros t objt Ht Hidlet. destruct (decide (t = c)) as [->|Hne].
    + rewrite Hobj' in Ht. injection Ht as <-.
      apply bool_decide_eq_true in Hidlet. congruence.
    + rewrite (Hothers t Hne) in Ht. exact (Hclean1 t objt Ht Hidlet).
  - now rewrite Hq2.
  - rewrite Hcount2, Hcount1. lia.
  - intros q. rewrite Hcountq2, Hcountq1.
    destruct (String.eqb_spec qname q) as [<-|Hneq].
    + rewrite lookup_insert_eq. cbn. rewrite <- Hper. lia.
    + rewrite lookup_insert_ne by assumption. rewrite <- Hper. lia.
  - destruct Hlim1 as (Hl1 & Hlq1). split.
    + rewrite Hcount2, Hmax2, Hcount1, Hmax1. lia.
    + intros q. rewrite Hcountq2, Hlimit2.
      destruct (String.eqb_spec qname q) as [<-|Hneq]; [|specialize (Hlq1 q); lia].
      rewrite Hcountq1, <- Hper, <- Hql. lia.
Qed.

(** Claim C4 ([startQueued], downloadmanager.cpp 364-397).  Admission keeps
    the limits under three conditions: no task is listed twice in [m_queue],
    at least one queue is defined, and every idle task has a valid current
    URL, so that no [start()] fails on the spot.  When then the number of
    running tasks is within the global limit and within each queue's limit
    (the global one where the queue sets none) before the call, the same
    holds after [startQueued].  The resume operations do not pass through
    admission and are not covered. *)
Theorem startQueued_within_limits (depth : nat) (clk : Clock) (m : Manager) :
  NoDup (m_queue m) ->
  m_queueOrder m <> [] ->
  startsCleanly m ->
  withinLimits m ->
  withinLimits (startQueued blankQueue depth clk m).
Proof.
  intros Hnodup Horder Hclean Hlim. unfold startQueued, startQueuedWith.
  destruct (countRunning_spec m) as (Hn & Hq).
  destruct (countRunning m) as [running rpq]. cbn [fst snd] in *.
  apply admitQueued_within_limits; auto.
Qed.

End WithQt.
End AdmissionProofs.

Module ManagerRuns.
Import Manager.
Import TaskProofs RestartProofs ManagerProofs AdmissionProofs.

Section WithQt.
Context `{Qt : QtModel}.
Variable blankQueue : QueueInfo.

(** Claim C3 ([cancel], [cleanup], [onTaskFinishedWrapper] and [cancelAll]).
    A task that is Canceled stays Canceled and emits nothing at any event but
    restart.  The call of [cancel] that enters Canceled emits
    stateChanged(Canceled), then signals that are not finished, then
    finished(false) as its last signal.  While the bulk-cancel flag is set the
    manager's finished handler does nothing, and [cancelAll] raises no toast,
    schedules no retry, empties the queue and ends with the flag cleared. *)
Theorem canceled_is_final (env : Task.Env) (e : Task.Event) (w : Task.World)
    (depth : nat) (clk : Clock) (t : Handle) (m : Manager) :
  (Task.m_state (Task.task w) = Task.Canceled -> e <> Task.CallRestart ->
     Spec.quiet w (Task.handle env e w))
  /\ (Task.m_state (Task.task w) <> Task.Finished ->
      Task.m_state (Task.task w) <> Task.Canceled ->
      exists between,
        Task.signals (Task.cancel w)
        = Task.signals w
            ++ Task.stateChanged Task.Canceled :: between ++ [Task.finished false]
        /\ Forall (fun s => Spec.isFinished s = false) between)
  /\ (m_bulkCancelInProgress m = true ->
      onTaskFinishedWrapper blankQueue depth clk t m = m)
  /\ (let m' := cancelAll blankQueue depth clk m in
      toasts m' = toasts m /\ retryTimers m' = retryTimers m
      /\ m_bulkCancelInProgress m' = false /\ m_queue m' = []).
Proof.
  split; [apply canceled_quiet|]. split; [apply cancel_signals|].
  split; [apply handler_guarded|apply cancelAll_bypasses_handler].
Qed.

End WithQt.

Import Examples.

#[local] Existing Instance PosixQt.qt.

Lemma startQueued_within_limits_witness :
  withinLimits (startQueued blank 2 noon (twoTasks Task.Idle Task.Idle)).
Proof.
  apply startQueued_within_limits.
  - apply NoDup_cons. split; [set_solver|]. apply NoDup_cons. split; [set_solver|].
    apply NoDup_nil_2.
  - discriminate.
  - intros t obj Hobj _. unfold twoTasks in Hobj. cbn [tasks] in Hobj.
    apply lookup_insert_Some in Hobj as [[_ <-]|[_ Hobj]]; [reflexivity|].
    apply lookup_singleton_Some in Hobj as [_ <-]. reflexivity.
  - split; [vm_compute; discriminate|].
    intros q. unfold runningInQueue, runsIn.
    cbn [m_queue twoTasks List.filter].
    change (runs (twoTasks Task.Idle Task.Idle) 0%nat) with false.
    change (runs (twoTasks Task.Idle Task.Idle) 1%nat) with false.
    cbn [andb length]. unfold queueLimitOf.
    destruct (m_queues (twoTasks Task.Idle Task.Idle) !! q) as [info|] eqn:Hq.
    + unfold twoTasks in Hq. cbn [m_queues] in Hq.
      apply lookup_singleton_Some in Hq as [_ <-]. vm_compute. discriminate.
    + vm_compute. discriminate.
Defined.

(** One slot, one task running, one paused: [resumeTask] on the paused task
    starts it at once, and two tasks run. *)
Lemma resumeTask_exceeds_limit :
  let m := twoTasks Task.Downloading Task.Paused in
  let m' := resumeTask blank 2 noon 1 m in
  runningCount m = 1 /\ m_maxConcurrent m = 1
  /\ runningCount m' = 2 /\ m_maxConcurrent m' = 1
  /\ ~ withinLimits m'.
Proof.
  repeat split; try (vm_compute; reflexivity).
  intros [Hcount _]. vm_compute in Hcount. contradiction.
Qed.

(** The first candidate has no URL: its [start()] fails and emits [finished]
    on the spot, the handler's own [startQueued] fills both slots, and the
    loop that was under way counts on from its own tally and starts a
    third task. *)
Lemma startQueued_after_failed_start :
  let m' := startQueued blank 2 noon fourTasks in
  runningCount fourTasks = 0
  /\ m_maxConcurrent m' = 2
  /\ runningCount m' = 3
  /\ ~ withinLimits m'.
Proof.
  cbv zeta. repeat apply conj; try (vm_compute; reflexivity).
  intros [Hcount _]. vm_compute in Hcount. contradiction.
Qed.

Lemma failover_then_retry_witness :
  let m := failed ["http://a/f"; "http://b/f"]%string in
  let idle := fun m : Manager => m in
  exists m1 obj',
    onTaskFinishedWrapperWith noon (fun _ m => m) idle 0%nat m = idle (idle m1)
    /\ tasks m1 !! 0%nat = Some obj'
    /\ Task.m_state obj' = Task.Downloading
    /\ is_Some (Task.m_headReply obj')
    /\ Task.m_etag obj' = ""%string
    /\ Task.m_lastModified obj' = ""%string
    /\ Task.m_mirrorIndex obj' = 1
    /\ Task.m_url obj' = "http://b/f"%string
    /\ m_taskRetryCount m1 = m_taskRetryCount m
    /\ retryTimers m1 = retryTimers m
    /\ toasts m1 = toasts m ++ [ToastFailed; ToastSwitchingMirror "http://b/f"].
Proof.
  intros m idle.
  exact (failover_then_retry noon (fun _ m => m) idle 0%nat m
           (Task.set_m_etag "E1"
              (Task.set_m_mirrorUrls ["http://a/f"; "http://b/f"]%string
                 (Task.set_m_anyError true
                    (Task.set_m_state Task.Finished (download 8)))))
           ltac:(vm_compute; reflexivity) ltac:(vm_compute; reflexivity)
           ltac:(vm_compute; reflexivity) ltac:(vm_compute; discriminate)).
Defined.

(** The next mirror exists but is no valid URL: [advanceMirror()] succeeds,
    the task is restarted, and the ETag of the first mirror is still there. *)
Lemma invalid_mirror_keeps_validators :
  let m := failed ["http://a/f"; ""]%string in
  let m' := onTaskFinishedWrapper blank 3 noon 0%nat m in
  fst (Task.advanceMirror
         (Spec.fresh (Task.set_m_etag "E1"
                        (Task.set_m_mirrorUrls ["http://a/f"; ""]%string (download 8))) ∅))
  = true
  /\ (Task.m_mirrorIndex <$> tasks m' !! 0%nat) = Some 1
  /\ (Task.m_etag <$> tasks m' !! 0%nat) = Some "E1"%string.
Proof. repeat split; vm_compute; reflexivity. Qed.

End ManagerRuns.

(** * Further properties of the code *)

Module TransferProofs.
Import Task.
Import TaskProofs RestartProofs.

(** [stateString()] tells the states apart: each of its six answers stands
    for one state, [Finished] being split by the error flag
    (downloadertask.cpp 1227-1239). *)
Theorem stateString_reads_state (t : Task) :
  (stateString t = "Queued"%string <-> m_state t = Idle)
  /\ (stateString t = "Active"%string <-> m_state t = Downloading)
  /\ (stateString t = "Paused"%string <-> m_state t = Paused)
  /\ (stateString t = "Canceled"%string <-> m_state t = Canceled)
  /\ (stateString t = "Done"%string <-> m_state t = Finished /\ m_anyError t = false)
  /\ (stateString t = "Error"%string <-> m_state t = Finished /\ m_anyError t = true).
Proof.
  unfold stateString.
  destruct (m_state t) eqn:Hs, (m_anyError t) eqn:He; cbn;
    repeat split; intros; try discriminate; try tauto;
    repeat match goal with H : _ /\ _ |- _ => destruct H end; try discriminate.
Qed.

Section WithQt.
Context `{Qt : QtModel}.

Lemma cancel_settled (w : World) :
  m_state (task w) = Finished \/ m_state (task w) = Canceled -> cancel w = w.
Proof. intros [H|H]; unfold cancel; rewrite H; reflexivity. Qed.

(** A second [cancel()] changes nothing: neither the task, nor the disk, nor
    the signals emitted (downloadertask.cpp 1147-1165). *)
Theorem cancel_idempotent (w : World) : cancel (cancel w) = cancel w.
Proof.
  destruct (decide (m_state (task w) = Finished)) as [Hf|Hf].
  { rewrite !(cancel_settled w) by now left. reflexivity. }
  destruct (decide (m_state (task w) = Canceled)) as [Hc|Hc].
  { rewrite !(cancel_settled w) by now right. reflexivity. }
  rewrite (cancel_unfold w Hf Hc).
  assert (Hst : m_state (task (cleanup true (Spec.canceling w))) = Canceled).
  { rewrite cleanup_state. apply canceling_frame. }
  generalize dependent (cleanup true (Spec.canceling w)). intros w' Hst.
  apply cancel_settled. now right.
Qed.

(** More bytes never give fewer segments, and the effective count stays
    between 1 and the configured one (downloadertask.cpp 408-413). *)
Theorem effectiveSegments_monotone (small large segments : Z) :
  1 <= segments -> 0 < small <= large ->
  1 <= effectiveSegments small segments
  /\ effectiveSegments small segments <= effectiveSegments large segments
  /\ effectiveSegments large segments <= segments.
Proof.
  intros Hseg Hsize. unfold effectiveSegments.
  repeat match goal with
         | |- context [?a <? ?b] => destruct (Z.ltb_spec a b)
         end; lia.
Qed.

(** *** The layout of the segments *)

Lemma prepareSegment_range (path : string) (total segCount : Z) (partialSegments : bool)
    (f : FS) (i : Z) :
  let s := fst (prepareSegment path total segCount partialSegments f i) in
  s_start s = i * Z.quot total segCount
  /\ s_end s = (if i =? segCount - 1 then total - 1
                else (i + 1) * Z.quot total segCount - 1)
  /\ (downloaded s = 0 \/ downloaded s = Z.min (file_size f (partPath path i)) (segLen s)).
Proof.
  unfold prepareSegment. destruct (partialSegments && _); cbn; auto.
Qed.

Lemma prepareSegment_laidOut (path : string) (total segCount : Z) (partialSegments : bool)
    (f : FS) (i : Z) :
  Spec.laidOut total segCount i (fst (prepareSegment path total segCount partialSegments f i)).
Proof.
  destruct (prepareSegment_range path total segCount partialSegments f i) as (Hs & He & Hd).
  split; [exact Hs|]. split; [exact He|]. destruct Hd as [->| ->]; lia.
Qed.

Lemma prepareSegments_shapes (path : string) (total segCount : Z) (partialSegments : bool)
    (indices : list Z) :
  forall (acc : list Segment) (f : FS),
  exists segs,
    fst (fold_left (fun acc i =>
                      let '(s, f') :=
                        prepareSegment path total segCount partialSegments (snd acc) i in
                      (fst acc ++ [s], f'))
           indices (acc, f))
    = acc ++ segs
    /\ Forall2 (Spec.laidOut total segCount) indices segs.
Proof.
  induction indices as [|i indices IH]; intros acc f.
  - exists []. cbn. split; [now rewrite app_nil_r|constructor].
  - cbn [fold_left fst snd].
    pose proof (prepareSegment_laidOut path total segCount partialSegments f i) as Hi.
    destruct (prepareSegment path total segCount partialSegments f i) as [s f'].
    cbn [fst] in Hi.
    destruct (IH (acc ++ [s]) f') as (segs & Heq & Hall).
    exists (s :: segs). split; [rewrite Heq, <- app_assoc; reflexivity|].
    constructor; assumption.
Qed.

Lemma prepareSegments_laidOut (path : string) (total segCount : Z) (partialSegments : bool)
    (f : FS) :
  Forall2 (Spec.laidOut total segCount) (seqZ 0 segCount)
    (fst (prepareSegments path total segCount partialSegments f)).
Proof.
  unfold prepareSegments.
  destruct (prepareSegments_shapes path total segCount partialSegments (seqZ 0 segCount) [] f)
    as (segs & -> & Hall).
  exact Hall.
Qed.

Lemma sumLen_acc (segs : list Segment) (a : Z) :
  fold_left (fun acc s => acc + segLen s) segs a
  = a + fold_left (fun acc s => acc + segLen s) segs 0.
Proof.
  revert a. induction segs as [|s segs IH]; intros a; cbn [fold_left]; [lia|].
  rewrite (IH (a + segLen s)), (IH (0 + segLen s)). lia.
Qed.

Lemma sumLen_prefix (total segCount : Z) (k : nat) :
  forall segs,
  Z.of_nat k <= segCount - 1 ->
  Forall2 (Spec.laidOut total segCount) (seqZ 0 (Z.of_nat k)) segs ->
  fold_left (fun acc s => acc + segLen s) segs 0 = Z.of_nat k * Z.quot total segCount.
Proof.
  induction k as [|k IH]; intros segs Hk Hall.
  - apply Forall2_nil_inv_l in Hall as ->. reflexivity.
  - rewrite seqZ_S in Hall. apply Forall2_app_inv_l in Hall.
    destruct Hall as (front & back & Hfront & Hback & ->).
    apply Forall2_cons_inv_l in Hback as (s & rest & (Hs & He & _) & Hrest & ->).
    apply Forall2_nil_inv_l in Hrest as ->.
    rewrite fold_left_app. cbn [fold_left]. rewrite (IH front) by (assumption || lia).
    unfold segLen. rewrite Hs, He.
    rewrite (proj2 (Z.eqb_neq _ _)) by lia. lia.
Qed.

(** The segments tile the file (downloadertask.cpp 416-436): for a positive
    total and at least one segment, the first segment starts at byte 0, each
    next one starts right after the one before, the last one ends at the last
    byte, the lengths add up to the total size, and no segment takes over
    more bytes from an old part file than it is long -- also when there are
    more segments than bytes. *)
Theorem segments_tile (path : string) (total segCount : Z) (partialSegments : bool)
    (f : FS) :
  0 < total -> 1 <= segCount ->
  let layout := fst (prepareSegments path total segCount partialSegments f) in
  (exists first, layout !! 0%nat = Some first /\ s_start first = 0)
  /\ (forall i s next,
        layout !! i = Some s -> layout !! S i = Some next ->
        s_start next = s_end s + 1)
  /\ (exists last, layout !! Z.to_nat (segCount - 1) = Some last
                   /\ s_end last = total - 1)
  /\ fold_left (fun acc s => acc + segLen s) layout 0 = total
  /\ Forall (fun s => 0 <= segLen s /\ downloaded s <= segLen s) layout.
Proof.
  intros Htotal Hcount layout. subst layout.
  pose proof (prepareSegments_laidOut path total segCount partialSegments f) as Hall.
  set (layout := fst (prepareSegments path total segCount partialSegments f)) in *.
  clearbody layout.
  assert (Hq : 0 <= Z.quot total segCount) by (apply Z.quot_pos; lia).
  assert (Hfit : segCount * Z.quot total segCount <= total).
  { apply Z.mul_quot_le; lia. }
  assert (Hat : forall i : nat, Z.of_nat i < segCount ->
                  exists s, layout !! i = Some s /\ Spec.laidOut total segCount (Z.of_nat i) s).
  { intros i Hi.
    assert (Hseq : seqZ 0 segCount !! i = Some (Z.of_nat i))
      by (rewrite lookup_seqZ_lt by lia; f_equal; lia).
    destruct (Forall2_lookup_l _ _ _ _ _ Hall Hseq) as (s & Hs & Hshape).
    exists s. split; assumption. }
  assert (Hin : forall i s, layout !! i = Some s ->
                  Z.of_nat i < segCount /\ Spec.laidOut total segCount (Z.of_nat i) s).
  { intros i s Hs.
    destruct (Forall2_lookup_r _ _ _ _ _ Hall Hs) as (j & Hj & Hshape).
    apply lookup_seqZ in Hj as [-> Hlt]. split; [lia|].
    replace (Z.of_nat i) with (0 + Z.of_nat i) by lia. exact Hshape. }
  split; [|split; [|split; [|split]]].
  - destruct (Hat 0%nat ltac:(lia)) as (s & Hs & Hstart & _).
    exists s. split; [exact Hs|]. rewrite Hstart. reflexivity.
  - intros i s next Hs Hnext.
    apply Hin in Hs as [Hi (_ & He & _)]. apply Hin in Hnext as [Hi' (Hs' & _)].
    rewrite Hs', He.
    rewrite (proj2 (Z.eqb_neq _ _)) by lia. lia.
  - destruct (Hat (Z.to_nat (segCount - 1)) ltac:(lia)) as (s & Hs & _ & He & _).
    exists s. split; [exact Hs|]. rewrite He.
    rewrite (proj2 (Z.eqb_eq _ _)) by lia. reflexivity.
  - assert (Hseq : seqZ 0 segCount
                   = seqZ 0 (Z.of_nat (Z.to_nat (segCount - 1)))
                     ++ [0 + Z.of_nat (Z.to_nat (segCount - 1))]).
    { rewrite <- seqZ_S. f_equal. lia. }
    rewrite Hseq in Hall. apply Forall2_app_inv_l in Hall.
    destruct Hall as (front & back & Hfront & Hback & ->).
    apply Forall2_cons_inv_l in Hback as (s & rest & (Hs & He & _) & Hrest & ->).
    apply Forall2_nil_inv_l in Hrest as ->.
    rewrite fold_left_app. cbn [fold_left].
    rewrite (sumLen_prefix total segCount (Z.to_nat (segCount - 1)) front)
      by (assumption || lia).
    unfold segLen. rewrite Hs, He.
    rewrite (proj2 (Z.eqb_eq _ _)) by lia. lia.
  - apply Forall_forall. intros s Hs. apply list_elem_of_lookup in Hs.
    destruct Hs as [i Hs]. apply Hin in Hs as [Hi (Hs & He & Hd)].
    assert (Hlen : 0 <= segLen s).
    { unfold segLen. rewrite Hs, He.
      destruct (Z.eqb_spec (Z.of_nat i) (segCount - 1)) as [Heq|Hne]; [|lia].
      rewrite Heq. nia. }
    split; [exact Hlen|]. lia.
Qed.

(** *** Merging the parts *)

Lemma sum_acc (g : string -> Z) (parts : list string) (a : Z) :
  fold_left (fun acc p => acc + g p) parts a
  = a + fold_left (fun acc p => acc + g p) parts 0.
Proof.
  revert a. induction parts as [|p parts IH]; intros a; cbn [fold_left]; [lia|].
  rewrite (IH (a + g p)), (IH (0 + g p)). lia.
Qed.

Lemma sum_ext (g h : string -> Z) (parts : list string) :
  (forall p, p ∈ parts -> g p = h p) ->
  fold_left (fun acc p => acc + g p) parts 0
  = fold_left (fun acc p => acc + h p) parts 0.
Proof.
  induction parts as [|p parts IH]; intros Hsame; [reflexivity|].
  cbn [fold_left]. rewrite (sum_acc g), (sum_acc h).
  rewrite (Hsame p) by now left.
  rewrite IH; [reflexivity|]. intros q Hq. apply Hsame. now right.
Qed.

Lemma sum_le (g h : string -> Z) (parts : list string) :
  (forall p, p ∈ parts -> g p <= h p) ->
  fold_left (fun acc p => acc + g p) parts 0
  <= fold_left (fun acc p => acc + h p) parts 0.
Proof.
  induction parts as [|p parts IH]; intros Hle; [reflexivity|].
  cbn [fold_left]. rewrite (sum_acc g), (sum_acc h).
  pose proof (Hle p ltac:(now left)).
  assert (fold_left (fun acc p => acc + g p) parts 0
          <= fold_left (fun acc p => acc + h p) parts 0)
    by (apply IH; intros q Hq; apply Hle; now right).
  lia.
Qed.

Lemma mergeParts_collects (env : Env) (out : string) (segs : list Segment) :
  forall (f f' : FS) (a : Z),
  NoDup (map tempFilePath segs) -> out ∉ map tempFilePath segs ->
  f !! out = Some a ->
  mergeParts env out f segs = (true, f') ->
  f' !! out
  = Some (a + fold_left (fun acc p =>
                           acc + (if 0 <? file_size f p
                                  then copiedBytes (copyOutcome env p) (file_size f p)
                                  else 0))
                (map tempFilePath segs) 0)
  /\ (forall p, p ∈ map tempFilePath segs -> is_Some (f !! p) /\ f' !! p = None)
  /\ (forall p, p <> out -> p ∉ map tempFilePath segs -> f' !! p = f !! p).
Proof.
  induction segs as [|s segs IH]; intros f f' a Hnodup Hout Ha Hmerge.
  - cbn in Hmerge. injection Hmerge as <-. cbn. rewrite Z.add_0_r.
    split; [exact Ha|]. split; [|reflexivity].
    intros p Hp. by apply elem_of_nil in Hp.
  - cbn [map] in Hnodup, Hout. apply NoDup_cons in Hnodup as [Hfresh Hnodup].
    apply not_elem_of_cons in Hout as [Hne Hout].
    cbn [mergeParts] in Hmerge. unfold mergePart in Hmerge.
    destruct (f !! tempFilePath s) as [size|] eqn:Hsize; [|discriminate].
    destruct (negb (canOpen env (tempFilePath s))); [discriminate|].
    set (copied := if 0 <? size then copiedBytes (copyOutcome env (tempFilePath s)) size
                   else 0) in Hmerge.
    set (f1 := delete (tempFilePath s) (grow out copied f)) in Hmerge.
    assert (Hgoes : mergeParts env out f1 segs = (true, f')).
    { destruct (copyOutcome env (tempFilePath s)); try exact Hmerge.
      destruct (0 <? size); [discriminate|exact Hmerge]. }
    clear Hmerge.
    assert (Hf1out : f1 !! out = Some (a + copied)).
    { subst f1. rewrite lookup_delete_ne by congruence. unfold grow, file_size.
      rewrite lookup_insert_eq, Ha. reflexivity. }
    assert (Hf1 : forall p, p <> out -> p <> tempFilePath s -> f1 !! p = f !! p).
    { intros p Hp Hps. subst f1. rewrite lookup_delete_ne by congruence.
      unfold grow. now rewrite lookup_insert_ne by congruence. }
    destruct (IH f1 f' (a + copied) Hnodup Hout Hf1out Hgoes) as (Hsum & Hparts & Hrest).
    assert (Hsame : forall p, p ∈ map tempFilePath segs -> f1 !! p = f !! p).
    { intros p Hp. apply Hf1; intros ->; contradiction. }
    split; [|split].
    + rewrite Hsum. cbn [map fold_left]. rewrite (sum_acc _ _ (0 + _)).
      rewrite (sum_ext
                 (fun p => if 0 <? file_size f1 p
                           then copiedBytes (copyOutcome env p) (file_size f1 p) else 0)
                 (fun p => if 0 <? file_size f p
                           then copiedBytes (copyOutcome env p) (file_size f p) else 0))
        by (intros p Hp; unfold file_size; now rewrite (Hsame p Hp)).
      unfold file_size at 3 4. rewrite Hsize. cbn [default id]. fold copied.
      f_equal. lia.
    + intros p [->|Hp]%elem_of_cons.
      * split; [now rewrite Hsize|].
        rewrite Hrest by congruence. subst f1. apply lookup_delete_eq.
      * destruct (Hparts p Hp) as [Hsome Hgone]. rewrite Hsame in Hsome by assumption.
        now split.
    + intros p Hp Hnot. apply not_elem_of_cons in Hnot as [Hps Hnot].
      rewrite Hrest by assumption. now apply Hf1.
Qed.

(** A merge that gets through (downloadertask.cpp 896-925) removes every
    part, touches nothing besides the parts and the final path, and leaves at
    the final path the bytes the copy loops took from the parts: of a part
    whose reads all succeed every byte, of a part whose read fails the bytes
    copied before that -- so the final file is as long as all the parts
    together when no read fails, and never longer.  The part files are taken
    to be distinct from one another and from the final path. *)
Theorem mergeSegments_collects (env : Env) (w : World) :
  let out := m_filePath (task w) in
  let parts := map tempFilePath (m_segmentsInfo (task w)) in
  let taken p := if 0 <? file_size (fs w) p
                 then copiedBytes (copyOutcome env p) (file_size (fs w) p) else 0 in
  NoDup parts -> out ∉ parts ->
  fst (mergeSegments env w) = true ->
  let w' := snd (mergeSegments env w) in
  fs w' !! out = Some (fold_left (fun acc p => acc + taken p) parts 0)
  /\ (forall p, p ∈ parts -> is_Some (fs w !! p) /\ fs w' !! p = None)
  /\ (forall p, p <> out -> p ∉ parts -> fs w' !! p = fs w !! p)
  /\ task w' = task w
  /\ ((forall p, p ∈ parts -> 0 <= file_size (fs w) p) ->
      file_size (fs w') out
      <= fold_left (fun acc p => acc + file_size (fs w) p) parts 0)
  /\ ((forall p, p ∈ parts -> 0 <= file_size (fs w) p /\ copyOutcome env p = CopyAll) ->
      fs w' !! out = Some (fold_left (fun acc p => acc + file_size (fs w) p) parts 0)).
Proof.
  intros out parts taken Hnodup Hout. unfold mergeSegments. fold out.
  destruct (negb (canOpen env out)); [discriminate|].
  destruct (mergeParts env out (openTruncate out (fs w)) (m_segmentsInfo (task w)))
    as [ok f'] eqn:Hmerge.
  cbn [fst snd]. intros ->.
  destruct (mergeParts_collects env out (m_segmentsInfo (task w))
              (openTruncate out (fs w)) f' 0 Hnodup Hout
              ltac:(apply lookup_insert_eq) Hmerge) as (Hsum & Hparts & Hrest).
  assert (Hkeep : forall p, p <> out -> openTruncate out (fs w) !! p = fs w !! p).
  { intros p Hp. unfold openTruncate. now rewrite lookup_insert_ne by congruence. }
  assert (Hout' : f' !! out = Some (fold_left (fun acc p => acc + taken p) parts 0)).
  { rewrite Hsum. cbn. f_equal. apply sum_ext. intros p Hp. subst taken. cbv beta.
    unfold file_size. rewrite Hkeep by (intros ->; contradiction). reflexivity. }
  cbn [fs task set_fs]. split; [exact Hout'|]. split; [|split; [|split; [|split]]].
  - intros p Hp. destruct (Hparts p Hp) as [Hsome Hgone].
    rewrite Hkeep in Hsome by (intros ->; contradiction). now split.
  - intros p Hp Hnot. rewrite Hrest by assumption. now apply Hkeep.
  - reflexivity.
  - intros Hsizes. unfold file_size at 1. rewrite Hout'. cbn [default].
    apply sum_le. intros p Hp. subst taken. cbv beta. specialize (Hsizes p Hp).
    destruct (0 <? file_size (fs w) p) eqn:Hpos; [|exact Hsizes].
    apply Z.ltb_lt in Hpos. unfold copiedBytes.
    destruct (copyOutcome env p); lia.
  - intros Hfull. rewrite Hout'. f_equal. apply sum_ext. intros p Hp. subst taken.
    cbv beta. destruct (Hfull p Hp) as [Hsize ->]. cbn [copiedBytes].
    destruct (0 <? file_size (fs w) p) eqn:Hpos; [reflexivity|].
    apply Z.ltb_ge in Hpos. lia.
Qed.

(** *** Pausing *)

(** [pause()] of a running task (downloadertask.cpp 927-991) leaves it Paused
    with a reason, without any reply, open file or buffered byte; it changes
    no file and no counter of written bytes (bytes still in a buffer are
    dropped, they were never counted), schedules nothing and emits no
    [finished]. *)
Theorem pause_keeps_disk (env : Env) (w : World) :
  m_state (task w) = Downloading ->
  let w' := pause env w in
  m_state (task w') = Paused
  /\ m_pauseReason (task w') <> ""%string
  /\ m_pausedAt (task w') = wallClock env
  /\ fs w' = fs w
  /\ timers w' = timers w
  /\ m_headReply (task w') = None
  /\ m_singleReply (task w') = None
  /\ m_singleFile (task w') = None
  /\ m_singleBuffer (task w') = []
  /\ m_singleWritten (task w') = m_singleWritten (task w)
  /\ map downloaded (m_segmentsInfo (task w')) = map downloaded (m_segmentsInfo (task w))
  /\ Forall (fun s => reply s = None /\ file s = false /\ buffer s = [])
       (m_segmentsInfo (task w'))
  /\ exists emitted,
       signals w' = signals w ++ emitted
       /\ Forall (fun s => Spec.isFinished s = false) emitted.
Proof.
  intros Hstate w'. subst w'. unfold pause. rewrite Hstate.
  rewrite bool_decide_eq_true_2 by reflexivity. cbn [negb].
  destruct w as [t f sigs tms nr]. cbn [task] in *.
  assert (Hsegs : forall segs : list Segment,
            map downloaded (map quiesceSegment segs) = map downloaded segs
            /\ Forall (fun s => reply s = None /\ file s = false /\ buffer s = [])
                 (map quiesceSegment segs)).
  { induction segs as [|s segs [IH1 IH2]]; [split; [reflexivity|constructor]|].
    cbn [map]. split; [now rewrite IH1|]. constructor; [|exact IH2]. now cbn. }
  destruct (String.eqb (m_pauseReason t) "") eqn:Hreason;
    [|apply String.eqb_neq in Hreason];
    unfold emit, upd; cbn;
    match goal with |- context [negb (?a =? ?b)] => destruct (Z.eqb_spec a b) as [Hat|Hat] end;
    cbn; (repeat split; try reflexivity; try congruence;
          try apply Hsegs; try discriminate);
    eexists; (split; [rewrite <- ?app_assoc; reflexivity|repeat constructor]).
Qed.

(** *** No byte is counted twice *)

Lemma rollWindow_single (env : Env) (t : Task) :
  m_singleWritten (rollWindow env t) = m_singleWritten t
  /\ m_singleBuffer (rollWindow env t) = m_singleBuffer t
  /\ m_segmentsInfo (rollWindow env t) = m_segmentsInfo t
  /\ m_state (rollWindow env t) = m_state t
  /\ m_singleFile (rollWindow env t) = m_singleFile t.
Proof. unfold rollWindow. now destruct (1000 <=? _). Qed.

Lemma upd_rollWindow (env : Env) (x : World) :
  m_singleWritten (task (upd (rollWindow env) x)) = m_singleWritten (task x)
  /\ m_singleBuffer (task (upd (rollWindow env) x)) = m_singleBuffer (task x)
  /\ m_segmentsInfo (task (upd (rollWindow env) x)) = m_segmentsInfo (task x)
  /\ m_state (task (upd (rollWindow env) x)) = m_state (task x)
  /\ fs (upd (rollWindow env) x) = fs x.
Proof.
  destruct (rollWindow_single env (task x)) as (H1 & H2 & H3 & H4 & _).
  unfold upd. cbn. auto.
Qed.

(** Whatever the file accepts of a write (at most what it was asked for),
    one run of the single-stream processor (downloadertask.cpp 638-682) counts
    exactly the bytes it moves to the file: the written count never falls,
    the file grows by the rise of the written count and no other file
    changes.  The written count plus the buffer length never rises; it stays
    the same when the run leaves the state of the task as it was, and the
    only other outcome is that the slot of [progress] paused the task inside
    the run, which leaves it Paused with an empty buffer. *)
Theorem processSingleBuffer_conserves (env : Env) (w : World) :
  (forall n, writeResult env n <= n) ->
  let w' := processSingleBuffer env w in
  m_singleWritten (task w) <= m_singleWritten (task w')
  /\ m_singleWritten (task w') + Z.of_nat (length (m_singleBuffer (task w')))
     <= m_singleWritten (task w) + Z.of_nat (length (m_singleBuffer (task w)))
  /\ (forall path, m_singleFile (task w) = Some path ->
        file_size (fs w') path
        = file_size (fs w) path + (m_singleWritten (task w') - m_singleWritten (task w)))
  /\ (forall p, m_singleFile (task w) <> Some p -> fs w' !! p = fs w !! p)
  /\ (m_state (task w') = m_state (task w) ->
      m_singleWritten (task w') + Z.of_nat (length (m_singleBuffer (task w')))
      = m_singleWritten (task w) + Z.of_nat (length (m_singleBuffer (task w))))
  /\ (m_state (task w') <> m_state (task w) ->
      m_state (task w') = Paused /\ m_singleBuffer (task w') = []).
Proof.
  intros Hwrite w'. subst w'. unfold processSingleBuffer.
  assert (Hidle : m_singleWritten (task w) <= m_singleWritten (task w)
                  /\ m_singleWritten (task w) + Z.of_nat (length (m_singleBuffer (task w)))
                     <= m_singleWritten (task w) + Z.of_nat (length (m_singleBuffer (task w)))
                  /\ (forall path, m_singleFile (task w) = Some path ->
                        file_size (fs w) path
                        = file_size (fs w) path
                          + (m_singleWritten (task w) - m_singleWritten (task w)))
                  /\ (forall p, m_singleFile (task w) <> Some p -> fs w !! p = fs w !! p)
                  /\ (m_state (task w) = m_state (task w) ->
                      m_singleWritten (task w) + Z.of_nat (length (m_singleBuffer (task w)))
                      = m_singleWritten (task w)
                        + Z.of_nat (length (m_singleBuffer (task w))))
                  /\ (m_state (task w) <> m_state (task w) ->
                      m_state (task w) = Paused /\ m_singleBuffer (task w) = [])).
  { split; [lia|]. split; [lia|]. split; [intros; lia|]. split; [reflexivity|].
    split; [reflexivity|]. intros Hne. now contradiction Hne. }
  revert Hidle.
  destruct (m_singleFile (task w)) as [path|] eqn:Hfile; intros Hidle; [|exact Hidle].
  destruct (m_singleProcessing (task w)); [exact Hidle|].
  destruct (bool_decide (m_singleBuffer (task w) = [])); [exact Hidle|].
  destruct (decide (m_state (task w) = Downloading)) as [Hstate|Hstate];
    [rewrite (bool_decide_eq_true_2 _ Hstate)
    |rewrite (bool_decide_eq_false_2 _ Hstate); exact Hidle].
  cbn [negb].
  set (bufferLen := Z.of_nat (length (m_singleBuffer (task w)))) in *.
  set (allowed := allowedBytes (task w) _ bufferLen).
  destruct (allowed <=? 0) eqn:Hallowed; [exact Hidle|].
  clear Hidle. apply Z.leb_gt in Hallowed.
  set (toWrite := Z.min allowed bufferLen).
  pose proof (Hwrite toWrite) as Hle.
  set (written := writeResult env toWrite) in *.
  set (w2 := upd (rollWindow env) _).
  assert (H2 : exists moved,
            0 <= moved <= bufferLen
            /\ m_state (task w2) = Downloading
            /\ m_singleWritten (task w2) = m_singleWritten (task w) + moved
            /\ Z.of_nat (length (m_singleBuffer (task w2))) = bufferLen - moved
            /\ file_size (fs w2) path = file_size (fs w) path + moved
            /\ (forall p, p <> path -> fs w2 !! p = fs w !! p)).
  { subst w2. destruct (0 <? written) eqn:Hpos.
    - apply Z.ltb_lt in Hpos. exists written. split; [lia|].
      match goal with
      | |- context [upd (rollWindow env) ?x] =>
          destruct (upd_rollWindow env x) as (Hw & Hb & _ & Hs & Hf)
      end.
      rewrite Hw, Hb, Hs, Hf. cbn.
      split; [exact Hstate|]. split; [reflexivity|].
      split; [rewrite length_drop; subst bufferLen; lia|].
      split; [unfold grow, file_size; rewrite lookup_insert_eq; reflexivity|].
      intros p Hp. unfold grow. now rewrite lookup_insert_ne by congruence.
    - exists 0. split; [subst bufferLen; lia|].
      match goal with
      | |- context [upd (rollWindow env) ?x] =>
          destruct (upd_rollWindow env x) as (Hw & Hb & _ & Hs & Hf)
      end.
      rewrite Hw, Hb, Hs, Hf. cbn.
      split; [exact Hstate|]. split; [lia|]. split; [subst bufferLen; lia|].
      split; [lia|]. reflexivity. }
  clearbody w2.
  destruct H2 as (moved & Hmoved & Hst & Hw & Hb & Hsize & Hothers).
  pose proof (emitProgress_running env (totalDownloaded (task w2)) (m_totalSize (task w2))
                w2 Hst) as Hslot.
  cbv zeta in Hslot.
  set (w3 := emitProgress env _ _ w2) in *.
  destruct Hslot as (Hfs3 & _ & _ & Hw3 & _ & _ & _ & Hcase).
  destruct (updateSpeedAndETA_task env w3) as [st Hst4].
  destruct (updateSpeedAndETA_world env w3) as (Hfs4 & _).
  set (w4 := updateSpeedAndETA env w3) in *.
  clearbody w3. clearbody w4.
  set (w5 := upd (set_m_singleProcessing false) w4).
  assert (H5 : fs w5 = fs w2
               /\ m_singleWritten (task w5) = m_singleWritten (task w2)
               /\ m_singleBuffer (task w5) = m_singleBuffer (task w3)
               /\ m_state (task w5) = m_state (task w3)).
  { subst w5. cbn. rewrite Hst4. cbn. rewrite Hfs4, Hfs3, Hw3. auto. }
  assert (Hend : forall x : World,
            task x = task w5 -> fs x = fs w5 ->
            m_singleWritten (task w) <= m_singleWritten (task x)
            /\ m_singleWritten (task x) + Z.of_nat (length (m_singleBuffer (task x)))
               <= m_singleWritten (task w) + bufferLen
            /\ (forall path0, Some path = Some path0 ->
                  file_size (fs x) path0
                  = file_size (fs w) path0
                    + (m_singleWritten (task x) - m_singleWritten (task w)))
            /\ (forall p, Some path <> Some p -> fs x !! p = fs w !! p)
            /\ (m_state (task x) = m_state (task w) ->
                m_singleWritten (task x) + Z.of_nat (length (m_singleBuffer (task x)))
                = m_singleWritten (task w) + bufferLen)
            /\ (m_state (task x) <> m_state (task w) ->
                m_state (task x) = Paused /\ m_singleBuffer (task x) = [])).
  { intros x Hx Hxfs. destruct H5 as (F5 & W5 & B5 & S5).
    rewrite Hx, Hxfs, F5, W5, B5, S5, Hw, Hstate.
    assert (Hbuf3 : (m_state (task w3) = Downloading
                     /\ m_singleBuffer (task w3) = m_singleBuffer (task w2))
                    \/ (m_state (task w3) = Paused /\ m_singleBuffer (task w3) = [])).
    { destruct (progressSlot env _ _) as [| |reason].
      - left. rewrite Hcase. auto.
      - right. destruct Hcase as (Hp & Hbe & _). auto.
      - right. destruct Hcase as (Hp & Hbe & _). auto. }
    split; [lia|].
    split; [destruct Hbuf3 as [[_ ->]|[_ ->]]; cbn [length]; lia|].
    split; [intros path0 [= <-]; rewrite Hsize; lia|].
    split; [intros p Hp; apply Hothers; congruence|].
    destruct Hbuf3 as [[Hs3 Hb3]|[Hs3 Hb3]]; rewrite Hs3, Hb3.
    - split; [intros _; lia|]. intros Hne. now contradiction Hne.
    - split; [discriminate|]. intros _. split; reflexivity. }
  clearbody w5.
  destruct (negb (bool_decide (m_singleBuffer (task w5) = [])));
    apply Hend; reflexivity.
Qed.

Lemma quiesce_lookup (segs : list Segment) (j : nat) :
  map quiesceSegment segs !! j = quiesceSegment <$> segs !! j.
Proof. apply list_lookup_fmap. Qed.

(** The same for one run of a segment's processor (downloadertask.cpp
    820-864): the segment keeps its range and its path, its downloaded count
    never falls, its part file grows by the rise of the count and no other
    file changes.  The count plus the buffer length never rises.  When the
    run leaves the state of the task as it was, count plus buffer length is
    unchanged and no other segment changes; the only other outcome is that the
    slot of [progress] paused the task inside the run, which leaves it Paused,
    this segment with an empty buffer and every other segment as [pause()]
    leaves a segment. *)
Theorem processSegmentBuffer_conserves (env : Env) (i : nat) (w : World) (s : Segment) :
  (forall n, writeResult env n <= n) ->
  m_segmentsInfo (task w) !! i = Some s ->
  let w' := processSegmentBuffer env i w in
  exists s',
    m_segmentsInfo (task w') !! i = Some s'
    /\ downloaded s <= downloaded s'
    /\ downloaded s' + Z.of_nat (length (buffer s'))
       <= downloaded s + Z.of_nat (length (buffer s))
    /\ s_start s' = s_start s /\ s_end s' = s_end s
    /\ tempFilePath s' = tempFilePath s
    /\ file_size (fs w') (tempFilePath s)
       = file_size (fs w) (tempFilePath s) + (downloaded s' - downloaded s)
    /\ (forall p, p <> tempFilePath s -> fs w' !! p = fs w !! p)
    /\ (m_state (task w') = m_state (task w) ->
        downloaded s' + Z.of_nat (length (buffer s'))
        = downloaded s + Z.of_nat (length (buffer s))
        /\ forall j, j <> i ->
             m_segmentsInfo (task w') !! j = m_segmentsInfo (task w) !! j)
    /\ (m_state (task w') <> m_state (task w) ->
        m_state (task w') = Paused /\ buffer s' = []
        /\ forall j, j <> i ->
             m_segmentsInfo (task w') !! j
             = quiesceSegment <$> m_segmentsInfo (task w) !! j).
Proof.
  intros Hwrite Hseg w'. subst w'. unfold processSegmentBuffer. rewrite Hseg.
  assert (Hidle : exists s',
            m_segmentsInfo (task w) !! i = Some s'
            /\ downloaded s <= downloaded s'
            /\ downloaded s' + Z.of_nat (length (buffer s'))
               <= downloaded s + Z.of_nat (length (buffer s))
            /\ s_start s' = s_start s /\ s_end s' = s_end s
            /\ tempFilePath s' = tempFilePath s
            /\ file_size (fs w) (tempFilePath s)
               = file_size (fs w) (tempFilePath s) + (downloaded s' - downloaded s)
            /\ (forall p, p <> tempFilePath s -> fs w !! p = fs w !! p)
            /\ (m_state (task w) = m_state (task w) ->
                downloaded s' + Z.of_nat (length (buffer s'))
                = downloaded s + Z.of_nat (length (buffer s))
                /\ forall j, j <> i ->
                     m_segmentsInfo (task w) !! j = m_segmentsInfo (task w) !! j)
            /\ (m_state (task w) <> m_state (task w) ->
                m_state (task w) = Paused /\ buffer s' = []
                /\ forall j, j <> i ->
                     m_segmentsInfo (task w) !! j
                     = quiesceSegment <$> m_segmentsInfo (task w) !! j)).
  { exists s. split; [exact Hseg|].
    split; [lia|]. split; [lia|]. split; [reflexivity|]. split; [reflexivity|].
    split; [reflexivity|]. split; [lia|]. split; [reflexivity|].
    split; [intros _; split; [lia|reflexivity]|].
    intros Hne. now contradiction Hne. }
  destruct (negb (file s)); [exact Hidle|].
  destruct (processing s) eqn:Hproc; [exact Hidle|].
  destruct (bool_decide (buffer s = [])); [exact Hidle|].
  destruct (decide (m_state (task w) = Downloading)) as [Hstate|Hstate];
    [rewrite (bool_decide_eq_true_2 _ Hstate)
    |rewrite (bool_decide_eq_false_2 _ Hstate); exact Hidle].
  cbn [negb]. clear Hidle.
  set (bufferLen := Z.of_nat (length (buffer s))).
  set (allowed := allowedBytes (task w) _ bufferLen).
  destruct (allowed <=? 0) eqn:Hallowed.
  - exists s. unfold singleShot, updSegment, upd. cbn -[alter].
    split.
    { rewrite !list_lookup_alter_eq, Hseg. cbn.
      destruct s; cbn in *; subst; reflexivity. }
    split; [lia|]. split; [lia|]. split; [reflexivity|]. split; [reflexivity|].
    split; [reflexivity|]. split; [lia|]. split; [reflexivity|].
    split.
    + intros _. split; [lia|].
      intros j Hj. now rewrite !list_lookup_alter_ne by congruence.
    + intros Hne. now contradiction Hne.
  - apply Z.leb_gt in Hallowed.
    set (toWrite := Z.min allowed bufferLen).
    pose proof (Hwrite toWrite) as Hle.
    set (written := writeResult env toWrite) in *.
    set (w3 := upd (rollWindow env) _).
    assert (H3 : exists moved s3,
              0 <= moved <= bufferLen
              /\ m_state (task w3) = Downloading
              /\ m_segmentsInfo (task w3) !! i = Some s3
              /\ downloaded s3 = downloaded s + moved
              /\ Z.of_nat (length (buffer s3)) = bufferLen - moved
              /\ s_start s3 = s_start s /\ s_end s3 = s_end s
              /\ tempFilePath s3 = tempFilePath s
              /\ file_size (fs w3) (tempFilePath s) = file_size (fs w) (tempFilePath s) + moved
              /\ (forall p, p <> tempFilePath s -> fs w3 !! p = fs w !! p)
              /\ (forall j, j <> i ->
                    m_segmentsInfo (task w3) !! j = m_segmentsInfo (task w) !! j)).
    { subst w3. destruct (0 <? written) eqn:Hpos.
      - apply Z.ltb_lt in Hpos. exists written.
        exists (set_downloaded (downloaded s + written)
                  (set_buffer (drop (Z.to_nat written) (buffer s))
                     (set_processing true s))).
        split; [lia|].
        match goal with
        | |- context [upd (rollWindow env) ?x] =>
            destruct (upd_rollWindow env x) as (_ & _ & Hsegs & Hs & Hf)
        end.
        rewrite Hsegs, Hs, Hf. unfold updSegment, upd. cbn -[alter].
        split; [exact Hstate|].
        split; [rewrite !list_lookup_alter_eq, Hseg; reflexivity|].
        split; [reflexivity|].
        split; [rewrite length_drop; subst bufferLen; lia|].
        split; [reflexivity|]. split; [reflexivity|]. split; [reflexivity|].
        split; [unfold grow, file_size; rewrite lookup_insert_eq; reflexivity|].
        split; [intros p Hp; unfold grow; now rewrite lookup_insert_ne by congruence|].
        intros j Hj. now rewrite !list_lookup_alter_ne by congruence.
      - exists 0, (set_processing true s). split; [subst bufferLen; lia|].
        match goal with
        | |- context [upd (rollWindow env) ?x] =>
            destruct (upd_rollWindow env x) as (_ & _ & Hsegs & Hs & Hf)
        end.
        rewrite Hsegs, Hs, Hf. unfold updSegment, upd. cbn -[alter].
        split; [exact Hstate|].
        split; [rewrite !list_lookup_alter_eq, Hseg; reflexivity|].
        split; [lia|]. split; [subst bufferLen; lia|].
        split; [reflexivity|]. split; [reflexivity|]. split; [reflexivity|].
        split; [lia|]. split; [reflexivity|].
        intros j Hj. now rewrite !list_lookup_alter_ne by congruence. }
    clearbody w3.
    destruct H3 as (moved & s3 & Hmoved & Hst & Hat3 & Hd3 & Hb3 & Hstart3 & Hend3 & Hpath3
                    & Hsize & Hothers & Hsegs3).
    pose proof (emitProgress_running env (totalDownloaded (task w3)) (m_totalSize (task w3))
                  w3 Hst) as Hslot.
    cbv zeta in Hslot.
    set (w4 := emitProgress env _ _ w3) in *.
    destruct Hslot as (Hfs4 & _ & _ & _ & _ & _ & _ & Hcase).
    destruct (updateSpeedAndETA_task env w4) as [st Hst5].
    destruct (updateSpeedAndETA_world env w4) as (Hfs5 & _).
    set (w5 := updateSpeedAndETA env w4) in *.
    assert (Hcases : (m_state (task w4) = Downloading
                      /\ m_segmentsInfo (task w4) = m_segmentsInfo (task w3))
                     \/ (m_state (task w4) = Paused
                         /\ m_segmentsInfo (task w4)
                            = map quiesceSegment (m_segmentsInfo (task w3)))).
    { destruct (progressSlot env _ _) as [| |reason].
      - left. rewrite Hcase. auto.
      - right. destruct Hcase as (Hp & _ & _ & _ & Hq). auto.
      - right. destruct Hcase as (Hp & _ & _ & _ & Hq). auto. }
    clear Hcase. clearbody w4. clearbody w5.
    set (w6 := updSegment i (set_processing false) w5).
    assert (H6 : fs w6 = fs w3
                 /\ m_state (task w6) = m_state (task w4)
                 /\ m_segmentsInfo (task w6)
                    = alter (set_processing false) i (m_segmentsInfo (task w4))).
    { subst w6. unfold updSegment, upd. cbn -[alter]. rewrite Hst5. cbn -[alter].
      rewrite Hfs5, Hfs4. auto. }
    destruct H6 as (F6 & S6 & G6).
    assert (Hend : exists s6,
              m_segmentsInfo (task w6) !! i = Some s6
              /\ downloaded s <= downloaded s6
              /\ downloaded s6 + Z.of_nat (length (buffer s6)) <= downloaded s + bufferLen
              /\ s_start s6 = s_start s /\ s_end s6 = s_end s
              /\ tempFilePath s6 = tempFilePath s
              /\ file_size (fs w6) (tempFilePath s)
                 = file_size (fs w) (tempFilePath s) + (downloaded s6 - downloaded s)
              /\ (forall p, p <> tempFilePath s -> fs w6 !! p = fs w !! p)
              /\ (m_state (task w6) = m_state (task w) ->
                  downloaded s6 + Z.of_nat (length (buffer s6)) = downloaded s + bufferLen
                  /\ forall j, j <> i ->
                       m_segmentsInfo (task w6) !! j = m_segmentsInfo (task w) !! j)
              /\ (m_state (task w6) <> m_state (task w) ->
                  m_state (task w6) = Paused /\ buffer s6 = []
                  /\ forall j, j <> i ->
                       m_segmentsInfo (task w6) !! j
                       = quiesceSegment <$> m_segmentsInfo (task w) !! j)).
    { rewrite G6, S6, F6, Hstate. destruct Hcases as [[Hs4 Hg4]|[Hs4 Hg4]]; rewrite Hs4, Hg4.
      - exists (set_processing false s3).
        split; [rewrite list_lookup_alter_eq, Hat3; reflexivity|].
        cbn. rewrite Hd3, Hb3, Hstart3, Hend3, Hpath3, Hsize.
        split; [lia|]. split; [lia|]. split; [reflexivity|]. split; [reflexivity|].
        split; [reflexivity|]. split; [lia|]. split; [exact Hothers|].
        split.
        + intros _. split; [lia|].
          intros j Hj. rewrite list_lookup_alter_ne by congruence. now apply Hsegs3.
        + intros Hne. now contradiction Hne.
      - exists (set_processing false (quiesceSegment s3)).
        split; [rewrite list_lookup_alter_eq, quiesce_lookup, Hat3; reflexivity|].
        cbn. rewrite Hd3, Hstart3, Hend3, Hpath3, Hsize.
        split; [lia|]. split; [lia|]. split; [reflexivity|]. split; [reflexivity|].
        split; [reflexivity|]. split; [lia|]. split; [exact Hothers|].
        split; [discriminate|].
        intros _. split; [reflexivity|]. split; [reflexivity|].
        intros j Hj. rewrite list_lookup_alter_ne by congruence.
        rewrite quiesce_lookup. now rewrite Hsegs3. }
    clearbody w6.
    destruct Hend as (s6 & Hat6 & Hrest).
    rewrite Hat6.
    destruct (negb (bool_decide (buffer s6 = []))); exists s6; (split; [exact Hat6|]);
      exact Hrest.
Qed.

End WithQt.
End TransferProofs.

Module CompletionProofs.
Import Task.
Import TaskProofs RestartProofs TransferProofs.

Section WithQt.
Context `{Qt : QtModel}.

(** *** The end of a single-stream transfer *)

(** When the reply of a single-stream transfer through a temp file ends with
    nothing left in the buffer (downloadertask.cpp 597-634): the old file at
    the final path is removed; if the rename gets through, the final path
    holds what the temp file held, the temp file is gone and [finished]
    reports success unless the reply failed or an error was noted before;
    if the rename fails, the temp file stays, the final path is empty and
    [finished(false)] is emitted.  No other file changes. *)
Theorem onSingleFinished_promotes (env : Env) (rid : ReplyId) (failed : bool)
    (w : World) (req : SingleRequest) (size : Z) :
  m_state (task w) = Downloading ->
  m_singleReply (task w) = Some req -> single_id req = rid ->
  m_singleBuffer (task w) = [] ->
  m_useSingleTemp (task w) = true ->
  m_singleTempPath (task w) <> ""%string ->
  m_singleTempPath (task w) <> m_filePath (task w) ->
  fs w !! m_singleTempPath (task w) = Some size ->
  let temp := m_singleTempPath (task w) in
  let final := m_filePath (task w) in
  let w' := onSingleFinished env rid failed w in
  m_state (task w') = Finished
  /\ m_singleReply (task w') = None
  /\ m_singleFile (task w') = None
  /\ (forall p, p <> temp -> p <> final -> fs w' !! p = fs w !! p)
  /\ if canRename env temp then
       fs w' !! final = Some size /\ fs w' !! temp = None
       /\ signals w'
          = signals w ++ [stateChanged Finished;
                          finished (negb (m_anyError (task w) || failed))]
     else
       fs w' !! final = None /\ fs w' !! temp = Some size
       /\ signals w' = signals w ++ [stateChanged Finished; finished false].
Proof.
  intros Hstate Hreply Hid Hbuf Htemp Hnonempty Hdistinct Hsize temp final w'.
  subst w' temp final. unfold onSingleFinished. rewrite Hreply.
  rewrite (bool_decide_eq_true_2 _ Hid). change (negb true) with false. cbv iota.
  lazymatch goal with
  | |- context [if ?c && failed then ?a else ?b] => set (w1 := if c && failed then a else b)
  end.
  assert (H1 : m_state (task w1) = Downloading
               /\ m_singleBuffer (task w1) = []
               /\ m_useSingleTemp (task w1) = true
               /\ m_singleTempPath (task w1) = m_singleTempPath (task w)
               /\ m_filePath (task w1) = m_filePath (task w)
               /\ m_anyError (task w1) = m_anyError (task w) || failed
               /\ fs w1 = fs w /\ signals w1 = signals w).
  { subst w1. rewrite Hstate. rewrite bool_decide_eq_true_2 by reflexivity.
    destruct failed; cbn; rewrite ?orb_true_r, ?orb_false_r; auto 10. }
  destruct H1 as (Hst1 & Hbuf1 & Htemp1 & Hpath1 & Hfinal1 & Herr1 & Hfs1 & Hsig1).
  rewrite <- Hpath1, <- Hfinal1, <- Herr1, <- Hfs1, <- Hsig1 in *.
  clearbody w1. clear Hpath1 Hfinal1 Herr1 Hfs1 Hsig1 Hstate Hreply Hbuf Htemp. clear w.
  cbv zeta. rewrite Hbuf1. rewrite (bool_decide_eq_true_2 ([] = [])) by reflexivity.
  rewrite andb_false_r.
  destruct w1 as [t f sigs tms nr]. cbn [task fs signals] in *.
  apply String.eqb_neq in Hnonempty. apply String.eqb_neq in Hdistinct.
  assert (Hne : m_singleTempPath t <> m_filePath t) by now apply String.eqb_neq.
  unfold upd, emit, removeFile, file_exists, file_remove. cbn.
  rewrite Hst1, Htemp1, Hnonempty, Hdistinct.
  rewrite (bool_decide_eq_false_2 (Downloading = Paused)) by discriminate.
  rewrite (bool_decide_eq_false_2 (Downloading = Canceled)) by discriminate. cbn.
  destruct (bool_decide (is_Some (f !! m_filePath t))) eqn:Hex;
    [|apply bool_decide_eq_false_1 in Hex; rewrite <- eq_None_not_Some in Hex]; cbn;
    rewrite ?lookup_delete_ne by congruence; rewrite Hsize;
    destruct (canRename env (m_singleTempPath t)); cbn.
  all: repeat match goal with
           | |- _ /\ _ => split
           | |- forall _, _ => intros p Hp1 Hp2;
                              rewrite ?lookup_insert_ne by congruence;
                              rewrite ?lookup_delete_ne by congruence; reflexivity
           | |- _ = _ => first [reflexivity
                               | rewrite <- app_assoc; reflexivity
                               | rewrite lookup_insert_eq; reflexivity
                               | rewrite lookup_delete_eq; reflexivity
                               | rewrite lookup_insert_ne by congruence;
                                 rewrite lookup_delete_eq; reflexivity
                               | rewrite lookup_delete_ne by congruence; assumption
                               | assumption ]
           end.
Qed.


Lemma processSingleBuffer_waits (env : Env) (w : World) (path : string) :
  m_state (task w) = Downloading ->
  m_singleFile (task w) = Some path ->
  m_singleProcessing (task w) = false ->
  m_singleBuffer (task w) <> [] ->
  allowedBytes (task w) (clock env - m_throttleTimer (task w))
    (Z.of_nat (length (m_singleBuffer (task w)))) <= 0 ->
  processSingleBuffer env w
  = singleShot 50 RetrySingleBuffer (upd (set_m_singleProcessing true) w).
Proof.
  intros Hstate Hfile Hproc Hbuf Hallowed. unfold processSingleBuffer.
  rewrite Hfile, Hproc, Hstate. rewrite (bool_decide_eq_false_2 _ Hbuf).
  rewrite bool_decide_eq_true_2 by reflexivity. cbn [negb].
  now rewrite (proj2 (Z.leb_le _ _) Hallowed).
Qed.

Lemma retry_without_file (env : Env) (w : World) :
  m_singleFile (task w) = None -> fs (fire env RetrySingleBuffer w) = fs w.
Proof.
  intros Hfile. unfold fire, processSingleBuffer.
  destruct w as [t f sigs tms nr]. destruct t. cbn in *. now rewrite Hfile.
Qed.

(** When the reply ends while the throttle allows no byte (downloadertask.cpp
    597-634 with 652-656), the processor is run once, waits, and the transfer
    is finished all the same: the bytes still in the buffer are never
    written, the temp file is promoted as it is, [finished(true)] is emitted,
    and the retry that was scheduled finds no open file. *)
Theorem finish_drops_throttled_tail (env : Env) (rid : ReplyId) (w : World)
    (req : SingleRequest) (path : string) (size : Z) :
  m_state (task w) = Downloading ->
  m_anyError (task w) = false ->
  m_singleReply (task w) = Some req -> single_id req = rid ->
  m_singleFile (task w) = Some path ->
  m_singleProcessing (task w) = false ->
  m_singleBuffer (task w) <> [] ->
  allowedBytes (task w) (clock env - m_throttleTimer (task w))
    (Z.of_nat (length (m_singleBuffer (task w)))) <= 0 ->
  m_useSingleTemp (task w) = true ->
  m_singleTempPath (task w) <> ""%string ->
  m_singleTempPath (task w) <> m_filePath (task w) ->
  fs w !! m_singleTempPath (task w) = Some size ->
  canRename env (m_singleTempPath (task w)) = true ->
  let w' := onSingleFinished env rid false w in
  m_state (task w') = Finished
  /\ signals w' = signals w ++ [stateChanged Finished; finished true]
  /\ fs w' !! m_filePath (task w) = Some size
  /\ fs w' !! m_singleTempPath (task w) = None
  /\ m_singleBuffer (task w') = m_singleBuffer (task w)
  /\ m_singleWritten (task w') = m_singleWritten (task w)
  /\ timers w' = timers w ++ [mkTimer 50 RetrySingleBuffer]
  /\ forall env', fs (fire env' RetrySingleBuffer w') = fs w'.
Proof.
  intros Hstate Herr Hreply Hid Hfile Hproc Hbuf Hallowed Htemp Hnonempty Hdistinct
    Hsize Hrename w'.
  assert (Hmain :
    m_state (task w') = Finished
    /\ signals w' = signals w ++ [stateChanged Finished; finished true]
    /\ fs w' !! m_filePath (task w) = Some size
    /\ fs w' !! m_singleTempPath (task w) = None
    /\ m_singleBuffer (task w') = m_singleBuffer (task w)
    /\ m_singleWritten (task w') = m_singleWritten (task w)
    /\ timers w' = timers w ++ [mkTimer 50 RetrySingleBuffer]
    /\ m_singleFile (task w') = None).
  { subst w'. unfold onSingleFinished. rewrite Hreply.
    rewrite (bool_decide_eq_true_2 _ Hid). change (negb true) with false. cbv iota.
    rewrite andb_false_r. cbv zeta.
    rewrite Hproc, (bool_decide_eq_false_2 _ Hbuf). cbn [negb andb].
    rewrite (processSingleBuffer_waits env w path Hstate Hfile Hproc Hbuf Hallowed).
    clear Hallowed Hfile Hproc Hbuf Hreply.
    destruct w as [t f sigs tms nr]. cbn [task fs signals timers] in *.
    apply String.eqb_neq in Hnonempty.
    assert (Hne : m_singleTempPath t <> m_filePath t) by assumption.
    apply String.eqb_neq in Hdistinct.
    unfold singleShot, upd, emit, removeFile, file_exists, file_remove. cbn.
    rewrite Hstate, Htemp, Hnonempty, Hdistinct.
    rewrite (bool_decide_eq_false_2 (Downloading = Paused)) by discriminate.
    rewrite (bool_decide_eq_false_2 (Downloading = Canceled)) by discriminate. cbn.
    destruct (bool_decide (is_Some (f !! m_filePath t))); cbn;
      rewrite ?lookup_delete_ne by congruence; rewrite Hsize, Hrename; cbn;
      rewrite ?Herr; cbn;
      (split; [reflexivity|]); (split; [now rewrite <- app_assoc|]);
      (split; [now rewrite lookup_insert_eq|]);
      (split; [rewrite lookup_insert_ne by congruence; apply lookup_delete_eq|]);
      auto. }
  clearbody w'.
  destruct Hmain as (H1 & H2 & H3 & H4 & H5 & H6 & H7 & H8).
  repeat (split; [assumption|]). intros env'. now apply retry_without_file.
Qed.


(** *** Starting and resuming *)

Lemma cleared_frame (w : World) :
  let w' := clearPausedAt (clearPauseReason w) in
  fs w' = fs w /\ timers w' = timers w /\ nextReply w' = nextReply w
  /\ m_headReply (task w') = m_headReply (task w)
  /\ m_pauseReason (task w') = ""%string
  /\ m_pausedAt (task w') = 0
  /\ m_anyError (task w') = m_anyError (task w).
Proof.
  unfold clearPausedAt, clearPauseReason.
  destruct (String.eqb_spec (m_pauseReason (task w)) "") as [Hr|Hr]; cbn [negb];
    match goal with |- context [negb (?a =? 0)] => destruct (Z.eqb_spec a 0) as [Hp|Hp] end;
    cbn; auto 10.
Qed.

(** [start()] of an idle task whose current URL is not valid
    (downloadertask.cpp 289-326) ends the task in error on the spot: the state
    string is Error, [stateChanged] and then [finished(false)] are the last
    signals, no request is made, no timer is set and no file is touched. *)
Theorem start_rejects_invalid_url (env : Env) (w : World) :
  m_state (task w) = Idle ->
  urlIsValid (currentUrl (task w)) = false ->
  let w' := start env w in
  stateString (task w') = "Error"%string
  /\ fs w' = fs w
  /\ timers w' = timers w
  /\ nextReply w' = nextReply w
  /\ m_headReply (task w') = m_headReply (task w)
  /\ exists emitted,
       signals w' = signals w ++ emitted ++ [stateChanged Finished; finished false]
       /\ Forall (fun s => Spec.isFinished s = false) emitted.
Proof.
  intros Hidle Hinvalid w'. subst w'.
  destruct (cleared_keeps w) as (_ & Hurl & _ & _ & _ & _ & _ & pre & Hsig & Hpre).
  destruct (cleared_frame w) as (Hfs & Htimers & Hnext & Hhead & _).
  unfold start. rewrite Hidle, bool_decide_eq_true_2 by reflexivity. cbn [negb]. cbv zeta.
  set (w2 := clearPausedAt (clearPauseReason w)) in *.
  rewrite Hurl, Hinvalid. cbn [negb].
  unfold stateString, emit, upd. cbn.
  rewrite Hfs, Htimers, Hnext, Hhead, Hsig.
  repeat (split; [reflexivity|]).
  exists pre. split; [now rewrite <- !app_assoc|exact Hpre].
Qed.

(** [resume()] does nothing unless the task is Paused; a paused task with a
    valid current URL goes back to Downloading by way of a new HEAD request,
    with the pause reason and time cleared, every file and the count of
    downloaded bytes as they were, and without emitting [finished]
    (downloadertask.cpp 1087-1102 with 289-346). *)
Theorem resume_asks_again (env : Env) (w : World) :
  (m_state (task w) <> Paused -> resume env w = w)
  /\ (m_state (task w) = Paused ->
      urlIsValid (currentUrl (task w)) = true ->
      let w' := resume env w in
      m_state (task w') = Downloading
      /\ is_Some (m_headReply (task w'))
      /\ m_pauseReason (task w') = ""%string
      /\ m_pausedAt (task w') = 0
      /\ fs w' = fs w
      /\ timers w' = timers w
      /\ totalDownloaded (task w') = totalDownloaded (task w)
      /\ exists emitted,
           signals w' = signals w ++ emitted
           /\ Forall (fun s => Spec.isFinished s = false) emitted).
Proof.
  split.
  - intros Hstate. unfold resume. now rewrite bool_decide_eq_false_2.
  - intros Hpaused Hvalid w'. subst w'. unfold resume.
    rewrite Hpaused, bool_decide_eq_true_2 by reflexivity. cbn [negb]. cbv zeta.
    set (w1 := upd (set_m_state Idle) (clearPauseReason w)).
    assert (H1 : m_state (task w1) = Idle
                 /\ currentUrl (task w1) = currentUrl (task w)
                 /\ fs w1 = fs w /\ timers w1 = timers w
                 /\ totalDownloaded (task w1) = totalDownloaded (task w)
                 /\ exists pre, signals w1 = signals w ++ pre
                                /\ Forall (fun s => Spec.isFinished s = false) pre).
    { subst w1. unfold clearPauseReason.
      destruct (negb (String.eqb (m_pauseReason (task w)) "")); cbn;
        (repeat (split; [reflexivity|])).
      - exists [pauseReasonChanged]. split; [reflexivity|repeat constructor].
      - exists []. split; [now rewrite app_nil_r|constructor]. }
    destruct H1 as (Hidle & Hurl & Hfs & Htimers & Htotal & pre & Hsig & Hpre).
    rewrite <- Hurl in Hvalid. rewrite <- Hfs, <- Htimers, <- Htotal.
    destruct (start_valid env w1 Hidle Hvalid)
      as (Hstate & Hhead & _ & _ & _ & _ & _ & post & Hsig' & Hpost).
    destruct (cleared_frame w1) as (Hf & Ht & _ & _ & Hreason & Hat & _).
    split; [exact Hstate|]. split; [exact Hhead|].
    assert (Hrest : m_pauseReason (task (start env w1)) = ""%string
                    /\ m_pausedAt (task (start env w1)) = 0
                    /\ fs (start env w1) = fs w1
                    /\ timers (start env w1) = timers w1).
    { unfold start. rewrite Hidle, bool_decide_eq_true_2 by reflexivity. cbn [negb].
      cbv zeta. destruct (cleared_keeps w1) as (_ & Hurl1 & _).
      set (w2 := clearPausedAt (clearPauseReason w1)) in *.
      rewrite Hurl1, Hvalid. cbn [negb]. unfold freshReply, emit, upd. cbn. auto. }
    destruct Hrest as (-> & -> & -> & ->).
    repeat (split; [reflexivity|]).
    split; [apply start_total|].
    exists (pre ++ post). split; [now rewrite Hsig', Hsig, <- app_assoc|].
    apply Forall_app. now split.
Qed.

End WithQt.
End CompletionProofs.

Module BulkProofs.
Import Manager Queues.
Import TaskProofs RestartProofs ManagerProofs AdmissionProofs.

Section WithQt.
Context `{Qt : QtModel}.
Variable blankQueue : QueueInfo.

(** *** Speed limits *)

(** The speed a task is given is the least of the limits that are set
    (downloadmanager.cpp 1821-1839): with a global limit that is not
    negative, the effective speed is 0 exactly when neither the global, nor
    the queue's, nor the task's own limit is positive; otherwise it is one of
    the positive limits and no positive limit is below it. *)
Theorem effectiveSpeed_least_limit (m : Manager) (t : Handle) :
  0 <= m_globalMaxSpeed m ->
  let queueLimit := match m_queues m !! queueOf m t with
                    | Some info => maxSpeed info
                    | None => 0
                    end in
  let taskLimit := default 0 (m_taskMaxSpeed m !! t) in
  let limits := [m_globalMaxSpeed m; queueLimit; taskLimit] in
  let effective := effectiveSpeed m t in
  0 <= effective
  /\ (effective = 0 <-> Forall (fun limit => limit <= 0) limits)
  /\ (0 < effective -> effective ∈ limits)
  /\ Forall (fun limit => 0 < limit -> 0 < effective <= limit) limits.
Proof.
  intros Hglobal queueLimit taskLimit limits effective.
  subst effective limits. unfold effectiveSpeed. fold taskLimit.
  assert (Hq : match m_queues m !! queueOf m t with
               | Some info =>
                   if (0 <? maxSpeed info)
                      && ((m_globalMaxSpeed m =? 0) || (maxSpeed info <? m_globalMaxSpeed m))
                   then maxSpeed info else m_globalMaxSpeed m
               | None => m_globalMaxSpeed m
               end
               = if (0 <? queueLimit)
                    && ((m_globalMaxSpeed m =? 0) || (queueLimit <? m_globalMaxSpeed m))
                 then queueLimit else m_globalMaxSpeed m).
  { subst queueLimit. destruct (m_queues m !! queueOf m t); reflexivity. }
  rewrite Hq. clear Hq. generalize queueLimit taskLimit. clear queueLimit taskLimit.
  intros q k. rewrite !Forall_cons, Forall_nil, !elem_of_cons, elem_of_nil.
  destruct (Z.ltb_spec 0 q), (Z.eqb_spec (m_globalMaxSpeed m) 0),
    (Z.ltb_spec q (m_globalMaxSpeed m)); cbn [andb orb];
    destruct (Z.ltb_spec 0 k); cbn [andb orb];
    repeat match goal with
           | |- context [?a <? ?b] => destruct (Z.ltb_spec a b)
           | |- context [?a =? ?b] => destruct (Z.eqb_spec a b)
           end; cbn [andb orb];
    (split; [lia|]);
    (split; [split; [intros; repeat split; (lia || exact I)|intros (? & ? & ? & _); lia]|]);
    (split; [intros; first [left; lia | right; left; lia | right; right; left; lia]|]);
    repeat split; try lia; apply Forall_nil_2.
Qed.

Lemma setMaxSpeed_twice (v : Z) (obj : Task.Task) :
  setMaxSpeed v (setMaxSpeed v obj) = setMaxSpeed v obj.
Proof. reflexivity. Qed.

Lemma applyTaskSpeed_loop (l : list Handle) :
  forall m,
  let m' := fold_left (fun m t => applyTaskSpeed t m) l m in
  (forall t, effectiveSpeed m' t = effectiveSpeed m t)
  /\ m_globalMaxSpeed m' = m_globalMaxSpeed m
  /\ m_queue m' = m_queue m
  /\ disk m' = disk m
  /\ (forall t, tasks m' !! t
                = if decide (t ∈ l) then setMaxSpeed (effectiveSpeed m t) <$> tasks m !! t
                  else tasks m !! t).
Proof.
  induction l as [|c l IH]; intros m m'.
  - subst m'. cbn. repeat (split; [reflexivity|]). intros t.
    rewrite decide_False; [reflexivity|apply not_elem_of_nil].
  - subst m'. cbn [fold_left].
    destruct (IH (applyTaskSpeed c m)) as (Heff & Hglobal & Hqueue & Hdisk & Htasks).
    assert (Hsame : forall t, effectiveSpeed (applyTaskSpeed c m) t = effectiveSpeed m t)
      by reflexivity.
    split; [intros t; now rewrite Heff|].
    split; [now rewrite Hglobal|]. split; [now rewrite Hqueue|].
    split; [now rewrite Hdisk|].
    intros t. rewrite Htasks, Hsame, applyTaskSpeed_lookup.
    destruct (decide (c = t)) as [->|Hne].
    + rewrite (decide_True (P := t ∈ t :: l)) by now left.
      destruct (decide (t ∈ l)); [|reflexivity].
      destruct (tasks m !! t); [|reflexivity]. cbn. now rewrite setMaxSpeed_twice.
    + destruct (decide (t ∈ l)) as [Hin|Hout].
      * rewrite decide_True by now right. reflexivity.
      * rewrite decide_False; [reflexivity|].
        intros [->|Hin]%elem_of_cons; [now apply Hne|contradiction].
Qed.

(** [setGlobalMaxSpeed] (downloadmanager.cpp 322-333) stores the limit, a
    negative one as 0, and when that changes the stored limit every queued
    task is handed the speed that is effective for it under the new limit;
    tasks outside the queue list, the queue list and the disk stay as they
    were. *)
Theorem setGlobalMaxSpeed_applies (v : Z) (m : Manager) :
  let m' := setGlobalMaxSpeed v m in
  m_globalMaxSpeed m' = Z.max 0 v
  /\ m_queue m' = m_queue m
  /\ disk m' = disk m
  /\ (forall t, t ∉ m_queue m -> tasks m' !! t = tasks m !! t)
  /\ (m_globalMaxSpeed m <> Z.max 0 v ->
      forall t, t ∈ m_queue m ->
        tasks m' !! t = setMaxSpeed (effectiveSpeed m' t) <$> tasks m !! t).
Proof.
  intros m'. subst m'. unfold setGlobalMaxSpeed.
  replace (if v <? 0 then 0 else v) with (Z.max 0 v)
    by (destruct (Z.ltb_spec v 0); lia).
  destruct (Z.eqb_spec (m_globalMaxSpeed m) (Z.max 0 v)) as [Heq|Hne].
  - repeat (split; [auto|]). intros Hne. contradiction.
  - cbv zeta.
    destruct (applyTaskSpeed_loop (m_queue (set_m_globalMaxSpeed (Z.max 0 v) m))
                (set_m_globalMaxSpeed (Z.max 0 v) m))
      as (Heff & Hglobal & Hqueue & Hdisk & Htasks).
    cbv zeta in *.
    split; [now rewrite Hglobal|]. split; [now rewrite Hqueue|].
    split; [now rewrite Hdisk|]. split.
    + intros t Hout. rewrite Htasks. now rewrite decide_False.
    + intros _ t Hin. rewrite Htasks, Heff. now rewrite decide_True.
Qed.

(** *** Bulk operations *)

Lemma pause_state_fs (env : Task.Env) (w : Task.World) :
  Task.fs (Task.pause env w) = Task.fs w
  /\ Task.m_state (Task.task (Task.pause env w))
     = if bool_decide (Task.m_state (Task.task w) = Task.Downloading) then Task.Paused
       else Task.m_state (Task.task w).
Proof.
  unfold Task.pause.
  destruct (bool_decide (Task.m_state (Task.task w) = Task.Downloading)); cbn [negb];
    [|auto].
  destruct (String.eqb (Task.m_pauseReason (Task.task w)) "");
    unfold Task.emit, Task.upd; cbn;
    match goal with |- context [negb (?a =? ?b)] => destruct (negb (a =? b)) end;
    cbn; auto.
Qed.

Lemma cancel_state_fs (w : Task.World) :
  Task.m_state (Task.task (Task.cancel w))
  = if bool_decide (Task.m_state (Task.task w) = Task.Finished) then Task.Finished
    else Task.Canceled.
Proof.
  destruct (decide (Task.m_state (Task.task w) = Task.Finished)) as [Hf|Hf].
  { rewrite bool_decide_eq_true_2 by assumption. unfold Task.cancel. now rewrite !Hf. }
  rewrite bool_decide_eq_false_2 by assumption.
  destruct (decide (Task.m_state (Task.task w) = Task.Canceled)) as [Hc|Hc].
  { unfold Task.cancel. now rewrite !Hc. }
  rewrite (cancel_unfold w Hf Hc), cleanup_state. apply canceling_frame.
Qed.

(** What one member call leaves of the manager. *)
Lemma call_tasks (t : Handle) (op : Task.World -> Task.World) (m : Manager) :
  let m' := fst (call t op m) in
  m_queue m' = m_queue m /\ m_model m' = m_model m /\ toasts m' = toasts m
  /\ m_bulkCancelInProgress m' = m_bulkCancelInProgress m
  /\ (forall t', t' <> t -> tasks m' !! t' = tasks m !! t')
  /\ match tasks m !! t with
     | Some obj =>
         let w := op (Task.mkWorld obj (disk m) [] [] (replyCounter m)) in
         tasks m' !! t = Some (Task.task w) /\ disk m' = Task.fs w
     | None => m' = m
     end.
Proof.
  unfold call. destruct (tasks m !! t) as [obj|] eqn:Hobj; cbn; [|auto 10].
  repeat (split; [reflexivity|]). split.
  - intros t' Hne. now rewrite lookup_insert_ne by congruence.
  - split; [apply lookup_insert_eq|reflexivity].
Qed.

Lemma pauseAll_loop (clk : Clock) (l : list Handle) :
  forall m,
  let m' := fold_left (fun m t =>
                         match tasks m !! t with
                         | Some obj =>
                             if Task.isRunning obj
                             then fst (call t (Task.pause (taskEnv clk)) m)
                             else m
                         | None => m
                         end) l m in
  m_queue m' = m_queue m /\ m_model m' = m_model m /\ toasts m' = toasts m
  /\ disk m' = disk m
  /\ forall t,
       match tasks m !! t, tasks m' !! t with
       | Some obj, Some obj' =>
           Task.m_state obj'
           = if bool_decide (t ∈ l) && Task.isRunning obj then Task.Paused
             else Task.m_state obj
       | None, None => True
       | _, _ => False
       end.
Proof.
  induction l as [|c l IH]; intros m m'.
  - subst m'. cbn. repeat (split; [reflexivity|]). intros t.
    destruct (tasks m !! t); [|exact I].
    now rewrite bool_decide_eq_false_2 by apply not_elem_of_nil.
  - subst m'. cbn [fold_left].
    set (m1 := match tasks m !! c with
               | Some obj =>
                   if Task.isRunning obj then fst (call c (Task.pause (taskEnv clk)) m)
                   else m
               | None => m
               end).
    assert (H1 : m_queue m1 = m_queue m /\ m_model m1 = m_model m /\ toasts m1 = toasts m
                 /\ disk m1 = disk m
                 /\ forall t,
                      match tasks m !! t, tasks m1 !! t with
                      | Some obj, Some obj' =>
                          Task.m_state obj'
                          = if bool_decide (t = c) && Task.isRunning obj then Task.Paused
                            else Task.m_state obj
                      | None, None => True
                      | _, _ => False
                      end).
    { subst m1. destruct (tasks m !! c) as [obj|] eqn:Hobj.
      - destruct (Task.isRunning obj) eqn:Hrun.
        + destruct (call_tasks c (Task.pause (taskEnv clk)) m)
            as (Hq & Hm & Ht & _ & Hother & Hself).
          rewrite Hobj in Hself. cbv zeta in Hself. destruct Hself as [Hself Hdisk].
          destruct (pause_state_fs (taskEnv clk)
                      (Task.mkWorld obj (disk m) [] [] (replyCounter m))) as [Hfs Hstate].
          repeat (split; [assumption|]).
          split; [now rewrite Hdisk, Hfs|].
          intros t. destruct (decide (t = c)) as [->|Hne].
          * cbn [Task.task Task.fs] in Hstate.
            rewrite Hobj, Hself, Hstate.
            rewrite (bool_decide_eq_true_2 (c = c)) by reflexivity.
            cbn [andb]. rewrite Hrun. unfold Task.isRunning in Hrun.
            now rewrite Hrun.
          * rewrite (Hother t Hne). destruct (tasks m !! t); [|exact I].
            now rewrite bool_decide_eq_false_2 by assumption.
        + repeat (split; [reflexivity|]). intros t.
          destruct (tasks m !! t) as [o|] eqn:Ho; [|exact I].
          destruct (decide (t = c)) as [->|Hne].
          * rewrite Hobj in Ho. injection Ho as <-. rewrite Hrun. now rewrite andb_false_r.
          * now rewrite bool_decide_eq_false_2 by assumption.
      - repeat (split; [reflexivity|]). intros t.
        destruct (tasks m !! t) as [o|] eqn:Ho; [|exact I].
        destruct (decide (t = c)) as [->|Hne]; [congruence|].
        now rewrite bool_decide_eq_false_2 by assumption. }
    clearbody m1. destruct H1 as (Hq1 & Hm1 & Ht1 & Hd1 & Hs1).
    destruct (IH m1) as (Hq & Hm & Ht & Hd & Hs).
    split; [congruence|]. split; [congruence|]. split; [congruence|].
    split; [congruence|].
    intros t. specialize (Hs1 t). specialize (Hs t).
    destruct (tasks m !! t) as [o|], (tasks m1 !! t) as [o1|]; try contradiction;
      [|exact Hs].
    destruct (tasks (fold_left _ l m1) !! t) as [o'|]; [|contradiction].
    rewrite Hs. unfold Task.isRunning in *. rewrite Hs1.
    destruct (decide (t = c)) as [->|Hne].
    + rewrite (bool_decide_eq_true_2 (c = c)) by reflexivity.
      rewrite (bool_decide_eq_true_2 (c ∈ c :: l)) by now left.
      cbn [andb].
      destruct (bool_decide (Task.m_state o = Task.Downloading)) eqn:Hrun.
      * rewrite (bool_decide_eq_false_2 (Task.Paused = Task.Downloading)) by discriminate.
        now rewrite andb_false_r.
      * rewrite Hrun. now rewrite andb_false_r.
    + rewrite (bool_decide_eq_false_2 (t = c)) by assumption. cbn [andb].
      destruct (decide (t ∈ l)) as [Hin|Hout].
      * rewrite (bool_decide_eq_true_2 (t ∈ l)) by assumption.
        rewrite (bool_decide_eq_true_2 (t ∈ c :: l)) by now right. reflexivity.
      * rewrite (bool_decide_eq_false_2 (t ∈ l)) by assumption.
        rewrite (bool_decide_eq_false_2 (t ∈ c :: l)); [reflexivity|].
        intros [->|Hin]%elem_of_cons; [now apply Hne|contradiction].
Qed.

Lemma filter_none {A : Type} (f : A -> bool) (l : list A) :
  (forall x, x ∈ l -> f x = false) -> List.filter f l = [].
Proof.
  induction l as [|x l IH]; intros Hnone; [reflexivity|].
  cbn. rewrite (Hnone x) by now left. apply IH. intros y Hy. apply Hnone. now right.
Qed.

(** After [pauseAll()] (downloadmanager.cpp 463-470) no queued task is
    running: each task of the queue list that was Downloading is Paused, every
    other task is in the state it was in, and the queue list, the rows of the
    model, the notices and the disk are untouched. *)
Theorem pauseAll_stops_all (clk : Clock) (m : Manager) :
  let m' := pauseAll clk m in
  runningCount m' = 0
  /\ m_queue m' = m_queue m /\ m_model m' = m_model m /\ toasts m' = toasts m
  /\ disk m' = disk m
  /\ forall t obj,
       tasks m !! t = Some obj ->
       exists obj',
         tasks m' !! t = Some obj'
         /\ Task.m_state obj'
            = if bool_decide (t ∈ m_queue m) && Task.isRunning obj then Task.Paused
              else Task.m_state obj.
Proof.
  intros m'. subst m'. unfold pauseAll.
  destruct (pauseAll_loop clk (m_queue m) m) as (Hq & Hm & Ht & Hd & Hs).
  cbv zeta in *. set (m' := fold_left _ (m_queue m) m) in *.
  assert (Hobjs : forall t obj,
            tasks m !! t = Some obj ->
            exists obj',
              tasks m' !! t = Some obj'
              /\ Task.m_state obj'
                 = if bool_decide (t ∈ m_queue m) && Task.isRunning obj then Task.Paused
                   else Task.m_state obj).
  { intros t obj Hobj. specialize (Hs t). rewrite Hobj in Hs.
    destruct (tasks m' !! t) as [obj'|]; [|contradiction]. now exists obj'. }
  split; [|auto 10].
  unfold runningCount. rewrite Hq.
  rewrite filter_none; [reflexivity|].
  intros t Hin.
  unfold runs. specialize (Hs t).
  destruct (tasks m !! t) as [obj|], (tasks m' !! t) as [obj'|]; try contradiction;
    [|reflexivity].
  unfold Task.isRunning in *. rewrite Hs.
  rewrite (bool_decide_eq_true_2 (t ∈ m_queue m)) by assumption. cbn [andb].
  destruct (bool_decide (Task.m_state obj = Task.Downloading)) eqn:Hrun; [reflexivity|].
  exact Hrun.
Qed.

Lemma callAndDeliver_bulk (depth : nat) (clk : Clock) (t : Handle)
    (op : Task.World -> Task.World) (m : Manager) :
  m_bulkCancelInProgress m = true ->
  callAndDeliver (onTaskFinishedWrapper blankQueue depth clk) t op m = fst (call t op m).
Proof.
  intros Hflag. unfold callAndDeliver.
  destruct (call_frame t op m) as (Hf & _).
  destruct (call t op m) as [m1 emitted]. cbn [fst] in *.
  apply deliver_guarded. now rewrite Hf.
Qed.

Lemma cancelAll_loop (depth : nat) (clk : Clock) (l : list Handle) :
  forall m,
  m_bulkCancelInProgress m = true ->
  let m' := fold_left (fun m t =>
                         callAndDeliver (onTaskFinishedWrapper blankQueue depth clk) t
                           Task.cancel m) l m in
  m_model m' = m_model m
  /\ forall t,
       match tasks m !! t, tasks m' !! t with
       | Some obj, Some obj' =>
           Task.m_state obj'
           = if bool_decide (t ∈ l)
             then (if bool_decide (Task.m_state obj = Task.Finished) then Task.Finished
                   else Task.Canceled)
             else Task.m_state obj
       | None, None => True
       | _, _ => False
       end.
Proof.
  induction l as [|c l IH]; intros m Hflag m'.
  - subst m'. cbn. split; [reflexivity|]. intros t.
    destruct (tasks m !! t); [|exact I].
    now rewrite bool_decide_eq_false_2 by apply not_elem_of_nil.
  - subst m'. cbn [fold_left]. rewrite (callAndDeliver_bulk depth clk c _ m Hflag).
    pose proof (call_tasks c Task.cancel m) as Hcall. cbv zeta in Hcall.
    destruct Hcall as (_ & Hm1 & _ & Hf1 & Hother & Hself).
    set (m1 := fst (call c Task.cancel m)) in *.
    assert (Hflag1 : m_bulkCancelInProgress m1 = true) by (now rewrite Hf1).
    destruct (IH m1 Hflag1) as (Hm & Hs).
    split; [now rewrite Hm|].
    intros t. specialize (Hs t).
    destruct (decide (t = c)) as [->|Hne].
    + rewrite (bool_decide_eq_true_2 (c ∈ c :: l)) by now left.
      destruct (tasks m !! c) as [obj|] eqn:Hobj.
      * destruct Hself as [Hself _]. rewrite Hself in Hs.
        destruct (tasks (fold_left _ l m1) !! c) as [obj'|]; [|contradiction].
        rewrite Hs, cancel_state_fs. cbn [Task.task].
        destruct (bool_decide (c ∈ l)); [|reflexivity].
        destruct (bool_decide (Task.m_state obj = Task.Finished)); [reflexivity|].
        now rewrite bool_decide_eq_false_2 by discriminate.
      * subst m1. rewrite Hself in Hs |- *. rewrite Hobj in Hs. exact Hs.
    + rewrite (Hother t Hne) in Hs.
      destruct (tasks m !! t) as [obj|]; [|exact Hs].
      destruct (tasks (fold_left _ l m1) !! t) as [obj'|]; [|contradiction].
      rewrite Hs. destruct (decide (t ∈ l)) as [Hin|Hout].
      * rewrite (bool_decide_eq_true_2 (t ∈ l)) by assumption.
        now rewrite (bool_decide_eq_true_2 (t ∈ c :: l)) by now right.
      * rewrite (bool_decide_eq_false_2 (t ∈ l)) by assumption.
        rewrite (bool_decide_eq_false_2 (t ∈ c :: l)); [reflexivity|].
        intros [->|Hin]%elem_of_cons; [now apply Hne|contradiction].
Qed.

(** [cancelAll()] (downloadmanager.cpp 481-504) settles every queued task:
    one that was Finished stays Finished, every other one ends Canceled; a
    task outside the queue list keeps its state, and the rows of the model
    are all still there. *)
Theorem cancelAll_settles (depth : nat) (clk : Clock) (m : Manager) :
  let m' := cancelAll blankQueue depth clk m in
  m_model m' = m_model m
  /\ forall t obj,
       tasks m !! t = Some obj ->
       exists obj',
         tasks m' !! t = Some obj'
         /\ Task.m_state obj'
            = if bool_decide (t ∈ m_queue m)
              then (if bool_decide (Task.m_state obj = Task.Finished) then Task.Finished
                    else Task.Canceled)
              else Task.m_state obj.
Proof.
  intros m'. subst m'. unfold cancelAll.
  destruct (cancelAll_loop depth clk (m_queue m) (set_m_bulkCancelInProgress true m)
              eq_refl) as (Hm & Hs).
  cbv zeta in *. set (m1 := fold_left _ (m_queue m) _) in *.
  split; [exact Hm|].
  intros t obj Hobj. specialize (Hs t).
  change (tasks (set_m_bulkCancelInProgress true m) !! t) with (tasks m !! t) in Hs.
  rewrite Hobj in Hs.
  change (tasks (set_m_taskQueue ∅
                   (set_m_taskRetryCount ∅
                      (set_m_taskCompletedAt ∅
                         (set_m_taskMaxSpeed ∅
                            (set_m_taskSpeed ∅
                               (set_m_queue [] (set_m_bulkCancelInProgress false m1)))))))
          !! t)
    with (tasks m1 !! t).
  destruct (tasks m1 !! t) as [obj'|]; [|contradiction]. now exists obj'.
Qed.

End WithQt.
End BulkProofs.

Module QueueProofs.
Import Manager Queues.
Import TaskProofs RestartProofs ManagerProofs AdmissionProofs.

(** *** What every step of admission and of the finished handler keeps *)

Section Kept.
Context `{Qt : QtModel}.
Variable blankQueue : QueueInfo.

(** A relation between the manager before and after, kept by each of the
    elementary steps. *)
Variable R : Manager -> Manager -> Prop.
Hypothesis R_refl : forall m, R m m.
Hypothesis R_trans : forall m1 m2 m3, R m1 m2 -> R m2 m3 -> R m1 m3.
Hypothesis R_call : forall t op m, R m (fst (call t op m)).
Hypothesis R_createQueue : forall clk name m, R m (createQueue blankQueue clk name m).
Hypothesis R_tasks : forall v m, R m (set_tasks v m).
Hypothesis R_toasts : forall v m, toasts m `prefix_of` v -> R m (set_toasts v m).
Hypothesis R_taskSpeed : forall v m, R m (set_m_taskSpeed v m).
Hypothesis R_completedAt : forall v m, R m (set_m_taskCompletedAt v m).
Hypothesis R_retryCount : forall v m, R m (set_m_taskRetryCount v m).
Hypothesis R_retryTimers : forall v m, R m (set_retryTimers v m).

Lemma kept_toast (x : Toast) (m : Manager) : R m (toast x m).
Proof. apply R_toasts. now apply prefix_app_r. Qed.

Lemma kept_deliver (slot : Handle -> Manager -> Manager) (t : Handle)
    (emitted : list Task.Signal) :
  (forall t m, R m (slot t m)) ->
  forall m, R m (deliver slot t emitted m).
Proof.
  intros Hslot. unfold deliver.
  induction emitted as [|s emitted IH]; intros m; [apply R_refl|].
  cbn [fold_left]. destruct s; try apply IH.
  eapply R_trans; [apply Hslot|apply IH].
Qed.

Lemma kept_callAndDeliver (slot : Handle -> Manager -> Manager) (t : Handle)
    (op : Task.World -> Task.World) (m : Manager) :
  (forall t m, R m (slot t m)) ->
  R m (callAndDeliver slot t op m).
Proof.
  intros Hslot. unfold callAndDeliver.
  pose proof (R_call t op m) as Hcall.
  destruct (call t op m) as [m1 emitted]. cbn [fst] in Hcall.
  eapply R_trans; [exact Hcall|now apply kept_deliver].
Qed.

Lemma kept_admitQueued (clk : Clock) (slot : Handle -> Manager -> Manager)
    (candidates : list Handle) :
  (forall t m, R m (slot t m)) ->
  forall running runningPerQueue m,
    R m (admitQueued blankQueue clk slot candidates running runningPerQueue m).
Proof.
  intros Hslot.
  induction candidates as [|c rest IH]; intros running rpq m; [apply R_refl|].
  cbn [admitQueued].
  destruct (m_maxConcurrent m <=? running); [apply R_refl|].
  destruct (tasks m !! c) as [obj|]; [|apply IH].
  destruct (negb (Task.isIdle obj)); [apply IH|].
  destruct (m_pauseOnBattery m && m_onBattery m); [apply IH|].
  set (m1 := if bool_decide (is_Some (m_queues m !! queueOf m c)) then m
             else createQueue blankQueue clk (queueOf m c) m).
  assert (H1 : R m m1).
  { subst m1. destruct (bool_decide _); [apply R_refl|apply R_createQueue]. }
  clearbody m1.
  destruct (m_queues m1 !! queueOf m c) as [info|];
    [|eapply R_trans; [exact H1|apply IH]].
  destruct (negb (isQueueAllowed info (currentTime clk)));
    [eapply R_trans; [exact H1|apply IH]|].
  match goal with
  | |- context [if ?c then _ else _] => destruct c
  end; [eapply R_trans; [exact H1|apply IH]|].
  eapply R_trans; [exact H1|]. eapply R_trans; [|apply IH].
  eapply R_trans; [|now apply kept_callAndDeliver].
  unfold applyTaskSpeed. apply R_tasks.
Qed.

Lemma kept_startQueuedWith (clk : Clock) (slot : Handle -> Manager -> Manager)
    (m : Manager) :
  (forall t m, R m (slot t m)) -> R m (startQueuedWith blankQueue clk slot m).
Proof.
  intros Hslot. unfold startQueuedWith. destruct (countRunning m).
  now apply kept_admitQueued.
Qed.

Lemma kept_handlerWith (clk : Clock) (slot : Handle -> Manager -> Manager)
    (startQueued : Manager -> Manager) (t : Handle) (m : Manager) :
  (forall t m, R m (slot t m)) -> (forall m, R m (startQueued m)) ->
  R m (onTaskFinishedWrapperWith clk slot startQueued t m).
Proof.
  intros Hslot Hstart. unfold onTaskFinishedWrapperWith.
  destruct (tasks m !! t) as [obj|]; [|apply R_refl].
  destruct (m_bulkCancelInProgress m); [apply R_refl|].
  cbv zeta.
  set (m1 := set_m_taskCompletedAt _ (set_m_taskSpeed _ m)).
  assert (H1 : R m m1).
  { subst m1. eapply R_trans; [apply R_taskSpeed|apply R_completedAt]. }
  clearbody m1.
  set (m2 := if String.eqb (Task.stateString obj) "Done" then toast ToastFinished m1
             else if String.eqb (Task.stateString obj) "Error" then toast ToastFailed m1
             else if String.eqb (Task.stateString obj) "Canceled" then toast ToastCanceled m1
             else m1).
  assert (H2 : R m m2).
  { eapply R_trans; [exact H1|]. subst m2.
    repeat match goal with
           | |- context [if ?c then _ else _] => destruct c
           end; try apply kept_toast; apply R_refl. }
  clearbody m2. clear H1 m1.
  eapply R_trans; [exact H2|]. eapply R_trans; [|apply Hstart].
  destruct (String.eqb (Task.stateString obj) "Error"); [|apply R_refl].
  destruct (Task.advanceMirror _) as [advanced w].
  destruct advanced.
  - eapply R_trans; [apply R_tasks|].
    eapply R_trans; [apply kept_toast|].
    eapply R_trans; [|apply Hstart]. now apply kept_callAndDeliver.
  - eapply R_trans; [apply R_tasks|].
    match goal with
    | |- context [if ?c then _ else _] => destruct c
    end; [|apply R_refl].
    eapply R_trans; [apply R_retryCount|].
    eapply R_trans; [apply kept_toast|apply R_retryTimers].
Qed.

Lemma kept_handler (depth : nat) (clk : Clock) :
  forall t m, R m (onTaskFinishedWrapper blankQueue depth clk t m).
Proof.
  induction depth as [|depth IH]; intros t m; [apply R_refl|].
  cbn [onTaskFinishedWrapper]. apply kept_handlerWith; [exact IH|].
  intros m'. now apply kept_startQueuedWith.
Qed.

Lemma kept_startQueued (depth : nat) (clk : Clock) (m : Manager) :
  R m (startQueued blankQueue depth clk m).
Proof. apply kept_startQueuedWith, kept_handler. Qed.

End Kept.

Section WithQt.
Context `{Qt : QtModel}.
Variable blankQueue : QueueInfo.

Lemma keepsSetup_refl (m : Manager) : keepsSetup m m.
Proof. unfold keepsSetup. repeat (split; [reflexivity|]). split; [auto|]. split; reflexivity. Qed.

Lemma keepsSetup_trans (m1 m2 m3 : Manager) :
  keepsSetup m1 m2 -> keepsSetup m2 m3 -> keepsSetup m1 m3.
Proof.
  unfold keepsSetup.
  intros (A1 & A2 & A3 & A4 & A5 & A6 & A7 & A8 & A9 & A10 & A11 & A12 & A13 & A14)
         (B1 & B2 & B3 & B4 & B5 & B6 & B7 & B8 & B9 & B10 & B11 & B12 & B13 & B14).
  repeat (split; [congruence|]).
  split; [auto|]. split; etransitivity; eassumption.
Qed.

Lemma keepsSetup_fields (m m' : Manager) :
  m_queue m' = m_queue m -> m_model m' = m_model m -> m_taskQueue m' = m_taskQueue m ->
  m_taskMaxSpeed m' = m_taskMaxSpeed m -> m_maxConcurrent m' = m_maxConcurrent m ->
  m_globalMaxSpeed m' = m_globalMaxSpeed m -> m_pauseOnBattery m' = m_pauseOnBattery m ->
  m_onBattery m' = m_onBattery m ->
  m_bulkCancelInProgress m' = m_bulkCancelInProgress m ->
  m_autoRetryMax m' = m_autoRetryMax m -> m_autoRetryDelaySec m' = m_autoRetryDelaySec m ->
  m_queues m' = m_queues m -> m_queueOrder m' = m_queueOrder m ->
  toasts m `prefix_of` toasts m' ->
  keepsSetup m m'.
Proof.
  intros. unfold keepsSetup. repeat (split; [assumption|]).
  split; [congruence|]. split; [|assumption].
  match goal with H : m_queueOrder m' = _ |- _ => rewrite H end. reflexivity.
Qed.

Lemma keepsSetup_createQueue (clk : Clock) (name : string) (m : Manager) :
  keepsSetup m (createQueue blankQueue clk name m).
Proof.
  unfold createQueue.
  destruct (String.eqb (trimmed name) ""); [apply keepsSetup_refl|].
  destruct (bool_decide (is_Some (m_queues m !! trimmed name))) eqn:Hhas;
    [apply keepsSetup_refl|].
  apply bool_decide_eq_false_1 in Hhas.
  unfold keepsSetup. cbn. repeat (split; [reflexivity|]).
  split; [|split; [now apply prefix_app_r|reflexivity]].
  intros q info Hq. rewrite lookup_insert_ne; [exact Hq|].
  intros <-. apply Hhas. now rewrite Hq.
Qed.

(** [startQueued()], with all the finished handling it can set off
    (downloadmanager.cpp 364-397 and 228-285), never changes the queue list,
    the rows of the model, the queue a task belongs to, a speed or
    concurrency limit, a retry default, the battery switches or the
    bulk-cancel flag; it keeps every queue as it is, only adding queues that
    tasks name and that do not exist, and it only adds notices. *)
Theorem startQueued_keeps_setup (depth : nat) (clk : Clock) (m : Manager) :
  keepsSetup m (startQueued blankQueue depth clk m).
Proof.
  apply (kept_startQueued blankQueue keepsSetup).
  - apply keepsSetup_refl.
  - apply keepsSetup_trans.
  - intros t op m0. unfold call. destruct (tasks m0 !! t); [|apply keepsSetup_refl].
    now apply keepsSetup_fields.
  - apply keepsSetup_createQueue.
  - intros v m0. now apply keepsSetup_fields.
  - intros v m0 Hprefix. now apply keepsSetup_fields.
  - intros v m0. now apply keepsSetup_fields.
  - intros v m0. now apply keepsSetup_fields.
  - intros v m0. now apply keepsSetup_fields.
  - intros v m0. now apply keepsSetup_fields.
Qed.

End WithQt.

(** *** The queue table and the queue order *)

Section InStep.
Context `{Qt : QtModel}.
Variable blankQueue : QueueInfo.

Lemma inStep_fields (m m' : Manager) :
  m_queues m' = m_queues m -> m_queueOrder m' = m_queueOrder m ->
  queuesInStep m -> queuesInStep m'.
Proof. unfold queuesInStep. intros -> ->. auto. Qed.

Lemma inStep_createQueue (clk : Clock) (name : string) (m : Manager) :
  queuesInStep m -> queuesInStep (createQueue blankQueue clk name m).
Proof.
  intros Hstep. pose proof Hstep as (Hnodup & Hkeys & Hnames). unfold createQueue.
  destruct (String.eqb (trimmed name) ""); [exact Hstep|].
  destruct (bool_decide (is_Some (m_queues m !! trimmed name))) eqn:Hhas;
    [exact Hstep|].
  apply bool_decide_eq_false_1 in Hhas.
  unfold queuesInStep. cbn. split; [|split].
  - apply NoDup_app. split; [exact Hnodup|]. split; [|apply NoDup_singleton].
    intros q Hq ->%list_elem_of_singleton. apply Hhas, Hkeys, Hq.
  - intros q. rewrite elem_of_app, list_elem_of_singleton, Hkeys.
    destruct (decide (q = trimmed name)) as [->|Hne].
    + rewrite lookup_insert_eq. split; [eauto|auto].
    + rewrite lookup_insert_ne by congruence. tauto.
  - intros q info. destruct (decide (q = trimmed name)) as [->|Hne].
    + rewrite lookup_insert_eq. now intros [= <-].
    + rewrite lookup_insert_ne by congruence. apply Hnames.
Qed.

Lemma inStep_ensureDefaultQueue (clk : Clock) (m : Manager) :
  queuesInStep m -> queuesInStep (ensureDefaultQueue blankQueue clk m).
Proof.
  intros Hstep. pose proof Hstep as (Hnodup & Hkeys & Hnames). unfold ensureDefaultQueue.
  destruct (m_queueOrder m) as [|first rest] eqn:Horder; [|exact Hstep].
  unfold queuesInStep. cbn. split; [|split].
  - apply NoDup_singleton.
  - intros q. rewrite list_elem_of_singleton.
    destruct (decide (q = "General"%string)) as [->|Hne].
    + rewrite lookup_insert_eq. split; [eauto|auto].
    + rewrite lookup_insert_ne by congruence. rewrite <- Hkeys.
      split; [contradiction|intros Hq; by apply elem_of_nil in Hq].
  - intros q info. destruct (decide (q = "General"%string)) as [->|Hne].
    + rewrite lookup_insert_eq. now intros [= <-].
    + rewrite lookup_insert_ne by congruence. apply Hnames.
Qed.

Lemma inStep_renameQueue (oldName newName : string) (m : Manager) :
  queuesInStep m -> queuesInStep (renameQueue oldName newName m).
Proof.
  intros Hstep. pose proof Hstep as (Hnodup & Hkeys & Hnames). unfold renameQueue.
  destruct (String.eqb (trimmed newName) ""); [exact Hstep|].
  destruct (m_queues m !! oldName) as [info|] eqn:Hold; [|exact Hstep].
  destruct (bool_decide (is_Some (m_queues m !! trimmed newName))) eqn:Hhas;
    [exact Hstep|].
  apply bool_decide_eq_false_1 in Hhas.
  set (new := trimmed newName) in *.
  assert (Hne : new <> oldName) by (intros Heq; apply Hhas; rewrite Heq, Hold; eauto).
  assert (HoldIn : oldName ∈ m_queueOrder m) by (apply Hkeys; eauto).
  assert (HnewOut : new ∉ m_queueOrder m) by (now rewrite Hkeys).
  set (f := fun q : string => if String.eqb q oldName then new else q).
  assert (Hf_old : f oldName = new) by (unfold f; now rewrite String.eqb_refl).
  assert (Hf_other : forall q, q <> oldName -> f q = q).
  { intros q Hq. unfold f. now rewrite (proj2 (String.eqb_neq _ _) Hq). }
  unfold queuesInStep, replaceName. cbn. fold f. split; [|split].
  - apply NoDup_fmap_2_strong; [|exact Hnodup].
    intros x y Hx Hy Hxy.
    destruct (decide (x = oldName)) as [->|Hx'], (decide (y = oldName)) as [->|Hy'];
      [reflexivity| | |].
    + rewrite Hf_old, (Hf_other y) in Hxy by assumption. subst y. contradiction.
    + rewrite Hf_old, (Hf_other x) in Hxy by assumption. subst x. contradiction.
    + now rewrite !Hf_other in Hxy by assumption.
  - intros q. rewrite list_elem_of_fmap.
    destruct (decide (q = new)) as [->|Hq].
    + rewrite lookup_insert_eq. split; [eauto|]. intros _. exists oldName. auto.
    + rewrite lookup_insert_ne by congruence.
      destruct (decide (q = oldName)) as [->|Hq'].
      * rewrite lookup_delete_eq. split; [|intros [? [=]]].
        intros (y & Hy & Hin). destruct (decide (y = oldName)) as [->|Hy'].
        -- rewrite Hf_old in Hy. congruence.
        -- rewrite Hf_other in Hy by assumption. congruence.
      * rewrite lookup_delete_ne by congruence. rewrite <- Hkeys. split.
        -- intros (y & Hy & Hin). destruct (decide (y = oldName)) as [->|Hy'].
           ++ rewrite Hf_old in Hy. congruence.
           ++ rewrite Hf_other in Hy by assumption. now subst y.
        -- intros Hin. exists q. split; [now rewrite Hf_other|exact Hin].
  - intros q info'. destruct (decide (q = new)) as [->|Hq].
    + rewrite lookup_insert_eq. now intros [= <-].
    + rewrite lookup_insert_ne by congruence.
      destruct (decide (q = oldName)) as [->|Hq'].
      * now rewrite lookup_delete_eq.
      * rewrite lookup_delete_ne by congruence. apply Hnames.
Qed.

Lemma dropQueue_moves (name fallback : string) (moved : list Handle) :
  forall m,
  let m' := fold_left (fun m t =>
                         applyTaskSpeed t
                           (set_m_taskQueue (<[t := fallback]> (m_taskQueue m)) m))
              moved m in
  m_queues m' = m_queues m /\ m_queueOrder m' = m_queueOrder m.
Proof.
  induction moved as [|t moved IH]; intros m m'; [now split|].
  subst m'. cbn [fold_left].
  destruct (IH (applyTaskSpeed t (set_m_taskQueue (<[t := fallback]> (m_taskQueue m)) m)))
    as [-> ->].
  now split.
Qed.

Lemma inStep_dropQueue (name : string) (m : Manager) :
  queuesInStep m -> queuesInStep (dropQueue name m).
Proof.
  intros Hstep. pose proof Hstep as (Hnodup & Hkeys & Hnames). unfold dropQueue. cbv zeta.
  match goal with
  | |- context [fold_left ?g ?l m] =>
      destruct (dropQueue_moves name (defaultQueueName m) l m) as [Hq Ho];
      cbv zeta in Hq, Ho; set (m1 := fold_left g l m) in *
  end.
  unfold queuesInStep. cbn. rewrite Hq, Ho. split; [|split].
  - apply NoDup_ListNoDup, List.NoDup_filter, NoDup_ListNoDup, Hnodup.
  - intros q. rewrite list_elem_of_In, List.filter_In, <- list_elem_of_In, Hkeys.
    destruct (decide (q = name)) as [->|Hne].
    + rewrite lookup_delete_eq, String.eqb_refl. cbn.
      split; [intros [_ [=]]|intros [? [=]]].
    + rewrite lookup_delete_ne by congruence.
      rewrite (proj2 (String.eqb_neq _ _) Hne). cbn. tauto.
  - intros q info. destruct (decide (q = name)) as [->|Hne].
    + now rewrite lookup_delete_eq.
    + rewrite lookup_delete_ne by congruence. apply Hnames.
Qed.

Lemma inStep_startQueued (depth : nat) (clk : Clock) (m : Manager) :
  queuesInStep m -> queuesInStep (startQueued blankQueue depth clk m).
Proof.
  apply (kept_startQueued blankQueue (fun m m' => queuesInStep m -> queuesInStep m')).
  - auto.
  - auto.
  - intros t op m0. unfold call. destruct (tasks m0 !! t); [|auto].
    now apply inStep_fields.
  - intros clk0 name m0. apply inStep_createQueue.
  - intros v m0. now apply inStep_fields.
  - intros v m0 _. now apply inStep_fields.
  - intros v m0. now apply inStep_fields.
  - intros v m0. now apply inStep_fields.
  - intros v m0. now apply inStep_fields.
  - intros v m0. now apply inStep_fields.
Qed.

(** Creating, renaming and removing queues, making sure the default queue
    exists, and admission keep the queue table and the queue order list in
    step (downloadmanager.cpp 955-1019, 1746-1756, 364-397): when both name
    the same queues, each once and under its own name, they still do
    afterwards. *)
Theorem queues_stay_in_step (depth : nat) (clk : Clock) (m : Manager) :
  queuesInStep m ->
  (forall name, queuesInStep (createQueue blankQueue clk name m))
  /\ queuesInStep (ensureDefaultQueue blankQueue clk m)
  /\ (forall oldName newName, queuesInStep (renameQueue oldName newName m))
  /\ (forall name, queuesInStep (removeQueue blankQueue depth clk name m))
  /\ queuesInStep (startQueued blankQueue depth clk m).
Proof.
  intros Hstep.
  split; [intros name; now apply inStep_createQueue|].
  split; [now apply inStep_ensureDefaultQueue|].
  split; [intros oldName newName; now apply inStep_renameQueue|].
  split; [|now apply inStep_startQueued].
  intros name. unfold removeQueue.
  destruct (negb (bool_decide (is_Some (m_queues m !! name)))); [exact Hstep|].
  destruct (String.eqb name (defaultQueueName m)); [exact Hstep|].
  now apply inStep_startQueued, inStep_dropQueue.
Qed.

End InStep.

End QueueProofs.

Module MirrorProofs.
Import Task Mirrors.
Import TaskProofs RestartProofs.

Section WithQt.
Context `{Qt : QtModel}.

Lemma currentUrl_at (t : Task) :
  m_mirrorUrls t <> [] -> 0 <= m_mirrorIndex t ->
  m_mirrorIndex t < Z.of_nat (length (m_mirrorUrls t)) ->
  currentUrl t = nth (Z.to_nat (m_mirrorIndex t)) (m_mirrorUrls t) ""%string.
Proof.
  intros Hne Hlo Hhi. unfold currentUrl.
  rewrite (bool_decide_eq_false_2 _ Hne).
  rewrite (proj2 (Z.leb_le _ _) Hlo), (proj2 (Z.ltb_lt _ _) Hhi). reflexivity.
Qed.

Lemma currentUrl_outside (t : Task) :
  m_mirrorUrls t = [] \/ Z.of_nat (length (m_mirrorUrls t)) <= m_mirrorIndex t ->
  currentUrl t = m_url t.
Proof.
  unfold currentUrl. intros [Hnone|Hout].
  - now rewrite (bool_decide_eq_true_2 _ Hnone).
  - rewrite (proj2 (Z.ltb_ge _ _) Hout). now rewrite andb_false_r.
Qed.

(** The three operations on the mirror list (downloadertask.cpp 76-115, with
    [currentUrl] at 48-54) keep the selection in step: the index stays
    non-negative, and whenever the URL that [currentUrl()] returns is valid
    it is the URL stored in the task. *)
Theorem mirror_selection_in_step (w : World) :
  mirrorInStep (task w) ->
  (forall urls, mirrorInStep (task (setMirrorUrls urls w)))
  /\ (forall index, mirrorInStep (task (setMirrorIndex index w)))
  /\ mirrorInStep (task (snd (advanceMirror w))).
Proof.
  intros Hstep. pose proof Hstep as [Hindex Hurl].
  destruct w as [t f sigs tms nr]. cbn [task] in *.
  assert (Hout : forall t' : Task,
            0 <= m_mirrorIndex t' ->
            m_mirrorUrls t' = [] \/ Z.of_nat (length (m_mirrorUrls t')) <= m_mirrorIndex t' ->
            mirrorInStep t').
  { intros t' Hi Hcase. split; [exact Hi|]. intros _. symmetry.
    now apply currentUrl_outside. }
  assert (Hat : forall t' : Task,
            m_mirrorUrls t' <> [] -> 0 <= m_mirrorIndex t' ->
            m_mirrorIndex t' < Z.of_nat (length (m_mirrorUrls t')) ->
            (urlIsValid (nth (Z.to_nat (m_mirrorIndex t')) (m_mirrorUrls t') ""%string) = true ->
             m_url t' = nth (Z.to_nat (m_mirrorIndex t')) (m_mirrorUrls t') ""%string) ->
            mirrorInStep t').
  { intros t' Hne Hlo Hhi Hvalid. split; [exact Hlo|].
    rewrite currentUrl_at by assumption. exact Hvalid. }
  split; [|split].
  - intros urls. unfold setMirrorUrls. cbn [task].
    destruct (bool_decide (m_mirrorUrls t = urls)); [exact Hstep|].
    destruct urls as [|first rest].
    + apply Hout; cbn; [exact Hindex|now left].
    + unfold upd, emit. cbn -[mirrorInStep].
      destruct (urlIsValid first) eqn:Hvalid; cbn -[mirrorInStep];
        (apply Hat; cbn; [discriminate|lia|lia|]);
        change (Z.to_nat 0) with 0%nat; cbn;
        [intros _; reflexivity|rewrite Hvalid; discriminate].
  - intros index. unfold setMirrorIndex. cbn [task].
    set (i := if index <? 0 then 0 else index).
    assert (Hi : 0 <= i) by (subst i; destruct (Z.ltb_spec index 0); lia).
    clearbody i.
    destruct (m_mirrorIndex t =? i); [exact Hstep|].
    unfold upd, emit. cbn -[mirrorInStep].
    destruct (bool_decide (m_mirrorUrls t = [])) eqn:Hnone; cbn [negb andb].
    + apply bool_decide_eq_true_1 in Hnone. apply Hout; cbn; [exact Hi|now left].
    + apply bool_decide_eq_false_1 in Hnone.
      destruct (Z.ltb_spec i (Z.of_nat (length (m_mirrorUrls t)))) as [Hin|Hover].
      * destruct (urlIsValid (nth (Z.to_nat i) (m_mirrorUrls t) ""%string)) eqn:Hvalid;
          cbn -[mirrorInStep]; (apply Hat; cbn; [assumption|lia|lia|]);
          [intros _; reflexivity|rewrite Hvalid; discriminate].
      * apply Hout; cbn; [exact Hi|now right].
  - unfold advanceMirror. cbn [task].
    destruct (bool_decide (m_mirrorUrls t = [])) eqn:Hnone; [exact Hstep|].
    apply bool_decide_eq_false_1 in Hnone.
    destruct (Z.leb_spec (Z.of_nat (length (m_mirrorUrls t))) (m_mirrorIndex t + 1))
      as [Hover|Hin]; [exact Hstep|].
    unfold upd, emit. cbn -[mirrorInStep].
    destruct (urlIsValid (nth (Z.to_nat (m_mirrorIndex t + 1)) (m_mirrorUrls t) ""%string))
      eqn:Hvalid; cbn -[mirrorInStep]; (apply Hat; cbn; [assumption|lia|lia|]);
      [intros _; reflexivity|rewrite Hvalid; discriminate].
Qed.

End WithQt.
End MirrorProofs.

Module TextProofs.
Import Task Manager.
Import UtilsProofs.

(** *** Letters, white space and trimming *)

Lemma lowerAscii_idem (c : ascii) : lowerAscii (lowerAscii c) = lowerAscii c.
Proof. destruct c as [[] [] [] [] [] [] [] []]; reflexivity. Qed.

Lemma isSpace_lower (c : ascii) : isSpace (lowerAscii c) = isSpace c.
Proof. destruct c as [[] [] [] [] [] [] [] []]; reflexivity. Qed.

Lemma isBlank_lower (c : ascii) : Ascii.eqb (lowerAscii c) " " = Ascii.eqb c " ".
Proof. destruct c as [[] [] [] [] [] [] [] []]; reflexivity. Qed.

Lemma isDot_lower (c : ascii) : Ascii.eqb (lowerAscii c) "." = Ascii.eqb c ".".
Proof. destruct c as [[] [] [] [] [] [] [] []]; reflexivity. Qed.

Lemma blank_isSpace (c : ascii) : Ascii.eqb c " " = true -> isSpace c = true.
Proof. intros ->%Ascii.eqb_eq. reflexivity. Qed.

Lemma toLower_idem (s : string) : toLower (toLower s) = toLower s.
Proof. induction s as [|c s IH]; cbn; [reflexivity|]. now rewrite lowerAscii_idem, IH. Qed.

Lemma toLower_append (s1 s2 : string) : toLower (s1 +:+ s2) = toLower s1 +:+ toLower s2.
Proof.
  induction s1 as [|c s1 IH]; [reflexivity|].
  rewrite append_cons. cbn [toLower]. now rewrite append_cons, IH.
Qed.

Lemma toLower_empty (s : string) : String.eqb (toLower s) "" = String.eqb s "".
Proof. now destruct s. Qed.

Lemma hasDot_toLower (s : string) : Utils.hasDot (toLower s) = Utils.hasDot s.
Proof. induction s as [|c s IH]; cbn; [reflexivity|]. now rewrite isDot_lower, IH. Qed.

Lemma trimRight_idem (s : string) : trimRight (trimRight s) = trimRight s.
Proof.
  induction s as [|c s IH]; [reflexivity|]. cbn [trimRight].
  destruct (isSpace c && String.eqb (trimRight s) "") eqn:Hcond; [reflexivity|].
  cbn [trimRight]. now rewrite IH, Hcond.
Qed.

Lemma trimRight_toLower (s : string) : trimRight (toLower s) = toLower (trimRight s).
Proof.
  induction s as [|c s IH]; [reflexivity|]. cbn [toLower trimRight].
  rewrite IH, isSpace_lower, toLower_empty.
  now destruct (isSpace c && String.eqb (trimRight s) "").
Qed.

(** The head of a text is no white space. *)
Lemma trimLeft_head (s : string) :
  match trimLeft s with
  | EmptyString => True
  | String c _ => isSpace c = false
  end.
Proof.
  induction s as [|c s IH]; [exact I|]. cbn [trimLeft].
  destruct (isSpace c) eqn:Hc; [exact IH|exact Hc].
Qed.

Lemma trimRight_head (s : string) :
  match s with
  | EmptyString => True
  | String c _ => isSpace c = false
  end ->
  match trimRight s with
  | EmptyString => True
  | String c _ => isSpace c = false
  end.
Proof. destruct s as [|c s]; [auto|]. cbn [trimRight]. intros Hc. now rewrite Hc. Qed.

Lemma trimLeft_fixed (s : string) :
  match s with
  | EmptyString => True
  | String c _ => isSpace c = false
  end -> trimLeft s = s.
Proof. destruct s as [|c s]; [auto|]. cbn [trimLeft]. now intros ->. Qed.

Lemma trimmed_head (s : string) :
  match trimmed s with
  | EmptyString => True
  | String c _ => isSpace c = false
  end.
Proof. apply trimRight_head, trimLeft_head. Qed.

Lemma trimmed_idem (s : string) : trimmed (trimmed s) = trimmed s.
Proof.
  unfold trimmed at 1. rewrite trimLeft_fixed by apply trimmed_head.
  apply trimRight_idem.
Qed.

End TextProofs.

Module DiskUtilsProofs.
Import Task Manager DiskUtils.
Import UtilsProofs TextProofs.

(** *** Checksums *)

Lemma removeSpaces_idem (s : string) : removeSpaces (removeSpaces s) = removeSpaces s.
Proof.
  induction s as [|c s IH]; [reflexivity|]. cbn [removeSpaces].
  destruct (Ascii.eqb c " ") eqn:Hc; [exact IH|]. cbn [removeSpaces]. now rewrite Hc, IH.
Qed.

Lemma removeSpaces_toLower (s : string) :
  toLower (removeSpaces s) = removeSpaces (toLower s).
Proof.
  induction s as [|c s IH]; [reflexivity|]. cbn [removeSpaces toLower].
  rewrite isBlank_lower. destruct (Ascii.eqb c " "); [exact IH|].
  cbn [toLower]. now rewrite IH.
Qed.

Lemma removeSpaces_keeps_end (s : string) :
  trimRight s = s -> s <> ""%string -> removeSpaces s <> ""%string.
Proof.
  induction s as [|c s IH]; [congruence|]. cbn [trimRight removeSpaces]. intros Hfix _.
  destruct (isSpace c && String.eqb (trimRight s) "") eqn:Hcond; [discriminate|].
  injection Hfix as Hfix.
  destruct (Ascii.eqb c " ") eqn:Hc; [|discriminate].
  apply IH; [exact Hfix|]. intros ->.
  now rewrite (blank_isSpace c Hc) in Hcond.
Qed.

Lemma removeSpaces_trimRight (s : string) :
  trimRight s = s -> trimRight (removeSpaces s) = removeSpaces s.
Proof.
  induction s as [|c s IH]; [reflexivity|]. cbn [trimRight removeSpaces]. intros Hfix.
  destruct (isSpace c && String.eqb (trimRight s) "") eqn:Hcond; [discriminate|].
  injection Hfix as Hfix.
  destruct (Ascii.eqb c " ") eqn:Hc; [now apply IH|].
  cbn [trimRight]. rewrite (IH Hfix).
  destruct (isSpace c) eqn:Hspace; [|reflexivity]. cbn [andb] in *.
  rewrite Hfix in Hcond. apply String.eqb_neq in Hcond.
  now rewrite (proj2 (String.eqb_neq _ _) (removeSpaces_keeps_end s Hfix Hcond)).
Qed.

Lemma removeSpaces_head (s : string) :
  match s with
  | EmptyString => True
  | String c _ => isSpace c = false
  end ->
  match removeSpaces s with
  | EmptyString => True
  | String c _ => isSpace c = false
  end.
Proof.
  destruct s as [|c s]; [auto|]. cbn [removeSpaces]. intros Hc.
  destruct (Ascii.eqb c " ") eqn:Hblank; [|exact Hc].
  now rewrite (blank_isSpace c Hblank) in Hc.
Qed.

Lemma toLower_head (s : string) :
  match s with
  | EmptyString => True
  | String c _ => isSpace c = false
  end ->
  match toLower s with
  | EmptyString => True
  | String c _ => isSpace c = false
  end.
Proof. destruct s as [|c s]; [auto|]. cbn [toLower]. now rewrite isSpace_lower. Qed.

(** [normalizeChecksum] (download_utils.cpp 111-116) is idempotent: a
    normalised checksum has no white space at its ends, no capital letter
    and no blank left, so normalising it again changes nothing; and
    [detectChecksumAlgo] (118-127) gives the same answer for a checksum and
    for its normal form. *)
Theorem normalizeChecksum_idempotent (value : string) :
  normalizeChecksum (normalizeChecksum value) = normalizeChecksum value
  /\ detectChecksumAlgo (normalizeChecksum value) = detectChecksumAlgo value.
Proof.
  assert (Hidem : normalizeChecksum (normalizeChecksum value) = normalizeChecksum value).
  { unfold normalizeChecksum.
    set (t := trimmed value).
    assert (Htrim : trimmed (removeSpaces (toLower t)) = removeSpaces (toLower t)).
    { unfold trimmed at 1.
      rewrite trimLeft_fixed by (apply removeSpaces_head, toLower_head, trimmed_head).
      apply removeSpaces_trimRight. rewrite trimRight_toLower. f_equal.
      subst t. unfold trimmed. apply trimRight_idem. }
    rewrite Htrim, removeSpaces_toLower, toLower_idem. apply removeSpaces_idem. }
  split; [exact Hidem|]. unfold detectChecksumAlgo. now rewrite Hidem.
Qed.

(** *** What is on disk *)

Section WithQt.
Context `{Qt : QtModel}.

Lemma file_size_missing (f : FS) (p : string) :
  file_exists f p = false -> file_size f p = 0.
Proof.
  unfold file_exists, file_size. intros Hmissing%bool_decide_eq_false_1.
  destruct (f !! p); [|reflexivity]. exfalso. eauto.
Qed.

Lemma partsOnDisk_from (f : FS) (localPath : string) (l : list Z) :
  forall (b : bool) (a : Z),
  fold_left (fun acc i =>
               let partPath := partPath localPath i in
               if negb (file_exists f partPath) then acc
               else (true, snd acc + file_size f partPath)) l (b, a)
  = (b || existsb (fun i => file_exists f (partPath localPath i)) l,
     fold_left (fun acc i => acc + file_size f (partPath localPath i)) l a).
Proof.
  induction l as [|i l IH]; intros b a; cbn [fold_left existsb].
  - now rewrite orb_false_r.
  - cbv zeta.
    destruct (file_exists f (partPath localPath i)) eqn:Hex; cbn [negb snd orb]; rewrite IH.
    + now rewrite orb_true_r.
    + now rewrite (file_size_missing _ _ Hex), Z.add_0_r.
Qed.

Lemma sumSizes_nonneg (f : FS) (localPath : string) (l : list Z) :
  (forall p size, f !! p = Some size -> 0 <= size) ->
  forall a, 0 <= a ->
  0 <= fold_left (fun acc i => acc + file_size f (partPath localPath i)) l a.
Proof.
  intros Hsizes. induction l as [|i l IH]; intros a Ha; [exact Ha|].
  cbn [fold_left]. apply IH. unfold file_size.
  destruct (f !! partPath localPath i) as [size|] eqn:Hsize; cbn; [|lia].
  specialize (Hsizes _ _ Hsize). lia.
Qed.

(** [bytesReceivedOnDisk] (download_utils.cpp 25-53) prefers the numbered
    part files: as soon as one of the parts 0 .. max(1, segments) - 1 exists,
    the answer is the sum of the sizes of those that exist, whatever the
    single part file and the file itself hold.  And when no file has a
    negative size, the answer is not negative. *)
Theorem bytesReceivedOnDisk_prefers_parts (f : FS) (filePath : string) (segments : Z) :
  let localPath := Utils.normalizeFilePath filePath in
  let indices := seqZ 0 (Z.max 1 segments) in
  (localPath <> ""%string ->
   (exists i, i ∈ indices /\ is_Some (f !! partPath localPath i)) ->
   bytesReceivedOnDisk f filePath segments
   = fold_left (fun acc i => acc + file_size f (partPath localPath i)) indices 0)
  /\ ((forall p size, f !! p = Some size -> 0 <= size) ->
      0 <= bytesReceivedOnDisk f filePath segments).
Proof.
  intros localPath indices. unfold bytesReceivedOnDisk, partsOnDisk.
  fold localPath. fold indices. rewrite partsOnDisk_from. cbn [orb].
  split.
  - intros Hpath (i & Hi & Hsome).
    rewrite (proj2 (String.eqb_neq _ _) Hpath).
    assert (Hany : existsb (fun i => file_exists f (partPath localPath i)) indices = true).
    { apply existsb_exists. exists i. split; [now apply list_elem_of_In|].
      unfold file_exists. now apply bool_decide_eq_true_2. }
    now rewrite Hany.
  - intros Hsizes. destruct (String.eqb localPath ""); [lia|].
    destruct (existsb _ indices).
    + apply sumSizes_nonneg; [exact Hsizes|lia].
    + unfold file_exists, file_size.
      destruct (f !! (localPath +:+ ".part")) as [size|] eqn:Hpart.
      * rewrite bool_decide_eq_true_2 by eauto. cbn. eauto.
      * rewrite bool_decide_eq_false_2 by (intros [? [=]]).
        destruct (f !! localPath) as [size|] eqn:Hmain.
        -- rewrite bool_decide_eq_true_2 by eauto. cbn. eauto.
        -- rewrite bool_decide_eq_false_2 by (intros [? [=]]). lia.
Qed.

End WithQt.

End DiskUtilsProofs.

Module CategoryProofs.
Import Task Category.
Import UtilsProofs TextProofs.

Lemma afterLastDot_plain (s : string) : Utils.hasDot s = false -> afterLastDot s = ""%string.
Proof.
  induction s as [|c s IH]; [reflexivity|]. cbn [Utils.hasDot afterLastDot].
  destruct (Ascii.eqb c "."); [discriminate|]. intros Hs. now rewrite Hs.
Qed.

Lemma afterLastDot_ext (stem ext : string) :
  Utils.hasDot ext = false -> afterLastDot (stem +:+ "." +:+ ext) = ext.
Proof.
  intros Hext. induction stem as [|c stem IH].
  - rewrite append_nil, append_cons, append_nil. cbn [afterLastDot]. now rewrite Hext.
  - rewrite append_cons. cbn [afterLastDot].
    rewrite hasDot_append, append_cons. cbn [Utils.hasDot]. rewrite Ascii.eqb_refl.
    now rewrite orb_true_r.
Qed.

(** [detectCategory] (category_utils.cpp 9-29) decides by the text after the
    last dot alone, whatever its case: a path gives the category of its
    extension in small letters; a path without a dot is Other; and the
    answer is always one of the names of [categoryNames] (31-34) other than
    Auto. *)
Theorem detectCategory_by_extension (filePath : string) :
  detectCategory filePath ∈ tail categoryNames
  /\ detectCategory (toLower filePath) = detectCategory filePath
  /\ (Utils.hasDot filePath = false -> detectCategory filePath = "Other"%string)
  /\ (forall stem ext,
        Utils.hasDot ext = false ->
        detectCategory (stem +:+ "." +:+ ext) = detectCategory ("." +:+ toLower ext)).
Proof.
  split; [|split; [|split]].
  - unfold detectCategory, categoryNames. cbv zeta. cbn [tail].
    repeat match goal with
           | |- context [if ?c then _ else _] => destruct c
           end;
      rewrite !elem_of_cons; auto 10.
  - unfold detectCategory. now rewrite toLower_idem.
  - intros Hplain. unfold detectCategory.
    rewrite afterLastDot_plain by now rewrite hasDot_toLower. reflexivity.
  - intros stem ext Hext.
    change ("." +:+ toLower ext) with ("" +:+ "." +:+ toLower ext).
    unfold detectCategory.
    rewrite !toLower_append, toLower_idem. change (toLower ".") with "."%string.
    rewrite !afterLastDot_ext by now rewrite hasDot_toLower. reflexivity.
Qed.

End CategoryProofs.

Module VersionProofs.
Import Manager Version.
Import UtilsProofs TextProofs.

Section WithLaws.
Context `{Laws : QtVersionLaws}.

(** [compareVersions] (version_utils.cpp 29-42) answers -1, 0 or 1, and
    swapping its arguments swaps the sign of the answer, as long as the two
    comparisons of Qt it is built on do the same. *)
Theorem compareVersions_swap (a b : string) :
  compareVersions b a = - compareVersions a b
  /\ -1 <= compareVersions a b <= 1.
Proof.
  unfold compareVersions. cbv zeta.
  pose proof (versionCompare_swap (base (parseVersion a)) (base (parseVersion b))) as Hbase.
  pose proof (compareCaseInsensitive_swap (suffix (parseVersion a)) (suffix (parseVersion b)))
    as Hsuffix.
  set (x := versionCompare (base (parseVersion a)) (base (parseVersion b))) in *.
  set (y := versionCompare (base (parseVersion b)) (base (parseVersion a))) in *.
  set (u := compareCaseInsensitive (suffix (parseVersion a)) (suffix (parseVersion b))) in *.
  set (v := compareCaseInsensitive (suffix (parseVersion b)) (suffix (parseVersion a))) in *.
  destruct (prerelease (parseVersion a)), (prerelease (parseVersion b)); cbn [Bool.eqb];
    destruct (Z.eqb_spec x 0), (Z.eqb_spec y 0), (Z.ltb_spec x 0), (Z.ltb_spec y 0),
      (Z.eqb_spec u 0), (Z.eqb_spec v 0), (Z.ltb_spec u 0), (Z.ltb_spec v 0);
    cbn [negb]; lia.
Qed.

Lemma trim_commute (s : string) : trimLeft (trimRight s) = trimRight (trimLeft s).
Proof.
  induction s as [|c s IH]; [reflexivity|]. cbn [trimLeft trimRight].
  destruct (isSpace c) eqn:Hc; cbn [andb].
  - rewrite <- IH. destruct (String.eqb_spec (trimRight s) "") as [->|_]; [reflexivity|].
    cbn [trimLeft]. now rewrite Hc.
  - cbn [trimLeft trimRight]. now rewrite Hc.
Qed.

Lemma trimRight_dash (core tail : string) :
  trimRight (core +:+ "-" +:+ tail) = core +:+ "-" +:+ trimRight tail.
Proof.
  induction core as [|c core IH].
  - rewrite !append_nil. change ("-" +:+ tail) with (String "-" tail).
    cbn [trimRight]. reflexivity.
  - rewrite !(append_cons c core). cbn [trimRight]. rewrite IH.
    destruct (core +:+ "-" +:+ trimRight tail) eqn:Hrest;
      [|now rewrite andb_false_r].
    destruct core; discriminate.
Qed.

Lemma afterDash_dash (core tail : string) :
  afterDash core = None ->
  afterDash (core +:+ "-" +:+ tail) = Some tail
  /\ beforeDash (core +:+ "-" +:+ tail) = core.
Proof.
  induction core as [|c core IH]; intros Hcore.
  - rewrite append_nil. change ("-" +:+ tail) with (String "-" tail). now split.
  - rewrite (append_cons c core). cbn [afterDash beforeDash] in *.
    destruct (Ascii.eqb c "-"); [discriminate|].
    destruct (IH Hcore) as [-> ->]. now split.
Qed.

(** A version with a suffix after a dash is below the same version without
    one (version_utils.cpp 14-41): for a core text without dash, leading v
    or white space at its ends, and a suffix that is not blank, the version
    core-suffix compares as -1 against core, and core as 1 against it. *)
Theorem prerelease_below_release (core tail : string) :
  trimmed core = core ->
  afterDash core = None ->
  match core with
  | String c _ => Ascii.eqb c "v" || Ascii.eqb c "V" = false
  | EmptyString => True
  end ->
  trimmed tail <> ""%string ->
  compareVersions (core +:+ "-" +:+ tail) core = -1
  /\ compareVersions core (core +:+ "-" +:+ tail) = 1.
Proof.
  intros Hcore Hdash Hv Htail.
  assert (Hplain : parseVersion core = mkParsedVersion (versionFromString core) "" false).
  { unfold parseVersion. rewrite Hcore.
    destruct core as [|c rest]; [reflexivity|]. rewrite Hv. now rewrite Hdash. }
  assert (Hpre : parseVersion (core +:+ "-" +:+ tail)
                 = mkParsedVersion (versionFromString core) (trimmed tail) true).
  { unfold parseVersion.
    assert (Htrim : trimmed (core +:+ "-" +:+ tail) = core +:+ "-" +:+ trimRight tail).
    { unfold trimmed at 1. rewrite trimLeft_fixed; [apply trimRight_dash|].
      pose proof (trimmed_head core) as Hhead. rewrite Hcore in Hhead.
      destruct core; [reflexivity|exact Hhead]. }
    rewrite Htrim.
    assert (Hstrip : match core +:+ "-" +:+ trimRight tail with
                     | String c rest =>
                         if Ascii.eqb c "v" || Ascii.eqb c "V" then rest
                         else core +:+ "-" +:+ trimRight tail
                     | EmptyString => core +:+ "-" +:+ trimRight tail
                     end = core +:+ "-" +:+ trimRight tail).
    { destruct core as [|c rest]; [reflexivity|]. rewrite (append_cons c rest).
      now rewrite Hv. }
    rewrite Hstrip. destruct (afterDash_dash core (trimRight tail) Hdash) as [-> ->].
    assert (Hsuffix : trimmed (trimRight tail) = trimmed tail).
    { unfold trimmed. now rewrite trim_commute, trimRight_idem. }
    rewrite Hsuffix. now rewrite (proj2 (String.eqb_neq _ _) Htail). }
  pose proof (versionCompare_swap (versionFromString core) (versionFromString core)) as Hsame.
  assert (Hzero : versionCompare (versionFromString core) (versionFromString core) = 0) by lia.
  unfold compareVersions. rewrite Hplain, Hpre. cbn. rewrite Hzero. cbn. now split.
Qed.

End WithLaws.

End VersionProofs.

From Stdlib Require Import Sorting.Sorted.

Module ModelProofs.
Import Model.

(** *** Sorting the rows *)

Lemma insertStable_permutation {A : Type} (less : A -> A -> bool) (x : A) (l : list A) :
  insertStable less x l ≡ₚ x :: l.
Proof.
  induction l as [|y l IH]; [reflexivity|]. cbn [insertStable].
  destruct (less y x); [|reflexivity]. rewrite IH. apply Permutation_swap.
Qed.

Lemma stableSort_permutation {A : Type} (less : A -> A -> bool) (l : list A) :
  stableSort less l ≡ₚ l.
Proof.
  induction l as [|x l IH]; [reflexivity|].
  change (stableSort less (x :: l)) with (insertStable less x (stableSort less l)).
  etransitivity; [apply insertStable_permutation|]. now constructor.
Qed.

(** Rows in the order of a key, upwards or downwards. *)
Lemma insertStable_sorted {A : Type} (key : A -> Z) (ascending : bool) (x : A)
    (l : list A) :
  let ordered := fun a b => if ascending then key a <= key b else key b <= key a in
  StronglySorted ordered l ->
  StronglySorted ordered
    (insertStable (fun a b => lessNumber ascending (key a) (key b)) x l).
Proof.
  intros ordered Hsorted. induction Hsorted as [|y l Hsorted IH Hy]; cbn [insertStable].
  - repeat constructor.
  - destruct (lessNumber ascending (key y) (key x)) eqn:Hless.
    + constructor; [exact IH|].
      rewrite insertStable_permutation. constructor; [|exact Hy].
      subst ordered. unfold lessNumber in Hless. cbv beta.
      destruct ascending; apply Z.ltb_lt in Hless; lia.
    + constructor; [now constructor|].
      assert (Hxy : ordered x y).
      { subst ordered. unfold lessNumber in Hless. cbv beta.
        destruct ascending; apply Z.ltb_ge in Hless; lia. }
      constructor; [exact Hxy|].
      eapply Forall_impl; [exact Hy|]. intros z Hz. subst ordered. cbv beta in *.
      destruct ascending; lia.
Qed.

Lemma stableSort_sorted {A : Type} (key : A -> Z) (ascending : bool) (l : list A) :
  StronglySorted (fun a b => if ascending then key a <= key b else key b <= key a)
    (stableSort (fun a b => lessNumber ascending (key a) (key b)) l).
Proof.
  induction l as [|x l IH]; [constructor|].
  change (stableSort ?f (x :: l)) with (insertStable f x (stableSort f l)).
  now apply (insertStable_sorted key ascending x).
Qed.

(** Rows of one key keep the order they had. *)
Lemma insertStable_stable {A : Type} (key : A -> Z) (ascending : bool) (k : Z) (x : A)
    (l : list A) :
  List.filter (fun a => key a =? k)
    (insertStable (fun a b => lessNumber ascending (key a) (key b)) x l)
  = List.filter (fun a => key a =? k) (x :: l).
Proof.
  induction l as [|y l IH]; [reflexivity|]. cbn [insertStable].
  destruct (lessNumber ascending (key y) (key x)) eqn:Hless; [|reflexivity].
  cbn [List.filter] in *. rewrite IH.
  destruct (Z.eqb_spec (key y) k) as [Hy|Hy], (Z.eqb_spec (key x) k) as [Hx|Hx];
    try reflexivity.
  unfold lessNumber in Hless. destruct ascending; apply Z.ltb_lt in Hless; lia.
Qed.

Lemma stableSort_stable {A : Type} (key : A -> Z) (ascending : bool) (k : Z) (l : list A) :
  List.filter (fun a => key a =? k)
    (stableSort (fun a b => lessNumber ascending (key a) (key b)) l)
  = List.filter (fun a => key a =? k) l.
Proof.
  induction l as [|x l IH]; [reflexivity|].
  change (stableSort ?f (x :: l)) with (insertStable f x (stableSort f l)).
  rewrite insertStable_stable. cbn [List.filter]. now rewrite IH.
Qed.

(** [sortBy] (downloadmodel.cpp 122-158) rearranges the rows and nothing
    else: the rows after it are the rows before it in another order, and no
    [dataChanged] is emitted.  A role name it does not know sorts by file
    name.  Sorting by bytesTotal puts the rows in the order of their totals,
    upwards or downwards as asked, and rows of the same total keep the order
    they had. *)
Theorem sortBy_rearranges (status : Manager.Handle -> string) (roleName : string)
    (ascending : bool) (m : DownloadModel) :
  let m' := sortBy status roleName ascending m in
  m_downloads m' ≡ₚ m_downloads m
  /\ dataChanged m' = dataChanged m
  /\ deleted m' = deleted m
  /\ (roleName ∉ ["fileName"; "bytesTotal"; "bytesReceived"; "queueName"; "category";
                  "status"]%string ->
      m' = sortBy status "fileName" ascending m)
  /\ (roleName = "bytesTotal"%string ->
      StronglySorted
        (fun a b => if ascending then total a <= total b else total b <= total a)
        (m_downloads m')
      /\ forall k, List.filter (fun a => total a =? k) (m_downloads m')
                   = List.filter (fun a => total a =? k) (m_downloads m)).
Proof.
  intros m'. subst m'. unfold sortBy. cbn [m_downloads dataChanged deleted].
  split; [apply stableSort_permutation|].
  split; [reflexivity|]. split; [reflexivity|]. split.
  - intros Hunknown. f_equal. f_equal. unfold roleOf.
    rewrite !not_elem_of_cons in Hunknown.
    destruct Hunknown as (H1 & H2 & H3 & H4 & H5 & H6 & _).
    rewrite (proj2 (String.eqb_neq _ _) H1), (proj2 (String.eqb_neq _ _) H2),
      (proj2 (String.eqb_neq _ _) H3), (proj2 (String.eqb_neq _ _) H4),
      (proj2 (String.eqb_neq _ _) H5), (proj2 (String.eqb_neq _ _) H6).
    reflexivity.
  - intros ->. change (roleOf "bytesTotal") with BytesTotalRole.
    split; [apply (stableSort_sorted total)|].
    intros k. apply (stableSort_stable total).
Qed.

(** *** Updating a row *)

Lemma firstRowOf_spec (t : TaskPtr) (rows : list DownloadItem) (i : nat) :
  firstRowOf t rows = Some i ->
  exists row, rows !! i = Some row /\ task row = t.
Proof.
  revert i. induction rows as [|row rows IH]; intros i; [discriminate|].
  cbn [firstRowOf]. destruct (bool_decide (task row = t)) eqn:Hrow.
  - intros [= <-]. exists row. split; [reflexivity|].
    apply bool_decide_eq_true in Hrow. exact Hrow.
  - destruct (firstRowOf t rows) as [j|]; [|discriminate].
    intros [= <-]. exact (IH j eq_refl).
Qed.

Lemma firstRowOf_tasks (t : TaskPtr) (rows rows' : list DownloadItem) :
  map task rows' = map task rows -> firstRowOf t rows' = firstRowOf t rows.
Proof.
  revert rows'. induction rows as [|row rows IH]; intros [|row' rows']; try discriminate;
    [reflexivity|].
  cbn [map firstRowOf]. intros [= Hrow Hrows]. now rewrite Hrow, (IH rows' Hrows).
Qed.

Lemma updateFirst_frame (t : TaskPtr) (unchanged : DownloadItem -> bool)
    (f : DownloadItem -> DownloadItem) (roles : list Role) (m : DownloadModel) :
  (forall row, task (f row) = task row) ->
  let m' := updateFirst t unchanged f roles m in
  map task (m_downloads m') = map task (m_downloads m)
  /\ deleted m' = deleted m
  /\ (forall i, firstRowOf t (m_downloads m) <> Some i ->
        m_downloads m' !! i = m_downloads m !! i)
  /\ (dataChanged m' = dataChanged m
      \/ exists i, firstRowOf t (m_downloads m) = Some i
                   /\ dataChanged m' = dataChanged m ++ [(i, roles)]).
Proof.
  intros Hf m'. subst m'. unfold updateFirst.
  destruct (firstRowOf t (m_downloads m)) as [i|] eqn:Hfirst; [|auto].
  destruct (m_downloads m !! i) as [row|] eqn:Hrow; [|auto].
  destruct (unchanged row); [auto|]. cbn [m_downloads deleted dataChanged].
  split; [|split; [reflexivity|split]].
  - change (map task (<[i:=f row]> (m_downloads m)))
      with (task <$> <[i:=f row]> (m_downloads m)).
    rewrite list_fmap_insert, Hf. apply list_insert_id.
    now rewrite list_lookup_fmap, Hrow.
  - intros j Hj. apply list_lookup_insert_ne. congruence.
  - right. now exists i.
Qed.

(** The functions that update a row (downloadmodel.cpp 67-120 and 178-201)
    never add, remove or move a row and never change the task of a row;
    they leave every row alone but the first row of their task, hand no task
    to deletion, and emit at most one [dataChanged], for that row. *)
Theorem updates_keep_rows (t : TaskPtr) (queue kind name : string) (bytesReceived bytesTotal : Z)
    (value : bool) (m : DownloadModel) :
  Forall (fun update : DownloadModel -> DownloadModel =>
            map task (m_downloads (update m)) = map task (m_downloads m)
            /\ deleted (update m) = deleted m
            /\ (forall i, firstRowOf t (m_downloads m) <> Some i ->
                  m_downloads (update m) !! i = m_downloads m !! i)
            /\ (dataChanged (update m) = dataChanged m
                \/ exists i roles,
                     firstRowOf t (m_downloads m) = Some i
                     /\ dataChanged (update m) = dataChanged m ++ [(i, roles)]))
    [updateMetadata t queue kind; seedProgress t bytesReceived bytesTotal;
     seedFinished t value; updateFileName t name;
     onTaskProgress t bytesReceived bytesTotal; onTaskFinished t].
Proof.
  assert (Hone : forall unchanged f roles,
            (forall row, task (f row) = task row) ->
            map task (m_downloads (updateFirst t unchanged f roles m))
            = map task (m_downloads m)
            /\ deleted (updateFirst t unchanged f roles m) = deleted m
            /\ (forall i, firstRowOf t (m_downloads m) <> Some i ->
                  m_downloads (updateFirst t unchanged f roles m) !! i = m_downloads m !! i)
            /\ (dataChanged (updateFirst t unchanged f roles m) = dataChanged m
                \/ exists i roles',
                     firstRowOf t (m_downloads m) = Some i
                     /\ dataChanged (updateFirst t unchanged f roles m)
                        = dataChanged m ++ [(i, roles')])).
  { intros unchanged f roles Hf.
    destruct (updateFirst_frame t unchanged f roles m Hf) as (H1 & H2 & H3 & H4).
    repeat (split; [assumption|]).
    destruct H4 as [H4|(i & Hi & H4)]; [now left|right; eauto]. }
  assert (Hnone : map task (m_downloads m) = map task (m_downloads m)
                  /\ deleted m = deleted m
                  /\ (forall i, firstRowOf t (m_downloads m) <> Some i ->
                        m_downloads m !! i = m_downloads m !! i)
                  /\ (dataChanged m = dataChanged m
                      \/ exists i roles,
                           firstRowOf t (m_downloads m) = Some i
                           /\ dataChanged m = dataChanged m ++ [(i, roles)])) by auto.
  unfold updateMetadata, seedProgress, seedFinished, updateFileName, onTaskProgress,
    onTaskFinished.
  apply Forall_cons_2; [destruct t; [now apply Hone|exact Hnone]|].
  apply Forall_cons_2; [destruct t; [now apply Hone|exact Hnone]|].
  apply Forall_cons_2; [destruct t; [now apply Hone|exact Hnone]|].
  apply Forall_cons_2; [destruct t; [now apply Hone|exact Hnone]|].
  apply Forall_cons_2; [now apply Hone|].
  apply Forall_cons_2; [now apply Hone|apply Forall_nil_2].
Qed.

(** Seeding the same value twice (downloadmodel.cpp 94-120) is seeding it
    once: the second [seedFinished] or [updateFileName] finds the row as it
    wants it, changes nothing and emits nothing. *)
Theorem seeds_settle (t : TaskPtr) (value : bool) (name : string) (m : DownloadModel) :
  seedFinished t value (seedFinished t value m) = seedFinished t value m
  /\ updateFileName t name (updateFileName t name m) = updateFileName t name m.
Proof.
  assert (Hsettle : forall (unchanged : DownloadItem -> bool) f roles,
            (forall row, task (f row) = task row) ->
            (forall row, unchanged (f row) = true) ->
            updateFirst t unchanged f roles (updateFirst t unchanged f roles m)
            = updateFirst t unchanged f roles m).
  { intros unchanged f roles Hf Hdone.
    destruct (updateFirst_frame t unchanged f roles m Hf) as (Htasks & _).
    cbv zeta in Htasks. pose proof (firstRowOf_tasks t _ _ Htasks) as Hfirst.
    set (m1 := updateFirst t unchanged f roles m) in *.
    unfold updateFirst at 1. rewrite Hfirst.
    destruct (firstRowOf t (m_downloads m)) as [i|] eqn:Hrow; [|reflexivity].
    assert (Hm1 : m1 = match m_downloads m !! i with
                       | Some row =>
                           if unchanged row then m
                           else mkDownloadModel (<[i:=f row]> (m_downloads m))
                                  (dataChanged m ++ [(i, roles)]) (deleted m)
                       | None => m
                       end).
    { subst m1. unfold updateFirst. now rewrite Hrow. }
    destruct (m_downloads m !! i) as [row|] eqn:Hi.
    - destruct (unchanged row) eqn:Hrowdone.
      + rewrite Hm1, Hi, Hrowdone. reflexivity.
      + rewrite Hm1. cbn [m_downloads].
        rewrite list_lookup_insert_eq by (eapply lookup_lt_Some; exact Hi).
        now rewrite Hdone.
    - rewrite Hm1, Hi. reflexivity. }
  split.
  - unfold seedFinished. destruct t as [h|]; [|reflexivity].
    apply Hsettle; [reflexivity|]. intros row. cbn. now destruct value.
  - unfold updateFileName. destruct t as [h|]; [|reflexivity].
    apply Hsettle; [reflexivity|]. intros row. cbn. apply String.eqb_refl.
Qed.

(** *** Removing a row *)

(** [removeAt] (downloadmodel.cpp 170-176) does nothing for an index that is
    no row; for a row it takes that row out and closes the gap: one row less,
    the rows before it stay, the rows behind it move up by one, the task of
    the row is handed to deletion, and no [dataChanged] is emitted. *)
Theorem removeAt_closes_gap (index : Z) (m : DownloadModel) :
  let m' := removeAt index m in
  (index < 0 \/ rowCount m <= index -> m' = m)
  /\ (0 <= index < rowCount m ->
      rowCount m' = rowCount m - 1
      /\ (forall j, taskAt m' j = if j <? index then taskAt m j else taskAt m (j + 1))
      /\ (forall j, isFinishedAt m' j
                    = if j <? index then isFinishedAt m j else isFinishedAt m (j + 1))
      /\ deleted m' = deleted m ++ match taskAt m index with
                                   | Some t => [t]
                                   | None => []
                                   end
      /\ dataChanged m' = dataChanged m).
Proof.
  intros m'. subst m'. unfold removeAt. split.
  - intros Hout.
    destruct (Z.ltb_spec index 0), (Z.leb_spec (rowCount m) index); cbn [orb];
      try reflexivity; lia.
  - intros Hin. unfold rowCount in *.
    destruct (Z.ltb_spec index 0), (Z.leb_spec (Z.of_nat (length (m_downloads m))) index);
      try lia. cbn [orb].
    destruct (m_downloads m !! Z.to_nat index) as [item|] eqn:Hitem;
      [|apply lookup_ge_None in Hitem; lia].
    assert (Hlen : length (delete (Z.to_nat index) (m_downloads m))
                   = (length (m_downloads m) - 1)%nat)
      by (apply length_delete; eauto).
    assert (Hlook : forall j, 0 <= j ->
              delete (Z.to_nat index) (m_downloads m) !! Z.to_nat j
              = if j <? index then m_downloads m !! Z.to_nat j
                else m_downloads m !! Z.to_nat (j + 1)).
    { intros j Hj. destruct (Z.ltb_spec j index).
      - apply list_lookup_delete_lt. lia.
      - rewrite list_lookup_delete_ge by lia. f_equal. lia. }
    cbn [m_downloads deleted dataChanged]. rewrite Hlen.
    split; [lia|]. split; [|split; [|split]].
    + intros j. unfold taskAt, rowCount. cbn [m_downloads]. rewrite Hlen.
      destruct (Z.ltb_spec j 0) as [Hneg|Hpos]; cbn [orb].
      * now rewrite (proj2 (Z.ltb_lt j index)) by lia.
      * rewrite (Hlook j Hpos).
        destruct (Z.ltb_spec j index).
        -- destruct (Z.leb_spec (Z.of_nat (length (m_downloads m) - 1)) j),
             (Z.leb_spec (Z.of_nat (length (m_downloads m))) j); try lia; reflexivity.
        -- rewrite (proj2 (Z.ltb_ge (j + 1) 0)) by lia. cbn [orb].
           destruct (Z.leb_spec (Z.of_nat (length (m_downloads m) - 1)) j),
             (Z.leb_spec (Z.of_nat (length (m_downloads m))) (j + 1)); try lia; reflexivity.
    + intros j. unfold isFinishedAt, rowCount. cbn [m_downloads]. rewrite Hlen.
      destruct (Z.ltb_spec j 0) as [Hneg|Hpos]; cbn [orb].
      * now rewrite (proj2 (Z.ltb_lt j index)) by lia.
      * rewrite (Hlook j Hpos).
        destruct (Z.ltb_spec j index).
        -- destruct (Z.leb_spec (Z.of_nat (length (m_downloads m) - 1)) j),
             (Z.leb_spec (Z.of_nat (length (m_downloads m))) j); try lia; reflexivity.
        -- rewrite (proj2 (Z.ltb_ge (j + 1) 0)) by lia. cbn [orb].
           destruct (Z.leb_spec (Z.of_nat (length (m_downloads m) - 1)) j),
             (Z.leb_spec (Z.of_nat (length (m_downloads m))) (j + 1)); try lia; reflexivity.
    + unfold taskAt, rowCount.
      rewrite (proj2 (Z.ltb_ge index 0)), (proj2 (Z.leb_gt _ _)) by lia. cbn [orb].
      rewrite Hitem. destruct (task item); [reflexivity|now rewrite app_nil_r].
    + reflexivity.
Qed.

End ModelProofs.

(** ** The added properties at work on concrete inputs *)

Module CoverageRuns.
Import Task Manager Mirrors Queues Version Examples Cases.
Import DiskUtils.
#[local] Existing Instance PosixQt.qt.

Lemma lexCompare_swap (x y : list Z) :
  Z.sgn (DottedVersion.lexCompare y x) = - Z.sgn (DottedVersion.lexCompare x y).
Proof.
  revert y. induction x as [|a x IH]; intros [|b y]; cbn [DottedVersion.lexCompare];
    try reflexivity.
  destruct (Z.ltb_spec a b), (Z.ltb_spec b a); try lia; try reflexivity.
  apply IH.
Qed.

Lemma dotted_laws : @QtVersionLaws DottedVersion.qv.
Proof.
  split; intros; apply lexCompare_swap.
Qed.

Lemma effectiveSegments_monotone_witness :
  1 <= effectiveSegments 1 8
  /\ effectiveSegments 1 8 <= effectiveSegments (300 * Spec.MiB) 8
  /\ effectiveSegments (300 * Spec.MiB) 8 <= 8.
Proof.
  apply (TransferProofs.effectiveSegments_monotone 1 (300 * Spec.MiB) 8);
    [lia | vm_compute; split; [reflexivity | discriminate]].
Defined.

Lemma segments_tile_witness :
  let layout := fst (prepareSegments "/d/f.bin" 10 3 false ∅) in
  fold_left (fun acc s => acc + segLen s) layout 0 = 10
  /\ Forall (fun s => 0 <= segLen s /\ downloaded s <= segLen s) layout.
Proof.
  intros layout.
  pose proof (TransferProofs.segments_tile "/d/f.bin" 10 3 false ∅
                ltac:(lia) ltac:(lia)) as H.
  cbv zeta in H. destruct H as (_ & _ & _ & Hsum & Hall).
  split; [exact Hsum | exact Hall].
Defined.

Lemma mergeSegments_collects_witness :
  let w' := snd (mergeSegments calm segmented) in
  fs w' !! "/d/f.bin"%string = Some 5
  /\ task w' = task segmented.
Proof.
  intros w'.
  pose proof (TransferProofs.mergeSegments_collects calm segmented
                ltac:(apply (bool_decide_unpack _); vm_compute; exact I)
                ltac:(apply (bool_decide_unpack _); vm_compute; exact I)
                ltac:(vm_compute; reflexivity)) as H.
  cbv zeta in H. destruct H as (Hout & _ & _ & Htask & _).
  split; [|exact Htask].
  vm_compute in Hout |- *. exact Hout.
Defined.

(** A read that fails after one byte of the first part: the merge still
    reports success, the part is gone, and the final file is two bytes
    short. *)
Lemma mergeSegments_short_after_read_error :
  let env := mkEnv 0 0 0 0 0 (fun _ => true) (fun _ => true) (fun n => n)
               (fun p => if String.eqb p "/d/f.bin.part0" then ReadStops 1 else CopyAll)
               (fun _ _ => SlotIdle) in
  fs segmented !! "/d/f.bin.part0"%string = Some 3
  /\ fs segmented !! "/d/f.bin.part1"%string = Some 2
  /\ fst (mergeSegments env segmented) = true
  /\ fs (snd (mergeSegments env segmented)) !! "/d/f.bin"%string = Some 3
  /\ fs (snd (mergeSegments env segmented)) !! "/d/f.bin.part0"%string = None.
Proof. cbv zeta. repeat apply conj; vm_compute; reflexivity. Qed.

Lemma pause_keeps_disk_witness :
  let w' := pause calm resuming in
  m_state (task w') = Paused
  /\ fs w' = fs resuming
  /\ m_singleWritten (task w') = m_singleWritten (task resuming).
Proof.
  intros w'.
  pose proof (TransferProofs.pause_keeps_disk calm resuming ltac:(vm_compute; reflexivity)) as H.
  cbv zeta in H.
  destruct H as (Hstate & _ & _ & Hfs & _ & _ & _ & _ & _ & Hwritten & _).
  split; [exact Hstate | split; [exact Hfs | exact Hwritten]].
Defined.

Lemma processSingleBuffer_conserves_witness :
  let w' := processSingleBuffer calm buffered in
  m_singleWritten (task buffered) <= m_singleWritten (task w')
  /\ m_singleWritten (task w') + Z.of_nat (length (m_singleBuffer (task w')))
     = m_singleWritten (task buffered) + 5.
Proof.
  intros w'.
  pose proof (TransferProofs.processSingleBuffer_conserves calm buffered
                ltac:(intros n; simpl; lia)) as H.
  cbv zeta in H. destruct H as (Hrise & _ & _ & _ & Hsame & _).
  split; [exact Hrise|].
  exact (Hsame ltac:(vm_compute; reflexivity)).
Defined.

(** The slot of [progress] pauses the task inside the run: the byte the
    window allows is written and counted, the other four are dropped with the
    buffer, and nothing is scheduled. *)
Lemma processSingleBuffer_paused_by_slot :
  let env := mkEnv 1 1 1 0 0 (fun _ => true) (fun _ => true) (fun n => n)
               (fun _ => CopyAll) (fun _ _ => SlotPauseWithReason "Quota") in
  let w' := processSingleBuffer env buffered in
  m_state (task buffered) = Downloading
  /\ length (m_singleBuffer (task buffered)) = 5%nat
  /\ m_state (task w') = Paused
  /\ m_pauseReason (task w') = "Quota"%string
  /\ m_singleWritten (task w') = m_singleWritten (task buffered) + 1
  /\ m_singleBuffer (task w') = []
  /\ timers w' = timers buffered.
Proof. cbv zeta. repeat apply conj; vm_compute; reflexivity. Qed.

Lemma processSegmentBuffer_conserves_witness :
  exists s s',
    m_segmentsInfo (task held) !! 0%nat = Some s
    /\ m_segmentsInfo (task (processSegmentBuffer calm 0%nat held)) !! 0%nat = Some s'
    /\ buffer s = [x03; x04]%byte
    /\ downloaded s' + Z.of_nat (length (buffer s')) = downloaded s + 2.
Proof.
  destruct (m_segmentsInfo (task held) !! 0%nat) as [s|] eqn:Hs;
    [|vm_compute in Hs; discriminate].
  assert (Hbuffer : buffer s = [x03; x04]%byte)
    by (vm_compute in Hs; injection Hs as <-; reflexivity).
  pose proof (TransferProofs.processSegmentBuffer_conserves calm 0%nat held s
                ltac:(intros n; simpl; lia) Hs) as H.
  cbv zeta in H. destruct H as (s' & Hs' & _ & _ & _ & _ & _ & _ & _ & Hsame & _).
  destruct (Hsame ltac:(vm_compute; reflexivity)) as [Hsum _].
  exists s, s'. rewrite Hbuffer in Hsum.
  split; [reflexivity | split; [exact Hs' | split; [exact Hbuffer | exact Hsum]]].
Defined.

(** The same in a segment: after the pause from inside the run the segment
    has its two bytes on disk and counted, and no buffer, reply or open
    file. *)
Lemma processSegmentBuffer_paused_by_slot :
  let env := mkEnv 0 0 0 0 0 (fun _ => true) (fun _ => true) (fun n => n)
               (fun _ => CopyAll) (fun _ _ => SlotPause) in
  let w' := processSegmentBuffer env 0%nat held in
  m_state (task w') = Paused
  /\ (downloaded <$> m_segmentsInfo (task held) !! 0%nat) = Some 3
  /\ (downloaded <$> m_segmentsInfo (task w') !! 0%nat) = Some 5
  /\ (buffer <$> m_segmentsInfo (task w') !! 0%nat) = Some []
  /\ (file <$> m_segmentsInfo (task w') !! 1%nat) = Some false.
Proof. cbv zeta. repeat apply conj; vm_compute; reflexivity. Qed.

Lemma onSingleFinished_promotes_witness :
  let w' := onSingleFinished calm 1%nat false resuming in
  fs w' !! "/d/f.bin"%string = Some 1000
  /\ fs w' !! "/d/f.bin.part"%string = None
  /\ signals w' = signals resuming ++ [stateChanged Finished; finished true].
Proof.
  intros w'.
  pose proof (CompletionProofs.onSingleFinished_promotes calm 1%nat false resuming
                (mkSingleRequest 1%nat 1000) 1000
                ltac:(vm_compute; reflexivity) ltac:(vm_compute; reflexivity)
                ltac:(vm_compute; reflexivity) ltac:(vm_compute; reflexivity)
                ltac:(vm_compute; reflexivity) ltac:(vm_compute; discriminate)
                ltac:(vm_compute; discriminate) ltac:(vm_compute; reflexivity)) as H.
  cbv zeta in H. destruct H as (_ & _ & _ & _ & H).
  vm_compute in H |- *. exact H.
Defined.

Lemma finish_drops_throttled_tail_witness :
  let w' := onSingleFinished calm 1%nat false throttledOut in
  signals w' = signals throttledOut ++ [stateChanged Finished; finished true]
  /\ fs w' !! "/d/f.bin"%string = Some 1000
  /\ length (m_singleBuffer (task w')) = 5%nat
  /\ m_singleWritten (task w') = 1000.
Proof.
  intros w'.
  pose proof (CompletionProofs.finish_drops_throttled_tail calm 1%nat throttledOut
                (mkSingleRequest 1%nat 1000) "/d/f.bin.part" 1000
                ltac:(vm_compute; reflexivity) ltac:(vm_compute; reflexivity)
                ltac:(vm_compute; reflexivity) ltac:(vm_compute; reflexivity)
                ltac:(vm_compute; reflexivity) ltac:(vm_compute; reflexivity)
                ltac:(vm_compute; discriminate) ltac:(vm_compute; discriminate)
                ltac:(vm_compute; reflexivity) ltac:(vm_compute; discriminate)
                ltac:(vm_compute; discriminate) ltac:(vm_compute; reflexivity)
                ltac:(vm_compute; reflexivity)) as H.
  cbv zeta in H. destruct H as (_ & Hsignals & Hfinal & _ & Hbuffer & Hwritten & _).
  split; [exact Hsignals|]. split; [vm_compute in Hfinal |- *; exact Hfinal|].
  subst w'. split; [now rewrite Hbuffer | rewrite Hwritten; vm_compute; reflexivity].
Defined.

Lemma start_rejects_invalid_url_witness :
  let w' := start calm noUrl in
  stateString (task w') = "Error"%string /\ fs w' = fs noUrl /\ timers w' = timers noUrl.
Proof.
  intros w'.
  pose proof (CompletionProofs.start_rejects_invalid_url calm noUrl
                ltac:(vm_compute; reflexivity) ltac:(vm_compute; reflexivity)) as H.
  cbv zeta in H. destruct H as (Hstring & Hfs & Htimers & _).
  split; [exact Hstring | split; [exact Hfs | exact Htimers]].
Defined.

Lemma effectiveSpeed_least_limit_witness :
  let m := set_m_globalMaxSpeed 500 (twoTasks Task.Idle Task.Idle) in
  0 < effectiveSpeed m 0%nat <= 500.
Proof.
  intros m.
  pose proof (BulkProofs.effectiveSpeed_least_limit m 0%nat
                ltac:(vm_compute; discriminate)) as H.
  cbv zeta in H. destruct H as (_ & _ & _ & Hall).
  apply Forall_cons_1 in Hall. destruct Hall as [Hglobal _].
  apply Hglobal. vm_compute. reflexivity.
Defined.

Lemma twoTasks_inStep (first second : Task.State) : queuesInStep (twoTasks first second).
Proof.
  unfold queuesInStep, twoTasks. cbn [m_queueOrder m_queues].
  split; [apply NoDup_singleton|]. split.
  - intros q. rewrite list_elem_of_singleton. split.
    + intros ->. rewrite lookup_singleton_eq. eauto.
    + intros [info Hinfo]. apply lookup_singleton_Some in Hinfo. now destruct Hinfo.
  - intros q info Hinfo. apply lookup_singleton_Some in Hinfo.
    destruct Hinfo as [<- <-]. reflexivity.
Qed.

Lemma queues_stay_in_step_witness :
  let m := twoTasks Task.Idle Task.Idle in
  queuesInStep (removeQueue blank 2 noon "General" (renameQueue "General" "Night" m))
  /\ queuesInStep (startQueued blank 2 noon (createQueue blank noon "Night" m)).
Proof.
  intros m. split.
  - apply (QueueProofs.queues_stay_in_step blank 2 noon).
    apply (QueueProofs.queues_stay_in_step blank 2 noon m). apply twoTasks_inStep.
  - apply (QueueProofs.queues_stay_in_step blank 2 noon).
    apply (QueueProofs.queues_stay_in_step blank 2 noon m). apply twoTasks_inStep.
Defined.

Lemma mirror_selection_in_step_witness :
  let w := Spec.fresh (download 8) ∅ in
  mirrorInStep (task (setMirrorIndex 1 (setMirrorUrls ["http://a/f.bin"; "http://b/f.bin"]%string w))).
Proof.
  intros w.
  apply (MirrorProofs.mirror_selection_in_step
           (setMirrorUrls ["http://a/f.bin"; "http://b/f.bin"]%string w)).
  apply (MirrorProofs.mirror_selection_in_step w).
  split; [vm_compute; discriminate | intros _; vm_compute; reflexivity].
Defined.

Lemma compareVersions_swap_witness :
  compareVersions (QV := DottedVersion.qv) "v1.10.0-rc1" "1.2.0"
  = - compareVersions (QV := DottedVersion.qv) "1.2.0" "v1.10.0-rc1".
Proof.
  apply (VersionProofs.compareVersions_swap (Laws := dotted_laws) "1.2.0" "v1.10.0-rc1").
Defined.

Lemma prerelease_below_release_witness :
  compareVersions (QV := DottedVersion.qv) "1.2.0-rc1" "1.2.0" = -1
  /\ compareVersions (QV := DottedVersion.qv) "1.2.0" "1.2.0-rc1" = 1.
Proof.
  apply (VersionProofs.prerelease_below_release (Laws := dotted_laws) "1.2.0" "rc1");
    [vm_compute; reflexivity | vm_compute; reflexivity | reflexivity
    | vm_compute; discriminate].
Defined.

Lemma resume_asks_again_witness :
  let w := pause calm resuming in
  let w' := resume calm w in
  m_state (task w) = Paused
  /\ m_state (task w') = Downloading
  /\ fs w' = fs w
  /\ totalDownloaded (task w') = totalDownloaded (task w).
Proof.
  intros w w'.
  pose proof (proj2 (CompletionProofs.resume_asks_again calm w)
                ltac:(vm_compute; reflexivity) ltac:(vm_compute; reflexivity)) as H.
  cbv zeta in H. destruct H as (Hstate & _ & _ & _ & Hfs & _ & Htotal & _).
  split; [vm_compute; reflexivity|].
  split; [exact Hstate | split; [exact Hfs | exact Htotal]].
Defined.

Lemma setGlobalMaxSpeed_applies_witness :
  let m := twoTasks Task.Idle Task.Idle in
  let m' := setGlobalMaxSpeed 500 m in
  effectiveSpeed m' 0%nat = 500
  /\ tasks m' !! 0%nat = setMaxSpeed 500 <$> tasks m !! 0%nat.
Proof.
  intros m m'.
  pose proof (BulkProofs.setGlobalMaxSpeed_applies 500 m) as H.
  cbv zeta in H. destruct H as (_ & _ & _ & _ & Hqueued).
  split; [vm_compute; reflexivity|].
  exact (Hqueued ltac:(vm_compute; discriminate) 0%nat
           ltac:(apply (bool_decide_unpack _); vm_compute; exact I)).
Defined.

Lemma bytesReceivedOnDisk_prefers_parts_witness :
  let f : FS := {["/d/f.bin.part1"%string := 7; "/d/f.bin.part"%string := 100;
                  "/d/f.bin"%string := 50]} in
  bytesReceivedOnDisk f "/d/f.bin" 4 = 7.
Proof.
  intros f.
  pose proof (proj1 (DiskUtilsProofs.bytesReceivedOnDisk_prefers_parts f "/d/f.bin" 4)
                ltac:(vm_compute; discriminate)
                ltac:(exists 1; split;
                        [apply (bool_decide_unpack _); vm_compute; exact I
                        | vm_compute; eauto])) as H.
  vm_compute in H |- *. exact H.
Defined.

Lemma removeAt_closes_gap_witness :
  let m' := Model.removeAt 0 rows in
  Model.rowCount m' = 2
  /\ Model.taskAt m' 0 = Some 0%nat /\ Model.taskAt m' 1 = Some 1%nat
  /\ Model.deleted m' = [0%nat].
Proof.
  intros m'.
  pose proof (proj2 (ModelProofs.removeAt_closes_gap 0 rows)
                ltac:(vm_compute; split; [discriminate | reflexivity])) as H.
  destruct H as (Hcount & Htask & _ & Hdeleted & _).
  split; [exact Hcount|].
  split; [exact (Htask 0)|]. split; [exact (Htask 1) | exact Hdeleted].
Defined.

End CoverageRuns.
